(** * COES downloader: a shallow embedding of [downloader/utils.py] and
    [downloader/coes_downloader.py], and the properties of its crawl,
    its error classification and its table normalisation. *)

From Stdlib Require Import ZArith List String Ascii Bool Lia.
From Stdlib Require Import Sorting.Sorted Sorting.Permutation.
From Stdlib Require Import Numbers.DecimalString Floats.
From Stdlib Require Numbers.DecimalPos.
Import ListNotations.

Set Warnings "-register-all".
Local Open Scope string_scope.
Local Open Scope list_scope.
Local Open Scope Z_scope.

(** ** Python values

    A [str] is a [string]; its characters stand for code points, a code
    point above 127 being held as the bytes of its UTF-8 form. The
    character classes of [strip] and of the regular expression are the
    ASCII ones; [int] reads the white space and the digits of Unicode. *)

Module Py.

Definition is_slash (c : ascii) : bool := Ascii.eqb c "/".

(** The white space [str.strip()] removes, among the ASCII characters;
    the white space of Unicode above 127, which [str.strip()] removes as
    well, is left in place by [strip is_space]. *)
Definition is_space (c : ascii) : bool :=
  let n := N_of_ascii c in
  ((9 <=? n) && (n <=? 13) || (28 <=? n) && (n <=? 32))%N.

Definition is_digit (c : ascii) : bool :=
  let n := N_of_ascii c in ((48 <=? n) && (n <=? 57))%N.

(** The class [[A-Za-z]] of the regular expression in the crawler. *)
Definition is_alpha (c : ascii) : bool :=
  let n := N_of_ascii c in
  ((65 <=? n) && (n <=? 90) || (97 <=? n) && (n <=? 122))%N.

Definition is_empty (s : string) : bool :=
  match s with EmptyString => true | String _ _ => false end.

Fixpoint lstrip (p : ascii -> bool) (s : string) : string :=
  match s with
  | EmptyString => EmptyString
  | String c s' => if p c then lstrip p s' else s
  end.

Fixpoint rstrip (p : ascii -> bool) (s : string) : string :=
  match s with
  | EmptyString => EmptyString
  | String c s' =>
      let r := rstrip p s' in
      if p c && is_empty r then EmptyString else String c r
  end.

(** [s.strip(chars)]: leading and trailing characters of the set go. *)
Definition strip (p : ascii -> bool) (s : string) : string :=
  rstrip p (lstrip p s).

(** [s.split(sep)] for a one-character separator; never the empty list. *)
Fixpoint split (sep : ascii) (s : string) : list string :=
  match s with
  | EmptyString => [EmptyString]
  | String c s' =>
      if Ascii.eqb c sep then EmptyString :: split sep s'
      else match split sep s' with
           | h :: t => String c h :: t
           | [] => [String c EmptyString]
           end
  end.

(** [l[-1]] and [l[0]] on the result of a [split]. *)
Definition last_item (l : list string) : string := List.last l EmptyString.
Definition first_item (l : list string) : string := List.hd EmptyString l.

(** [re.sub(r"[^A-Za-z]", "", s)]. *)
Fixpoint keep (p : ascii -> bool) (s : string) : string :=
  match s with
  | EmptyString => EmptyString
  | String c s' => if p c then String c (keep p s') else keep p s'
  end.

(** [sep.join(l)]. *)
Fixpoint join (sep : string) (l : list string) : string :=
  match l with
  | [] => EmptyString
  | [x] => x
  | x :: rest => x ++ sep ++ join sep rest
  end.

(** [str(n)] for an [int]. *)
Definition str_of_int (n : Z) : string := NilZero.string_of_int (Z.to_int n).

Definition digit_value (c : ascii) : Z := Z.of_N (N_of_ascii c) - 48.

(** The digits of a decimal literal, most significant first; one
    underscore is allowed between two digits. [after_digit] tells whether
    the previous character was a digit. *)
Fixpoint digits (after_digit : bool) (acc : Z) (s : string) : option Z :=
  match s with
  | EmptyString => if after_digit then Some acc else None
  | String c s' =>
      if is_digit c then digits true (10 * acc + digit_value c) s'
      else if Ascii.eqb c "_" && after_digit
           then match s' with
                | String d _ => if is_digit d then digits false acc s' else None
                | EmptyString => None
                end
           else None
  end.

(** *** [int(s)]

    [int] first turns the text into ASCII: a character below 127 stays, a
    white space of Unicode becomes a space, a decimal digit of any script
    becomes the ASCII digit of its value, and any other character makes
    the text an invalid literal. *)

(** The white space of Unicode above 127. *)
Definition unicode_spaces : list N :=
  [
    133; 160; 5760; 8192; 8193; 8194; 8195; 8196; 8197; 8198; 8199; 8200;
    8201; 8202; 8232; 8233; 8239; 8287; 12288 ]%N.

(** The digit zero of every script of Unicode 14.0, the version CPython
    3.11 has, above 127; the nine digits that follow it are the digits one
    to nine of the script. *)
Definition decimal_zeros : list N :=
  [
    1632; 1776; 1984; 2406; 2534; 2662; 2790; 2918; 3046; 3174; 3302; 3430;
    3558; 3664; 3792; 3872; 4160; 4240; 6112; 6160; 6470; 6608; 6784; 6800;
    6992; 7088; 7232; 7248; 42528; 43216; 43264; 43472; 43504; 43600; 44016;
    65296; 66720; 68912; 69734; 69872; 69942; 70096; 70384; 70736; 70864;
    71248; 71360; 71472; 71904; 72016; 72784; 73040; 73120; 92768; 92864;
    93008; 120782; 120792; 120802; 120812; 120822; 123200; 123632; 125264;
    130032 ]%N.

Definition decimal_digit (cp : N) : option N :=
  option_map (fun zero => cp - zero)%N
    (find (fun zero => (zero <=? cp) && (cp <? zero + 10))%N decimal_zeros).

(** What a code point above 127 becomes. *)
Definition ascii_of_code_point (cp : N) : option ascii :=
  if existsb (N.eqb cp) unicode_spaces then Some " "%char
  else option_map (fun d => ascii_of_N (48 + d)) (decimal_digit cp).

(** The bits a byte of a UTF-8 form brings after its first byte. *)
Definition continuation (c : ascii) : option N :=
  let n := N_of_ascii c in
  if ((128 <=? n) && (n <? 192))%N then Some (n - 128)%N else None.

(** The code points of the forms of two, three and four bytes; a form
    longer than its code point needs is none. *)
Definition code_point2 (b0 : N) (c1 : ascii) : option N :=
  match continuation c1 with
  | Some x1 =>
      let cp := ((b0 - 192) * 64 + x1)%N in
      if ((192 <=? b0) && (128 <=? cp))%N then Some cp else None
  | None => None
  end.

Definition code_point3 (b0 : N) (c1 c2 : ascii) : option N :=
  match continuation c1, continuation c2 with
  | Some x1, Some x2 =>
      let cp := (((b0 - 224) * 64 + x1) * 64 + x2)%N in
      if (2048 <=? cp)%N then Some cp else None
  | _, _ => None
  end.

Definition code_point4 (b0 : N) (c1 c2 c3 : ascii) : option N :=
  match continuation c1, continuation c2, continuation c3 with
  | Some x1, Some x2, Some x3 =>
      let cp := ((((b0 - 240) * 64 + x1) * 64 + x2) * 64 + x3)%N in
      if ((b0 <? 248) && (65536 <=? cp) && (cp <=? 1114111))%N
      then Some cp else None
  | _, _, _ => None
  end.

Definition transformed (cp : option N) (rest : option string) : option string :=
  match cp, rest with
  | Some cp, Some rest =>
      option_map (fun c => String c rest) (ascii_of_code_point cp)
  | _, _ => None
  end.

(** The text in ASCII; [None] when a character has no ASCII form. *)
Fixpoint to_ascii (s : string) : option string :=
  match s with
  | EmptyString => Some EmptyString
  | String c0 s1 =>
      let b0 := N_of_ascii c0 in
      if (b0 <? 128)%N then option_map (String c0) (to_ascii s1) else
      match s1 with
      | EmptyString => None
      | String c1 s2 =>
          if (b0 <? 224)%N then transformed (code_point2 b0 c1) (to_ascii s2)
          else
          match s2 with
          | EmptyString => None
          | String c2 s3 =>
              if (b0 <? 240)%N
              then transformed (code_point3 b0 c1 c2) (to_ascii s3)
              else
              match s3 with
              | EmptyString => None
              | String c3 s4 =>
                  transformed (code_point4 b0 c1 c2 c3) (to_ascii s4)
              end
          end
      end
  end.

(** The white space of [int()] among the ASCII characters. *)
Definition is_int_space (c : ascii) : bool :=
  let n := N_of_ascii c in ((9 <=? n) && (n <=? 13) || (n =? 32))%N.

Fixpoint count_digits (s : string) : nat :=
  match s with
  | EmptyString => O
  | String c s' => if is_digit c then S (count_digits s') else count_digits s'
  end.

(** [sys.int_info.default_max_str_digits]: a literal of more digits is
    refused. *)
Definition max_str_digits : nat := 4300.

Definition limited_digits (s : string) : option Z :=
  if (count_digits s <=? max_str_digits)%nat then digits false 0 s else None.

(** [int(s)] in base ten: white space around, an optional sign, digits.
    [None] is the [ValueError]. *)
Definition int (s : string) : option Z :=
  match to_ascii s with
  | Some literal =>
      match strip is_int_space literal with
      | String "+" s' => limited_digits s'
      | String "-" s' => option_map Z.opp (limited_digits s')
      | s' => limited_digits s'
      end
  | None => None
  end.

(** The characters a string literal cannot hold as they are. *)
Definition dquote : string := String (ascii_of_nat 34) EmptyString.
Definition newline : string := String (ascii_of_nat 10) EmptyString.

(** A [dict] with string keys, in insertion order. *)
Definition dict (V : Type) := list (string * V).

Fixpoint dict_get {V} (d : dict V) (k : string) : option V :=
  match d with
  | [] => None
  | (k', v) :: d' => if String.eqb k' k then Some v else dict_get d' k
  end.

(** [d[k] = v]: an existing key keeps its place. *)
Fixpoint dict_set {V} (d : dict V) (k : string) (v : V) : dict V :=
  match d with
  | [] => [(k, v)]
  | (k', v') :: d' =>
      if String.eqb k' k then (k, v) :: d' else (k', v') :: dict_set d' k v
  end.

End Py.

(** ** [datetime.date] *)

Module Dt.

Record date := mkdate { year : Z; month : Z; day : Z }.

Definition is_leap (y : Z) : bool :=
  (y mod 4 =? 0) && (negb (y mod 100 =? 0) || (y mod 400 =? 0)).

Definition days_in_month (y m : Z) : Z :=
  if m =? 2 then (if is_leap y then 29 else 28)
  else if (m =? 4) || (m =? 6) || (m =? 9) || (m =? 11) then 30
  else 31.

Definition valid (d : date) : bool :=
  (1 <=? year d) && (year d <=? 9999) &&
  (1 <=? month d) && (month d <=? 12) &&
  (1 <=? day d) && (day d <=? days_in_month (year d) (month d)).

(** [a < b] on dates: by year, then month, then day. *)
Definition ltb (a b : date) : bool :=
  (year a <? year b) ||
  ((year a =? year b) &&
   ((month a <? month b) || ((month a =? month b) && (day a <? day b)))).

Definition pad (width : nat) (s : string) : string :=
  string_of_list_ascii
    (repeat "0"%char (width - String.length s)) ++ s.

(** [str(d)], the ISO form: the year in four digits. *)
Definition isoformat (d : date) : string :=
  pad 4 (Py.str_of_int (year d)) ++ "-" ++ pad 2 (Py.str_of_int (month d))
  ++ "-" ++ pad 2 (Py.str_of_int (day d)).

(** [d.strftime("%d/%m/%Y")], as the C library of Linux writes it: the
    year is not padded. *)
Definition strftime_dmY (d : date) : string :=
  pad 2 (Py.str_of_int (day d)) ++ "/" ++ pad 2 (Py.str_of_int (month d))
  ++ "/" ++ Py.str_of_int (year d).

End Dt.


(** ** [requests]: responses, exceptions, the session *)

Module Http.

(** What [response.json()] decodes to. An object is a [dict]: its keys are
    distinct. A number keeps its literal. *)
Inductive json :=
| JNull
| JBool (b : bool)
| JNumber (literal : string)
| JString (s : string)
| JArray (items : list json)
| JObject (members : list (string * json)).

(** A tag of the parsed HTML: its attribute dictionary ([tag.attrs]). *)
Definition Tag := Py.dict string.

(** What [pd.read_csv(..., dtype=str)] returns: the header and the rows of
    text cells, [None] for a cell read as missing. *)
Record RawFrame := mkRawFrame {
  raw_columns : list string;
  raw_rows : list (list (option string))
}.

(** The text of a response, through what the parsers of the program read
    from it:
    - [bs.find_all("a", class_="infolist-link")], in document order;
    - [bs.find_all("input", {"name": "cbSelect"})];
    - [bs.find("select", id="cbEmpresas")], and its [find_all("option")];
    - [pd.read_csv(StringIO(text), dtype=str)], [None] when it raises;
    - [response.json()], [None] when it raises. *)
Record Body := mkBody {
  infolist_links : list Tag;
  cbSelect_inputs : list Tag;
  cbEmpresas : option (list Tag);
  read_csv : option RawFrame;
  json_body : option json
}.

Record Response := mkResponse {
  status_code : Z;
  reason : string;
  url : string;
  text : Body;
  elapsed : string   (* [f"{elapsed.total_seconds():.1f}"] *)
}.

(** The exceptions (subclasses of [Exception]) the program meets. The
    transport ones ([Timeout], [ConnectionError], ...) carry their class
    name. *)
Inductive exn :=
| HTTPError (http_error_msg : string) (response : Response)
| RequestException (cls msg : string)
| JSONDecodeError (msg : string)
| ValueError (msg : string)
| OverflowError (msg : string)
| KeyError (key : string)
| TypeError (msg : string)
| AttributeError (msg : string)
| PandasError (cls msg : string).

(** [type(e).__name__] *)
Definition class_of (e : exn) : string :=
  match e with
  | HTTPError _ _ => "HTTPError"
  | RequestException cls _ => cls
  | JSONDecodeError _ => "JSONDecodeError"
  | ValueError _ => "ValueError"
  | OverflowError _ => "OverflowError"
  | KeyError _ => "KeyError"
  | TypeError _ => "TypeError"
  | AttributeError _ => "AttributeError"
  | PandasError cls _ => cls
  end.

(** [str(e)]. *)
Definition str_of_exn (e : exn) : string :=
  match e with
  | HTTPError m _ | JSONDecodeError m | ValueError m | OverflowError m
  | TypeError m | AttributeError m => m
  | RequestException _ m | PandasError _ m => m
  | KeyError k => "'" ++ k ++ "'"
  end.

Inductive result (A : Type) :=
| Ok (a : A)
| Raise (e : exn).
Arguments Ok {A} a.
Arguments Raise {A} e.

Definition rbind {A B} (r : result A) (f : A -> result B) : result B :=
  match r with
  | Ok a => f a
  | Raise e => Raise e
  end.

Inductive method := GET | POST.

Record Request := mkRequest {
  req_method : method;
  req_url : string;
  req_params : Py.dict string;
  req_timeout : option Z
}.

(** The session with the portal behind it: a request is answered by a
    response, or the transport raises. The portal answers a given request
    the same way throughout one call of the program. *)
Definition Session := Request -> result Response.

End Http.

Import Http.

Declare Scope result_scope.
Delimit Scope result_scope with result.
Notation "x <- r ;; k" := (rbind r (fun x => k))
  (at level 61, r at next level, right associativity) : result_scope.
Notation "r ;; k" := (rbind r (fun _ => k))
  (at level 61, right associativity) : result_scope.

(** ** [downloader/utils.py] *)

Module Utils.

Definition client_error_msg (response : Response) : string :=
  Py.str_of_int (status_code response) ++ " Client Error:"
  ++ " " ++ reason response ++ " for url: " ++ url response.

Definition server_error_msg (response : Response) : string :=
  Py.str_of_int (status_code response) ++ " Server Error:"
  ++ " " ++ reason response ++ " for url: " ++ url response.

Definition _raise_for_status (response : Response) : result unit :=
  let http_error_msg := EmptyString in
  let http_error_msg :=
    if (400 <=? status_code response) && (status_code response <? 500) then
      client_error_msg response
    else if (500 <=? status_code response) && (status_code response <? 600) then
      server_error_msg response
    else http_error_msg in
  if negb (Py.is_empty http_error_msg) then
    Raise (HTTPError http_error_msg response)
  else Ok tt.

End Utils.

Import Utils.

(** ** [pandas]: the tables of the program and the operations it calls *)

Module Pd.

(** A time of day on a date, without a zone. *)
Record datetime := mkdatetime {
  on_date : Dt.date;
  hour : Z;
  minute : Z
}.

(** A value in a table. [NA] is a missing value ([NaN], [None], [NaT]); a
    [Stamp] is a timestamp, naive or with the zone attached to its wall
    clock; an [Obj] is any other decoded JSON value. *)
Inductive cell :=
| NA
| Int (n : Z)
| Num (x : float)
| Str (s : string)
| Stamp (t : datetime) (tz : option string)
| Obj (j : json).

Definition isna (c : cell) : bool :=
  match c with NA => true | _ => false end.

Definition notna (c : cell) : bool := negb (isna c).

(** A row: its label in the index, and its values under the columns. *)
Record Row := mkRow {
  label : cell;
  values : list cell
}.

(** A table. [index_name = None] is the default index, whose labels are
    the positions [0, 1, ...]. *)
Record DataFrame := mkFrame {
  index_name : option string;
  columns : list string;
  rows : list Row
}.

(** What the program takes from the libraries one value at a time:
    - [to_numeric_scalar s] is the number [pd.to_numeric] reads from the
      text [s], [None] when it reads none;
    - [strptime format s] is the time [pd.to_datetime(..., format=format)]
      reads from the text [s], [None] when the text does not match;
    - [tz_resolves tz t] tells whether the wall-clock time [t] exists, once,
      in the zone [tz];
    - [from_records_other data] is [pd.DataFrame.from_records(data)] for
      [data] that is not a list of records: the column names and the rows
      of decoded values. *)
Class Library := {
  to_numeric_scalar : string -> option float;
  strptime : string -> string -> option datetime;
  tz_resolves : string -> datetime -> bool;
  from_records_other : json -> result (list string * list (list json))
}.

(** Rows under the default index, counted from [start]. *)
Fixpoint index_from (start : Z) (vs : list (list cell)) : list Row :=
  match vs with
  | [] => []
  | v :: vs' => mkRow (Int start) v :: index_from (start + 1) vs'
  end.

Definition default_index (vs : list (list cell)) : list Row :=
  index_from 0 vs.

Definition text_cell (o : option string) : cell :=
  match o with
  | Some s => Str s
  | None => NA
  end.

(** The table [pd.read_csv(..., dtype=str)] builds from what it read. *)
Definition of_raw (raw : RawFrame) : DataFrame :=
  mkFrame None (raw_columns raw)
    (default_index (map (map text_cell) (raw_rows raw))).

(** The positions of the columns named [name]. *)
Fixpoint positions (name : string) (cols : list string) (i : nat) : list nat :=
  match cols with
  | [] => []
  | c :: cols' =>
      if String.eqb c name then i :: positions name cols' (S i)
      else positions name cols' (S i)
  end.

Fixpoint remove_nth {A} (i : nat) (l : list A) : list A :=
  match l, i with
  | [], _ => []
  | _ :: l', O => l'
  | x :: l', S k => x :: remove_nth k l'
  end.

Fixpoint replace_nth {A} (i : nat) (x : A) (l : list A) : list A :=
  match l, i with
  | [], _ => []
  | _ :: l', O => x :: l'
  | y :: l', S k => y :: replace_nth k x l'
  end.

(** [df[name]]: a series when one column has the name, a table when
    several have it. *)
Inductive selection :=
| Series (pos : nat) (cells : list cell)
| SubFrame.

Definition getitem (df : DataFrame) (name : string) : result selection :=
  match positions name (columns df) 0 with
  | [] => Raise (KeyError name)
  | [i] => Ok (Series i (map (fun r => nth i (values r) NA) (rows df)))
  | _ => Ok SubFrame
  end.

(** [df[name] = series], for the column [df[name]] was read from. *)
Definition setitem (df : DataFrame) (pos : nat) (cells : list cell) : DataFrame :=
  mkFrame (index_name df) (columns df)
    (map (fun p => mkRow (label (fst p)) (replace_nth pos (snd p) (values (fst p))))
         (combine (rows df) cells)).

(** The texts [pd.to_datetime] reads as [NaT]. *)
Definition nat_strings : list string :=
  ["NaT"; "nat"; "NAT"; "nan"; "NaN"; "NAN"].

Definition is_nat_text (s : string) : bool :=
  Py.is_empty s || existsb (String.eqb s) nat_strings.

Definition assemble_error : string :=
  "to assemble mappings requires at least that [year, month, day] be specified".

Section WithLibrary.
Context {L : Library}.

(** [pd.to_datetime] on one value. The empty text and the texts of
    [nat_strings] are read as no time, whatever the format. A value that
    is not text is read through its [str], which matches neither format of
    the program: both ask for a ["/"] after the first digits. *)
Definition to_datetime_scalar (format : string) (c : cell) : result cell :=
  match c with
  | NA => Ok NA
  | Str s =>
      if is_nat_text s then Ok NA else
      match strptime format s with
      | Some t => Ok (Stamp t None)
      | None =>
          Raise (ValueError ("time data " ++ Py.dquote ++ s ++ Py.dquote ++
                             " doesn't match format " ++
                             Py.dquote ++ format ++ Py.dquote))
      end
  | Stamp t tz => Ok (Stamp t tz)
  | Int _ | Num _ | Obj _ =>
      Raise (ValueError ("time data doesn't match format " ++
                         Py.dquote ++ format ++ Py.dquote))
  end.

Fixpoint traverse {A B} (f : A -> result B) (l : list A) : result (list B) :=
  match l with
  | [] => Ok []
  | x :: rest => (y <- f x ;; ys <- traverse f rest ;; Ok (y :: ys))%result
  end.

(** [pd.to_datetime(df[name], format=format)] *)
Definition to_datetime (format : string) (sel : selection) : result (list cell) :=
  match sel with
  | Series _ cells => traverse (to_datetime_scalar format) cells
  | SubFrame => Raise (ValueError assemble_error)
  end.

(** [series.dt.tz_localize(tz)]: the zone is attached to the wall clock. *)
Definition tz_localize_scalar (tz : string) (c : cell) : result cell :=
  match c with
  | NA => Ok NA
  | Stamp t None =>
      if tz_resolves tz t then Ok (Stamp t (Some tz))
      else Raise (PandasError "NonExistentTimeError" EmptyString)
  | Stamp _ (Some _) =>
      Raise (TypeError "Already tz-aware, use tz_convert to convert.")
  | Int _ | Num _ | Str _ | Obj _ =>
      Raise (AttributeError "Can only use .dt accessor with datetimelike values")
  end.

Definition dt_tz_localize (tz : string) (sel : selection) : result (list cell) :=
  match sel with
  | Series _ cells => traverse (tz_localize_scalar tz) cells
  | SubFrame => Raise (AttributeError "'DataFrame' object has no attribute 'dt'")
  end.

(** [df.set_index(name)]: the column leaves the columns and labels the
    rows. The program calls it on a name one column has. *)
Definition set_index (df : DataFrame) (name : string) : result DataFrame :=
  match positions name (columns df) 0 with
  | [] => Raise (KeyError ("None of ['" ++ name ++ "'] are in the columns"))
  | i :: _ =>
      Ok (mkFrame (Some name) (remove_nth i (columns df))
            (map (fun r => mkRow (nth i (values r) NA) (remove_nth i (values r)))
                 (rows df)))
  end.

Definition num_cell (o : option float) : cell :=
  match o with
  | Some x => if PrimFloat.is_nan x then NA else Num x
  | None => NA
  end.

(** [pd.to_numeric(..., errors="coerce")] on one value: text that reads as
    no number becomes missing. The values it meets in the program are text
    or missing. *)
Definition to_numeric_coerce (c : cell) : cell :=
  match c with
  | Str s => num_cell (to_numeric_scalar s)
  | Int n => Int n
  | Num x => Num x
  | NA | Stamp _ _ | Obj _ => NA
  end.

(** [df.apply(f, axis=1)]: [f] on the values of each row. *)
Definition apply_rows (f : list cell -> list cell) (df : DataFrame) : DataFrame :=
  mkFrame (index_name df) (columns df)
    (map (fun r => mkRow (label r) (f (values r))) (rows df)).

(** [df.dropna(axis=0, how="all")]: a row stays when one of its values,
    the label apart, is not missing. *)
Definition dropna_all (df : DataFrame) : DataFrame :=
  mkFrame (index_name df) (columns df)
    (filter (fun r => existsb notna (values r)) (rows df)).

(** [df.reset_index()]: the labels become the first column, under the name
    of the index; the index is the default one again. *)
Definition reset_index (df : DataFrame) : result DataFrame :=
  let name :=
    match index_name df with
    | Some n => n
    | None => if existsb (String.eqb "index") (columns df) then "level_0"
              else "index"
    end in
  if existsb (String.eqb name) (columns df) then
    Raise (ValueError ("cannot insert " ++ name ++ ", already exists"))
  else
    Ok (mkFrame None (name :: columns df)
          (default_index (map (fun r => label r :: values r) (rows df)))).

(** The value a decoded JSON value is in a table. *)
Definition json_cell (j : json) : cell :=
  match j with
  | JNull => NA
  | JNumber literal => if String.eqb literal "NaN" then NA else Obj j
  | JString s => Str s
  | JBool _ | JArray _ | JObject _ => Obj j
  end.

Definition is_record (j : json) : bool :=
  match j with JObject _ => true | _ => false end.

Definition record_members (j : json) : list (string * json) :=
  match j with JObject members => members | _ => [] end.

(** The keys of the records, each once, in the order they first appear. *)
Fixpoint union_keys (seen : list string) (records : list json) : list string :=
  match records with
  | [] => seen
  | r :: rest =>
      union_keys
        (fold_left (fun acc k => if existsb (String.eqb k) acc then acc
                                 else acc ++ [k])
                   (map fst (record_members r)) seen)
        rest
  end.

Definition record_row (cols : list string) (r : json) : list cell :=
  map (fun k => match Py.dict_get (record_members r) k with
                | Some v => json_cell v
                | None => NA
                end) cols.

Definition from_other (data : json) : result DataFrame :=
  (table <- from_records_other data ;;
   Ok (mkFrame None (fst table)
         (default_index (map (map json_cell) (snd table)))))%result.

(** [pd.DataFrame.from_records(data)]: for a list of records, a column per
    key and a row per record, a key a record lacks read as missing. *)
Definition from_records (data : json) : result DataFrame :=
  match data with
  | JArray records =>
      if forallb is_record records then
        let cols := union_keys [] records in
        Ok (mkFrame None cols (default_index (map (record_row cols) records)))
      else from_other data
  | _ => from_other data
  end.

End WithLibrary.

End Pd.

(** ** [downloader/coes_downloader.py]: the listing crawler *)

Module Coes.

Inductive log_record :=
| LogInfo (msg : string)
| LogException (msg : string) (e : exn).

(** *** Rows of a listing *)

Definition attr (tag : Tag) (k : string) : result string :=
  match Py.dict_get tag k with
  | Some v => Ok v
  | None => Raise (KeyError k)
  end.

(** [int(s)]. Every refusal is a [ValueError]; the message kept here is the
    one of a text that is no integer, also for a literal refused for its
    more than 4300 digits, whose message differs in Python. *)
Definition int (s : string) : result Z :=
  match Py.int s with
  | Some n => Ok n
  | None =>
      Raise (ValueError ("invalid literal for int() with base 10: '" ++ s ++ "'"))
  end.

(** [id.strip("/").split("/")[-1]] *)
Definition last_segment (id : string) : string :=
  Py.last_item (Py.split "/" (Py.strip Py.is_slash id)).

Definition year_of_id (id : string) : result Z :=
  int (last_segment id).

Definition month_of_id (id : string) : result Z :=
  int (Py.first_item (Py.split "_" (last_segment id))).

Definition day_of_id (id : string) : result Z :=
  int (Py.last_item (Py.split " " (last_segment id))).

Definition reprog_of_id (id : string) : result string :=
  Ok (Py.keep Py.is_alpha (Py.last_item (Py.split " " (last_segment id)))).

(** A list comprehension whose element expression may raise. *)
Fixpoint comprehension {A B} (f : A -> result B) (l : list A) : result (list B) :=
  match l with
  | [] => Ok []
  | x :: rest =>
      (y <- f x ;; ys <- comprehension f rest ;; Ok (y :: ys))%result
  end.

(** [[(key(row.attrs["id"]), row.attrs["id"]) for row in
    bs.find_all("a", class_="infolist-link")]] *)
Definition row_ids {K} (key : string -> result K) (bs : Body)
  : result (list (K * string)) :=
  comprehension
    (fun row => (id <- attr row "id" ;; k <- key id ;; Ok (k, id))%result)
    (infolist_links bs).

(** [sorted(rows, key=lambda x: x[0], reverse=True)]: descending by key;
    the sort is stable, rows of equal key keep their listing order. *)
Fixpoint insert_desc {K A} (ltb : K -> K -> bool) (key : A -> K)
    (x : A) (l : list A) : list A :=
  match l with
  | [] => [x]
  | y :: l' =>
      if ltb (key x) (key y) then y :: insert_desc ltb key x l' else x :: l
  end.

Definition sorted_desc {K A} (ltb : K -> K -> bool) (key : A -> K)
    (l : list A) : list A :=
  fold_right (insert_desc ltb key) [] l.

Definition fits_c_int (n : Z) : bool := (- 2147483648 <=? n) && (n <=? 2147483647).

(** [dt.date(year=y, month=m, day=d)] *)
Definition date (y m d : Z) : result Dt.date :=
  if negb (fits_c_int y && fits_c_int m && fits_c_int d) then
    Raise (OverflowError "Python int too large to convert to C int")
  else if negb ((1 <=? y) && (y <=? 9999)) then
    Raise (ValueError ("year " ++ Py.str_of_int y ++ " is out of range"))
  else if negb ((1 <=? m) && (m <=? 12)) then
    Raise (ValueError "month must be in 1..12")
  else if negb ((1 <=? d) && (d <=? Dt.days_in_month y m)) then
    Raise (ValueError "day is out of range for month")
  else Ok (Dt.mkdate y m d).

(** *** The state of a crawl

    The locals a crawl mutates ([params], [stop], [dowload_urls_map]), the
    requests sent through the session so far and the records logged. *)

Record crawl_state (E : Type) := mkState {
  params : Py.dict string;
  stop : bool;
  dowload_urls_map : list E;
  requests : list Request;
  logged : list log_record
}.
Arguments mkState {E}.
Arguments params {E}.
Arguments stop {E}.
Arguments dowload_urls_map {E}.
Arguments requests {E}.
Arguments logged {E}.

Definition Crawl (E A : Type) : Type :=
  crawl_state E -> result (A * crawl_state E).

Definition ret {E A} (a : A) : Crawl E A := fun st => Ok (a, st).

Definition bind {E A B} (c : Crawl E A) (k : A -> Crawl E B) : Crawl E B :=
  fun st =>
    match c st with
    | Ok (a, st') => k a st'
    | Raise e => Raise e
    end.

Definition lift {E A} (r : result A) : Crawl E A :=
  fun st =>
    match r with
    | Ok a => Ok (a, st)
    | Raise e => Raise e
    end.

Definition get_stop {E} : Crawl E bool := fun st => Ok (stop st, st).

Definition set_stop {E} (b : bool) : Crawl E unit :=
  fun st =>
    Ok (tt, mkState (params st) b (dowload_urls_map st) (requests st) (logged st)).

(** [params["url"] = id] *)
Definition set_url {E} (id : string) : Crawl E unit :=
  fun st =>
    Ok (tt, mkState (Py.dict_set (params st) "url" id) (stop st)
              (dowload_urls_map st) (requests st) (logged st)).

Definition vistadatos : string :=
  "https://www.coes.org.pe/Portal/browser/vistadatos".

Definition listing_request (p : Py.dict string) : Request :=
  mkRequest POST vistadatos p None.

(** [session.post(".../vistadatos", params=params)] *)
Definition post {E} (session : Session) : Crawl E Response :=
  fun st =>
    match session (listing_request (params st)) with
    | Ok response =>
        Ok (response,
            mkState (params st) (stop st) (dowload_urls_map st)
              (requests st ++ [listing_request (params st)]) (logged st))
    | Raise e => Raise e
    end.

Definition logger_info {E} (msg : string) : Crawl E unit :=
  fun st =>
    Ok (tt, mkState (params st) (stop st) (dowload_urls_map st) (requests st)
              (logged st ++ [LogInfo msg])).

(** [dowload_urls_map.append(e)] *)
Definition append {E} (e : E) : Crawl E unit :=
  fun st =>
    Ok (tt, mkState (params st) (stop st) (dowload_urls_map st ++ [e])
              (requests st) (logged st)).

Inductive control := Continue | Break.

(** [for x in l: body], where the body says whether it left by [break]. *)
Fixpoint for_in {E A} (l : list A) (body : A -> Crawl E control) : Crawl E unit :=
  match l with
  | [] => ret tt
  | x :: rest =>
      bind (body x) (fun c =>
        match c with
        | Break => ret tt
        | Continue => for_in rest body
        end)
  end.

Declare Scope crawl_scope.
Delimit Scope crawl_scope with crawl.
Notation "x <- c ;; k" := (bind c (fun x => k))
  (at level 61, c at next level, right associativity) : crawl_scope.
Notation "c ;; k" := (bind c (fun _ => k))
  (at level 61, right associativity) : crawl_scope.

Local Open Scope crawl_scope.

(** *** [get_urls_prog_dia] *)

Definition prog_entry : Type := Dt.date * string * string.

Definition prog_date (e : prog_entry) : Dt.date := fst (fst e).

Definition prog_params : Py.dict string :=
  [ ("baseDirectory", "Operación/Programa de Operación/Programa Diario/");
    ("url", "Operación/Programa de Operación/Programa Diario/");
    ("indicador", "S");
    ("initialLink", "Programa de Operación Diario");
    ("orderFolder", "D") ].

(** The body of [for link in bs.find_all("input", {"name": "cbSelect"})]. *)
Definition prog_link_body (date_obj : Dt.date) (link : Tag)
  : Crawl prog_entry control :=
  download_url <- lift (attr link "value") ;;
  let file_name := Py.last_item (Py.split "/" download_url) in
  append (date_obj, file_name, download_url) ;;
  ret Continue.

(** The body of [for day_int, day_row_id in day_row_ids]. *)
Definition prog_day_body (session : Session) (start_date_threshold : Dt.date)
    (year_int month_int : Z) (row : Z * string) : Crawl prog_entry control :=
  let '(day_int, day_row_id) := row in
  stop <- get_stop ;;
  if stop then ret Break else
  set_url day_row_id ;;
  response <- post session ;;
  lift (_raise_for_status response) ;;
  let bs := text response in
  date_obj <- lift (date year_int month_int day_int) ;;
  if Dt.ltb date_obj start_date_threshold then
    set_stop true ;;
    ret Break
  else
    logger_info ("Listing files of " ++ Dt.isoformat date_obj) ;;
    for_in (cbSelect_inputs bs) (prog_link_body date_obj) ;;
    ret Continue.

(** The body of [for month_int, month_row_id in month_row_ids]. *)
Definition prog_month_body (session : Session) (start_date_threshold : Dt.date)
    (year_int : Z) (row : Z * string) : Crawl prog_entry control :=
  let '(month_int, month_row_id) := row in
  stop <- get_stop ;;
  if stop then ret Break else
  set_url month_row_id ;;
  response <- post session ;;
  lift (_raise_for_status response) ;;
  let bs := text response in
  day_row_ids <- lift (row_ids day_of_id bs) ;;
  let day_row_ids := sorted_desc Z.ltb fst day_row_ids in
  for_in day_row_ids
    (prog_day_body session start_date_threshold year_int month_int) ;;
  ret Continue.

(** The body of [for year_int, year_row_id in year_row_ids]. *)
Definition prog_year_body (session : Session) (start_date_threshold : Dt.date)
    (row : Z * string) : Crawl prog_entry control :=
  let '(year_int, year_row_id) := row in
  stop <- get_stop ;;
  if stop then ret Break else
  set_url year_row_id ;;
  response <- post session ;;
  lift (_raise_for_status response) ;;
  let bs := text response in
  month_row_ids <- lift (row_ids month_of_id bs) ;;
  let month_row_ids := sorted_desc Z.ltb fst month_row_ids in
  for_in month_row_ids (prog_month_body session start_date_threshold year_int) ;;
  ret Continue.

Definition prog_crawl (session : Session) (start_date_threshold : Dt.date)
  : Crawl prog_entry unit :=
  response <- post session ;;
  lift (_raise_for_status response) ;;
  let bs := text response in
  year_row_ids <- lift (row_ids year_of_id bs) ;;
  let year_row_ids := sorted_desc Z.ltb fst year_row_ids in
  for_in year_row_ids (prog_year_body session start_date_threshold).

Definition initial_state {E} (p : Py.dict string) : crawl_state E :=
  mkState p false [] [] [].

(** The crawl with everything it leaves behind: the final state. *)
Definition prog_run (session : Session) (start_date_threshold : Dt.date)
  : result (crawl_state prog_entry) :=
  match prog_crawl session start_date_threshold (initial_state prog_params) with
  | Ok (_, st) => Ok st
  | Raise e => Raise e
  end.

Definition get_urls_prog_dia (session : Session) (start_date_threshold : Dt.date)
  : result (list prog_entry) :=
  match prog_run session start_date_threshold with
  | Ok st => Ok (dowload_urls_map st)
  | Raise e => Raise e
  end.

(** *** [get_urls_reprog_dia] *)

Definition reprog_entry : Type := Dt.date * string * string * string.

Definition reprog_date (e : reprog_entry) : Dt.date := fst (fst (fst e)).
Definition reprog_version (e : reprog_entry) : string := snd (fst (fst e)).

Definition reprog_params : Py.dict string :=
  [ ("baseDirectory",
     "Operación/Programa de Operación/Reprograma Diario Operación/");
    ("url", "Operación/Programa de Operación/Reprograma Diario Operación/");
    ("indicador", "S");
    ("initialLink", "Reprograma Diario de Operación");
    ("orderFolder", "D") ].

Definition reprog_link_body (date_obj : Dt.date) (reprog_version : string)
    (link : Tag) : Crawl reprog_entry control :=
  download_url <- lift (attr link "value") ;;
  let file_name := Py.last_item (Py.split "/" download_url) in
  append (date_obj, reprog_version, file_name, download_url) ;;
  ret Continue.

(** The body of [for reprog_version, reprog_row_id in reprog_row_ids]. *)
Definition reprog_version_body (session : Session) (date_obj : Dt.date)
    (row : string * string) : Crawl reprog_entry control :=
  let '(reprog_version, reprog_row_id) := row in
  stop <- get_stop ;;
  if stop then ret Break else
  set_url reprog_row_id ;;
  response <- post session ;;
  lift (_raise_for_status response) ;;
  let bs := text response in
  logger_info
    ("Listing files of " ++ Dt.isoformat date_obj ++ " - " ++ reprog_version) ;;
  for_in (cbSelect_inputs bs) (reprog_link_body date_obj reprog_version) ;;
  ret Continue.

Definition reprog_day_body (session : Session) (start_date_threshold : Dt.date)
    (year_int month_int : Z) (row : Z * string) : Crawl reprog_entry control :=
  let '(day_int, day_row_id) := row in
  stop <- get_stop ;;
  if stop then ret Break else
  set_url day_row_id ;;
  response <- post session ;;
  lift (_raise_for_status response) ;;
  let bs := text response in
  date_obj <- lift (date year_int month_int day_int) ;;
  if Dt.ltb date_obj start_date_threshold then
    set_stop true ;;
    ret Break
  else
    reprog_row_ids <- lift (row_ids reprog_of_id bs) ;;
    let reprog_row_ids := sorted_desc String.ltb fst reprog_row_ids in
    for_in reprog_row_ids (reprog_version_body session date_obj) ;;
    ret Continue.

Definition reprog_month_body (session : Session) (start_date_threshold : Dt.date)
    (year_int : Z) (row : Z * string) : Crawl reprog_entry control :=
  let '(month_int, month_row_id) := row in
  stop <- get_stop ;;
  if stop then ret Break else
  set_url month_row_id ;;
  response <- post session ;;
  lift (_raise_for_status response) ;;
  let bs := text response in
  day_row_ids <- lift (row_ids day_of_id bs) ;;
  let day_row_ids := sorted_desc Z.ltb fst day_row_ids in
  for_in day_row_ids
    (reprog_day_body session start_date_threshold year_int month_int) ;;
  ret Continue.

Definition reprog_year_body (session : Session) (start_date_threshold : Dt.date)
    (row : Z * string) : Crawl reprog_entry control :=
  let '(year_int, year_row_id) := row in
  stop <- get_stop ;;
  if stop then ret Break else
  set_url year_row_id ;;
  response <- post session ;;
  lift (_raise_for_status response) ;;
  let bs := text response in
  month_row_ids <- lift (row_ids month_of_id bs) ;;
  let month_row_ids := sorted_desc Z.ltb fst month_row_ids in
  for_in month_row_ids
    (reprog_month_body session start_date_threshold year_int) ;;
  ret Continue.

Definition reprog_crawl (session : Session) (start_date_threshold : Dt.date)
  : Crawl reprog_entry unit :=
  response <- post session ;;
  lift (_raise_for_status response) ;;
  let bs := text response in
  year_row_ids <- lift (row_ids year_of_id bs) ;;
  let year_row_ids := sorted_desc Z.ltb fst year_row_ids in
  for_in year_row_ids (reprog_year_body session start_date_threshold).

Definition reprog_run (session : Session) (start_date_threshold : Dt.date)
  : result (crawl_state reprog_entry) :=
  match reprog_crawl session start_date_threshold
          (initial_state reprog_params) with
  | Ok (_, st) => Ok st
  | Raise e => Raise e
  end.

Definition get_urls_reprog_dia (session : Session)
    (start_date_threshold : Dt.date) : result (list reprog_entry) :=
  match reprog_run session start_date_threshold with
  | Ok st => Ok (dowload_urls_map st)
  | Raise e => Raise e
  end.

(** *** [get_medidores_generacion] *)

Definition tz_local : string := "America/Lima".

Section Tables.
Context {L : Pd.Library}.
Local Open Scope result_scope.

Definition medidores_url (endpoint : string) : string :=
  "https://www.coes.org.pe/Portal/mediciones/medidoresgeneracion/" ++ endpoint.

(** Lines 31 to 67: the three requests, down to the response that carries
    the CSV. *)
Definition medidores_download (session : Session) (start end_ : Dt.date)
  : result Response :=
  let start_str := Dt.strftime_dmY start in
  let end_str := Dt.strftime_dmY end_ in
  res <- session (mkRequest POST (medidores_url "empresas")
                    [("tiposEmpresa", "3")] (Some 120)) ;;
  _raise_for_status res ;;
  let bs := text res in
  id_empresas <-
    match cbEmpresas bs with
    | Some options => comprehension (fun i => attr i "value") options
    | None =>
        Raise (AttributeError "'NoneType' object has no attribute 'find_all'")
    end ;;
  res <- session (mkRequest POST (medidores_url "exportar")
                    [ ("fechaInicial", start_str);
                      ("fechaFinal", end_str);
                      ("empresas", Py.join "," id_empresas);
                      ("central", "1");
                      ("parametros", "1");
                      ("tipo", "3") ] (Some 120)) ;;
  _raise_for_status res ;;
  res <- session (mkRequest GET (medidores_url "descargar")
                    [("tipo", "3")] (Some 120)) ;;
  _raise_for_status res ;;
  Ok res.

(** Lines 69 to 76: the table read from the CSV and normalised. *)
Definition medidores_table (res : Response) : result Pd.DataFrame :=
  data <- match read_csv (text res) with
          | Some raw => Ok (Pd.of_raw raw)
          | None => Raise (PandasError "ParserError" "Error tokenizing data")
          end ;;
  let data :=
    Pd.mkFrame (Pd.index_name data)
      (map (Py.strip Py.is_space) (Pd.columns data)) (Pd.rows data) in
  sel <- Pd.getitem data "fechahora" ;;
  stamps <- Pd.to_datetime "%d/%m/%Y %H:%M" sel ;;
  let data :=
    match sel with
    | Pd.Series pos _ => Pd.setitem data pos stamps
    | Pd.SubFrame => data
    end in
  data <- Pd.set_index data "fechahora" ;;
  let data := Pd.apply_rows (map Pd.to_numeric_coerce) data in
  Pd.reset_index (Pd.dropna_all data).

Definition get_medidores_generacion (session : Session) (start end_ : Dt.date)
  : result Pd.DataFrame :=
  res <- medidores_download session start end_ ;;
  medidores_table res.

(** *** [get_demanda_ejecutado] and [process_demanda_ejecutado] *)

(** [try: body / except Exception as e: handler / else: orelse] *)
Definition try_except {A B} (body : result A) (handler : exn -> B)
    (orelse : A -> B) : B :=
  match body with
  | Ok a => orelse a
  | Raise e => handler e
  end.

(** The body of the [try] of [get_demanda_ejecutado]. *)
Definition demanda_request (session : Session) (start end_ : Dt.date)
  : result Response :=
  let start_str := Dt.strftime_dmY start in
  let end_str := Dt.strftime_dmY end_ in
  response_demanda_ejecutado <-
    session (mkRequest POST
               "https://www.coes.org.pe/Portal/portalinformacion/Demanda"
               [("fechaInicial", start_str); ("fechaFinal", end_str)]
               (Some 90)) ;;
  _raise_for_status response_demanda_ejecutado ;;
  Ok response_demanda_ejecutado.

(** The records logged, and the value returned: [None] is Python's. *)
Definition get_demanda_ejecutado (session : Session) (start end_ : Dt.date)
  : list log_record * option Response :=
  let msg_info : string :=
    ("Requesting 'demanda ejecutado' from " ++ Dt.isoformat start ++ " to "
     ++ Dt.isoformat end_)%string in
  let log := [LogInfo msg_info] in
  try_except (demanda_request session start end_)
    (fun e =>
       let msg_exc : string :=
         ("Exception while requesting 'demanda ejecutado':" ++ Py.newline
          ++ str_of_exn e)%string in
       (log ++ [LogException msg_exc e], None))
    (fun response_demanda_ejecutado =>
       let msg_info : string :=
         ("Successfully fetched 'demanda ejecutado'. "
          ++ "Elapsed time of request: "
          ++ elapsed response_demanda_ejecutado ++ " seconds")%string in
       (log ++ [LogInfo msg_info], Some response_demanda_ejecutado)).

(** [obj[key]] on what [response.json()] returned. *)
Definition json_getitem (obj : json) (key : string) : result json :=
  match obj with
  | JObject members =>
      match Py.dict_get members key with
      | Some v => Ok v
      | None => Raise (KeyError key)
      end
  | JArray _ => Raise (TypeError "list indices must be integers or slices, not str")
  | JString _ => Raise (TypeError "string indices must be integers, not 'str'")
  | JNull => Raise (TypeError "'NoneType' object is not subscriptable")
  | JBool _ => Raise (TypeError "'bool' object is not subscriptable")
  | JNumber _ => Raise (TypeError "'int' object is not subscriptable")
  end.

(** The body of the [try] of [process_demanda_ejecutado]. *)
Definition demanda_table (response_demanda_ejecutado : Response)
  : result Pd.DataFrame :=
  response_demanda_ejecutado_json_obj <-
    match json_body (text response_demanda_ejecutado) with
    | Some obj => Ok obj
    | None => Raise (JSONDecodeError "Expecting value")
    end ;;
  demanda_ejecutado_json <-
    json_getitem response_demanda_ejecutado_json_obj "Data" ;;
  df <- Pd.from_records demanda_ejecutado_json ;;
  sel <- Pd.getitem df "Fecha" ;;
  stamps <- Pd.to_datetime "%Y/%m/%d %H:%M" sel ;;
  let df :=
    match sel with
    | Pd.Series pos _ => Pd.setitem df pos stamps
    | Pd.SubFrame => df
    end in
  sel <- Pd.getitem df "Fecha" ;;
  stamps <- Pd.dt_tz_localize tz_local sel ;;
  let df :=
    match sel with
    | Pd.Series pos _ => Pd.setitem df pos stamps
    | Pd.SubFrame => df
    end in
  Ok df.

(** [et] is the time the processing took, as [f"{et:.1f}"] prints it. *)
Definition process_demanda_ejecutado (response_demanda_ejecutado : Response)
    (et : string) : list log_record * option Pd.DataFrame :=
  let msg_info := "Processing 'demanda ejecutado'" in
  let log := [LogInfo msg_info] in
  try_except (demanda_table response_demanda_ejecutado)
    (fun e =>
       let msg_exc : string :=
         ("Exception while processing 'demanda ejecutado':" ++ Py.newline
          ++ str_of_exn e)%string in
       (log ++ [LogException msg_exc e], None))
    (fun df =>
       let msg_info : string :=
         ("Successfully processed 'demanda ejecutado'. "
          ++ "Elapsed time of process: " ++ et ++ " seconds")%string in
       (log ++ [LogInfo msg_info], Some df)).

End Tables.

End Coes.

(** ** [downloader/utils.py]: the session *)

Module Sessions.

(** An [HTTPAdapter], by what [get_session] sets of it. *)
Record HTTPAdapter := mkAdapter {
  pool_connections : Z;
  pool_maxsize : Z;
  max_retries : Z
}.

(** [HTTPAdapter()]: pools of ten connections, no retry. *)
Definition default_adapter : HTTPAdapter := mkAdapter 10 10 0.

(** [session.adapters]: the adapters by prefix, in the order of the
    dictionary. *)
Definition adapters : Type := Py.dict HTTPAdapter.

Fixpoint dict_pop {V} (d : Py.dict V) (k : string) : Py.dict V :=
  match d with
  | [] => []
  | (k', v) :: d' =>
      if String.eqb k' k then d' else (k', v) :: dict_pop d' k
  end.

(** [session.mount(prefix, adapter)]: the adapter is set under the prefix,
    then the shorter prefixes are moved to the end, so that the longest
    prefix is met first. *)
Definition mount (prefix : string) (adapter : HTTPAdapter) (a : adapters)
  : adapters :=
  let a := Py.dict_set a prefix adapter in
  let keys_to_move :=
    filter (fun k => (String.length k <? String.length prefix)%nat)
           (map fst a) in
  fold_left (fun acc key =>
               match Py.dict_get acc key with
               | Some v => dict_pop acc key ++ [(key, v)]
               | None => acc
               end) keys_to_move a.

(** [requests.Session()]: the default adapter for both schemes. *)
Definition new_session : adapters :=
  mount "http://" default_adapter (mount "https://" default_adapter []).

Definition get_session : adapters :=
  let session := new_session in
  let adapter := mkAdapter 12 15 3 in
  mount "https://" adapter session.

(** [s.lower()], on the letters A to Z; the prefixes are ASCII, and so is
    what of a URL is compared with them. *)
Definition lower_char (c : ascii) : ascii :=
  let n := N_of_ascii c in
  if ((65 <=? n) && (n <=? 90))%N then ascii_of_N (n + 32) else c.

Fixpoint lower (s : string) : string :=
  match s with
  | EmptyString => EmptyString
  | String c s' => String (lower_char c) (lower s')
  end.

(** [session.get_adapter(url)]: the adapter of the first prefix the URL
    starts with, the case of the letters apart. *)
Fixpoint get_adapter (a : adapters) (url : string) : result HTTPAdapter :=
  match a with
  | [] =>
      Raise (RequestException "InvalidSchema"
               ("No connection adapters were found for '" ++ url ++ "'"))
  | (prefix, adapter) :: a' =>
      if String.prefix (lower prefix) (lower url) then Ok adapter
      else get_adapter a' url
  end.

End Sessions.

(** * The notions the properties are stated with *)

Module Props.
Import Coes.

(** From [st] to [st'] the list only grew, by entries that satisfy [P]. *)
Definition grows_by {E} (P : E -> Prop) (st st' : crawl_state E) : Prop :=
  exists seg, dowload_urls_map st' = dowload_urls_map st ++ seg /\ Forall P seg.

(** ... by entries not earlier than [T]. *)
Definition grows {E} (dateof : E -> Dt.date) (T : Dt.date)
  : crawl_state E -> crawl_state E -> Prop :=
  grows_by (fun e => Dt.ltb (dateof e) T = false).

(** The state a day earlier than the threshold leaves: its listing was
    requested, [stop] is set, nothing else changed. *)
Definition breach_state {E} (id : string) (st : crawl_state E) : crawl_state E :=
  mkState (Py.dict_set (params st) "url" id) true (dowload_urls_map st)
    (requests st ++ [listing_request (Py.dict_set (params st) "url" id)])
    (logged st).

(** [e1] comes no earlier than [e2]: newest first. *)
Definition prog_ge (e1 e2 : prog_entry) : Prop :=
  Dt.ltb (prog_date e1) (prog_date e2) = false.

Definition reprog_date_ge (e1 e2 : reprog_entry) : Prop :=
  Dt.ltb (reprog_date e1) (reprog_date e2) = false.

(** Newest first, and within a date the later version label first. *)
Definition reprog_ge (e1 e2 : reprog_entry) : Prop :=
  Dt.ltb (reprog_date e2) (reprog_date e1) = true \/
  (reprog_date e1 = reprog_date e2 /\
   String.ltb (reprog_version e1) (reprog_version e2) = false).

(** [x] may stand before [y]: the key of [x] is not below that of [y]. *)
Definition key_ge {K A} (ltb : K -> K -> bool) (key : A -> K) (x y : A) : Prop :=
  ltb (key x) (key y) = false.

(** Rows in descending order of their integer key, with and without ties. *)
Definition row_ge {V} (a b : Z * V) : Prop := fst b <= fst a.
Definition row_gt {V} (a b : Z * V) : Prop := fst b < fst a.

(** Rows in descending order of their version label. *)
Definition label_ge {V} (a b : string * V) : Prop :=
  String.ltb (fst a) (fst b) = false.

(** *** Characters of a string *)

Fixpoint has_char (c : ascii) (s : string) : bool :=
  match s with
  | EmptyString => false
  | String x s' => Ascii.eqb x c || has_char c s'
  end.

Fixpoint all_chars (p : ascii -> bool) (s : string) : bool :=
  match s with
  | EmptyString => true
  | String x s' => p x && all_chars p s'
  end.

(** *** The listing tree a session serves, and the requests of a full crawl *)

(** The identifiers a listing shows, one per entry. *)
Definition tag_ids (tags : list Tag) : list string :=
  flat_map (fun t => match Py.dict_get t "id" with
                     | Some id => [id]
                     | None => []
                     end) tags.

Definition entries_of (r : result Response) : list string :=
  match r with
  | Ok response => tag_ids (infolist_links (text response))
  | Raise _ => []
  end.

(** The listing of the directory [id], asked with the parameters [base]. *)
Definition page (session : Session) (base : Py.dict string) (id : string)
  : result Response :=
  session (listing_request (Py.dict_set base "url" id)).

Definition root_entries (session : Session) (base : Py.dict string)
  : list string :=
  entries_of (session (listing_request base)).

Definition child_entries (session : Session) (base : Py.dict string)
    (id : string) : list string :=
  entries_of (page session base id).

(** Requests for the directory [id] and all below it, [depth] levels down. *)
Fixpoint subtree_requests (session : Session) (base : Py.dict string)
    (depth : nat) (id : string) : nat :=
  match depth with
  | O => 1
  | S k =>
      1 + list_sum (map (subtree_requests session base k)
                        (child_entries session base id))
  end.

(** The request for the root listing, then every directory [depth + 1]
    levels down. *)
Definition full_crawl_requests (session : Session) (base : Py.dict string)
    (depth : nat) : nat :=
  1 + list_sum (map (subtree_requests session base depth)
                    (root_entries session base)).

(** [N] year entries, [M] month entries in each year, [D] day entries in
    each month. *)
Definition uniform_listing (session : Session) (base : Py.dict string)
    (N M D : nat) : Prop :=
  List.length (root_entries session base) = N /\
  (forall y, In y (root_entries session base) ->
     List.length (child_entries session base y) = M) /\
  (forall y m, In y (root_entries session base) ->
     In m (child_entries session base y) ->
     List.length (child_entries session base m) = D).

(** The version entries under all days of the tree. *)
Definition version_entries (session : Session) (base : Py.dict string) : nat :=
  list_sum (map (fun y =>
    list_sum (map (fun m =>
      list_sum (map (fun d => List.length (child_entries session base d))
                    (child_entries session base m)))
      (child_entries session base y)))
    (root_entries session base)).

(** The parameters are those of [base], up to the directory asked for. *)
Definition same_base (base p : Py.dict string) : Prop :=
  forall id, Py.dict_set p "url" id = Py.dict_set base "url" id.

(** What a body that visits one directory promises about the requests:
    with [stop] unset at the end, it was unset at the start, the body did
    not leave by [break], and it sent [cost] requests. *)
Definition counts {E} (base : Py.dict string) (cost : nat)
    (st : crawl_state E) (c : control) (st' : crawl_state E) : Prop :=
  same_base base (params st') /\
  (stop st' = false ->
   stop st = false /\ c = Continue /\
   List.length (requests st') = (List.length (requests st) + cost)%nat).

(** Nothing but the list of entries and the log changed. *)
Definition frame {E} (st st' : crawl_state E) : Prop :=
  params st' = params st /\ stop st' = stop st /\ requests st' = requests st.

(** *** Tables *)

Section Tables.
Context {L : Pd.Library}.
Local Open Scope result_scope.





(** The normalisation of the generation meters, row by row, as the
    specification words it: the time of the row read with the day, month,
    year, hour and minute format, then every other cell as a number or as
    missing. *)
Definition medidores_row (pos : nat) (r : list (option string))
  : result (list Pd.cell) :=
  stamp <- Pd.to_datetime_scalar "%d/%m/%Y %H:%M" (Pd.text_cell (nth pos r None)) ;;
  Ok (stamp :: map (fun c => Pd.to_numeric_coerce (Pd.text_cell c))
                   (Pd.remove_nth pos r)).

(** ... the headers trimmed, the rows with no number dropped, the time as
    the first column. *)
Definition medidores_spec (raw : RawFrame) : result Pd.DataFrame :=
  let headers := map (Py.strip Py.is_space) (raw_columns raw) in
  match Pd.positions "fechahora" headers 0 with
  | [] => Raise (KeyError "fechahora")
  | [pos] =>
      table <- Pd.traverse (medidores_row pos) (raw_rows raw) ;;
      Ok (Pd.mkFrame None ("fechahora" :: Pd.remove_nth pos headers)
            (Pd.default_index
               (filter (fun row => existsb Pd.notna (tl row)) table)))
  | _ => Raise (ValueError Pd.assemble_error)
  end.




(** The rows the program builds between the reading of the CSV and the
    dropping of the rows without a number. *)
Definition medidores_rows (pos : nat) (rows : list Pd.Row)
    (stamps : list Pd.cell) : list Pd.Row :=
  map (fun r => Pd.mkRow (Pd.label r) (map Pd.to_numeric_coerce (Pd.values r)))
    (map (fun r => Pd.mkRow (nth pos (Pd.values r) Pd.NA)
                     (Pd.remove_nth pos (Pd.values r)))
       (map (fun p => Pd.mkRow (Pd.label (fst p))
                        (Pd.replace_nth pos (snd p) (Pd.values (fst p))))
          (combine rows stamps))).

(** The request of [get_demanda_ejecutado]. *)
Definition demanda_query (start end_ : Dt.date) : Request :=
  mkRequest POST "https://www.coes.org.pe/Portal/portalinformacion/Demanda"
    [("fechaInicial", Dt.strftime_dmY start);
     ("fechaFinal", Dt.strftime_dmY end_)]
    (Some 90).

(** The record [logger.exception] leaves for the exception [e]. *)
Definition logged_exception (what : string) (e : exn) : log_record :=
  LogException
    ("Exception while " ++ what ++ " 'demanda ejecutado':" ++ Py.newline
     ++ str_of_exn e)%string e.



End Tables.

End Props.

(** * Inputs for the examples: a portal, a reading of numbers and times *)

Module Examples.
Import Coes Props.

(** ** A portal given by its pages *)

Definition listing (ids : list string) (files : list string) : Body :=
  mkBody (map (fun id => [("class", "infolist-link"); ("id", id)]) ids)
         (map (fun v => [("name", "cbSelect"); ("value", v)]) files)
         None None None.

Definition no_body : Body := mkBody [] [] None None None.

(** The page at the directory a request asks for, or a 404. *)
Definition site (pages : Py.dict Body) : Session :=
  fun req =>
    match Py.dict_get (req_params req) "url" with
    | Some u =>
        match Py.dict_get pages u with
        | Some b => Ok (mkResponse 200 "OK" (req_url req) b "0.1")
        | None => Ok (mkResponse 404 "Not Found" (req_url req) no_body "0.1")
        end
    | None => Raise (RequestException "ConnectionError" "no directory asked")
    end.

Definition prog_root : string :=
  "Operación/Programa de Operación/Programa Diario/".

Definition reprog_root : string :=
  "Operación/Programa de Operación/Reprograma Diario Operación/".

(** The portal of the end-to-end scenario: the years 2024 and 2023, and in
    January 2024 the days 16, 15 and 14. *)
Definition scenario_pages : Py.dict Body :=
  [ (prog_root, listing ["P/2023/"; "P/2024/"] []);
    ("P/2024/", listing ["P/2024/01_Enero/"] []);
    ("P/2023/", listing ["P/2023/12_Diciembre/"] []);
    ("P/2024/01_Enero/",
     listing ["P/2024/01_Enero/Dia 14/"; "P/2024/01_Enero/Dia 16/";
              "P/2024/01_Enero/Dia 15/"] []);
    ("P/2024/01_Enero/Dia 16/", listing [] ["f/PDO_16.xlsx"; "f/PDO_16.zip"]);
    ("P/2024/01_Enero/Dia 15/", listing [] ["f/PDO_15.xlsx"]);
    ("P/2024/01_Enero/Dia 14/", listing [] ["f/PDO_14.xlsx"]);
    ("P/2023/12_Diciembre/", listing ["P/2023/12_Diciembre/Dia 31/"] []);
    ("P/2023/12_Diciembre/Dia 31/", listing [] ["f/PDO_31.xlsx"]) ].

Definition scenario : Session := site scenario_pages.

Definition scenario_threshold : Dt.date := Dt.mkdate 2024 1 15.

(** A portal of the programs with one year, one month and one day. *)
Definition single_pages : Py.dict Body :=
  [ (prog_root, listing ["P/2024/"] []);
    ("P/2024/", listing ["P/2024/01_Enero/"] []);
    ("P/2024/01_Enero/", listing ["P/2024/01_Enero/Dia 15/"] []);
    ("P/2024/01_Enero/Dia 15/", listing [] ["f/PDO_15.xlsx"]) ].

Definition single : Session := site single_pages.

(** A portal of the reprograms: one year, one month, one day with the
    versions A and B. *)
Definition reprog_pages : Py.dict Body :=
  [ (reprog_root, listing ["R/2024/"] []);
    ("R/2024/", listing ["R/2024/01_Enero/"] []);
    ("R/2024/01_Enero/", listing ["R/2024/01_Enero/Dia 15/"] []);
    ("R/2024/01_Enero/Dia 15/",
     listing ["R/2024/01_Enero/Dia 15/Reprog 1501 A/";
              "R/2024/01_Enero/Dia 15/Reprog 1501 B/"] []);
    ("R/2024/01_Enero/Dia 15/Reprog 1501 A/", listing [] ["f/RDO_A.xlsx"]);
    ("R/2024/01_Enero/Dia 15/Reprog 1501 B/", listing [] ["f/RDO_B.xlsx"]) ].

Definition reprog_scenario : Session := site reprog_pages.

(** A portal of the reprograms whose month lists the day 15 twice, under
    two identifiers. *)
Definition twice_day_pages : Py.dict Body :=
  [ (reprog_root, listing ["R/2024/"] []);
    ("R/2024/", listing ["R/2024/01_Enero/"] []);
    ("R/2024/01_Enero/",
     listing ["R/2024/01_Enero/Dia 15/"; "R/2024/01_Enero/Dia 015/"] []);
    ("R/2024/01_Enero/Dia 15/",
     listing ["R/2024/01_Enero/Dia 15/Reprog 1501 A/";
              "R/2024/01_Enero/Dia 15/Reprog 1501 B/"] []);
    ("R/2024/01_Enero/Dia 015/",
     listing ["R/2024/01_Enero/Dia 15/Reprog 1501 A/";
              "R/2024/01_Enero/Dia 15/Reprog 1501 B/"] []);
    ("R/2024/01_Enero/Dia 15/Reprog 1501 A/", listing [] ["f/RDO_A.xlsx"]);
    ("R/2024/01_Enero/Dia 15/Reprog 1501 B/", listing [] ["f/RDO_B.xlsx"]) ].

Definition twice_day : Session := site twice_day_pages.

Definition twice_day_month : Body :=
  listing ["R/2024/01_Enero/Dia 15/"; "R/2024/01_Enero/Dia 015/"] [].

(** A portal of the programs whose root lists the year 2024 twice, under
    two identifiers. *)
Definition twice_year_pages : Py.dict Body :=
  [ (prog_root, listing ["P/2024/"; "P/02024/"] []);
    ("P/2024/", listing ["P/2024/01_Enero/"; "P/2024/02_Febrero/"] []);
    ("P/02024/", listing ["P/2024/01_Enero/"; "P/2024/02_Febrero/"] []);
    ("P/2024/02_Febrero/", listing ["P/2024/02_Febrero/Dia 01/"] []);
    ("P/2024/01_Enero/", listing ["P/2024/01_Enero/Dia 31/"] []);
    ("P/2024/02_Febrero/Dia 01/", listing [] ["f/PDO_0102.xlsx"]);
    ("P/2024/01_Enero/Dia 31/", listing [] ["f/PDO_3101.xlsx"]) ].

Definition twice_year : Session := site twice_year_pages.

(** ** A reading of numbers and times *)

Fixpoint all_digits (s : string) : bool :=
  match s with
  | EmptyString => true
  | String c s' => Py.is_digit c && all_digits s'
  end.

Fixpoint digits_value (acc : Z) (s : string) : Z :=
  match s with
  | EmptyString => acc
  | String c s' => digits_value (10 * acc + Py.digit_value c) s'
  end.

Definition natural (s : string) : option Z :=
  if negb (Py.is_empty s) && all_digits s then Some (digits_value 0 s)
  else None.

Definition float_of_Z (n : Z) : float := PrimFloat.of_uint63 (Uint63.of_Z n).

(** Plain decimal literals: digits, or digits, a point and digits, with an
    optional minus sign. *)
Definition unsigned_decimal (s : string) : option float :=
  match Py.split "." s with
  | [a] => option_map float_of_Z (natural a)
  | [a; b] =>
      match natural (a ++ b) with
      | Some n =>
          if Py.is_empty a || Py.is_empty b then None
          else Some (float_of_Z n / float_of_Z (10 ^ Z.of_nat (String.length b)))%float
      | None => None
      end
  | _ => None
  end.

Definition decimal (s : string) : option float :=
  match s with
  | String "-" s' => option_map PrimFloat.opp (unsigned_decimal s')
  | _ => unsigned_decimal s
  end.

Definition clock (y m d H M : Z) : option Pd.datetime :=
  if Dt.valid (Dt.mkdate y m d) && (0 <=? H) && (H <? 24) && (0 <=? M) && (M <? 60)
  then Some (Pd.mkdatetime (Dt.mkdate y m d) H M)
  else None.

(** The two formats of the program, read field by field. *)
Definition read_time (format : string) (s : string) : option Pd.datetime :=
  match Py.split " " s with
  | [day; time] =>
      match map natural (Py.split "/" day), map natural (Py.split ":" time) with
      | [Some a; Some b; Some c], [Some H; Some M] =>
          if String.eqb format "%d/%m/%Y %H:%M" then clock c b a H M
          else if String.eqb format "%Y/%m/%d %H:%M" then clock a b c H M
          else None
      | _, _ => None
      end
  | _ => None
  end.

#[export] Instance example_library : Pd.Library := {|
  Pd.to_numeric_scalar := decimal;
  Pd.strptime := read_time;
  Pd.tz_resolves := fun _ _ => true;
  Pd.from_records_other :=
    fun _ => Raise (TypeError "object of this type cannot be read as records")
|}.

(** ** Payloads *)

(** A CSV of the generation meters as [pd.read_csv] reads it: three rows,
    the second with no number. *)
Definition meters_csv : RawFrame :=
  mkRawFrame [" fechahora "; " G1"; "G2 "]
    [ [Some "15/01/2024 00:15"; Some "12.5"; Some "abc"];
      [Some "15/01/2024 00:30"; None; Some "abc"];
      [Some "15/01/2024 00:45"; Some "abc"; Some "7"] ].



(** A body of the executed demand without the field ["Data"]. *)
Definition no_data_response : Response :=
  mkResponse 200 "OK" "https://www.coes.org.pe/"
    (mkBody [] [] None None (Some (JObject [("Message", JString "no data")])))
    "0.1".

(** A session that answers every request of the generation meters with
    one company and the CSV above. *)
Definition meters_session : Session :=
  fun req =>
    Ok (mkResponse 200 "OK" (req_url req)
          (mkBody [] [] (Some [[("value", "11567")]]) (Some meters_csv) None)
          "0.1").

(** A session whose every request times out. *)
Definition timing_out : Session :=
  fun _ => Raise (RequestException "Timeout" "Read timed out.").

End Examples.

(** * The trace of a crawl: what it sent, recorded and logged *)

Module Trace.
Import Coes Props.

Section Steps.
Context {E : Type}.
Variables (session : Session) (base : Py.dict string).
Variables (dateof : E -> Dt.date) (nameof urlof msgof : E -> string).

(** [announces l]: the record [l] is one the crawl logs before it lists
    the files of a directory. *)
Variable announces : log_record -> Prop.

(** The parameters are those the crawl started with, up to the directory
    asked for. *)
Definition on_base (p : Py.dict string) : Prop :=
  exists id, p = Py.dict_set base "url" id.

(** A request of the crawl: a [POST] to the listing endpoint, with no
    timeout, that the portal answered with a status outside [400, 600). *)
Definition sent (q : Request) : Prop :=
  req_method q = POST /\ req_url q = vistadatos /\ req_timeout q = None /\
  exists response,
    session q = Ok response /\ ~ 400 <= status_code response < 600.

(** What holds of an entry the crawl recorded. *)
Definition recorded (logs : list log_record) (e : E) : Prop :=
  Dt.valid (dateof e) = true /\
  nameof e = Py.last_item (Py.split "/" (urlof e)) /\
  In (LogInfo (msgof e)) logs.

(** From [st] to [st'] the crawl sent [reqs], recorded [seg] and logged
    [logs], and nothing was taken away. *)
Definition steps (st st' : crawl_state E) : Prop :=
  exists seg reqs logs,
    dowload_urls_map st' = dowload_urls_map st ++ seg /\
    requests st' = requests st ++ reqs /\
    logged st' = logged st ++ logs /\
    Forall sent reqs /\
    Forall (recorded logs) seg /\
    Forall announces logs /\
    (on_base (params st) ->
     on_base (params st') /\ Forall (fun q => on_base (req_params q)) reqs).

End Steps.

(** *** The two crawls *)

Definition prog_name (e : prog_entry) : string := snd (fst e).
Definition prog_url (e : prog_entry) : string := snd e.

Definition prog_msg (e : prog_entry) : string :=
  "Listing files of " ++ Dt.isoformat (prog_date e).

Definition prog_announces (T : Dt.date) (l : log_record) : Prop :=
  exists d,
    Dt.valid d = true /\ Dt.ltb d T = false /\
    l = LogInfo ("Listing files of " ++ Dt.isoformat d).

Definition reprog_name (e : reprog_entry) : string := snd (fst e).
Definition reprog_url (e : reprog_entry) : string := snd e.

Definition reprog_msg (e : reprog_entry) : string :=
  "Listing files of " ++ Dt.isoformat (reprog_date e) ++ " - "
  ++ reprog_version e.

Definition reprog_announces (T : Dt.date) (l : log_record) : Prop :=
  exists d v,
    Dt.valid d = true /\ Dt.ltb d T = false /\
    all_chars Py.is_alpha v = true /\
    l = LogInfo ("Listing files of " ++ Dt.isoformat d ++ " - " ++ v).

Definition prog_steps (session : Session) (T : Dt.date)
  : crawl_state prog_entry -> crawl_state prog_entry -> Prop :=
  steps session prog_params prog_date prog_name prog_url prog_msg
    (prog_announces T).

Definition reprog_steps (session : Session) (T : Dt.date)
  : crawl_state reprog_entry -> crawl_state reprog_entry -> Prop :=
  steps session reprog_params reprog_date reprog_name reprog_url reprog_msg
    (reprog_announces T).

(** The entries one page of files gives, as the loops over the file
    selectors record them. *)
Definition prog_files (date_obj : Dt.date) (urls : list string)
  : list prog_entry :=
  map (fun u => (date_obj, Py.last_item (Py.split "/" u), u)) urls.

Definition reprog_files (date_obj : Dt.date) (version : string)
    (urls : list string) : list reprog_entry :=
  map (fun u => (date_obj, version, Py.last_item (Py.split "/" u), u)) urls.

(** The page of the directory [id] offers the file at the URL [u]. *)
Definition files_on (session : Session) (base : Py.dict string)
    (id u : string) : Prop :=
  exists response tag,
    page session base id = Ok response /\
    In tag (cbSelect_inputs (text response)) /\
    Py.dict_get tag "value" = Some u.

(** No day the portal lists, under a month under a year it lists, is
    earlier than the threshold [T]. *)
Definition within (session : Session) (base : Py.dict string) (T : Dt.date)
  : Prop :=
  forall yid mid did y m d,
    In yid (root_entries session base) ->
    In mid (child_entries session base yid) ->
    In did (child_entries session base mid) ->
    year_of_id yid = Ok y -> month_of_id mid = Ok m -> day_of_id did = Ok d ->
    Dt.ltb (Dt.mkdate y m d) T = false.

(** The three requests of [get_medidores_generacion]. *)
Definition empresas_query : Request :=
  mkRequest POST (medidores_url "empresas") [("tiposEmpresa", "3")] (Some 120).

Definition exportar_query (start end_ : Dt.date) (id_empresas : list string)
  : Request :=
  mkRequest POST (medidores_url "exportar")
    [ ("fechaInicial", Dt.strftime_dmY start);
      ("fechaFinal", Dt.strftime_dmY end_);
      ("empresas", Py.join "," id_empresas);
      ("central", "1");
      ("parametros", "1");
      ("tipo", "3") ] (Some 120).

Definition descargar_query : Request :=
  mkRequest GET (medidores_url "descargar") [("tipo", "3")] (Some 120).

(** A response the program takes: its status is outside [400, 600). *)
Definition accepted (response : Response) : Prop :=
  ~ 400 <= status_code response < 600.

(** A link of the root listing that gives no year: it has no [id], or
    the final segment of its [id] does not read as an integer. *)
Definition keyless (tag : Tag) : Prop :=
  Py.dict_get tag "id" = None \/
  exists id,
    Py.dict_get tag "id" = Some id /\ Py.int (last_segment id) = None.

(** The zeros a number is padded with. *)
Definition zeros (k : nat) : string :=
  string_of_list_ascii (repeat "0"%char k).

(** The list [l] goes on as [l'] does: [l] is a prefix of [l']. *)
Definition prefix {A} (l l' : list A) : Prop := exists more, l' = l ++ more.

(** The crawl with the later threshold against the crawl with the earlier
    one, from the same state: they end in the same state, or the first
    stopped where the second went on, with more entries and requests. *)
Definition extends {E} (st st' : crawl_state E) : Prop :=
  prefix (dowload_urls_map st) (dowload_urls_map st') /\
  prefix (requests st) (requests st').

Definition outrun {E} (st1 st2 : crawl_state E) : Prop :=
  st1 = st2 \/ (stop st1 = true /\ extends st1 st2).

(** One iteration of a loop under the two thresholds: where the body [b2]
    ends, the body [b1] ends in the same way, or has set [stop]. *)
Definition keeps_up {E A} (b1 b2 : A -> Crawl E control) (x : A) : Prop :=
  forall st c2 st2,
    b2 x st = Ok (c2, st2) ->
    exists c1 st1,
      b1 x st = Ok (c1, st1) /\
      ((c1 = c2 /\ st1 = st2) \/ (stop st1 = true /\ extends st1 st2)).

End Trace.

(** * More inputs for the examples *)

Module MoreExamples.
Import Coes Props Examples.

(** A portal of the programs whose root lists, after the year 2024, a
    directory that is no year. *)
Definition notes_pages : Py.dict Body :=
  [ (prog_root, listing ["P/2024/"; "P/notes/"] []);
    ("P/2024/", listing [] []) ].

Definition notes : Session := site notes_pages.

Definition notes_root : Response :=
  mkResponse 200 "OK" vistadatos (listing ["P/2024/"; "P/notes/"] []) "0.1".

Definition notes_link : Tag := [("class", "infolist-link"); ("id", "P/notes/")].

(** A body of the executed demand for a period with no data. *)
Definition empty_data_response : Response :=
  mkResponse 200 "OK" "https://www.coes.org.pe/"
    (mkBody [] [] None None (Some (JObject [("Data", JArray [])]))) "0.1".



End MoreExamples.

(** * The plan of a crawl: the directories of the portal, in the order a
    crawl asks for their listings *)

Module Plan.
Import Coes Props Trace.

(** The rows read from a listing, in the order of the listing; none when
    the listing was not served or one of its rows does not parse. *)
Definition rows_of {K} (key : string -> result K) (r : result Response)
  : list (K * string) :=
  match r with
  | Ok response =>
      match row_ids key (text response) with
      | Ok rows => rows
      | Raise _ => []
      end
  | Raise _ => []
  end.

Section Listings.
Variables (session : Session) (base : Py.dict string).

Definition year_rows : list (Z * string) :=
  rows_of year_of_id (session (listing_request base)).

Definition month_rows (year_row_id : string) : list (Z * string) :=
  rows_of month_of_id (page session base year_row_id).

Definition day_rows (month_row_id : string) : list (Z * string) :=
  rows_of day_of_id (page session base month_row_id).

Definition reprog_rows (day_row_id : string) : list (string * string) :=
  rows_of reprog_of_id (page session base day_row_id).

(** The rows of each listing in the order they are visited in. *)
Definition years : list (Z * string) := sorted_desc Z.ltb fst year_rows.

Definition months (year_row_id : string) : list (Z * string) :=
  sorted_desc Z.ltb fst (month_rows year_row_id).

Definition days (month_row_id : string) : list (Z * string) :=
  sorted_desc Z.ltb fst (day_rows month_row_id).

Definition versions (day_row_id : string) : list (string * string) :=
  sorted_desc String.ltb fst (reprog_rows day_row_id).

(** The URLs of the files the page of the directory [id] offers. *)
Definition file_urls (id : string) : list string :=
  match page session base id with
  | Ok response =>
      match comprehension (fun link => attr link "value")
              (cbSelect_inputs (text response)) with
      | Ok urls => urls
      | Raise _ => []
      end
  | Raise _ => []
  end.

End Listings.

(** A directory whose listing is asked for, with the keys read on the way
    to it. *)
Inductive visit :=
| Year (year_int : Z) (id : string)
| Month (year_int month_int : Z) (id : string)
| Day (year_int month_int day_int : Z) (id : string)
| Version (date_obj : Dt.date) (reprog_version : string) (id : string).

Definition visit_id (v : visit) : string :=
  match v with
  | Year _ id | Month _ _ id | Day _ _ _ id | Version _ _ id => id
  end.

(** The request for the listing of a visit. *)
Definition request (base : Py.dict string) (v : visit) : Request :=
  listing_request (Py.dict_set base "url" (visit_id v)).

(** The visit is a day earlier than the threshold [T]. *)
Definition breach (T : Dt.date) (v : visit) : bool :=
  match v with
  | Day y m d _ =>
      match date y m d with
      | Ok date_obj => Dt.ltb date_obj T
      | Raise _ => false
      end
  | _ => false
  end.

(** *** The programs: years, the months of each, the days of each *)

Definition prog_day_plan (y m : Z) (row : Z * string) : list visit :=
  [Day y m (fst row) (snd row)].

Definition prog_month_plan (session : Session) (y : Z) (row : Z * string)
  : list visit :=
  Month y (fst row) (snd row)
  :: flat_map (prog_day_plan y (fst row)) (days session prog_params (snd row)).

Definition prog_year_plan (session : Session) (row : Z * string) : list visit :=
  Year (fst row) (snd row)
  :: flat_map (prog_month_plan session (fst row))
       (months session prog_params (snd row)).

Definition prog_plan (session : Session) : list visit :=
  flat_map (prog_year_plan session) (years session prog_params).

(** *** The reprograms: the versions of each day as well *)

Definition reprog_version_plan (date_obj : Dt.date) (row : string * string)
  : list visit :=
  [Version date_obj (fst row) (snd row)].

Definition reprog_day_plan (session : Session) (y m : Z) (row : Z * string)
  : list visit :=
  Day y m (fst row) (snd row)
  :: match date y m (fst row) with
     | Ok date_obj =>
         flat_map (reprog_version_plan date_obj)
           (versions session reprog_params (snd row))
     | Raise _ => []
     end.

Definition reprog_month_plan (session : Session) (y : Z) (row : Z * string)
  : list visit :=
  Month y (fst row) (snd row)
  :: flat_map (reprog_day_plan session y (fst row))
       (days session reprog_params (snd row)).

Definition reprog_year_plan (session : Session) (row : Z * string)
  : list visit :=
  Year (fst row) (snd row)
  :: flat_map (reprog_month_plan session (fst row))
       (months session reprog_params (snd row)).

Definition reprog_plan (session : Session) : list visit :=
  flat_map (reprog_year_plan session) (years session reprog_params).

(** *** What a crawl does of a plan *)

(** The list up to its first element that satisfies [p], included. *)
Fixpoint upto {A} (p : A -> bool) (l : list A) : list A :=
  match l with
  | [] => []
  | x :: rest => if p x then [x] else x :: upto p rest
  end.

(** The visits made under the threshold [T]: up to the first day earlier
    than [T]; and those among them that are not such a day. *)
Definition visited (T : Dt.date) (plan : list visit) : list visit :=
  upto (breach T) plan.

Definition kept (T : Dt.date) (vs : list visit) : list visit :=
  filter (fun v => negb (breach T v)) vs.

(** The entries and the log record of a visit. *)
Definition prog_entries (session : Session) (v : visit) : list prog_entry :=
  match v with
  | Day y m d id =>
      match date y m d with
      | Ok date_obj => prog_files date_obj (file_urls session prog_params id)
      | Raise _ => []
      end
  | _ => []
  end.

Definition prog_logs (v : visit) : list log_record :=
  match v with
  | Day y m d _ =>
      match date y m d with
      | Ok date_obj => [LogInfo ("Listing files of " ++ Dt.isoformat date_obj)]
      | Raise _ => []
      end
  | _ => []
  end.

Definition reprog_entries (session : Session) (v : visit) : list reprog_entry :=
  match v with
  | Version date_obj reprog_version id =>
      reprog_files date_obj reprog_version
        (file_urls session reprog_params id)
  | _ => []
  end.

Definition reprog_logs (v : visit) : list log_record :=
  match v with
  | Version date_obj reprog_version _ =>
      [LogInfo ("Listing files of " ++ Dt.isoformat date_obj ++ " - "
                ++ reprog_version)]
  | _ => []
  end.

(** From [st] to [st'] the crawl made the visits [vs]: it sent their
    requests, recorded the entries and logged the records of those that
    are no day earlier than [T], and set [stop] if one of them is. *)
Definition walked {E} (base : Py.dict string) (T : Dt.date)
    (entries : visit -> list E) (logs : visit -> list log_record)
    (vs : list visit) (st st' : crawl_state E) : Prop :=
  requests st' = requests st ++ map (request base) vs /\
  dowload_urls_map st' = dowload_urls_map st ++ flat_map entries (kept T vs) /\
  logged st' = logged st ++ flat_map logs (kept T vs) /\
  stop st' = stop st || existsb (breach T) vs /\
  same_base base (params st').

(** The keys of the rows of a listing are pairwise distinct. *)
Definition distinct {K} (rows : list (K * string)) : Prop := NoDup (map fst rows).

(** The years the root lists are distinct; so are the months each of
    those years lists; so are the days each of those months lists. *)
Definition distinct_years (session : Session) (base : Py.dict string) : Prop :=
  distinct (year_rows session base).

Definition distinct_months (session : Session) (base : Py.dict string) : Prop :=
  forall row, In row (year_rows session base) ->
    distinct (month_rows session base (snd row)).

Definition distinct_days (session : Session) (base : Py.dict string) : Prop :=
  forall yrow mrow,
    In yrow (year_rows session base) ->
    In mrow (month_rows session base (snd yrow)) ->
    distinct (day_rows session base (snd mrow)).

(** Rows in strictly descending order of their version label. *)
Definition label_gt {V} (a b : string * V) : Prop :=
  String.ltb (fst b) (fst a) = true.

End Plan.

(** * Facts about the crawl monad and its loops *)

Module CrawlFacts.
Import Coes Props.
Local Open Scope crawl_scope.

Section Monad.
Context {E : Type}.

Lemma bind_inv {A B} (c : Crawl E A) (k : A -> Crawl E B) st b st' :
  bind c k st = Ok (b, st') ->
  exists a st1, c st = Ok (a, st1) /\ k a st1 = Ok (b, st').
Proof.
  unfold bind. destruct (c st) as [[a st1]|e]; [eauto | discriminate].
Qed.

Lemma ret_inv {A} (a b : A) (st st' : crawl_state E) :
  ret a st = Ok (b, st') -> b = a /\ st' = st.
Proof. unfold ret. intros H. inversion H. auto. Qed.

Lemma lift_inv {A} (r : result A) (a : A) (st st' : crawl_state E) :
  lift r st = Ok (a, st') -> r = Ok a /\ st' = st.
Proof. unfold lift. destruct r; intros H; inversion H. auto. Qed.

Lemma get_stop_inv (b : bool) (st st' : crawl_state E) :
  get_stop st = Ok (b, st') -> b = stop st /\ st' = st.
Proof. unfold get_stop. intros H. inversion H. auto. Qed.

Lemma post_inv session (r : Response) (st st' : crawl_state E) :
  post session st = Ok (r, st') ->
  session (listing_request (params st)) = Ok r /\
  st' = mkState (params st) (stop st) (dowload_urls_map st)
          (requests st ++ [listing_request (params st)]) (logged st).
Proof.
  unfold post. destruct (session _); intros H; inversion H. auto.
Qed.

End Monad.

(** Inversion of a run of monadic code that ended well, down to the loops. *)
Ltac inv_crawl H :=
  lazymatch type of H with
  | bind _ _ _ = Ok _ =>
      let a := fresh "a" in
      let s := fresh "st" in
      let H1 := fresh "Hc" in
      let H2 := fresh "Hk" in
      apply bind_inv in H; destruct H as (a & s & H1 & H2);
      lazymatch type of a with unit => destruct a | _ => idtac end;
      inv_crawl H1; inv_crawl H2
  | ret _ _ = Ok _ =>
      apply ret_inv in H; destruct H as [? ?]; subst
  | get_stop _ = Ok _ =>
      apply get_stop_inv in H; destruct H as [? ?]; subst
  | lift _ _ = Ok _ =>
      let Hr := fresh "Hr" in
      apply lift_inv in H; destruct H as [Hr ?]; subst
  | post _ _ = Ok _ =>
      let Hs := fresh "Hpost" in
      apply post_inv in H; destruct H as [Hs ?]; subst
  | set_stop _ _ = Ok _ => inversion H; subst; clear H
  | set_url _ _ = Ok _ => inversion H; subst; clear H
  | logger_info _ _ = Ok _ => inversion H; subst; clear H
  | append _ _ = Ok _ => inversion H; subst; clear H
  | (if ?b then _ else _) _ = Ok _ =>
      let Hb := fresh "Hb" in destruct b eqn:Hb; inv_crawl H
  | _ => idtac
  end.

Section Loops.
Context {E A : Type}.
Implicit Types (body : A -> Crawl E control) (l : list A) (st : crawl_state E).

(** A loop whose body leaves at once when [stop] is set does nothing. *)
Lemma for_in_stopped body l st :
  (forall x, body x st = Ok (Break, st)) ->
  for_in l body st = Ok (tt, st).
Proof.
  intros Hbody. destruct l as [|x rest]; simpl; [reflexivity|].
  unfold bind. rewrite Hbody. reflexivity.
Qed.

(** A reflexive and transitive relation that every iteration respects holds
    between the ends of the loop. *)
Lemma for_in_rel (R : crawl_state E -> crawl_state E -> Prop) body l :
  (forall st, R st st) ->
  (forall a b c, R a b -> R b c -> R a c) ->
  (forall x st c st', In x l -> body x st = Ok (c, st') -> R st st') ->
  forall st st', for_in l body st = Ok (tt, st') -> R st st'.
Proof.
  intros Hrefl Htrans. induction l as [|x rest IH]; intros Hbody st st' H.
  - apply ret_inv in H. destruct H as [_ ->]. apply Hrefl.
  - simpl in H. apply bind_inv in H. destruct H as (c & st1 & H1 & H2).
    assert (R st st1) by (eapply Hbody; [left; reflexivity | exact H1]).
    destruct c.
    + eapply Htrans; [eassumption|].
      apply IH; [|exact H2]. intros; eapply Hbody; [right|]; eassumption.
    + apply ret_inv in H2. destruct H2 as [_ ->]. assumption.
Qed.

(** Requests sent by a loop that ends with [stop] unset: every row was
    visited, each at its own cost. *)
Lemma for_in_count (I : crawl_state E -> Prop) (cost : A -> nat) body l :
  (forall x st c st', In x l -> I st -> body x st = Ok (c, st') ->
     I st' /\
     (stop st' = false ->
      stop st = false /\ c = Continue /\
      List.length (requests st') = (List.length (requests st) + cost x)%nat)) ->
  forall st st', I st -> for_in l body st = Ok (tt, st') ->
  I st' /\
  (stop st' = false ->
   stop st = false /\
   List.length (requests st') = (List.length (requests st) + list_sum (map cost l))%nat).
Proof.
  induction l as [|x rest IH]; intros Hbody st st' HI H.
  - apply ret_inv in H. destruct H as [_ ->]. simpl. split; [assumption|].
    intros. split; [assumption | lia].
  - simpl in H. apply bind_inv in H. destruct H as (c & st1 & H1 & H2).
    destruct (Hbody x st c st1 (or_introl eq_refl) HI H1) as (HI1 & Hx).
    destruct c.
    + destruct (IH (fun y s c s' Hy => Hbody y s c s' (or_intror Hy)) _ _ HI1 H2)
        as (HI' & Hrest).
      split; [assumption|]. intros Hstop.
      destruct (Hrest Hstop) as (Hstop1 & Hn).
      destruct (Hx Hstop1) as (Hstop0 & _ & Hn0).
      split; [assumption|]. simpl. lia.
    + apply ret_inv in H2. destruct H2 as [_ ->].
      split; [assumption|]. intros Hstop.
      destruct (Hx Hstop) as (_ & Hc & _). discriminate.
Qed.

End Loops.

Section GrowsBy.
Context {E : Type} (P : E -> Prop).

Lemma grows_by_refl (st : crawl_state E) : grows_by P st st.
Proof. exists []. rewrite app_nil_r. auto. Qed.

Lemma grows_by_trans (a b c : crawl_state E) :
  grows_by P a b -> grows_by P b c -> grows_by P a c.
Proof.
  intros (s1 & H1 & F1) (s2 & H2 & F2). exists (s1 ++ s2).
  rewrite H2, H1, app_assoc. split; [reflexivity|].
  apply Forall_app. auto.
Qed.

Lemma grows_by_same (st st' : crawl_state E) :
  dowload_urls_map st' = dowload_urls_map st -> grows_by P st st'.
Proof. intros H. exists []. rewrite app_nil_r. auto. Qed.

Lemma for_in_grows_by {A} (body : A -> Crawl E control) l :
  (forall x st c st', body x st = Ok (c, st') -> grows_by P st st') ->
  forall st st', for_in l body st = Ok (tt, st') -> grows_by P st st'.
Proof.
  intros Hbody. apply for_in_rel.
  - apply grows_by_refl.
  - apply grows_by_trans.
  - intros x st c st' _. apply Hbody.
Qed.

End GrowsBy.

End CrawlFacts.

(** * The threshold: nothing earlier than it is recorded, and the first
    earlier day ends the crawl *)

Module Threshold.
Import Coes Props CrawlFacts.
Local Open Scope crawl_scope.

Lemma date_inv y m d dd : date y m d = Ok dd -> dd = Dt.mkdate y m d.
Proof.
  unfold date. repeat (destruct (negb _); [discriminate|]).
  intros H. inversion H. reflexivity.
Qed.

Section Grows.
Context {E : Type} (dateof : E -> Dt.date) (T : Dt.date).
Local Abbreviation grows := (grows dateof T).

Lemma grows_refl st : grows st st.
Proof. apply grows_by_refl. Qed.

Lemma grows_trans a b c : grows a b -> grows b c -> grows a c.
Proof. apply grows_by_trans. Qed.

Lemma grows_same st st' :
  dowload_urls_map st' = dowload_urls_map st -> grows st st'.
Proof. apply grows_by_same. Qed.

Lemma for_in_grows {A} (body : A -> Crawl E control) l :
  (forall x st c st', body x st = Ok (c, st') -> grows st st') ->
  forall st st', for_in l body st = Ok (tt, st') -> grows st st'.
Proof. apply for_in_grows_by. Qed.

End Grows.

(** ** [get_urls_prog_dia] *)

Section Prog.
Variables (session : Session) (T : Dt.date).

Lemma prog_link_grows d link st c st' :
  Dt.ltb d T = false ->
  prog_link_body d link st = Ok (c, st') -> grows prog_date T st st'.
Proof.
  intros Hd H. unfold prog_link_body in H. inv_crawl H.
  exists [(d, Py.last_item (Py.split "/" a), a)]. simpl. auto.
Qed.

Lemma prog_day_grows y m row st c st' :
  prog_day_body session T y m row st = Ok (c, st') -> grows prog_date T st st'.
Proof.
  destruct row as [d id]. intros H. unfold prog_day_body in H. inv_crawl H.
  - apply grows_refl.
  - apply grows_same. reflexivity.
  - eapply grows_trans; [apply grows_same|
      eapply for_in_grows; [|eassumption]]; [reflexivity|].
    intros. eapply prog_link_grows; eassumption.
Qed.

Lemma prog_month_grows y row st c st' :
  prog_month_body session T y row st = Ok (c, st') -> grows prog_date T st st'.
Proof.
  destruct row as [m id]. intros H. unfold prog_month_body in H. inv_crawl H.
  - apply grows_refl.
  - eapply grows_trans; [apply grows_same|
      eapply for_in_grows; [|eassumption]]; [reflexivity|].
    intros. eapply prog_day_grows; eassumption.
Qed.

Lemma prog_year_grows row st c st' :
  prog_year_body session T row st = Ok (c, st') -> grows prog_date T st st'.
Proof.
  destruct row as [y id]. intros H. unfold prog_year_body in H. inv_crawl H.
  - apply grows_refl.
  - eapply grows_trans; [apply grows_same|
      eapply for_in_grows; [|eassumption]]; [reflexivity|].
    intros. eapply prog_month_grows; eassumption.
Qed.

Lemma prog_crawl_grows st u st' :
  prog_crawl session T st = Ok (u, st') -> grows prog_date T st st'.
Proof.
  intros H. unfold prog_crawl in H. destruct u. inv_crawl H.
  eapply grows_trans; [apply grows_same|
    eapply for_in_grows; [|eassumption]]; [reflexivity|].
  intros. eapply prog_year_grows; eassumption.
Qed.

(** With [stop] set, each loop body leaves at once. *)
Lemma prog_day_stopped y m row st :
  stop st = true -> prog_day_body session T y m row st = Ok (Break, st).
Proof.
  intros H. destruct row. unfold prog_day_body, bind, get_stop.
  rewrite H. reflexivity.
Qed.

Lemma prog_month_stopped y row st :
  stop st = true -> prog_month_body session T y row st = Ok (Break, st).
Proof.
  intros H. destruct row. unfold prog_month_body, bind, get_stop.
  rewrite H. reflexivity.
Qed.

Lemma prog_year_stopped row st :
  stop st = true -> prog_year_body session T row st = Ok (Break, st).
Proof.
  intros H. destruct row. unfold prog_year_body, bind, get_stop.
  rewrite H. reflexivity.
Qed.

End Prog.

(** ** [get_urls_reprog_dia] *)

Section Reprog.
Variables (session : Session) (T : Dt.date).

Lemma reprog_link_grows d v link st c st' :
  Dt.ltb d T = false ->
  reprog_link_body d v link st = Ok (c, st') -> grows reprog_date T st st'.
Proof.
  intros Hd H. unfold reprog_link_body in H. inv_crawl H.
  exists [(d, v, Py.last_item (Py.split "/" a), a)]. simpl. auto.
Qed.

Lemma reprog_version_grows d row st c st' :
  Dt.ltb d T = false ->
  reprog_version_body session d row st = Ok (c, st') ->
  grows reprog_date T st st'.
Proof.
  destruct row as [v id]. intros Hd H. unfold reprog_version_body in H.
  inv_crawl H.
  - apply grows_refl.
  - eapply grows_trans; [apply grows_same|
      eapply for_in_grows; [|eassumption]]; [reflexivity|].
    intros. eapply reprog_link_grows; eassumption.
Qed.

Lemma reprog_day_grows y m row st c st' :
  reprog_day_body session T y m row st = Ok (c, st') ->
  grows reprog_date T st st'.
Proof.
  destruct row as [d id]. intros H. unfold reprog_day_body in H. inv_crawl H.
  - apply grows_refl.
  - apply grows_same. reflexivity.
  - eapply grows_trans; [apply grows_same|
      eapply for_in_grows; [|eassumption]]; [reflexivity|].
    intros. eapply reprog_version_grows; eassumption.
Qed.

Lemma reprog_month_grows y row st c st' :
  reprog_month_body session T y row st = Ok (c, st') ->
  grows reprog_date T st st'.
Proof.
  destruct row as [m id]. intros H. unfold reprog_month_body in H. inv_crawl H.
  - apply grows_refl.
  - eapply grows_trans; [apply grows_same|
      eapply for_in_grows; [|eassumption]]; [reflexivity|].
    intros. eapply reprog_day_grows; eassumption.
Qed.

Lemma reprog_year_grows row st c st' :
  reprog_year_body session T row st = Ok (c, st') ->
  grows reprog_date T st st'.
Proof.
  destruct row as [y id]. intros H. unfold reprog_year_body in H. inv_crawl H.
  - apply grows_refl.
  - eapply grows_trans; [apply grows_same|
      eapply for_in_grows; [|eassumption]]; [reflexivity|].
    intros. eapply reprog_month_grows; eassumption.
Qed.

Lemma reprog_crawl_grows st u st' :
  reprog_crawl session T st = Ok (u, st') -> grows reprog_date T st st'.
Proof.
  intros H. unfold reprog_crawl in H. destruct u. inv_crawl H.
  eapply grows_trans; [apply grows_same|
    eapply for_in_grows; [|eassumption]]; [reflexivity|].
  intros. eapply reprog_year_grows; eassumption.
Qed.

Lemma reprog_version_stopped d row st :
  stop st = true -> reprog_version_body session d row st = Ok (Break, st).
Proof.
  intros H. destruct row. unfold reprog_version_body, bind, get_stop.
  rewrite H. reflexivity.
Qed.

Lemma reprog_day_stopped y m row st :
  stop st = true -> reprog_day_body session T y m row st = Ok (Break, st).
Proof.
  intros H. destruct row. unfold reprog_day_body, bind, get_stop.
  rewrite H. reflexivity.
Qed.

Lemma reprog_month_stopped y row st :
  stop st = true -> reprog_month_body session T y row st = Ok (Break, st).
Proof.
  intros H. destruct row. unfold reprog_month_body, bind, get_stop.
  rewrite H. reflexivity.
Qed.

Lemma reprog_year_stopped row st :
  stop st = true -> reprog_year_body session T row st = Ok (Break, st).
Proof.
  intros H. destruct row. unfold reprog_year_body, bind, get_stop.
  rewrite H. reflexivity.
Qed.

End Reprog.

End Threshold.

(** * Descending order: the sort of each level and the order of the result *)

Module Order.
Import Coes Props CrawlFacts.
Local Open Scope crawl_scope.

(** ** [sorted(..., reverse=True)] *)

Section Sorted.
Context {K A : Type} (ltb : K -> K -> bool) (key : A -> K).
Hypothesis ltb_asym : forall a b, ltb a b = true -> ltb b a = false.
Hypothesis ltb_ntrans :
  forall a b c, ltb a b = false -> ltb b c = false -> ltb a c = false.

Local Abbreviation ge := (key_ge ltb key).

Lemma insert_desc_perm x l : Permutation (x :: l) (insert_desc ltb key x l).
Proof.
  induction l as [|y l IH]; simpl; [reflexivity|].
  destruct (ltb (key x) (key y)); [|reflexivity].
  rewrite perm_swap. apply perm_skip. exact IH.
Qed.

Lemma sorted_desc_perm l : Permutation l (sorted_desc ltb key l).
Proof.
  induction l as [|x l IH]; simpl; [constructor|].
  rewrite <- insert_desc_perm. apply perm_skip. exact IH.
Qed.

Lemma insert_desc_sorted x l :
  StronglySorted ge l -> StronglySorted ge (insert_desc ltb key x l).
Proof.
  induction 1 as [|y l Hs IH Hy]; simpl.
  - repeat constructor.
  - destruct (ltb (key x) (key y)) eqn:Hxy.
    + constructor; [exact IH|].
      apply (Permutation_Forall (insert_desc_perm x l)).
      constructor; [|exact Hy]. apply ltb_asym. exact Hxy.
    + constructor; [constructor; assumption|].
      constructor; [exact Hxy|].
      eapply Forall_impl; [|exact Hy]. intros z Hz.
      eapply ltb_ntrans; eassumption.
Qed.

Lemma sorted_desc_sorted l : StronglySorted ge (sorted_desc ltb key l).
Proof.
  induction l as [|x l IH]; simpl; [constructor|].
  apply insert_desc_sorted. exact IH.
Qed.

(** The sort is stable: rows of one key come out in their listing order. *)
Lemma insert_desc_filter (p : A -> bool) x l :
  (forall y, p x = true -> p y = true -> ltb (key x) (key y) = false) ->
  filter p (insert_desc ltb key x l) = filter p (x :: l).
Proof.
  intros Hp. induction l as [|y l IH]; simpl; [reflexivity|].
  destruct (ltb (key x) (key y)) eqn:Hxy; [|reflexivity].
  simpl. rewrite IH. simpl.
  destruct (p x) eqn:Hx, (p y) eqn:Hy; try reflexivity.
  rewrite (Hp y eq_refl Hy) in Hxy. discriminate.
Qed.

End Sorted.

(** ** The two key orders: integers and version labels *)

Lemma Z_ltb_asym a b : (a <? b) = true -> (b <? a) = false.
Proof. lia. Qed.

Lemma Z_ltb_ntrans a b c : (a <? b) = false -> (b <? c) = false -> (a <? c) = false.
Proof. lia. Qed.

Lemma ascii_compare_refl c : Ascii.compare c c = Eq.
Proof. unfold Ascii.compare. apply N.compare_refl. Qed.

Lemma string_compare_refl s : String.compare s s = Eq.
Proof.
  induction s as [|c s IH]; simpl; [reflexivity|].
  rewrite ascii_compare_refl. exact IH.
Qed.

Lemma string_ltb_irrefl s : String.ltb s s = false.
Proof. unfold String.ltb. rewrite string_compare_refl. reflexivity. Qed.

Lemma string_ltb_asym a b : String.ltb a b = true -> String.ltb b a = false.
Proof.
  unfold String.ltb. rewrite (String.compare_antisym b a).
  destruct (String.compare a b); simpl; congruence.
Qed.

(** [a < b] and [b <= c] give [a < c], on characters then on strings. *)
Lemma ascii_compare_lt_trans a b c :
  Ascii.compare a b = Lt -> Ascii.compare b c <> Gt -> Ascii.compare a c = Lt.
Proof.
  unfold Ascii.compare. rewrite !N.compare_lt_iff, N.compare_gt_iff. lia.
Qed.

Lemma string_compare_lt_le a : forall b c,
  String.compare a c = Lt -> String.compare b c <> Lt -> String.compare a b = Lt.
Proof.
  induction a as [|x a IH]; intros [|y b] [|z c]; simpl; try congruence.
  unfold Ascii.compare.
  destruct (N.compare_spec (N_of_ascii x) (N_of_ascii z)) as [Hxz|Hxz|Hxz];
    destruct (N.compare_spec (N_of_ascii y) (N_of_ascii z)) as [Hyz|Hyz|Hyz];
    destruct (N.compare_spec (N_of_ascii x) (N_of_ascii y)) as [Hxy|Hxy|Hxy];
    try congruence; try lia.
  apply IH.
Qed.

Lemma string_ltb_ntrans a b c :
  String.ltb a b = false -> String.ltb b c = false -> String.ltb a c = false.
Proof.
  unfold String.ltb. intros Hab Hbc.
  destruct (String.compare a c) eqn:Hac; try reflexivity.
  rewrite (string_compare_lt_le a b c Hac) in Hab; [discriminate|].
  destruct (String.compare b c); congruence.
Qed.

(** ** Sorted segments laid end to end *)

Lemma StronglySorted_prefix {A} (ordA : A -> A -> Prop) (l1 l2 : list A) :
  StronglySorted ordA (l1 ++ l2) -> StronglySorted ordA l1.
Proof.
  induction l1 as [|x l1 IH]; simpl; intros H; [constructor|].
  apply StronglySorted_inv in H. destruct H as [Hs Hx].
  constructor; [apply IH; exact Hs|].
  apply Forall_app in Hx. tauto.
Qed.


Section Concat.
Context {A E : Type} (ord : A -> A -> Prop) (P : A -> E -> Prop)
        (R : E -> E -> Prop).

Lemma StronglySorted_app (a b : list E) :
  StronglySorted R a -> StronglySorted R b ->
  (forall e1 e2, In e1 a -> In e2 b -> R e1 e2) ->
  StronglySorted R (a ++ b).
Proof.
  induction 1 as [|x a Ha IH Hx]; intros Hb Hab; simpl; [exact Hb|].
  constructor.
  - apply IH; [exact Hb|]. intros; apply Hab; [right|]; assumption.
  - apply Forall_app. split; [exact Hx|].
    apply Forall_forall. intros e He. apply Hab; [left; reflexivity | exact He].
Qed.

(** A segment whose entries all have the same rank is sorted. *)
Lemma StronglySorted_same (Q : E -> Prop) (seg : list E) :
  (forall e1 e2, Q e1 -> Q e2 -> R e1 e2) ->
  Forall Q seg -> StronglySorted R seg.
Proof.
  intros HQ. induction 1 as [|e seg He Hseg IH]; constructor; [exact IH|].
  eapply Forall_impl; [|exact Hseg]. intros; apply HQ; assumption.
Qed.

End Concat.

(** ** Rows sorted by an integer key *)

Lemma StronglySorted_impl {X} (R1 R2 : X -> X -> Prop) (l : list X) :
  (forall a b, R1 a b -> R2 a b) -> StronglySorted R1 l -> StronglySorted R2 l.
Proof.
  intros H. induction 1 as [|a l Hs IH Ha]; constructor; [exact IH|].
  eapply Forall_impl; [|exact Ha]. apply H.
Qed.

Lemma sorted_rows_ge (rows : list (Z * string)) :
  StronglySorted row_ge (sorted_desc Z.ltb fst rows).
Proof.
  eapply StronglySorted_impl;
    [|apply (sorted_desc_sorted Z.ltb fst Z_ltb_asym Z_ltb_ntrans)].
  unfold row_ge, key_ge. intros a b H. lia.
Qed.

Lemma sorted_rows_gt (rows : list (Z * string)) :
  NoDup (map fst rows) ->
  StronglySorted row_gt (sorted_desc Z.ltb fst rows).
Proof.
  intros Hnd.
  assert (Hnd' : NoDup (map fst (sorted_desc Z.ltb fst rows))).
  { eapply Permutation_NoDup; [|exact Hnd].
    apply Permutation_map, sorted_desc_perm. }
  generalize (sorted_rows_ge rows). revert Hnd'.
  generalize (sorted_desc Z.ltb fst rows) as l.
  induction l as [|a l IH]; intros Hnd' Hs; [constructor|].
  apply StronglySorted_inv in Hs. destruct Hs as [Hs Ha].
  simpl in Hnd'. apply NoDup_cons_iff in Hnd'. destruct Hnd' as [Hin Hnd'].
  constructor; [apply IH; assumption|].
  rewrite Forall_forall in Ha |- *. intros b Hb.
  specialize (Ha b Hb). unfold row_ge in Ha. unfold row_gt.
  assert (fst b <> fst a).
  { intros Heq. apply Hin. rewrite <- Heq. apply in_map. exact Hb. }
  lia.
Qed.

(** ** Dates of one month, of one year, of different years *)

Lemma date_same_month y m d1 d2 :
  d2 <= d1 -> Dt.ltb (Dt.mkdate y m d1) (Dt.mkdate y m d2) = false.
Proof. unfold Dt.ltb. simpl. lia. Qed.

Lemma date_same_year (a b : Dt.date) :
  Dt.year a = Dt.year b -> Dt.month b < Dt.month a -> Dt.ltb a b = false.
Proof. unfold Dt.ltb. lia. Qed.

Lemma date_later_year (a b : Dt.date) :
  Dt.year b < Dt.year a -> Dt.ltb a b = false.
Proof. unfold Dt.ltb. lia. Qed.

Lemma date_ltb_irrefl (a : Dt.date) : Dt.ltb a a = false.
Proof. unfold Dt.ltb. lia. Qed.

(** ** Later dates, and rows sorted by a version label *)

Lemma date_earlier_day y m d1 d2 :
  d2 < d1 -> Dt.ltb (Dt.mkdate y m d2) (Dt.mkdate y m d1) = true.
Proof. unfold Dt.ltb. simpl. lia. Qed.

Lemma date_earlier_month (a b : Dt.date) :
  Dt.year a = Dt.year b -> Dt.month b < Dt.month a -> Dt.ltb b a = true.
Proof. unfold Dt.ltb. lia. Qed.

Lemma date_earlier_year (a b : Dt.date) :
  Dt.year b < Dt.year a -> Dt.ltb b a = true.
Proof. unfold Dt.ltb. lia. Qed.

Lemma sorted_labels_ge (rows : list (string * string)) :
  StronglySorted label_ge (sorted_desc String.ltb fst rows).
Proof.
  apply (sorted_desc_sorted String.ltb fst string_ltb_asym string_ltb_ntrans).
Qed.

(** ** The sort keeps the listing order of the rows of one key *)

Lemma sorted_rows_stable (rows : list (Z * string)) (k : Z) :
  filter (fun r => fst r =? k) (sorted_desc Z.ltb fst rows)
  = filter (fun r => fst r =? k) rows.
Proof.
  induction rows as [|x rows IH]; [reflexivity|].
  cbn [sorted_desc fold_right]. fold (sorted_desc Z.ltb fst rows).
  rewrite insert_desc_filter by (intros; lia).
  simpl. rewrite IH. reflexivity.
Qed.

Lemma sorted_labels_stable (rows : list (string * string)) (v : string) :
  filter (fun r => String.eqb (fst r) v) (sorted_desc String.ltb fst rows)
  = filter (fun r => String.eqb (fst r) v) rows.
Proof.
  induction rows as [|x rows IH]; [reflexivity|].
  cbn [sorted_desc fold_right]. fold (sorted_desc String.ltb fst rows).
  rewrite insert_desc_filter.
  - simpl. rewrite IH. reflexivity.
  - intros y Hx Hy. apply String.eqb_eq in Hx, Hy. rewrite Hx, Hy.
    apply string_ltb_irrefl.
Qed.

End Order.

(** * The requests of a full crawl *)

Module Count.
Import Coes Props CrawlFacts Order.
Local Open Scope crawl_scope.
Local Open Scope nat_scope.

Lemma dict_set_twice {V} (d : Py.dict V) k a b :
  Py.dict_set (Py.dict_set d k a) k b = Py.dict_set d k b.
Proof.
  induction d as [|[k' v] d IH]; simpl.
  - rewrite String.eqb_refl. reflexivity.
  - destruct (String.eqb k' k) eqn:Hk; simpl.
    + rewrite String.eqb_refl. reflexivity.
    + rewrite Hk, IH. reflexivity.
Qed.

Lemma same_base_refl base : same_base base base.
Proof. intros id. reflexivity. Qed.

Lemma same_base_set base p id :
  same_base base p -> same_base base (Py.dict_set p "url" id).
Proof. intros H id'. rewrite dict_set_twice. apply H. Qed.

(** The rows of a listing: one per entry, with the identifier of each. *)
Lemma comprehension_ids {K} (key : string -> result K) tags rows :
  comprehension
    (fun row => (id <- attr row "id" ;; k <- key id ;; Ok (k, id))%result)
    tags = Ok rows ->
  map snd rows = tag_ids tags.
Proof.
  revert rows. induction tags as [|t tags IH]; simpl; intros rows H.
  - inversion H. reflexivity.
  - unfold attr in H. destruct (Py.dict_get t "id") as [id|]; simpl in H;
      [|discriminate].
    destruct (key id) as [k|]; simpl in H; [|discriminate].
    destruct (comprehension _ tags) as [ys|] eqn:Hys; simpl in H;
      [|discriminate].
    inversion H. subst. simpl. f_equal. apply IH. reflexivity.
Qed.

Lemma row_ids_ids {K} (key : string -> result K) bs rows :
  row_ids key bs = Ok rows -> map snd rows = tag_ids (infolist_links bs).
Proof. apply comprehension_ids. Qed.

Lemma list_sum_perm l l' : Permutation l l' -> list_sum l = list_sum l'.
Proof. induction 1; simpl; lia. Qed.

(** The cost summed over the sorted rows is the cost summed over the
    entries of the listing. *)
Lemma sorted_rows_cost {K} (ltb : K -> K -> bool) (cost : string -> nat)
    (rows : list (K * string)) :
  list_sum (map (fun row => cost (snd row)) (sorted_desc ltb fst rows))
  = list_sum (map cost (map snd rows)).
Proof.
  rewrite map_map. apply list_sum_perm, Permutation_map, Permutation_sym.
  apply sorted_desc_perm.
Qed.

Lemma list_sum_const {A} (c : nat) (l : list A) :
  list_sum (map (fun _ => c) l) = List.length l * c.
Proof. induction l; simpl; lia. Qed.

Lemma list_sum_map_ext {A} (f g : A -> nat) (l : list A) :
  (forall x, In x l -> f x = g x) -> list_sum (map f l) = list_sum (map g l).
Proof.
  induction l as [|x l IH]; intros H; simpl; [reflexivity|].
  rewrite (H x (or_introl eq_refl)), IH; [reflexivity|].
  intros; apply H; right; assumption.
Qed.

Lemma list_sum_map_add {A} (c : nat) (f : A -> nat) (l : list A) :
  list_sum (map (fun x => c + f x) l) = List.length l * c + list_sum (map f l).
Proof. induction l; simpl; lia. Qed.

Section Levels.
Context {E : Type} (session : Session) (base : Py.dict string).

Lemma counts_stopped (cost : nat) (st : crawl_state E) c :
  same_base base (params st) -> stop st = true -> counts base cost st c st.
Proof. intros Hb Hs. split; [exact Hb|]. congruence. Qed.

(** A loop over the sorted rows of the listing of [id], each row visited at
    the cost of its subtree, costs what the subtree of [id] costs, less
    the request for the listing itself. *)
Lemma for_in_subtree {K} (ltb : K -> K -> bool)
    (body : K * string -> Crawl E control) (key : string -> result K)
    (depth : nat) (id : string) (response : Response) rows st st' :
  page session base id = Ok response ->
  row_ids key (text response) = Ok rows ->
  (forall row s c s', same_base base (params s) -> body row s = Ok (c, s') ->
     counts base (subtree_requests session base depth (snd row)) s c s') ->
  for_in (sorted_desc ltb fst rows) body st = Ok (tt, st') ->
  same_base base (params st) ->
  same_base base (params st') /\
  (stop st' = false ->
   stop st = false /\
   1 + List.length (requests st') =
   List.length (requests st) + subtree_requests session base (S depth) id).
Proof.
  intros Hpage Hrows Hbody Hloop Hbase.
  destruct (for_in_count (fun s => same_base base (params s))
              (fun row => subtree_requests session base depth (snd row))
              body _ (fun x s c s' _ Hs Hx => Hbody x s c s' Hs Hx)
              st st' Hbase Hloop) as [Hbase' Hn].
  split; [exact Hbase'|]. intros Hstop.
  destruct (Hn Hstop) as [Hstop0 Hlen]. split; [exact Hstop0|].
  rewrite Hlen, sorted_rows_cost. simpl.
  unfold child_entries, entries_of. rewrite Hpage.
  rewrite (row_ids_ids _ _ _ Hrows). lia.
Qed.

End Levels.

(** ** [get_urls_prog_dia] *)

Ltac stopped_case :=
  solve [apply counts_stopped; assumption].

Section Prog.
Variables (session : Session) (T : Dt.date).
Local Abbreviation base := prog_params.

Lemma prog_link_frame d link st c st' :
  prog_link_body d link st = Ok (c, st') -> frame st st'.
Proof.
  intros H. unfold prog_link_body in H. inv_crawl H. repeat split.
Qed.

Lemma prog_links_frame d links st st' :
  for_in links (prog_link_body d) st = Ok (tt, st') -> frame st st'.
Proof.
  apply for_in_rel.
  - intros s. repeat split.
  - intros a b c (H1 & H2 & H3) (H4 & H5 & H6). repeat split; congruence.
  - intros x s c s' _. apply prog_link_frame.
Qed.

Lemma prog_day_counts y m row st c st' :
  same_base base (params st) ->
  prog_day_body session T y m row st = Ok (c, st') ->
  counts base (subtree_requests session base 0 (snd row)) st c st'.
Proof.
  destruct row as [d id]. intros Hbase H. unfold prog_day_body in H.
  inv_crawl H; try stopped_case.
  - split; [apply same_base_set; exact Hbase|]. simpl. discriminate.
  - apply prog_links_frame in Hc. destruct Hc as (Hp & Hs & Hr'). simpl in *.
    split; [rewrite Hp; apply same_base_set; exact Hbase|].
    rewrite Hs, Hr', length_app. simpl. intros Hstop. auto.
Qed.

Lemma prog_month_counts y row st c st' :
  same_base base (params st) ->
  prog_month_body session T y row st = Ok (c, st') ->
  counts base (subtree_requests session base 1 (snd row)) st c st'.
Proof.
  destruct row as [m id]. intros Hbase H. unfold prog_month_body in H.
  inv_crawl H; try stopped_case.
  simpl in Hpost. rewrite (Hbase id) in Hpost.
  match goal with Hloop : for_in _ _ _ = Ok _ |- _ =>
    destruct (for_in_subtree session base Z.ltb _ _ 0 id _ _ _ _ Hpost Hr0
                (prog_day_counts y m) Hloop (same_base_set _ _ id Hbase))
      as [Hbase' Hn]
  end.
  split; [exact Hbase'|]. intros Hstop.
  destruct (Hn Hstop) as [Hstop0 Hlen]. simpl in Hstop0, Hlen.
  rewrite length_app in Hlen. simpl in Hlen.
  split; [exact Hstop0|]. split; [reflexivity|]. simpl. lia.
Qed.

Lemma prog_year_counts row st c st' :
  same_base base (params st) ->
  prog_year_body session T row st = Ok (c, st') ->
  counts base (subtree_requests session base 2 (snd row)) st c st'.
Proof.
  destruct row as [y id]. intros Hbase H. unfold prog_year_body in H.
  inv_crawl H; try stopped_case.
  simpl in Hpost. rewrite (Hbase id) in Hpost.
  match goal with Hloop : for_in _ _ _ = Ok _ |- _ =>
    destruct (for_in_subtree session base Z.ltb _ _ 1 id _ _ _ _ Hpost Hr0
                (prog_month_counts y) Hloop (same_base_set _ _ id Hbase))
      as [Hbase' Hn]
  end.
  split; [exact Hbase'|]. intros Hstop.
  destruct (Hn Hstop) as [Hstop0 Hlen]. simpl in Hstop0, Hlen.
  rewrite length_app in Hlen. simpl in Hlen.
  split; [exact Hstop0|]. split; [reflexivity|]. simpl. lia.
Qed.

Lemma prog_run_requests st :
  prog_run session T = Ok st ->
  stop st = false ->
  List.length (requests st) = full_crawl_requests session base 2.
Proof.
  unfold prog_run.
  destruct (prog_crawl session T (initial_state prog_params))
    as [[[] st']|e] eqn:H; [|discriminate].
  intros Heq Hstop. inversion Heq. subst st'. clear Heq.
  unfold prog_crawl in H. inv_crawl H. simpl in Hpost.
  match goal with Hloop : for_in _ _ _ = Ok _ |- _ =>
    pose proof (fun HI =>
      for_in_count (fun s => same_base base (params s))
        (fun row => subtree_requests session base 2 (snd row))
        _ _ (fun x s c s' _ Hs Hx => prog_year_counts x s c s' Hs Hx)
        _ _ HI Hloop) as Hcount
  end.
  destruct (Hcount (same_base_refl base)) as [_ Hn].
  destruct (Hn Hstop) as [_ Hlen]. rewrite Hlen, sorted_rows_cost.
  unfold full_crawl_requests, root_entries, entries_of. rewrite Hpost.
  rewrite (row_ids_ids _ _ _ Hr0). reflexivity.
Qed.

End Prog.

(** ** [get_urls_reprog_dia] *)

Section Reprog.
Variables (session : Session) (T : Dt.date).
Local Abbreviation base := reprog_params.

Lemma reprog_link_frame d v link st c st' :
  reprog_link_body d v link st = Ok (c, st') -> frame st st'.
Proof.
  intros H. unfold reprog_link_body in H. inv_crawl H. repeat split.
Qed.

Lemma reprog_links_frame d v links st st' :
  for_in links (reprog_link_body d v) st = Ok (tt, st') -> frame st st'.
Proof.
  apply for_in_rel.
  - intros s. repeat split.
  - intros a b c (H1 & H2 & H3) (H4 & H5 & H6). repeat split; congruence.
  - intros x s c s' _. apply reprog_link_frame.
Qed.

Lemma reprog_version_counts d row st c st' :
  same_base base (params st) ->
  reprog_version_body session d row st = Ok (c, st') ->
  counts base (subtree_requests session base 0 (snd row)) st c st'.
Proof.
  destruct row as [v id]. intros Hbase H. unfold reprog_version_body in H.
  inv_crawl H; try stopped_case.
  apply reprog_links_frame in Hc. destruct Hc as (Hp & Hs & Hr'). simpl in *.
  split; [rewrite Hp; apply same_base_set; exact Hbase|].
  rewrite Hs, Hr', length_app. simpl. intros Hstop. auto.
Qed.

Lemma reprog_day_counts y m row st c st' :
  same_base base (params st) ->
  reprog_day_body session T y m row st = Ok (c, st') ->
  counts base (subtree_requests session base 1 (snd row)) st c st'.
Proof.
  destruct row as [d id]. intros Hbase H. unfold reprog_day_body in H.
  inv_crawl H; try stopped_case.
  - split; [apply same_base_set; exact Hbase|]. simpl. discriminate.
  - simpl in Hpost. rewrite (Hbase id) in Hpost.
    match goal with Hloop : for_in _ _ _ = Ok _ |- _ =>
      destruct (for_in_subtree session base String.ltb _ _ 0 id _ _ _ _
                  Hpost Hr1 (reprog_version_counts _) Hloop
                  (same_base_set _ _ id Hbase)) as [Hbase' Hn]
    end.
    split; [exact Hbase'|]. intros Hstop.
    destruct (Hn Hstop) as [Hstop0 Hlen]. simpl in Hstop0, Hlen.
    rewrite length_app in Hlen. simpl in Hlen.
    split; [exact Hstop0|]. split; [reflexivity|]. simpl. lia.
Qed.

Lemma reprog_month_counts y row st c st' :
  same_base base (params st) ->
  reprog_month_body session T y row st = Ok (c, st') ->
  counts base (subtree_requests session base 2 (snd row)) st c st'.
Proof.
  destruct row as [m id]. intros Hbase H. unfold reprog_month_body in H.
  inv_crawl H; try stopped_case.
  simpl in Hpost. rewrite (Hbase id) in Hpost.
  match goal with Hloop : for_in _ _ _ = Ok _ |- _ =>
    destruct (for_in_subtree session base Z.ltb _ _ 1 id _ _ _ _ Hpost Hr0
                (reprog_day_counts y m) Hloop (same_base_set _ _ id Hbase))
      as [Hbase' Hn]
  end.
  split; [exact Hbase'|]. intros Hstop.
  destruct (Hn Hstop) as [Hstop0 Hlen]. simpl in Hstop0, Hlen.
  rewrite length_app in Hlen. simpl in Hlen.
  split; [exact Hstop0|]. split; [reflexivity|]. simpl. lia.
Qed.

Lemma reprog_year_counts row st c st' :
  same_base base (params st) ->
  reprog_year_body session T row st = Ok (c, st') ->
  counts base (subtree_requests session base 3 (snd row)) st c st'.
Proof.
  destruct row as [y id]. intros Hbase H. unfold reprog_year_body in H.
  inv_crawl H; try stopped_case.
  simpl in Hpost. rewrite (Hbase id) in Hpost.
  match goal with Hloop : for_in _ _ _ = Ok _ |- _ =>
    destruct (for_in_subtree session base Z.ltb _ _ 2 id _ _ _ _ Hpost Hr0
                (reprog_month_counts y) Hloop (same_base_set _ _ id Hbase))
      as [Hbase' Hn]
  end.
  split; [exact Hbase'|]. intros Hstop.
  destruct (Hn Hstop) as [Hstop0 Hlen]. simpl in Hstop0, Hlen.
  rewrite length_app in Hlen. simpl in Hlen.
  split; [exact Hstop0|]. split; [reflexivity|]. simpl. lia.
Qed.

Lemma reprog_run_requests st :
  reprog_run session T = Ok st ->
  stop st = false ->
  List.length (requests st) = full_crawl_requests session base 3.
Proof.
  unfold reprog_run.
  destruct (reprog_crawl session T (initial_state reprog_params))
    as [[[] st']|e] eqn:H; [|discriminate].
  intros Heq Hstop. inversion Heq. subst st'. clear Heq.
  unfold reprog_crawl in H. inv_crawl H. simpl in Hpost.
  match goal with Hloop : for_in _ _ _ = Ok _ |- _ =>
    pose proof (fun HI =>
      for_in_count (fun s => same_base base (params s))
        (fun row => subtree_requests session base 3 (snd row))
        _ _ (fun x s c s' _ Hs Hx => reprog_year_counts x s c s' Hs Hx)
        _ _ HI Hloop) as Hcount
  end.
  destruct (Hcount (same_base_refl base)) as [_ Hn].
  destruct (Hn Hstop) as [_ Hlen]. rewrite Hlen, sorted_rows_cost.
  unfold full_crawl_requests, root_entries, entries_of. rewrite Hpost.
  rewrite (row_ids_ids _ _ _ Hr0). reflexivity.
Qed.

End Reprog.

(** ** A uniform tree *)

Section Uniform.
Variables (session : Session) (base : Py.dict string) (N M D : nat).
Hypothesis uniform : uniform_listing session base N M D.

Lemma uniform_requests_days :
  full_crawl_requests session base 2 = 1 + N + N * M + N * M * D.
Proof.
  destruct uniform as (HN & HM & HD).
  unfold full_crawl_requests.
  rewrite (list_sum_map_ext _ (fun _ => 1 + M * (1 + D))).
  - rewrite list_sum_const, HN. lia.
  - intros y Hy. simpl. f_equal.
    rewrite (list_sum_map_ext _ (fun _ => 1 + D)).
    + rewrite list_sum_const, (HM y Hy). lia.
    + intros m Hm. simpl. f_equal.
      rewrite list_sum_const, (HD y m Hy Hm). lia.
Qed.

Lemma uniform_requests_versions :
  full_crawl_requests session base 3
  = 1 + N + N * M + N * M * D + version_entries session base.
Proof.
  destruct uniform as (HN & HM & HD).
  unfold full_crawl_requests, version_entries.
  rewrite (list_sum_map_ext _
    (fun y => (1 + M * (1 + D)) +
       list_sum (map (fun m =>
         list_sum (map (fun d => List.length (child_entries session base d))
                       (child_entries session base m)))
         (child_entries session base y)))).
  - rewrite list_sum_map_add, HN. lia.
  - intros y Hy. simpl.
    rewrite (list_sum_map_ext _
      (fun m => (1 + D) +
         list_sum (map (fun d => List.length (child_entries session base d))
                       (child_entries session base m)))).
    + rewrite list_sum_map_add, (HM y Hy). lia.
    + intros m Hm. simpl.
      rewrite (list_sum_map_ext _
        (fun d => 1 + List.length (child_entries session base d))).
      * rewrite list_sum_map_add, (HD y m Hy Hm). lia.
      * intros d Hd. simpl. rewrite list_sum_const. lia.
Qed.

End Uniform.

End Count.

(** * The tables: the program's normalisation against its row-by-row
    description *)

Module Tables.
Import Coes Props.
Local Open Scope result_scope.

(** ** Positions in a row *)

Lemma remove_nth_map {A B} (f : A -> B) (i : nat) (l : list A) :
  Pd.remove_nth i (map f l) = map f (Pd.remove_nth i l).
Proof.
  revert i. induction l as [|x l IH]; intros [|i]; simpl; try reflexivity.
  rewrite IH. reflexivity.
Qed.

Lemma remove_replace_nth {A} (i : nat) (x : A) (l : list A) :
  Pd.remove_nth i (Pd.replace_nth i x l) = Pd.remove_nth i l.
Proof.
  revert i. induction l as [|y l IH]; intros [|i]; simpl; try reflexivity.
  rewrite IH. reflexivity.
Qed.


(** The value at [i] after a replacement there: the new value, or nothing
    when the row is too short to have one. *)
Lemma nth_replace_nth (i : nat) (x : Pd.cell) (l : list Pd.cell) :
  nth i (Pd.replace_nth i x l) Pd.NA
  = if (i <? List.length l)%nat then x else Pd.NA.
Proof.
  revert i. induction l as [|y l IH]; intros [|i]; simpl; try reflexivity.
  rewrite IH. reflexivity.
Qed.

Lemma nth_short (i : nat) (l : list Pd.cell) :
  (i <? List.length l)%nat = false -> nth i l Pd.NA = Pd.NA.
Proof.
  intros H. apply Nat.ltb_ge in H. apply nth_overflow. exact H.
Qed.

Lemma nth_text_cell (i : nat) (r : list (option string)) :
  nth i (map Pd.text_cell r) Pd.NA = Pd.text_cell (nth i r None).
Proof. apply (map_nth Pd.text_cell r None i). Qed.

(** ** Positions of a column name *)

Lemma positions_from name cols k i :
  In i (Pd.positions name cols k) -> (k <= i)%nat.
Proof.
  revert k. induction cols as [|c cols IH]; intros k; simpl; [tauto|].
  destruct (String.eqb c name); simpl; intros H;
    [destruct H as [<-|H]; [lia|]|]; apply IH in H; lia.
Qed.

Lemma positions_none name cols k :
  Pd.positions name cols k = [] -> existsb (String.eqb name) cols = false.
Proof.
  revert k. induction cols as [|c cols IH]; intros k; simpl; [reflexivity|].
  rewrite (String.eqb_sym name c).
  destruct (String.eqb c name); [discriminate|]. apply IH.
Qed.

(** With the only column of the name taken out, none has it. *)
Lemma positions_one_removed name cols k pos :
  Pd.positions name cols k = [pos] ->
  existsb (String.eqb name) (Pd.remove_nth (pos - k) cols) = false.
Proof.
  revert k. induction cols as [|c cols IH]; intros k; simpl; [discriminate|].
  destruct (String.eqb c name) eqn:Hc; intros H.
  - inversion H as [[Hk Hrest]]. rewrite Nat.sub_diag.
    eapply positions_none. exact Hrest.
  - assert (Hle : (S k <= pos)%nat).
    { eapply positions_from. rewrite H. left. reflexivity. }
    replace (pos - k)%nat with (S (pos - S k)) by lia. simpl.
    rewrite (String.eqb_sym name c), Hc. apply IH. exact H.
Qed.

(** ** White space at the ends of a header *)








(** ** [get_medidores_generacion] *)

Section Medidores.
Context {L : Pd.Library}.

Lemma parse_replace format pos (v : list Pd.cell) s :
  Pd.to_datetime_scalar format (nth pos v Pd.NA) = Ok s ->
  nth pos (Pd.replace_nth pos s v) Pd.NA = s.
Proof.
  intros H. rewrite nth_replace_nth.
  destruct (pos <? List.length v)%nat eqn:Hlen; [reflexivity|].
  rewrite (nth_short _ _ Hlen) in H. simpl in H. inversion H. reflexivity.
Qed.

Lemma medidores_rows_spec pos (raw_rows : list (list (option string))) : forall k,
  Pd.traverse (medidores_row pos) raw_rows
  = (stamps <-
       Pd.traverse (Pd.to_datetime_scalar "%d/%m/%Y %H:%M")
         (map (fun r => nth pos (Pd.values r) Pd.NA)
              (Pd.index_from k (map (map Pd.text_cell) raw_rows))) ;;
     Ok (map (fun r => Pd.label r :: Pd.values r)
           (medidores_rows pos
              (Pd.index_from k (map (map Pd.text_cell) raw_rows)) stamps))).
Proof.
  induction raw_rows as [|r rest IH]; intros k; [reflexivity|].
  cbn [Pd.traverse map Pd.index_from Pd.values].
  unfold medidores_row at 1. rewrite <- nth_text_cell.
  destruct (Pd.to_datetime_scalar "%d/%m/%Y %H:%M"
              (nth pos (map Pd.text_cell r) Pd.NA)) as [s|e] eqn:Hs;
    [|reflexivity].
  cbn [rbind]. rewrite (IH (k + 1)).
  destruct (Pd.traverse _ (map _ (Pd.index_from (k + 1) _))) as [stamps|e];
    [|reflexivity].
  cbn [rbind]. unfold medidores_rows. cbn [combine map fst snd Pd.label Pd.values].
  rewrite (parse_replace _ _ _ _ Hs), remove_replace_nth, remove_nth_map.
  rewrite <- (map_map Pd.text_cell Pd.to_numeric_coerce).
  reflexivity.
Qed.

Lemma filter_map_comm {A B} (f : A -> B) (p : B -> bool) (l : list A) :
  filter p (map f l) = map f (filter (fun x => p (f x)) l).
Proof.
  induction l as [|x l IH]; simpl; [reflexivity|].
  destruct (p (f x)); simpl; rewrite IH; reflexivity.
Qed.

(** The normalisation of the program is the one described row by row. *)
Lemma medidores_table_spec (res : Response) :
  medidores_table res
  = match read_csv (text res) with
    | Some raw => medidores_spec raw
    | None => Raise (PandasError "ParserError" "Error tokenizing data")
    end.
Proof.
  unfold medidores_table. destruct (read_csv (text res)) as [raw|]; [|reflexivity].
  cbn [rbind]. unfold medidores_spec, Pd.getitem, Pd.of_raw.
  cbn [Pd.columns Pd.rows Pd.index_name].
  destruct (Pd.positions "fechahora" _ 0) as [|pos [|pos' more]] eqn:Hpos;
    try reflexivity.
  cbn [rbind Pd.to_datetime]. unfold Pd.default_index at 1.
  rewrite (medidores_rows_spec pos (raw_rows raw) 0).
  destruct (Pd.traverse _ _) as [stamps|e]; [|reflexivity].
  cbn [rbind]. unfold Pd.set_index, Pd.setitem.
  cbn [Pd.columns Pd.rows Pd.index_name]. rewrite Hpos.
  cbn [rbind]. unfold Pd.reset_index, Pd.dropna_all, Pd.apply_rows.
  cbn [Pd.columns Pd.rows Pd.index_name].
  pose proof (positions_one_removed _ _ _ _ Hpos) as Hgone.
  rewrite Nat.sub_0_r in Hgone. rewrite Hgone.
  rewrite (filter_map_comm (fun r => Pd.label r :: Pd.values r)).
  reflexivity.
Qed.


End Medidores.

(** ** [process_demanda_ejecutado] *)

Section Demanda.
Context {L : Pd.Library}.










End Demanda.


Lemma positions_absent name cols k :
  existsb (String.eqb name) cols = false -> Pd.positions name cols k = [].
Proof.
  revert k. induction cols as [|c cols IH]; intros k; simpl; [reflexivity|].
  rewrite (String.eqb_sym name c).
  destruct (String.eqb c name); [discriminate|]. apply IH.
Qed.

Section Invariants.
Context {L : Pd.Library}.





End Invariants.

End Tables.

(** * The table of a list of records, cell by cell *)

Module Records.
Import Coes Props.
Local Open Scope result_scope.

(** ** The columns: the keys of the records *)

Local Abbreviation add_keys :=
  (fold_left (fun acc k => if existsb (String.eqb k) acc then acc
                           else acc ++ [k])).











(** ** Positions *)





(** ** Rows *)



Lemma labels_index_from vs vs' : forall start,
  List.length vs = List.length vs' ->
  map Pd.label (Pd.index_from start vs) = map Pd.label (Pd.index_from start vs').
Proof.
  revert vs'. induction vs as [|v vs IH]; intros [|v' vs'] start H; simpl;
    try reflexivity; try discriminate.
  rewrite (IH vs'); [reflexivity|]. simpl in H. congruence.
Qed.




Section Demanda.
Context {L : Pd.Library}.








End Demanda.

End Records.

(** * The classification of responses by [_raise_for_status] *)

Module Errors.

Lemma append_inj_l (a b c : string) : (a ++ b = a ++ c)%string -> b = c.
Proof.
  induction a as [|x a IH]; simpl; intros H; [exact H|].
  inversion H. auto.
Qed.

Lemma append_not_empty (a : string) (c : ascii) (b : string) :
  Py.is_empty (a ++ String c b) = false.
Proof. destruct a; reflexivity. Qed.

Lemma client_msg_not_empty r : Py.is_empty (client_error_msg r) = false.
Proof. unfold client_error_msg. apply append_not_empty. Qed.

Lemma server_msg_not_empty r : Py.is_empty (server_error_msg r) = false.
Proof. unfold server_error_msg. apply append_not_empty. Qed.

(** The two messages differ at the word after the status code. *)
Lemma client_server_msg r : client_error_msg r <> server_error_msg r.
Proof.
  unfold client_error_msg, server_error_msg. intros H.
  apply append_inj_l in H. discriminate.
Qed.

Lemma raise_client r :
  400 <= status_code r < 500 ->
  _raise_for_status r = Raise (HTTPError (client_error_msg r) r).
Proof.
  intros H. unfold _raise_for_status.
  replace ((400 <=? status_code r) && (status_code r <? 500)) with true by lia.
  rewrite client_msg_not_empty. reflexivity.
Qed.

Lemma raise_server r :
  500 <= status_code r < 600 ->
  _raise_for_status r = Raise (HTTPError (server_error_msg r) r).
Proof.
  intros H. unfold _raise_for_status.
  replace ((400 <=? status_code r) && (status_code r <? 500)) with false by lia.
  replace ((500 <=? status_code r) && (status_code r <? 600)) with true by lia.
  rewrite server_msg_not_empty. reflexivity.
Qed.

Lemma raise_nothing r :
  ~ 400 <= status_code r < 600 -> _raise_for_status r = Ok tt.
Proof.
  intros H. unfold _raise_for_status.
  replace ((400 <=? status_code r) && (status_code r <? 500)) with false by lia.
  replace ((500 <=? status_code r) && (status_code r <? 600)) with false by lia.
  reflexivity.
Qed.

(** The three cases cover every status code. *)
Lemma status_cases (s : Z) :
  400 <= s < 500 \/ 500 <= s < 600 \/ ~ 400 <= s < 600.
Proof. lia. Qed.

End Errors.

(** C2. For every response, [_raise_for_status] signals the client error
    exactly when the status code is in [400, 500) and the server error
    exactly when it is in [500, 600); the error carries the status code,
    the reason and the URL in its message, and the response; for every
    other status code the call returns and does nothing. The function is a
    value of its argument alone: it has no effect. *)
Theorem C2_raise_for_status_classifies (response : Response) :
  (_raise_for_status response
     = Raise (HTTPError (client_error_msg response) response)
   <-> 400 <= status_code response < 500) /\
  (_raise_for_status response
     = Raise (HTTPError (server_error_msg response) response)
   <-> 500 <= status_code response < 600) /\
  (_raise_for_status response = Ok tt
   <-> ~ 400 <= status_code response < 600) /\
  client_error_msg response
    = (Py.str_of_int (status_code response) ++ " Client Error: "
       ++ reason response ++ " for url: " ++ url response)%string /\
  server_error_msg response
    = (Py.str_of_int (status_code response) ++ " Server Error: "
       ++ reason response ++ " for url: " ++ url response)%string.
Proof.
  pose proof (Errors.client_server_msg response) as Hdiff.
  destruct (Errors.status_cases (status_code response)) as [Hc|[Hs|Hn]].
  - pose proof (Errors.raise_client _ Hc) as Hr. rewrite Hr.
    split; [tauto|]. split; [|split; [|split; reflexivity]].
    + split; [|lia]. intros Heq. inversion Heq. congruence.
    + split; [discriminate|lia].
  - pose proof (Errors.raise_server _ Hs) as Hr. rewrite Hr.
    split; [|split; [tauto|split; [|split; reflexivity]]].
    + split; [|lia]. intros Heq. inversion Heq. congruence.
    + split; [discriminate|lia].
  - pose proof (Errors.raise_nothing _ Hn) as Hr. rewrite Hr.
    split; [|split; [|split; [tauto|split; reflexivity]]].
    + split; [discriminate|lia].
    + split; [discriminate|lia].
Qed.

(** C10. For every response whose status code lies in [400, 600),
    [_raise_for_status] raises an [HTTPError] that carries the response;
    the client case and the server case raise the same class and differ
    by the text of the message alone. *)
Theorem C10_one_exception_class (response : Response)
    (H : 400 <= status_code response < 600) :
  exists msg,
    _raise_for_status response = Raise (HTTPError msg response) /\
    class_of (HTTPError msg response) = "HTTPError" /\
    (status_code response < 500 -> msg = client_error_msg response) /\
    (500 <= status_code response -> msg = server_error_msg response) /\
    class_of (HTTPError (client_error_msg response) response)
      = class_of (HTTPError (server_error_msg response) response) /\
    client_error_msg response <> server_error_msg response.
Proof.
  destruct (Z_lt_ge_dec (status_code response) 500) as [Hlt|Hge].
  - exists (client_error_msg response).
    repeat split; try reflexivity; try lia.
    + apply Errors.raise_client. lia.
    + apply Errors.client_server_msg.
  - exists (server_error_msg response).
    repeat split; try reflexivity; try lia.
    + apply Errors.raise_server. lia.
    + apply Errors.client_server_msg.
Qed.

(** * The version label of a reprogram *)

Module Labels.
Import Coes Props.
Local Open Scope string_scope.

Lemma split_nonempty sep s : Py.split sep s <> [].
Proof.
  destruct s as [|c s]; simpl; [discriminate|].
  destruct (Ascii.eqb c sep); [discriminate|].
  destruct (Py.split sep s); discriminate.
Qed.

(** Splitting at a separator splits what is before it and what is after. *)
Lemma split_app sep a b :
  Py.split sep (a ++ String sep b) = (Py.split sep a ++ Py.split sep b)%list.
Proof.
  induction a as [|c a IH]; simpl.
  - rewrite Ascii.eqb_refl. reflexivity.
  - destruct (Ascii.eqb c sep); [rewrite IH; reflexivity|].
    rewrite IH. destruct (Py.split sep a) as [|h t] eqn:Ha;
      [exfalso; eapply split_nonempty; exact Ha|].
    reflexivity.
Qed.

Lemma split_no_sep sep s : has_char sep s = false -> Py.split sep s = [s].
Proof.
  induction s as [|c s IH]; simpl; [reflexivity|].
  intros H. apply orb_false_iff in H. destruct H as [Hc Hs].
  rewrite Hc, (IH Hs). reflexivity.
Qed.

Lemma last_item_app l1 l2 :
  l2 <> [] -> Py.last_item (l1 ++ l2) = Py.last_item l2.
Proof.
  intros H. unfold Py.last_item. induction l1 as [|x l1 IH]; [reflexivity|].
  simpl. destruct (l1 ++ l2)%list eqn:E; [|exact IH].
  apply app_eq_nil in E. tauto.
Qed.

(** The last word of [words ++ sep ++ w], when [w] holds no separator. *)
Lemma last_word sep words w :
  has_char sep w = false ->
  Py.last_item (Py.split sep (words ++ String sep w)) = w.
Proof.
  intros H. rewrite split_app, last_item_app by apply split_nonempty.
  rewrite (split_no_sep _ _ H). reflexivity.
Qed.

Lemma rstrip_drop p a c :
  p c = true -> Py.rstrip p (a ++ String c EmptyString) = Py.rstrip p a.
Proof.
  intros Hc. induction a as [|x a IH]; simpl.
  - rewrite Hc. reflexivity.
  - rewrite IH. reflexivity.
Qed.

Lemma rstrip_clean p s : all_chars (fun c => negb (p c)) s = true ->
  Py.rstrip p s = s.
Proof.
  induction s as [|c s IH]; simpl; [reflexivity|].
  intros H. apply andb_true_iff in H. destruct H as [Hc Hs].
  apply negb_true_iff in Hc. rewrite Hc, (IH Hs). reflexivity.
Qed.

Lemma rstrip_app p a b :
  Py.is_empty (Py.rstrip p b) = false ->
  Py.rstrip p (a ++ b) = a ++ Py.rstrip p b.
Proof.
  intros H. induction a as [|c a IH]; simpl; [reflexivity|].
  rewrite IH. destruct (Py.rstrip p b); [discriminate|].
  destruct a; simpl; rewrite andb_false_r; reflexivity.
Qed.

Lemma append_assoc (a b c : string) : (a ++ b) ++ c = a ++ (b ++ c).
Proof. induction a as [|x a IH]; simpl; [reflexivity|]. rewrite IH. reflexivity. Qed.

Lemma slash_free seg :
  has_char "/" seg = false ->
  all_chars (fun c => negb (Py.is_slash c)) seg = true.
Proof.
  induction seg as [|c seg IH]; simpl; [reflexivity|].
  intros H. apply orb_false_iff in H. destruct H as [Hc Hs].
  unfold Py.is_slash at 1. rewrite Hc, (IH Hs). reflexivity.
Qed.

(** What is left of an identifier on the left of its last segment, once
    the leading slashes are gone: nothing, or something that ends with a
    slash. *)
Lemma lstrip_identifier dir seg :
  seg <> EmptyString -> has_char "/" seg = false ->
  exists d,
    Py.lstrip Py.is_slash (dir ++ String "/" (seg ++ "/")) = d ++ seg ++ "/" /\
    (d = EmptyString \/ exists d', d = d' ++ "/").
Proof.
  intros Hne Hseg. induction dir as [|c dir IH].
  - exists EmptyString. split; [|left; reflexivity]. simpl.
    destruct seg as [|x seg]; [congruence|]. simpl in Hseg |- *.
    apply orb_false_iff in Hseg. destruct Hseg as [Hx _].
    unfold Py.is_slash. rewrite Hx. reflexivity.
  - simpl. destruct (Py.is_slash c) eqn:Hc; [exact IH|].
    exists (String c dir ++ "/"). split; [|right; eexists; reflexivity].
    simpl. rewrite append_assoc. reflexivity.
Qed.

(** The final path segment of an identifier that ends with a slash. *)
Lemma last_segment_identifier dir seg :
  seg <> EmptyString -> has_char "/" seg = false ->
  last_segment (dir ++ String "/" (seg ++ "/")) = seg.
Proof.
  intros Hne Hseg. unfold last_segment, Py.strip.
  destruct (lstrip_identifier dir seg Hne Hseg) as (d & -> & Hd).
  assert (Hclean : Py.rstrip Py.is_slash seg = seg)
    by (apply rstrip_clean, slash_free, Hseg).
  rewrite <- append_assoc, rstrip_drop by reflexivity.
  rewrite rstrip_app
    by (rewrite Hclean; destruct seg; [congruence | reflexivity]).
  rewrite Hclean. destruct Hd as [->|(d' & ->)].
  - simpl. rewrite (split_no_sep _ _ Hseg). reflexivity.
  - rewrite append_assoc. simpl. apply last_word. exact Hseg.
Qed.

Lemma has_char_app c a b :
  has_char c (a ++ b) = has_char c a || has_char c b.
Proof.
  induction a as [|x a IH]; simpl; [reflexivity|].
  rewrite IH, orb_assoc. reflexivity.
Qed.

Lemma keep_all p s : all_chars p (Py.keep p s) = true.
Proof.
  induction s as [|c s IH]; simpl; [reflexivity|].
  destruct (p c) eqn:Hc; simpl; [rewrite Hc|]; exact IH.
Qed.

Lemma keep_none p s :
  all_chars (fun c => negb (p c)) s = true -> Py.keep p s = EmptyString.
Proof.
  induction s as [|c s IH]; simpl; [reflexivity|].
  intros H. apply andb_true_iff in H. destruct H as [Hc Hs].
  apply negb_true_iff in Hc. rewrite Hc. exact (IH Hs).
Qed.

Lemma keep_app p a b : Py.keep p (a ++ b) = Py.keep p a ++ Py.keep p b.
Proof.
  induction a as [|c a IH]; simpl; [reflexivity|].
  destruct (p c); simpl; rewrite IH; reflexivity.
Qed.

Lemma keep_id p s : all_chars p s = true -> Py.keep p s = s.
Proof.
  induction s as [|c s IH]; simpl; [reflexivity|].
  intros H. apply andb_true_iff in H. destruct H as [Hc Hs].
  rewrite Hc, (IH Hs). reflexivity.
Qed.

End Labels.

(** C3, as the code has it. In [get_urls_reprog_dia] the version label of an
    entry is made of the letters A to Z and a to z of the last word, the
    words being separated by spaces, of the final path segment of the
    listing identifier, the whole segment when it has no space. The label
    holds letters only; a last word with no letter gives the empty label;
    a last word made of characters that are not letters followed by
    letters gives those letters. *)
Theorem C3_version_label_of_last_word (dir words w : string)
    (Hwords : Props.has_char "/" words = false)
    (Hslash : Props.has_char "/" w = false)
    (Hspace : Props.has_char " " w = false) :
  Coes.reprog_of_id (dir ++ "/" ++ (words ++ " " ++ w) ++ "/")
    = Ok (Py.keep Py.is_alpha w) /\
  (w <> EmptyString ->
   Coes.reprog_of_id (dir ++ "/" ++ w ++ "/") = Ok (Py.keep Py.is_alpha w)) /\
  Props.all_chars Py.is_alpha (Py.keep Py.is_alpha w) = true /\
  (Props.all_chars (fun c => negb (Py.is_alpha c)) w = true ->
   Py.keep Py.is_alpha w = EmptyString) /\
  (forall other letters,
     w = (other ++ letters)%string ->
     Props.all_chars (fun c => negb (Py.is_alpha c)) other = true ->
     Props.all_chars Py.is_alpha letters = true ->
     Py.keep Py.is_alpha w = letters).
Proof.
  split; [|split; [|split; [|split]]].
  - unfold Coes.reprog_of_id.
    change (dir ++ "/" ++ (words ++ " " ++ w) ++ "/")%string
      with (dir ++ String "/" ((words ++ String " " w) ++ "/"))%string.
    rewrite Labels.last_segment_identifier.
    + rewrite (Labels.last_word " " words w Hspace). reflexivity.
    + destruct words; discriminate.
    + rewrite Labels.has_char_app. simpl. rewrite Hwords, Hslash. reflexivity.
  - intros Hne. unfold Coes.reprog_of_id.
    change (dir ++ "/" ++ w ++ "/")%string
      with (dir ++ String "/" (w ++ "/"))%string.
    rewrite (Labels.last_segment_identifier dir w Hne Hslash).
    rewrite (Labels.split_no_sep _ _ Hspace). reflexivity.
  - apply Labels.keep_all.
  - apply Labels.keep_none.
  - intros other letters -> Hother Hletters.
    rewrite Labels.keep_app, (Labels.keep_none _ _ Hother),
      (Labels.keep_id _ _ Hletters). reflexivity.
Qed.

(** C3, as the specification states it, fails: the segment that ends with the word
    [ReprogramB] gets the label [ReprogramB], not [B]; a segment with
    letters before its last word keeps none of them; and a last word with
    a letter before its last digit gets that letter, not the empty label. *)
Lemma C3_counterexample :
  Coes.reprog_of_id "R/2024/01_Enero/Dia 15/1501 ReprogramB/"
    = Ok "ReprogramB" /\
  "ReprogramB" <> "B" /\
  Coes.reprog_of_id "R/2024/01_Enero/Dia 15/Reprog 1501 B/" = Ok "B" /\
  Py.keep Py.is_alpha (Coes.last_segment "R/2024/01_Enero/Dia 15/Reprog 1501 B/")
    = "ReprogB" /\
  Coes.reprog_of_id "R/2024/01_Enero/Dia 15/Reprog B2/" = Ok "B".
Proof. repeat split; try reflexivity. discriminate. Qed.

(** C4, as the code has it. For a listing tree with [N] year entries, [M]
    month entries in each year and [D] day entries in each month, a crawl
    that ends without an exception and with [stop] unset has sent exactly
    [1 + N + N*M + N*M*D] requests to the listing endpoint, the first of
    them for the root listing; the reprogram crawl has sent one more for
    each version entry under the days. *)
Theorem C4_requests_of_a_full_crawl (session : Session) (T : Dt.date)
    (N M D : nat) :
  (Props.uniform_listing session Coes.prog_params N M D ->
   forall st, Coes.prog_run session T = Ok st -> Coes.stop st = false ->
     List.length (Coes.requests st) = (1 + N + N * M + N * M * D)%nat) /\
  (Props.uniform_listing session Coes.reprog_params N M D ->
   forall st, Coes.reprog_run session T = Ok st -> Coes.stop st = false ->
     List.length (Coes.requests st)
     = (1 + N + N * M + N * M * D
        + Props.version_entries session Coes.reprog_params)%nat).
Proof.
  split; intros Hu st Hrun Hstop.
  - rewrite (Count.prog_run_requests _ _ _ Hrun Hstop).
    apply Count.uniform_requests_days. exact Hu.
  - rewrite (Count.reprog_run_requests _ _ _ Hrun Hstop).
    apply Count.uniform_requests_versions. exact Hu.
Qed.

(** C4, as the specification states it, fails: with one year, one month and one day
    the crawl sends four requests, not [1 + 1*1 + 1*1*1 = 3]; the request
    for the root listing is the one that count leaves out. *)
Lemma C4_counterexample :
  Props.uniform_listing Examples.single Coes.prog_params 1 1 1 /\
  exists st,
    Coes.prog_run Examples.single (Dt.mkdate 2024 1 1) = Ok st /\
    Coes.stop st = false /\
    List.length (Coes.requests st) = 4%nat /\
    List.length (Coes.requests st) <> (1 + 1 * 1 + 1 * 1 * 1)%nat.
Proof.
  split.
  - split; [reflexivity|]. split.
    + intros y [<-|[]]. reflexivity.
    + intros y m [<-|[]] [<-|[]]. reflexivity.
  - eexists. split; [vm_compute; reflexivity|].
    split; [reflexivity|]. split; [reflexivity|]. simpl. lia.
Qed.


(** C6. [get_demanda_ejecutado] returns [None] and does not raise whatever
    exception the request raises, a timeout or any other failure of the
    transport as well as an error status; [process_demanda_ejecutado]
    returns [None] and does not raise whatever exception the processing
    raises, a body that is not JSON or a body without the field ["Data"]
    among them; in both the exception is logged with its text. When
    nothing is raised the response, or the table, is returned. *)
Theorem C6_demanda_soft_failure {L : Pd.Library}
    (session : Session) (start end_ : Dt.date)
    (response : Response) (et : string) :
  (forall e, Coes.demanda_request session start end_ = Raise e ->
     snd (Coes.get_demanda_ejecutado session start end_) = None /\
     In (Props.logged_exception "requesting" e)
        (fst (Coes.get_demanda_ejecutado session start end_))) /\
  (forall r, Coes.demanda_request session start end_ = Ok r ->
     snd (Coes.get_demanda_ejecutado session start end_) = Some r) /\
  (forall e, session (Props.demanda_query start end_) = Raise e ->
     Coes.demanda_request session start end_ = Raise e) /\
  (forall r e, session (Props.demanda_query start end_) = Ok r ->
     _raise_for_status r = Raise e ->
     Coes.demanda_request session start end_ = Raise e) /\
  (forall e, Coes.demanda_table response = Raise e ->
     snd (Coes.process_demanda_ejecutado response et) = None /\
     In (Props.logged_exception "processing" e)
        (fst (Coes.process_demanda_ejecutado response et))) /\
  (forall df, Coes.demanda_table response = Ok df ->
     snd (Coes.process_demanda_ejecutado response et) = Some df) /\
  (json_body (text response) = None ->
     exists msg, Coes.demanda_table response = Raise (JSONDecodeError msg)) /\
  (forall members,
     json_body (text response) = Some (JObject members) ->
     Py.dict_get members "Data" = None ->
     Coes.demanda_table response = Raise (KeyError "Data")).
Proof.
  split; [|split; [|split; [|split; [|split; [|split; [|split]]]]]].
  - intros e H. unfold Coes.get_demanda_ejecutado. rewrite H. simpl.
    split; [reflexivity|]. right. left. reflexivity.
  - intros r H. unfold Coes.get_demanda_ejecutado. rewrite H. reflexivity.
  - intros e H. unfold Coes.demanda_request.
    change (mkRequest POST _ _ _) with (Props.demanda_query start end_).
    rewrite H. reflexivity.
  - intros r e H Hr. unfold Coes.demanda_request.
    change (mkRequest POST _ _ _) with (Props.demanda_query start end_).
    rewrite H. cbn [rbind]. rewrite Hr. reflexivity.
  - intros e H. unfold Coes.process_demanda_ejecutado. rewrite H. simpl.
    split; [reflexivity|]. right. left. reflexivity.
  - intros df H. unfold Coes.process_demanda_ejecutado. rewrite H. reflexivity.
  - intros H. unfold Coes.demanda_table. rewrite H. eexists. reflexivity.
  - intros members H Hd. unfold Coes.demanda_table. rewrite H. cbn [rbind].
    unfold Coes.json_getitem. rewrite Hd. reflexivity.
Qed.




(** * The properties at work on the example inputs *)

Module ExampleFacts.
Import Coes Props Examples.

Lemma dict_get_In {V} (d : Py.dict V) k v :
  Py.dict_get d k = Some v -> In v (map snd d).
Proof.
  induction d as [|[k' v'] d IH]; simpl; [discriminate|].
  destruct (String.eqb k' k); intros H.
  - inversion H. left. reflexivity.
  - right. apply IH. exact H.
Qed.

(** What a portal given by its pages answers is one of the pages, or the
    empty body of the 404. *)
Lemma site_body pages req response :
  site pages req = Ok response ->
  text response = no_body \/ In (text response) (map snd pages).
Proof.
  unfold site. destruct (Py.dict_get (req_params req) "url") as [u|];
    [|discriminate].
  destruct (Py.dict_get pages u) as [b|] eqn:Hb; intros H; inversion H; simpl.
  - right. eapply dict_get_In. exact Hb.
  - left. reflexivity.
Qed.

End ExampleFacts.

(** A 404 is a client error with its message; a 200 raises nothing. *)
Lemma C2_witness :
  _raise_for_status
    (mkResponse 404 "Not Found" "https://www.coes.org.pe/" Examples.no_body "0.1")
  = Raise (HTTPError "404 Client Error: Not Found for url: https://www.coes.org.pe/"
             (mkResponse 404 "Not Found" "https://www.coes.org.pe/"
                Examples.no_body "0.1")) /\
  _raise_for_status
    (mkResponse 200 "OK" "https://www.coes.org.pe/" Examples.no_body "0.1")
  = Ok tt.
Proof.
  split.
  - apply (proj2 (proj1 (C2_raise_for_status_classifies
                           (mkResponse 404 "Not Found" "https://www.coes.org.pe/"
                              Examples.no_body "0.1")))).
    simpl. lia.
  - apply (proj2 (proj1 (proj2 (proj2 (C2_raise_for_status_classifies
                           (mkResponse 200 "OK" "https://www.coes.org.pe/"
                              Examples.no_body "0.1")))))).
    simpl. lia.
Defined.

(** The label of the identifier that ends with [Reprog 1501B] is [B]. *)
Lemma C3_witness :
  Props.has_char "/" "Reprog" = false /\
  Props.has_char "/" "1501B" = false /\
  Props.has_char " " "1501B" = false /\
  Coes.reprog_of_id "R/2024/01_Enero/Dia 15/Reprog 1501B/" = Ok "B"%string.
Proof.
  split; [reflexivity|]. split; [reflexivity|]. split; [reflexivity|].
  apply (proj1 (C3_version_label_of_last_word "R/2024/01_Enero/Dia 15"
                  "Reprog" "1501B" eq_refl eq_refl eq_refl)).
Defined.

(** One year, one month, one day and two versions: six requests. *)
Lemma C4_witness :
  Props.uniform_listing Examples.reprog_scenario Coes.reprog_params 1 1 1 /\
  Props.version_entries Examples.reprog_scenario Coes.reprog_params = 2%nat /\
  exists st,
    Coes.reprog_run Examples.reprog_scenario (Dt.mkdate 2024 1 1) = Ok st /\
    Coes.stop st = false /\
    List.length (Coes.requests st) = (1 + 1 + 1 * 1 + 1 * 1 * 1 + 2)%nat.
Proof.
  assert (Hu : Props.uniform_listing Examples.reprog_scenario
                 Coes.reprog_params 1 1 1).
  { split; [reflexivity|]. split.
    - intros y [<-|[]]. reflexivity.
    - intros y m [<-|[]] [<-|[]]. reflexivity. }
  split; [exact Hu|]. split; [reflexivity|].
  eexists. split; [vm_compute; reflexivity|]. split; [reflexivity|].
  apply (proj2 (C4_requests_of_a_full_crawl Examples.reprog_scenario
                  (Dt.mkdate 2024 1 1) 1 1 1) Hu);
    [vm_compute; reflexivity | reflexivity].
Defined.


(** A time-out of the request and a body without the field give [None],
    and the exception is in the log. *)
Lemma C6_witness :
  snd (@Coes.get_demanda_ejecutado Examples.timing_out
         (Dt.mkdate 2024 1 1) (Dt.mkdate 2024 1 2)) = None /\
  In (Props.logged_exception "requesting"
        (RequestException "Timeout" "Read timed out."))
     (fst (@Coes.get_demanda_ejecutado Examples.timing_out
             (Dt.mkdate 2024 1 1) (Dt.mkdate 2024 1 2))) /\
  snd (@Coes.process_demanda_ejecutado Examples.example_library
         Examples.no_data_response "0.0") = None /\
  In (Props.logged_exception "processing" (KeyError "Data"))
     (fst (@Coes.process_demanda_ejecutado Examples.example_library
             Examples.no_data_response "0.0")).
Proof.
  destruct (@C6_demanda_soft_failure Examples.example_library
              Examples.timing_out (Dt.mkdate 2024 1 1) (Dt.mkdate 2024 1 2)
              Examples.no_data_response "0.0")
    as (Hget & _ & Htransport & _ & Hprocess & _ & _ & Hdata).
  destruct (Hget _ (Htransport _ eq_refl)) as [Hnone Hlog].
  destruct (Hprocess _ (Hdata _ eq_refl eq_refl)) as [Hnone' Hlog'].
  split; [exact Hnone|]. split; [exact Hlog|]. split; [exact Hnone'|exact Hlog'].
Defined.



(** A 503 raises an [HTTPError] with the message of a server error. *)
Lemma C10_witness :
  400 <= 503 < 600 /\
  exists msg,
    _raise_for_status
      (mkResponse 503 "Service Unavailable" "https://www.coes.org.pe/"
         Examples.no_body "0.1")
    = Raise (HTTPError msg
               (mkResponse 503 "Service Unavailable" "https://www.coes.org.pe/"
                  Examples.no_body "0.1")) /\
    msg = "503 Server Error: Service Unavailable for url: https://www.coes.org.pe/"%string.
Proof.
  split; [lia|].
  destruct (C10_one_exception_class
              (mkResponse 503 "Service Unavailable" "https://www.coes.org.pe/"
                 Examples.no_body "0.1") ltac:(simpl; lia))
    as (msg & Hraise & _ & _ & Hserver & _).
  exists msg. split; [exact Hraise|]. apply Hserver. simpl. lia.
Defined.

(** * Facts about the trace of a crawl *)

Module TraceFacts.
Import Coes Props CrawlFacts Trace.
Local Open Scope crawl_scope.

Lemma raise_ok_status r :
  _raise_for_status r = Ok tt -> ~ 400 <= status_code r < 600.
Proof.
  intros H.
  destruct (Errors.status_cases (status_code r)) as [Hc|[Hs|Hn]];
    [rewrite (Errors.raise_client _ Hc) in H; discriminate
    |rewrite (Errors.raise_server _ Hs) in H; discriminate
    |exact Hn].
Qed.

Lemma dict_get_set_same {V} (d : Py.dict V) k v :
  Py.dict_get (Py.dict_set d k v) k = Some v.
Proof.
  induction d as [|[k' v'] d IH]; simpl.
  - rewrite String.eqb_refl. reflexivity.
  - destruct (String.eqb k' k) eqn:Hk; simpl.
    + rewrite String.eqb_refl. reflexivity.
    + rewrite Hk. exact IH.
Qed.

Lemma dict_get_set_other {V} (d : Py.dict V) k k' v :
  k' <> k -> Py.dict_get (Py.dict_set d k v) k' = Py.dict_get d k'.
Proof.
  intros Hne. induction d as [|[k0 v0] d IH]; simpl.
  - destruct (String.eqb k k') eqn:Hk; [|reflexivity].
    apply String.eqb_eq in Hk. congruence.
  - destruct (String.eqb k0 k) eqn:Hk; simpl.
    + apply String.eqb_eq in Hk. subst k0.
      destruct (String.eqb k k') eqn:Hk'; [|reflexivity].
      apply String.eqb_eq in Hk'. congruence.
    + destruct (String.eqb k0 k'); [reflexivity | exact IH].
Qed.

Lemma date_valid y m d dd : date y m d = Ok dd -> Dt.valid dd = true.
Proof.
  unfold date.
  destruct (fits_c_int y && fits_c_int m && fits_c_int d); simpl;
    [|discriminate].
  destruct ((1 <=? y) && (y <=? 9999)) eqn:Hy; simpl; [|discriminate].
  destruct ((1 <=? m) && (m <=? 12)) eqn:Hm; simpl; [|discriminate].
  destruct ((1 <=? d) && (d <=? Dt.days_in_month y m)) eqn:Hd; simpl;
    [|discriminate].
  intros H. inversion H. unfold Dt.valid. simpl.
  apply andb_prop in Hy, Hm, Hd. destruct Hy as [-> ->], Hm as [-> ->],
    Hd as [-> ->]. reflexivity.
Qed.

(** ** Comprehensions *)

Lemma comprehension_Forall2 {A B} (f : A -> result B) l ys :
  comprehension f l = Ok ys -> Forall2 (fun x y => f x = Ok y) l ys.
Proof.
  revert ys. induction l as [|x l IH]; simpl; intros ys H.
  - inversion H. constructor.
  - destruct (f x) as [y|] eqn:Hx; simpl in H; [|discriminate].
    destruct (comprehension f l) as [ys'|]; simpl in H; [|discriminate].
    inversion H. constructor; auto.
Qed.

Lemma Forall2_In_r {A B} (R : A -> B -> Prop) l ys y :
  Forall2 R l ys -> In y ys -> exists x, In x l /\ R x y.
Proof.
  induction 1 as [|x0 y0 l ys HR _ IH]; simpl; [tauto|].
  intros [<-|Hin]; [eauto|].
  destruct (IH Hin) as (x & Hx & Hxy). eauto.
Qed.

Lemma Forall2_In_l {A B} (R : A -> B -> Prop) l ys x :
  Forall2 R l ys -> In x l -> exists y, In y ys /\ R x y.
Proof.
  induction 1 as [|x0 y0 l ys HR _ IH]; simpl; [tauto|].
  intros [<-|Hin]; [eauto|].
  destruct (IH Hin) as (y & Hy & Hxy). eauto.
Qed.

(** The rows of a listing carry the key of their identifier. *)
Lemma row_ids_keys {K} (key : string -> result K) bs rows :
  row_ids key bs = Ok rows ->
  Forall (fun row => key (snd row) = Ok (fst row)) rows.
Proof.
  unfold row_ids. intros H. apply comprehension_Forall2 in H.
  induction H as [|t row tags rows Ht _ IH]; constructor; [|exact IH].
  unfold attr in Ht. destruct (Py.dict_get t "id") as [id|]; simpl in Ht;
    [|discriminate].
  destruct (key id) as [k|] eqn:Hk; simpl in Ht; [|discriminate].
  inversion Ht. exact Hk.
Qed.

Lemma sorted_rows_keys {K} (ltb : K -> K -> bool) (key : string -> result K)
    bs rows row :
  row_ids key bs = Ok rows ->
  In row (sorted_desc ltb fst rows) ->
  key (snd row) = Ok (fst row).
Proof.
  intros Hrows Hin. apply row_ids_keys in Hrows.
  rewrite Forall_forall in Hrows. apply Hrows.
  eapply Permutation_in;
    [apply Permutation_sym, (Order.sorted_desc_perm ltb fst)|].
  exact Hin.
Qed.

(** ** The loops over the file selectors *)

Lemma prog_links_run d links : forall st st',
  for_in links (prog_link_body d) st = Ok (tt, st') ->
  exists urls,
    comprehension (fun link => attr link "value") links = Ok urls /\
    st' = mkState (params st) (stop st)
            (dowload_urls_map st ++ prog_files d urls)
            (requests st) (logged st).
Proof.
  induction links as [|link links IH]; intros st st' H.
  - apply ret_inv in H. destruct H as [_ ->]. exists []. simpl.
    rewrite app_nil_r. destruct st; auto.
  - simpl in H. apply bind_inv in H. destruct H as (c & st1 & H1 & H2).
    unfold prog_link_body in H1. inv_crawl H1.
    destruct (IH _ _ H2) as (urls & Hurls & ->).
    match goal with Hv : attr link "value" = Ok ?u |- _ =>
      exists (u :: urls); simpl; rewrite Hv, Hurls end.
    simpl. rewrite <- app_assoc. auto.
Qed.

Lemma reprog_links_run d v links : forall st st',
  for_in links (reprog_link_body d v) st = Ok (tt, st') ->
  exists urls,
    comprehension (fun link => attr link "value") links = Ok urls /\
    st' = mkState (params st) (stop st)
            (dowload_urls_map st ++ reprog_files d v urls)
            (requests st) (logged st).
Proof.
  induction links as [|link links IH]; intros st st' H.
  - apply ret_inv in H. destruct H as [_ ->]. exists []. simpl.
    rewrite app_nil_r. destruct st; auto.
  - simpl in H. apply bind_inv in H. destruct H as (c & st1 & H1 & H2).
    unfold reprog_link_body in H1. inv_crawl H1.
    destruct (IH _ _ H2) as (urls & Hurls & ->).
    match goal with Hv : attr link "value" = Ok ?u |- _ =>
      exists (u :: urls); simpl; rewrite Hv, Hurls end.
    simpl. rewrite <- app_assoc. auto.
Qed.

(** A URL the loop recorded is the [value] of one of the selectors. *)
Lemma values_In links urls u :
  comprehension (fun link => attr link "value") links = Ok urls ->
  In u urls ->
  exists tag, In tag links /\ Py.dict_get tag "value" = Some u.
Proof.
  intros H Hin. apply comprehension_Forall2 in H.
  destruct (Forall2_In_r _ _ _ _ H Hin) as (tag & Htag & Hv).
  exists tag. split; [exact Htag|].
  unfold attr in Hv. destruct (Py.dict_get tag "value"); inversion Hv.
  reflexivity.
Qed.

(** ** The relation of the steps *)

Section Steps.
Context {E : Type}.
Variables (session : Session) (base : Py.dict string).
Variables (dateof : E -> Dt.date) (nameof urlof msgof : E -> string).
Variable announces : log_record -> Prop.

Local Abbreviation steps :=
  (steps session base dateof nameof urlof msgof announces).
Local Abbreviation recorded := (recorded dateof nameof urlof msgof).

Lemma recorded_more logs logs' e :
  incl logs logs' -> recorded logs e -> recorded logs' e.
Proof.
  intros Hl (Hv & Hn & Hlog).
  split; [exact Hv|]. split; [exact Hn | apply Hl; exact Hlog].
Qed.

Lemma steps_refl st : steps st st.
Proof.
  exists [], [], []. rewrite !app_nil_r. repeat split; auto.
Qed.

Lemma steps_trans a b c : steps a b -> steps b c -> steps a c.
Proof.
  intros (s1 & r1 & l1 & He1 & Hr1 & Hl1 & Hs1 & Hrec1 & Ha1 & Hb1)
         (s2 & r2 & l2 & He2 & Hr2 & Hl2 & Hs2 & Hrec2 & Ha2 & Hb2).
  exists (s1 ++ s2), (r1 ++ r2), (l1 ++ l2).
  rewrite He2, He1, Hr2, Hr1, Hl2, Hl1, !app_assoc.
  split; [reflexivity|]. split; [reflexivity|]. split; [reflexivity|].
  split; [apply Forall_app; auto|].
  split.
  - apply Forall_app. split.
    + eapply Forall_impl; [|exact Hrec1]. intros e.
      apply recorded_more, incl_appl, incl_refl.
    + eapply Forall_impl; [|exact Hrec2]. intros e.
      apply recorded_more, incl_appr, incl_refl.
  - split; [apply Forall_app; auto|].
    intros Hbase. destruct (Hb1 Hbase) as [Hbase1 Hq1].
    destruct (Hb2 Hbase1) as [Hbase2 Hq2].
    split; [exact Hbase2 | apply Forall_app; auto].
Qed.

Lemma for_in_steps {A} (body : A -> Crawl E control) l :
  (forall x st c st', In x l -> body x st = Ok (c, st') -> steps st st') ->
  forall st st', for_in l body st = Ok (tt, st') -> steps st st'.
Proof.
  intros Hbody. apply for_in_rel.
  - apply steps_refl.
  - apply steps_trans.
  - exact Hbody.
Qed.

(** The request for the directory [id], answered well: one step. *)
Lemma steps_post st id response :
  session (listing_request (Py.dict_set (params st) "url" id)) = Ok response ->
  _raise_for_status response = Ok tt ->
  forall b,
  steps st
    (mkState (Py.dict_set (params st) "url" id) b (dowload_urls_map st)
       (requests st ++ [listing_request (Py.dict_set (params st) "url" id)])
       (logged st)).
Proof.
  intros Hs Hr b.
  exists [], [listing_request (Py.dict_set (params st) "url" id)], [].
  simpl. rewrite !app_nil_r.
  split; [reflexivity|]. split; [reflexivity|]. split; [reflexivity|].
  split.
  - constructor; [|constructor]. repeat split.
    exists response. split; [exact Hs | apply raise_ok_status; exact Hr].
  - split; [constructor|]. split; [constructor|].
    intros (id0 & Hp).
    assert (Hb : on_base base (Py.dict_set (params st) "url" id)).
    { exists id. rewrite Hp. apply Count.dict_set_twice. }
    split; [exact Hb|]. constructor; [exact Hb | constructor].
Qed.

(** The request for the directory the parameters already name. *)
Lemma steps_post_here st id response b :
  params st = Py.dict_set (params st) "url" id ->
  session (listing_request (params st)) = Ok response ->
  _raise_for_status response = Ok tt ->
  steps st
    (mkState (params st) b (dowload_urls_map st)
       (requests st ++ [listing_request (params st)]) (logged st)).
Proof.
  intros Heq Hs Hr. rewrite Heq in Hs.
  pose proof (steps_post st id response Hs Hr b) as H.
  rewrite <- Heq in H. exact H.
Qed.

End Steps.

(** The steps of a directory whose files were listed: the request for it,
    the record logged, the entries of its file selectors. *)
Section Page.
Context {E : Type}.
Variables (session : Session) (base : Py.dict string).
Variables (dateof : E -> Dt.date) (nameof urlof msgof : E -> string).
Variable announces : log_record -> Prop.

Lemma steps_page (st : crawl_state E) id response (files : list E) msg b :
  session (listing_request (Py.dict_set (params st) "url" id)) = Ok response ->
  _raise_for_status response = Ok tt ->
  announces (LogInfo msg) ->
  Forall (fun e => Dt.valid (dateof e) = true /\
                   nameof e = Py.last_item (Py.split "/" (urlof e)) /\
                   msgof e = msg) files ->
  steps session base dateof nameof urlof msgof announces st
    (mkState (Py.dict_set (params st) "url" id) b
       (dowload_urls_map st ++ files)
       (requests st ++ [listing_request (Py.dict_set (params st) "url" id)])
       (logged st ++ [LogInfo msg])).
Proof.
  intros Hs Hr Hmsg Hfiles.
  exists files, [listing_request (Py.dict_set (params st) "url" id)],
    [LogInfo msg].
  cbn [params stop dowload_urls_map requests logged].
  split; [reflexivity|]. split; [reflexivity|]. split; [reflexivity|].
  split.
  { constructor; [|constructor]. repeat split.
    exists response. split; [exact Hs | apply raise_ok_status; exact Hr]. }
  split.
  { eapply Forall_impl; [|exact Hfiles].
    intros e (Hv & Hn & Hm).
    split; [exact Hv|]. split; [exact Hn|]. left. rewrite Hm. reflexivity. }
  split; [constructor; [exact Hmsg | constructor]|].
  intros (id0 & Hp).
  assert (Hb : on_base base (Py.dict_set (params st) "url" id)).
  { exists id. rewrite Hp. apply Count.dict_set_twice. }
  split; [exact Hb|]. constructor; [exact Hb | constructor].
Qed.

End Page.

(** ** [get_urls_prog_dia] *)

Section Prog.
Variables (session : Session) (T : Dt.date).

Lemma prog_day_steps y m row st c st' :
  prog_day_body session T y m row st = Ok (c, st') ->
  prog_steps session T st st'.
Proof.
  destruct row as [d id]. intros H.
  unfold prog_day_body in H. inv_crawl H.
  - apply steps_refl.
  - simpl in Hpost. unfold prog_steps. eapply steps_post; eassumption.
  - simpl in Hpost.
    match goal with Hloop : for_in _ _ _ = Ok _ |- _ =>
      destruct (prog_links_run _ _ _ _ Hloop) as (urls & Hurls & ->) end.
    cbn [params stop dowload_urls_map requests logged].
    match goal with Hd : date y m d = Ok ?dd |- _ =>
      pose proof (date_valid _ _ _ _ Hd) as Hvalid end.
    unfold prog_steps. eapply steps_page; try eassumption.
    + eexists. split; [exact Hvalid|]. split; [eassumption | reflexivity].
    + unfold prog_files. apply Forall_forall. intros e He.
      apply in_map_iff in He. destruct He as (u & <- & Hu).
      split; [exact Hvalid|]. split; reflexivity.
Qed.

Lemma prog_month_steps y row st c st' :
  prog_month_body session T y row st = Ok (c, st') ->
  prog_steps session T st st'.
Proof.
  destruct row as [m id]. intros H. unfold prog_month_body in H.
  inv_crawl H; [apply steps_refl|]. simpl in Hpost.
  eapply steps_trans;
    [unfold prog_steps; eapply steps_post with (b := stop st); eassumption|].
  match goal with Hloop : for_in _ _ _ = Ok _ |- _ =>
    refine (for_in_steps _ _ _ _ _ _ _ _ _ _ _ _ Hloop) end.
  intros row s c' s' _. apply prog_day_steps.
Qed.

Lemma prog_year_steps row st c st' :
  prog_year_body session T row st = Ok (c, st') ->
  prog_steps session T st st'.
Proof.
  destruct row as [y id]. intros H. unfold prog_year_body in H.
  inv_crawl H; [apply steps_refl|]. simpl in Hpost.
  eapply steps_trans;
    [unfold prog_steps; eapply steps_post with (b := stop st); eassumption|].
  match goal with Hloop : for_in _ _ _ = Ok _ |- _ =>
    refine (for_in_steps _ _ _ _ _ _ _ _ _ _ _ _ Hloop) end.
  intros row s c' s' _. apply prog_month_steps.
Qed.

Lemma prog_params_on_base : on_base prog_params prog_params.
Proof.
  exists "Operación/Programa de Operación/Programa Diario/". reflexivity.
Qed.

Lemma prog_crawl_steps st u st' :
  on_base prog_params (params st) ->
  prog_crawl session T st = Ok (u, st') ->
  prog_steps session T st st'.
Proof.
  intros (id0 & Hp) H. unfold prog_crawl in H. destruct u. inv_crawl H.
  assert (Hp' : params st = Py.dict_set (params st) "url" id0).
  { rewrite Hp at 2. rewrite Count.dict_set_twice. exact Hp. }
  eapply steps_trans;
    [unfold prog_steps; eapply steps_post_here with (b := stop st);
     eassumption|].
  match goal with Hloop : for_in _ _ _ = Ok _ |- _ =>
    refine (for_in_steps _ _ _ _ _ _ _ _ _ _ _ _ Hloop) end.
  intros row s c' s' _. apply prog_year_steps.
Qed.

(** The trace of a whole crawl. *)
Lemma prog_run_steps st :
  prog_run session T = Ok st ->
  Forall (sent session) (requests st) /\
  Forall (fun q => on_base prog_params (req_params q)) (requests st) /\
  Forall (recorded prog_date prog_name prog_url prog_msg (logged st))
         (dowload_urls_map st) /\
  Forall (prog_announces T) (logged st).
Proof.
  unfold prog_run.
  destruct (prog_crawl session T (initial_state prog_params))
    as [[u st']|e] eqn:H; [|discriminate].
  intros Heq. inversion Heq. subst st'. clear Heq.
  apply prog_crawl_steps in H; [|apply prog_params_on_base].
  destruct H as (seg & reqs & logs & He & Hr & Hl & Hs & Hrec & Ha & Hb).
  simpl in He, Hr, Hl. rewrite He, Hr, Hl.
  destruct (Hb prog_params_on_base) as [_ Hq]. auto.
Qed.

End Prog.

(** ** [get_urls_reprog_dia] *)

Section Reprog.
Variables (session : Session) (T : Dt.date).

Lemma reprog_version_steps date_obj row st c st' :
  Dt.valid date_obj = true ->
  Dt.ltb date_obj T = false ->
  all_chars Py.is_alpha (fst row) = true ->
  reprog_version_body session date_obj row st = Ok (c, st') ->
  reprog_steps session T st st'.
Proof.
  destruct row as [v id]. simpl. intros Hvalid Hge Halpha H.
  unfold reprog_version_body in H. inv_crawl H; [apply steps_refl|].
  simpl in Hpost.
  match goal with Hloop : for_in _ _ _ = Ok _ |- _ =>
    destruct (reprog_links_run _ _ _ _ _ Hloop) as (urls & Hurls & ->) end.
  cbn [params stop dowload_urls_map requests logged].
  unfold reprog_steps. eapply steps_page; try eassumption.
  - exists date_obj, v. split; [exact Hvalid|]. split; [exact Hge|].
    split; [exact Halpha | reflexivity].
  - unfold reprog_files. apply Forall_forall. intros e He.
    apply in_map_iff in He. destruct He as (u & <- & Hu).
    split; [exact Hvalid|]. split; reflexivity.
Qed.

Lemma reprog_day_steps y m row st c st' :
  reprog_day_body session T y m row st = Ok (c, st') ->
  reprog_steps session T st st'.
Proof.
  destruct row as [d id]. intros H.
  unfold reprog_day_body in H. inv_crawl H.
  - apply steps_refl.
  - simpl in Hpost. unfold reprog_steps. eapply steps_post; eassumption.
  - simpl in Hpost.
    match goal with Hd : date y m d = Ok ?dd |- _ =>
      pose proof (date_valid _ _ _ _ Hd) as Hvalid end.
    eapply steps_trans;
      [unfold reprog_steps; eapply steps_post with (b := stop st);
       eassumption|].
    match goal with Hloop : for_in _ _ _ = Ok _ |- _ =>
      refine (for_in_steps _ _ _ _ _ _ _ _ _ _ _ _ Hloop) end.
    intros row s c' s' Hin. apply reprog_version_steps; try assumption.
    match goal with Hrows : row_ids reprog_of_id _ = Ok _ |- _ =>
      pose proof (sorted_rows_keys _ _ _ _ _ Hrows Hin) as Hkey end.
    unfold reprog_of_id in Hkey. inversion Hkey as [Hv].
    apply Labels.keep_all.
Qed.

Lemma reprog_month_steps y row st c st' :
  reprog_month_body session T y row st = Ok (c, st') ->
  reprog_steps session T st st'.
Proof.
  destruct row as [m id]. intros H. unfold reprog_month_body in H.
  inv_crawl H; [apply steps_refl|]. simpl in Hpost.
  eapply steps_trans;
    [unfold reprog_steps; eapply steps_post with (b := stop st);
     eassumption|].
  match goal with Hloop : for_in _ _ _ = Ok _ |- _ =>
    refine (for_in_steps _ _ _ _ _ _ _ _ _ _ _ _ Hloop) end.
  intros row s c' s' _. apply reprog_day_steps.
Qed.

Lemma reprog_year_steps row st c st' :
  reprog_year_body session T row st = Ok (c, st') ->
  reprog_steps session T st st'.
Proof.
  destruct row as [y id]. intros H. unfold reprog_year_body in H.
  inv_crawl H; [apply steps_refl|]. simpl in Hpost.
  eapply steps_trans;
    [unfold reprog_steps; eapply steps_post with (b := stop st);
     eassumption|].
  match goal with Hloop : for_in _ _ _ = Ok _ |- _ =>
    refine (for_in_steps _ _ _ _ _ _ _ _ _ _ _ _ Hloop) end.
  intros row s c' s' _. apply reprog_month_steps.
Qed.

Lemma reprog_params_on_base : on_base reprog_params reprog_params.
Proof.
  exists "Operación/Programa de Operación/Reprograma Diario Operación/".
  reflexivity.
Qed.

Lemma reprog_crawl_steps st u st' :
  on_base reprog_params (params st) ->
  reprog_crawl session T st = Ok (u, st') ->
  reprog_steps session T st st'.
Proof.
  intros (id0 & Hp) H. unfold reprog_crawl in H. destruct u. inv_crawl H.
  assert (Hp' : params st = Py.dict_set (params st) "url" id0).
  { rewrite Hp at 2. rewrite Count.dict_set_twice. exact Hp. }
  eapply steps_trans;
    [unfold reprog_steps; eapply steps_post_here with (b := stop st);
     eassumption|].
  match goal with Hloop : for_in _ _ _ = Ok _ |- _ =>
    refine (for_in_steps _ _ _ _ _ _ _ _ _ _ _ _ Hloop) end.
  intros row s c' s' _. apply reprog_year_steps.
Qed.

Lemma reprog_run_steps st :
  reprog_run session T = Ok st ->
  Forall (sent session) (requests st) /\
  Forall (fun q => on_base reprog_params (req_params q)) (requests st) /\
  Forall (recorded reprog_date reprog_name reprog_url reprog_msg (logged st))
         (dowload_urls_map st) /\
  Forall (reprog_announces T) (logged st).
Proof.
  unfold reprog_run.
  destruct (reprog_crawl session T (initial_state reprog_params))
    as [[u st']|e] eqn:H; [|discriminate].
  intros Heq. inversion Heq. subst st'. clear Heq.
  apply reprog_crawl_steps in H; [|apply reprog_params_on_base].
  destruct H as (seg & reqs & logs & He & Hr & Hl & Hs & Hrec & Ha & Hb).
  simpl in He, Hr, Hl. rewrite He, Hr, Hl.
  destruct (Hb reprog_params_on_base) as [_ Hq]. auto.
Qed.

End Reprog.

End TraceFacts.

(** * Identifiers, file names and dates as text *)

Module Paths.
Import Coes Props Trace.
Local Open Scope string_scope.

(** ** [int(str(n))] *)

Lemma digits_step c acc s b :
  Py.is_digit c = true ->
  Py.digits b acc (String c s) = Py.digits true (10 * acc + Py.digit_value c) s.
Proof. intros H. cbn [Py.digits]. rewrite H. reflexivity. Qed.

Lemma digits_acc (d : Decimal.uint) : forall acc,
  Py.digits true (Z.pos acc) (NilEmpty.string_of_uint d)
  = Some (Z.pos (Pos.of_uint_acc d acc)).
Proof.
  induction d; intros acc; cbn [NilEmpty.string_of_uint Pos.of_uint_acc];
    [reflexivity | ..].
  all: rewrite digits_step by reflexivity.
  all: rewrite <- IHd; f_equal.
  all: match goal with |- context [Py.digit_value ?c] =>
         let v := eval vm_compute in (Py.digit_value c) in
         change (Py.digit_value c) with v
       end; lia.
Qed.

Lemma digits_uint (d : Decimal.uint) :
  Py.digits true 0 (NilEmpty.string_of_uint d)
  = Some (Z.of_N (Pos.of_uint d)).
Proof.
  induction d; cbn [NilEmpty.string_of_uint Pos.of_uint]; [reflexivity | ..].
  all: rewrite digits_step by reflexivity.
  all: try exact IHd.
  all: cbn [Z.of_N]; rewrite <- digits_acc; reflexivity.
Qed.

Lemma digit_not_space c : Py.is_digit c = true -> Py.is_space c = false.
Proof.
  unfold Py.is_digit, Py.is_space. intros H.
  apply andb_true_iff in H. destruct H as [H1 H2].
  apply N.leb_le in H1, H2.
  apply orb_false_iff. split; apply andb_false_iff.
  - right. apply N.leb_gt. lia.
  - right. apply N.leb_gt. lia.
Qed.

Lemma digit_not_int_space c :
  Py.is_digit c = true -> Py.is_int_space c = false.
Proof.
  unfold Py.is_digit, Py.is_int_space. intros H.
  apply andb_true_iff in H. destruct H as [H1 H2].
  apply N.leb_le in H1, H2.
  apply orb_false_iff. split.
  - apply andb_false_iff. right. apply N.leb_gt. lia.
  - apply N.eqb_neq. lia.
Qed.

Lemma digit_not_sign c :
  Py.is_digit c = true -> Ascii.eqb c "+" = false /\ Ascii.eqb c "-" = false.
Proof.
  intros H. split; apply Ascii.eqb_neq; intros ->; discriminate.
Qed.

Lemma digit_not_slash c : Py.is_digit c = true -> Ascii.eqb c "/" = false.
Proof. intros H. apply Ascii.eqb_neq. intros ->. discriminate. Qed.

Lemma digits_no_char sep s :
  Py.is_digit sep = false ->
  all_chars Py.is_digit s = true -> has_char sep s = false.
Proof.
  intros Hsep. induction s as [|c s IH]; simpl; [reflexivity|].
  intros H. apply andb_true_iff in H. destruct H as [Hc Hs].
  rewrite (IH Hs), orb_false_r. apply Ascii.eqb_neq. congruence.
Qed.

Lemma digits_no_space s :
  all_chars Py.is_digit s = true ->
  all_chars (fun c => negb (Py.is_int_space c)) s = true.
Proof.
  induction s as [|c s IH]; simpl; [reflexivity|].
  intros H. apply andb_true_iff in H. destruct H as [Hc Hs].
  rewrite (digit_not_int_space _ Hc), (IH Hs). reflexivity.
Qed.

Lemma digits_start s acc :
  s <> EmptyString -> all_chars Py.is_digit s = true ->
  Py.digits false acc s = Py.digits true acc s.
Proof.
  destruct s as [|c s]; [congruence|]. simpl all_chars. intros _ H.
  apply andb_true_iff in H. destruct H as [Hc _].
  rewrite !digits_step by exact Hc. reflexivity.
Qed.

(** A text of ASCII digits is its own ASCII form, stripped or not, and
    counts as many digits as it is long. *)
Lemma digits_to_ascii s :
  all_chars Py.is_digit s = true -> Py.to_ascii s = Some s.
Proof.
  induction s as [|c s IH]; simpl; [reflexivity|].
  intros H. apply andb_true_iff in H. destruct H as [Hc Hs].
  rewrite (IH Hs).
  replace (N_of_ascii c <? 128)%N with true; [reflexivity|].
  symmetry. apply N.ltb_lt. unfold Py.is_digit in Hc.
  apply andb_true_iff in Hc. destruct Hc as [_ Hc]. apply N.leb_le in Hc. lia.
Qed.

Lemma digits_strip s :
  all_chars Py.is_digit s = true -> Py.strip Py.is_int_space s = s.
Proof.
  intros Hall. unfold Py.strip.
  assert (Hl : Py.lstrip Py.is_int_space s = s).
  { destruct s as [|c s]; [reflexivity|]. simpl in Hall |- *.
    apply andb_true_iff in Hall. destruct Hall as [Hc _].
    rewrite (digit_not_int_space _ Hc). reflexivity. }
  rewrite Hl. apply Labels.rstrip_clean, digits_no_space, Hall.
Qed.

Lemma digits_count s :
  all_chars Py.is_digit s = true -> Py.count_digits s = String.length s.
Proof.
  induction s as [|c s IH]; simpl; [reflexivity|].
  intros H. apply andb_true_iff in H. destruct H as [Hc Hs].
  rewrite Hc, (IH Hs). reflexivity.
Qed.

Lemma limited_short s :
  all_chars Py.is_digit s = true ->
  (String.length s <= Py.max_str_digits)%nat ->
  Py.limited_digits s = Py.digits false 0 s.
Proof.
  intros Hall Hlen. unfold Py.limited_digits. rewrite (digits_count _ Hall).
  apply Nat.leb_le in Hlen. rewrite Hlen. reflexivity.
Qed.

Lemma limited_long s :
  all_chars Py.is_digit s = true ->
  (Py.max_str_digits < String.length s)%nat ->
  Py.limited_digits s = None.
Proof.
  intros Hall Hlen. unfold Py.limited_digits. rewrite (digits_count _ Hall).
  apply Nat.leb_gt in Hlen. rewrite Hlen. reflexivity.
Qed.

Lemma int_unsigned s :
  s <> EmptyString -> all_chars Py.is_digit s = true ->
  Py.int s = Py.limited_digits s.
Proof.
  intros Hne Hall. unfold Py.int.
  rewrite (digits_to_ascii _ Hall), (digits_strip _ Hall).
  destruct s as [|c s]; [congruence|]. simpl in Hall.
  apply andb_true_iff in Hall. destruct Hall as [Hc _].
  destruct c as [[] [] [] [] [] [] [] []]; try discriminate Hc; reflexivity.
Qed.

(** [int] on a text of digits, of at most 4300: its value in base ten. *)
Lemma int_digits s :
  s <> EmptyString -> all_chars Py.is_digit s = true ->
  (String.length s <= Py.max_str_digits)%nat ->
  Py.int s = Py.digits true 0 s.
Proof.
  intros Hne Hall Hlen.
  rewrite (int_unsigned _ Hne Hall), (limited_short _ Hall Hlen).
  apply digits_start; assumption.
Qed.

(** ... of more than 4300: none. *)
Lemma int_too_long s :
  all_chars Py.is_digit s = true ->
  (Py.max_str_digits < String.length s)%nat ->
  Py.int s = None.
Proof.
  intros Hall Hlen.
  assert (Hne : s <> EmptyString) by (intros ->; simpl in Hlen; lia).
  rewrite (int_unsigned _ Hne Hall). apply limited_long; assumption.
Qed.

Lemma uint_digits (d : Decimal.uint) :
  all_chars Py.is_digit (NilEmpty.string_of_uint d) = true.
Proof. induction d; simpl; auto. Qed.

Lemma uint_nonempty (d : Decimal.uint) :
  d <> Decimal.Nil -> NilEmpty.string_of_uint d <> EmptyString.
Proof. destruct d; simpl; congruence. Qed.

Lemma str_pos p :
  Py.str_of_int (Z.pos p) = NilEmpty.string_of_uint (Pos.to_uint p).
Proof.
  unfold Py.str_of_int. simpl.
  pose proof (DecimalPos.Unsigned.to_uint_nonnil p) as Hnil.
  destruct (Pos.to_uint p); [congruence | reflexivity..].
Qed.

(** The text of a number that is not negative: digits, and one at least. *)
Lemma str_digits n :
  0 <= n ->
  Py.str_of_int n <> EmptyString /\
  all_chars Py.is_digit (Py.str_of_int n) = true.
Proof.
  intros Hn. destruct n as [|p|p]; [| |lia].
  - split; [discriminate | reflexivity].
  - rewrite str_pos. split; [|apply uint_digits].
    apply uint_nonempty, DecimalPos.Unsigned.to_uint_nonnil.
Qed.

(** The digits [str] writes of a number that is not negative give the
    number back. *)
Lemma digits_str n : 0 <= n -> Py.digits true 0 (Py.str_of_int n) = Some n.
Proof.
  intros Hn. destruct n as [|p|p]; [reflexivity | | lia].
  rewrite str_pos, digits_uint, DecimalPos.Unsigned.of_to. reflexivity.
Qed.

(** What [str] writes in at most 4300 digits, [int] reads back. *)
Lemma int_str n :
  (String.length (Py.str_of_int (Z.abs n)) <= Py.max_str_digits)%nat ->
  Py.int (Py.str_of_int n) = Some n.
Proof.
  destruct n as [|p|p]; cbn [Z.abs]; intros Hlen.
  - reflexivity.
  - destruct (str_digits (Z.pos p)) as [Hne Hall]; [lia|].
    rewrite (int_digits _ Hne Hall Hlen). apply digits_str. lia.
  - destruct (str_digits (Z.pos p)) as [Hne Hall]; [lia|].
    change (Py.str_of_int (Z.neg p))
      with (String "-" (NilZero.string_of_uint (Pos.to_uint p))).
    change (NilZero.string_of_uint (Pos.to_uint p))
      with (Py.str_of_int (Z.pos p)).
    unfold Py.int. cbn [Py.to_ascii].
    change (N_of_ascii "-" <? 128)%N with true. cbv iota.
    rewrite (digits_to_ascii _ Hall). cbn [option_map].
    unfold Py.strip.
    change (Py.lstrip Py.is_int_space (String "-" (Py.str_of_int (Z.pos p))))
      with (String "-" (Py.str_of_int (Z.pos p))).
    rewrite (Labels.rstrip_clean Py.is_int_space
               (String "-" (Py.str_of_int (Z.pos p))))
      by (simpl; apply digits_no_space; exact Hall).
    rewrite (limited_short _ Hall Hlen), (digits_start _ _ Hne Hall).
    rewrite (digits_str (Z.pos p)) by lia. reflexivity.
Qed.

(** ** Leading zeros *)

Lemma digits_zeros k s :
  Py.digits true 0 (zeros k ++ s) = Py.digits true 0 s.
Proof.
  induction k as [|k IH]; [reflexivity|].
  unfold zeros in *. simpl. exact IH.
Qed.

Lemma all_chars_app p a b :
  all_chars p (a ++ b) = all_chars p a && all_chars p b.
Proof.
  induction a as [|c a IH]; simpl; [reflexivity|].
  rewrite IH, andb_assoc. reflexivity.
Qed.

Lemma zeros_digits k : all_chars Py.is_digit (zeros k) = true.
Proof. induction k as [|k IH]; [reflexivity | exact IH]. Qed.

Lemma pad_digits k n :
  0 <= n ->
  Dt.pad k (Py.str_of_int n) <> EmptyString /\
  all_chars Py.is_digit (Dt.pad k (Py.str_of_int n)) = true.
Proof.
  intros Hn. destruct (str_digits n Hn) as [Hne Hall]. unfold Dt.pad.
  fold (zeros (k - String.length (Py.str_of_int n))). split.
  - destruct (zeros _); simpl; [exact Hne | discriminate].
  - rewrite all_chars_app, zeros_digits, Hall. reflexivity.
Qed.

Lemma digits_pad k n :
  0 <= n -> Py.digits true 0 (Dt.pad k (Py.str_of_int n)) = Some n.
Proof.
  intros Hn. unfold Dt.pad.
  fold (zeros (k - String.length (Py.str_of_int n))).
  rewrite digits_zeros. apply digits_str. exact Hn.
Qed.

Lemma int_pad k n :
  0 <= n ->
  (String.length (Dt.pad k (Py.str_of_int n)) <= Py.max_str_digits)%nat ->
  Py.int (Dt.pad k (Py.str_of_int n)) = Some n.
Proof.
  intros Hn Hlen. destruct (pad_digits k n Hn) as [Hne Hall].
  rewrite (int_digits _ Hne Hall Hlen). apply digits_pad. exact Hn.
Qed.

(** ** The keys of the identifiers *)

Lemma int_ok s n : Py.int s = Some n -> Coes.int s = Ok n.
Proof. unfold Coes.int. intros ->. reflexivity. Qed.

Lemma pad_no_char sep k n :
  Py.is_digit sep = false -> 0 <= n ->
  has_char sep (Dt.pad k (Py.str_of_int n)) = false.
Proof.
  intros Hsep Hn. apply digits_no_char; [exact Hsep|].
  apply pad_digits. exact Hn.
Qed.

(** The text the key of an identifier is read from, when the number is
    written with digits only. *)
Lemma year_of_id_text dir t :
  t <> EmptyString -> all_chars Py.is_digit t = true ->
  year_of_id (dir ++ "/" ++ t ++ "/") = Coes.int t.
Proof.
  intros Hne Hall. unfold year_of_id.
  change (dir ++ "/" ++ t ++ "/") with (dir ++ String "/" (t ++ "/")).
  rewrite Labels.last_segment_identifier;
    [reflexivity | exact Hne | apply digits_no_char; [reflexivity|exact Hall]].
Qed.

Lemma month_of_id_text dir t name :
  t <> EmptyString -> all_chars Py.is_digit t = true ->
  has_char "/" name = false ->
  month_of_id (dir ++ "/" ++ (t ++ "_" ++ name) ++ "/") = Coes.int t.
Proof.
  intros Hne Hall Hname. unfold month_of_id.
  change (dir ++ "/" ++ (t ++ "_" ++ name) ++ "/")
    with (dir ++ String "/" ((t ++ String "_" name) ++ "/")).
  rewrite Labels.last_segment_identifier.
  - rewrite Labels.split_app.
    rewrite (Labels.split_no_sep "_" t)
      by (apply digits_no_char; [reflexivity | exact Hall]).
    reflexivity.
  - destruct t; [congruence | discriminate].
  - rewrite Labels.has_char_app. simpl.
    rewrite (digits_no_char "/" t eq_refl Hall), Hname. reflexivity.
Qed.

Lemma day_of_id_text dir words t :
  all_chars Py.is_digit t = true ->
  has_char "/" words = false ->
  day_of_id (dir ++ "/" ++ (words ++ " " ++ t) ++ "/") = Coes.int t.
Proof.
  intros Hall Hwords. unfold day_of_id.
  change (dir ++ "/" ++ (words ++ " " ++ t) ++ "/")
    with (dir ++ String "/" ((words ++ String " " t) ++ "/")).
  rewrite Labels.last_segment_identifier.
  - rewrite Labels.last_word
      by (apply digits_no_char; [reflexivity | exact Hall]).
    reflexivity.
  - destruct words; discriminate.
  - rewrite Labels.has_char_app. simpl.
    rewrite (digits_no_char "/" t eq_refl Hall), Hwords. reflexivity.
Qed.

Lemma int_none s : Py.int s = None -> exists msg, Coes.int s = Raise (ValueError msg).
Proof. unfold Coes.int. intros ->. eexists. reflexivity. Qed.

(** ** Slashes around an identifier *)

Lemma strip_snoc p s c :
  p c = true ->
  Py.strip p (s ++ String c EmptyString) = Py.strip p s.
Proof.
  intros Hc. unfold Py.strip. induction s as [|x s IH]; simpl.
  - rewrite Hc. reflexivity.
  - destruct (p x); [exact IH|].
    change (String x (s ++ String c EmptyString))
      with (String x s ++ String c EmptyString).
    apply Labels.rstrip_drop. exact Hc.
Qed.

Lemma last_segment_slashes id :
  last_segment ("/" ++ id) = last_segment id /\
  last_segment (id ++ "/") = last_segment id.
Proof.
  unfold last_segment. split; [reflexivity|].
  rewrite (strip_snoc Py.is_slash id "/" eq_refl). reflexivity.
Qed.

(** ** The name of a file *)

Lemma last_sep sep s :
  has_char sep s = false \/
  exists dir w, s = dir ++ String sep w /\ has_char sep w = false.
Proof.
  induction s as [|c s IH]; [left; reflexivity|].
  destruct IH as [Hs|(dir & w & -> & Hw)].
  - simpl. destruct (Ascii.eqb c sep) eqn:Hc.
    + right. apply Ascii.eqb_eq in Hc. subst c.
      exists EmptyString, s. auto.
    + left. exact Hs.
  - right. exists (String c dir), w. auto.
Qed.

Lemma file_name sep s :
  has_char sep (Py.last_item (Py.split sep s)) = false /\
  (s = Py.last_item (Py.split sep s) \/
   exists dir, s = dir ++ String sep (Py.last_item (Py.split sep s))).
Proof.
  destruct (last_sep sep s) as [Hs|(dir & w & -> & Hw)].
  - rewrite (Labels.split_no_sep _ _ Hs). simpl. auto.
  - rewrite (Labels.last_word _ _ _ Hw). split; [exact Hw|].
    right. exists dir. reflexivity.
Qed.

(** ** Dates as text *)

Lemma split3 sep a b c :
  has_char sep a = false -> has_char sep b = false ->
  has_char sep c = false ->
  Py.split sep (a ++ String sep (b ++ String sep c)) = [a; b; c].
Proof.
  intros Ha Hb Hc. rewrite !Labels.split_app.
  rewrite (Labels.split_no_sep _ _ Ha), (Labels.split_no_sep _ _ Hb),
    (Labels.split_no_sep _ _ Hc). reflexivity.
Qed.

Lemma pad_inj k n n' :
  0 <= n -> 0 <= n' ->
  Dt.pad k (Py.str_of_int n) = Dt.pad k (Py.str_of_int n') -> n = n'.
Proof.
  intros Hn Hn' H. apply (f_equal (Py.digits true 0)) in H.
  rewrite !digits_pad in H by assumption. congruence.
Qed.

Lemma strftime_dmY_inj d1 d2 :
  0 <= Dt.year d1 -> 0 <= Dt.month d1 -> 0 <= Dt.day d1 ->
  0 <= Dt.year d2 -> 0 <= Dt.month d2 -> 0 <= Dt.day d2 ->
  Dt.strftime_dmY d1 = Dt.strftime_dmY d2 -> d1 = d2.
Proof.
  intros Hy1 Hm1 Hd1 Hy2 Hm2 Hd2 H. apply (f_equal (Py.split "/")) in H.
  unfold Dt.strftime_dmY in H.
  change (Py.str_of_int (Dt.year d1))
    with (Dt.pad 0 (Py.str_of_int (Dt.year d1))) in H.
  change (Py.str_of_int (Dt.year d2))
    with (Dt.pad 0 (Py.str_of_int (Dt.year d2))) in H.
  change (?a ++ "/" ++ ?b ++ "/" ++ ?c)
    with (a ++ String "/" (b ++ String "/" c)) in H.
  rewrite !split3 in H by (apply pad_no_char; [reflexivity | assumption]).
  inversion H as [[Hd Hm Hy]].
  apply pad_inj in Hd, Hm, Hy; try assumption.
  destruct d1, d2. simpl in *. congruence.
Qed.

Lemma valid_nonneg d :
  Dt.valid d = true -> 0 <= Dt.year d /\ 0 <= Dt.month d /\ 0 <= Dt.day d.
Proof.
  unfold Dt.valid. intros H.
  repeat (apply andb_true_iff in H; destruct H as [H ?]).
  lia.
Qed.

End Paths.

(** * The crawl under two thresholds *)

Module Outrun.
Import Coes Props CrawlFacts Trace TraceFacts.
Local Open Scope crawl_scope.

Lemma ltb_below d T' T :
  Dt.ltb d T' = true -> Dt.ltb T T' = false -> Dt.ltb d T = true.
Proof.
  unfold Dt.ltb. intros H1 H2.
  rewrite !orb_true_iff, !andb_true_iff, !Z.ltb_lt, !Z.eqb_eq in H1 |- *.
  rewrite !orb_false_iff, !andb_false_iff, !orb_false_iff, !andb_false_iff,
    !Z.ltb_ge, !Z.eqb_neq in H2.
  lia.
Qed.

Lemma prefix_refl {A} (l : list A) : prefix l l.
Proof. exists []. rewrite app_nil_r. reflexivity. Qed.

Lemma prefix_trans {A} (a b c : list A) : prefix a b -> prefix b c -> prefix a c.
Proof.
  intros (m1 & ->) (m2 & ->). exists (m1 ++ m2). rewrite app_assoc.
  reflexivity.
Qed.

Section Loops.
Context {E : Type}.

Lemma extends_refl (st : crawl_state E) : extends st st.
Proof. split; apply prefix_refl. Qed.

Lemma extends_trans (a b c : crawl_state E) :
  extends a b -> extends b c -> extends a c.
Proof. intros [H1 H2] [H3 H4]. split; eapply prefix_trans; eassumption. Qed.

Lemma steps_extends session base dateof nameof urlof msgof announces
    (st st' : crawl_state E) :
  steps session base dateof nameof urlof msgof announces st st' ->
  extends st st'.
Proof.
  intros (seg & reqs & logs & He & Hr & _). split; eexists; eassumption.
Qed.

Lemma for_in_outrun {A} (b1 b2 : A -> Crawl E control) l :
  (forall x st, stop st = true -> b1 x st = Ok (Break, st)) ->
  (forall x st c st', In x l -> b2 x st = Ok (c, st') -> extends st st') ->
  (forall x, In x l -> keeps_up b1 b2 x) ->
  forall st st2,
    for_in l b2 st = Ok (tt, st2) ->
    exists st1, for_in l b1 st = Ok (tt, st1) /\ outrun st1 st2.
Proof.
  intros Hstop. induction l as [|x rest IH]; intros Hext Hsim st st2 H.
  - apply ret_inv in H. destruct H as [_ ->]. exists st. split; [reflexivity|].
    left. reflexivity.
  - simpl in H. apply bind_inv in H. destruct H as (c2 & s2 & Hx & Hrest).
    destruct (Hsim x (or_introl eq_refl) st c2 s2 Hx)
      as (c1 & s1 & Hx1 & [[-> ->]|[Hs1 He1]]).
    + simpl. unfold bind. rewrite Hx1. destruct c2.
      * apply IH; [| |exact Hrest].
        -- intros y s c s' Hy. apply Hext. right. exact Hy.
        -- intros y Hy. apply Hsim. right. exact Hy.
      * apply ret_inv in Hrest. destruct Hrest as [_ ->].
        exists s2. split; [reflexivity | left; reflexivity].
    + exists s1. split.
      * simpl. unfold bind. rewrite Hx1. destruct c1; [|reflexivity].
        apply for_in_stopped. intros y. apply Hstop. exact Hs1.
      * right. split; [exact Hs1|]. eapply extends_trans; [exact He1|].
        destruct c2.
        -- revert Hrest. apply for_in_rel.
           ++ apply extends_refl.
           ++ apply extends_trans.
           ++ intros y s c s' Hy. apply Hext. right. exact Hy.
        -- apply ret_inv in Hrest. destruct Hrest as [_ ->].
           apply extends_refl.
Qed.

End Loops.

(** The loop of the goal ran as [H] says. *)
Ltac use_loop H :=
  lazymatch type of H with
  | _ = ?r =>
      match goal with
      | |- context [for_in ?l ?b ?s] =>
          replace (for_in l b s) with r by (symmetry; exact H)
      end
  end.

(** The body of the goal, past its test of [stop], which [Hb] settles. *)
Ltac past_stop Hb :=
  unfold bind at 1; unfold get_stop; cbv beta iota; rewrite Hb;
  unfold bind, set_url, post, lift, set_stop, logger_info, ret;
  cbn [params stop dowload_urls_map requests logged].

(** ** [get_urls_prog_dia] *)

Section Prog.
Variables (session : Session) (T T' : Dt.date).
Hypothesis Hle : Dt.ltb T T' = false.

Lemma prog_day_keeps_up y m row :
  keeps_up (prog_day_body session T y m) (prog_day_body session T' y m) row.
Proof.
  destruct row as [d id]. intros st c2 st2 H.
  unfold prog_day_body in H. inv_crawl H.
  - exists Break, st. split; [|left; auto].
    apply Threshold.prog_day_stopped. assumption.
  - eexists _, _. split; [|left; split; reflexivity].
    unfold prog_day_body, bind, get_stop, set_url, post, lift, set_stop, ret.
    simpl in *.
    match goal with
      Hd : date y m d = Ok ?dd, Hlt : Dt.ltb ?dd T' = true |- _ =>
        rewrite Hb, Hpost, Hr, Hd, (ltb_below _ _ _ Hlt Hle) end.
    reflexivity.
  - simpl in Hpost.
    match goal with Hloop : for_in _ _ _ = Ok _ |- _ =>
      destruct (prog_links_run _ _ _ _ Hloop) as (urls & Hurls & Hst0);
      destruct (Dt.ltb a0 T) eqn:HT;
      [ exists Break, (breach_state id st)
      | exists Continue, st0 ]
    end.
    + split.
      * unfold prog_day_body. past_stop Hb.
        rewrite Hpost, Hr, Hr0, HT. reflexivity.
      * right. split; [reflexivity|]. subst st0. split.
        -- eexists. reflexivity.
        -- apply prefix_refl.
    + split; [|left; auto].
      unfold prog_day_body. past_stop Hb.
      rewrite Hpost, Hr, Hr0, HT.
      match goal with Hloop : for_in _ _ _ = Ok _ |- _ => use_loop Hloop end.
      reflexivity.
Qed.

Lemma prog_month_keeps_up y row :
  keeps_up (prog_month_body session T y) (prog_month_body session T' y) row.
Proof.
  destruct row as [m id]. intros st c2 st2 H.
  unfold prog_month_body in H. inv_crawl H.
  - exists Break, st. split; [|left; auto].
    apply Threshold.prog_month_stopped. assumption.
  - simpl in Hpost.
    match goal with Hloop : for_in _ _ _ = Ok _ |- _ =>
      destruct (for_in_outrun (prog_day_body session T y m)
                  (prog_day_body session T' y m) _
                  (Threshold.prog_day_stopped session T y m)
                  (fun x s c s' Hin Hx =>
                     steps_extends _ _ _ _ _ _ _ _ _
                       (prog_day_steps session T' y m x s c s' Hx))
                  (fun x Hin => prog_day_keeps_up y m x)
                  _ _ Hloop) as (st1 & Hrun & Hout)
    end.
    exists Continue, st1. split.
    + unfold prog_month_body. past_stop Hb. rewrite Hpost, Hr, Hr0.
      use_loop Hrun. reflexivity.
    + destruct Hout as [->|Hout]; [left; auto | right; exact Hout].
Qed.

Lemma prog_year_keeps_up row :
  keeps_up (prog_year_body session T) (prog_year_body session T') row.
Proof.
  destruct row as [y id]. intros st c2 st2 H.
  unfold prog_year_body in H. inv_crawl H.
  - exists Break, st. split; [|left; auto].
    apply Threshold.prog_year_stopped. assumption.
  - simpl in Hpost.
    match goal with Hloop : for_in _ _ _ = Ok _ |- _ =>
      destruct (for_in_outrun (prog_month_body session T y)
                  (prog_month_body session T' y) _
                  (Threshold.prog_month_stopped session T y)
                  (fun x s c s' Hin Hx =>
                     steps_extends _ _ _ _ _ _ _ _ _
                       (prog_month_steps session T' y x s c s' Hx))
                  (fun x Hin => prog_month_keeps_up y x)
                  _ _ Hloop) as (st1 & Hrun & Hout)
    end.
    exists Continue, st1. split.
    + unfold prog_year_body. past_stop Hb. rewrite Hpost, Hr, Hr0.
      use_loop Hrun. reflexivity.
    + destruct Hout as [->|Hout]; [left; auto | right; exact Hout].
Qed.

Lemma prog_crawl_outrun st st2 :
  prog_crawl session T' st = Ok (tt, st2) ->
  exists st1, prog_crawl session T st = Ok (tt, st1) /\ outrun st1 st2.
Proof.
  intros H. unfold prog_crawl in H. inv_crawl H.
  match goal with Hloop : for_in _ _ _ = Ok _ |- _ =>
    destruct (for_in_outrun (prog_year_body session T)
                (prog_year_body session T') _
                (Threshold.prog_year_stopped session T)
                (fun x s c s' Hin Hx =>
                   steps_extends _ _ _ _ _ _ _ _ _
                     (prog_year_steps session T' x s c s' Hx))
                (fun x Hin => prog_year_keeps_up x)
                _ _ Hloop) as (st1 & Hrun & Hout)
  end.
  exists st1. split; [|exact Hout].
  unfold prog_crawl, bind, post, lift.
  cbn [params stop dowload_urls_map requests logged].
  rewrite Hpost, Hr, Hr0. use_loop Hrun. reflexivity.
Qed.

(** The crawl with the threshold [T'] ended well: so does the crawl with
    the threshold [T], not earlier than [T'], and what it returns and what
    it requested are the first of what the other did. *)
Lemma prog_run_outrun st2 :
  prog_run session T' = Ok st2 ->
  exists st1,
    prog_run session T = Ok st1 /\
    prefix (dowload_urls_map st1) (dowload_urls_map st2) /\
    prefix (requests st1) (requests st2).
Proof.
  unfold prog_run.
  destruct (prog_crawl session T' (initial_state prog_params))
    as [[[] st]|e] eqn:H; [|discriminate].
  intros Heq. inversion Heq. subst st. clear Heq.
  destruct (prog_crawl_outrun _ _ H) as (st1 & -> & Hout).
  exists st1. split; [reflexivity|].
  destruct Hout as [->|[_ [He Hr]]]; [split; apply prefix_refl | auto].
Qed.

End Prog.

(** ** [get_urls_reprog_dia] *)

Section Reprog.
Variables (session : Session) (T T' : Dt.date).
Hypothesis Hle : Dt.ltb T T' = false.

Lemma reprog_day_keeps_up y m row :
  keeps_up (reprog_day_body session T y m) (reprog_day_body session T' y m) row.
Proof.
  destruct row as [d id]. intros st c2 st2 H.
  unfold reprog_day_body in H. inv_crawl H.
  - exists Break, st. split; [|left; auto].
    apply Threshold.reprog_day_stopped. assumption.
  - eexists _, _. split; [|left; split; reflexivity].
    simpl in Hpost. unfold reprog_day_body. past_stop Hb.
    match goal with
      Hd : date y m d = Ok ?dd, Hlt : Dt.ltb ?dd T' = true |- _ =>
        rewrite Hpost, Hr, Hd, (ltb_below _ _ _ Hlt Hle) end.
    reflexivity.
  - simpl in Hpost.
    match goal with
      Hd : date y m d = Ok ?dd, Hloop : for_in _ _ _ = Ok (_, ?s0) |- _ =>
        destruct (Dt.ltb dd T) eqn:HT;
        [ exists Break, (breach_state id st)
        | exists Continue, s0 ];
        (split;
         [ unfold reprog_day_body; past_stop Hb; rewrite Hpost, Hr, Hd, HT
         | ])
    end.
    + reflexivity.
    + right. split; [reflexivity|].
      match goal with Hloop : for_in _ _ ?s = Ok (_, ?s0) |- _ =>
        assert (Hext : extends s s0)
      end.
      { match goal with Hloop : for_in _ _ _ = Ok _ |- _ =>
          revert Hloop end.
        apply for_in_rel; [apply extends_refl | apply extends_trans |].
        intros row s c s' Hin Hx.
        eapply steps_extends, (reprog_version_steps session T');
          [eapply date_valid; eassumption | eassumption | | exact Hx].
        match goal with Hrows : row_ids reprog_of_id _ = Ok _ |- _ =>
          pose proof (sorted_rows_keys _ _ _ _ _ Hrows Hin) as Hkey end.
        unfold reprog_of_id in Hkey. inversion Hkey as [Hv].
        apply Labels.keep_all. }
      exact Hext.
    + match goal with Hrows : row_ids reprog_of_id _ = Ok _ |- _ =>
        rewrite Hrows end.
      match goal with Hloop : for_in _ _ _ = Ok _ |- _ => use_loop Hloop end.
      reflexivity.
    + left. auto.
Qed.

Lemma reprog_month_keeps_up y row :
  keeps_up (reprog_month_body session T y) (reprog_month_body session T' y) row.
Proof.
  destruct row as [m id]. intros st c2 st2 H.
  unfold reprog_month_body in H. inv_crawl H.
  - exists Break, st. split; [|left; auto].
    apply Threshold.reprog_month_stopped. assumption.
  - simpl in Hpost.
    match goal with Hloop : for_in _ _ _ = Ok _ |- _ =>
      destruct (for_in_outrun (reprog_day_body session T y m)
                  (reprog_day_body session T' y m) _
                  (Threshold.reprog_day_stopped session T y m)
                  (fun x s c s' Hin Hx =>
                     steps_extends _ _ _ _ _ _ _ _ _
                       (reprog_day_steps session T' y m x s c s' Hx))
                  (fun x Hin => reprog_day_keeps_up y m x)
                  _ _ Hloop) as (st1 & Hrun & Hout)
    end.
    exists Continue, st1. split.
    + unfold reprog_month_body. past_stop Hb. rewrite Hpost, Hr, Hr0.
      use_loop Hrun. reflexivity.
    + destruct Hout as [->|Hout]; [left; auto | right; exact Hout].
Qed.

Lemma reprog_year_keeps_up row :
  keeps_up (reprog_year_body session T) (reprog_year_body session T') row.
Proof.
  destruct row as [y id]. intros st c2 st2 H.
  unfold reprog_year_body in H. inv_crawl H.
  - exists Break, st. split; [|left; auto].
    apply Threshold.reprog_year_stopped. assumption.
  - simpl in Hpost.
    match goal with Hloop : for_in _ _ _ = Ok _ |- _ =>
      destruct (for_in_outrun (reprog_month_body session T y)
                  (reprog_month_body session T' y) _
                  (Threshold.reprog_month_stopped session T y)
                  (fun x s c s' Hin Hx =>
                     steps_extends _ _ _ _ _ _ _ _ _
                       (reprog_month_steps session T' y x s c s' Hx))
                  (fun x Hin => reprog_month_keeps_up y x)
                  _ _ Hloop) as (st1 & Hrun & Hout)
    end.
    exists Continue, st1. split.
    + unfold reprog_year_body. past_stop Hb. rewrite Hpost, Hr, Hr0.
      use_loop Hrun. reflexivity.
    + destruct Hout as [->|Hout]; [left; auto | right; exact Hout].
Qed.

Lemma reprog_crawl_outrun st st2 :
  reprog_crawl session T' st = Ok (tt, st2) ->
  exists st1, reprog_crawl session T st = Ok (tt, st1) /\ outrun st1 st2.
Proof.
  intros H. unfold reprog_crawl in H. inv_crawl H.
  match goal with Hloop : for_in _ _ _ = Ok _ |- _ =>
    destruct (for_in_outrun (reprog_year_body session T)
                (reprog_year_body session T') _
                (Threshold.reprog_year_stopped session T)
                (fun x s c s' Hin Hx =>
                   steps_extends _ _ _ _ _ _ _ _ _
                     (reprog_year_steps session T' x s c s' Hx))
                (fun x Hin => reprog_year_keeps_up x)
                _ _ Hloop) as (st1 & Hrun & Hout)
  end.
  exists st1. split; [|exact Hout].
  unfold reprog_crawl, bind, post, lift.
  cbn [params stop dowload_urls_map requests logged].
  rewrite Hpost, Hr, Hr0. use_loop Hrun. reflexivity.
Qed.

Lemma reprog_run_outrun st2 :
  reprog_run session T' = Ok st2 ->
  exists st1,
    reprog_run session T = Ok st1 /\
    prefix (dowload_urls_map st1) (dowload_urls_map st2) /\
    prefix (requests st1) (requests st2).
Proof.
  unfold reprog_run.
  destruct (reprog_crawl session T' (initial_state reprog_params))
    as [[[] st]|e] eqn:H; [|discriminate].
  intros Heq. inversion Heq. subst st. clear Heq.
  destruct (reprog_crawl_outrun _ _ H) as (st1 & -> & Hout).
  exists st1. split; [reflexivity|].
  destruct Hout as [->|[_ [He Hr]]]; [split; apply prefix_refl | auto].
Qed.

End Reprog.

End Outrun.

(** * A crawl that met no day before the threshold lists every file *)

Module Complete.
Import Coes Props CrawlFacts Trace TraceFacts Outrun.
Local Open Scope crawl_scope.

Section Loops.
Context {E A : Type}.

(** With [stop] unset at the end of a loop, every row was visited, and
    what the visit of a row left in the list is still there. *)
Lemma for_in_all (I : crawl_state E -> Prop) (Q : A -> list E -> Prop)
    (body : A -> Crawl E control) l :
  (forall x es es', Q x es -> prefix es es' -> Q x es') ->
  (forall x st c st', In x l -> I st -> body x st = Ok (c, st') ->
     I st' /\ prefix (dowload_urls_map st) (dowload_urls_map st') /\
     (stop st' = false ->
      stop st = false /\ c = Continue /\ Q x (dowload_urls_map st'))) ->
  forall st st', I st -> for_in l body st = Ok (tt, st') ->
  I st' /\ prefix (dowload_urls_map st) (dowload_urls_map st') /\
  (stop st' = false ->
   stop st = false /\ forall x, In x l -> Q x (dowload_urls_map st')).
Proof.
  intros Hmono. induction l as [|x rest IH]; intros Hbody st st' HI H.
  - apply ret_inv in H. destruct H as [_ ->].
    split; [exact HI|]. split; [apply prefix_refl|].
    intros Hs. split; [exact Hs|]. intros x [].
  - simpl in H. apply bind_inv in H. destruct H as (c & st1 & H1 & H2).
    destruct (Hbody x st c st1 (or_introl eq_refl) HI H1) as (HI1 & Hp1 & Hx).
    destruct c.
    + destruct (IH (fun y s c s' Hy => Hbody y s c s' (or_intror Hy)) _ _ HI1 H2)
        as (HI' & Hp' & Hrest).
      split; [exact HI'|]. split; [eapply prefix_trans; eassumption|].
      intros Hs. destruct (Hrest Hs) as [Hs1 Hall].
      destruct (Hx Hs1) as (Hs0 & _ & HQ). split; [exact Hs0|].
      intros y [<-|Hy]; [eapply Hmono; eassumption | apply Hall; exact Hy].
    + apply ret_inv in H2. destruct H2 as [_ ->].
      split; [exact HI1|]. split; [exact Hp1|].
      intros Hs. destruct (Hx Hs) as (_ & Hc & _). discriminate.
Qed.

End Loops.

Lemma In_prefix {A} (x : A) l l' : In x l -> prefix l l' -> In x l'.
Proof. intros H (more & ->). apply in_or_app. left. exact H. Qed.

(** The entries of a listing are the identifiers of its rows. *)
Lemma child_rows {K} (ltb : K -> K -> bool) (key : string -> result K)
    session base id response rows cid :
  page session base id = Ok response ->
  row_ids key (text response) = Ok rows ->
  In cid (child_entries session base id) ->
  exists row,
    In row (sorted_desc ltb fst rows) /\ snd row = cid /\ key cid = Ok (fst row).
Proof.
  intros Hpage Hrows Hin. unfold child_entries, entries_of in Hin.
  rewrite Hpage, <- (Count.row_ids_ids _ _ _ Hrows) in Hin.
  apply in_map_iff in Hin. destruct Hin as (row & <- & Hrow).
  exists row. split; [|split; [reflexivity|]].
  - eapply Permutation_in; [apply (Order.sorted_desc_perm ltb fst)|exact Hrow].
  - apply row_ids_keys in Hrows. rewrite Forall_forall in Hrows.
    apply Hrows. exact Hrow.
Qed.

Lemma rows_child {K} (ltb : K -> K -> bool) (key : string -> result K)
    session base id response rows row :
  page session base id = Ok response ->
  row_ids key (text response) = Ok rows ->
  In row (sorted_desc ltb fst rows) ->
  In (snd row) (child_entries session base id) /\
  key (snd row) = Ok (fst row).
Proof.
  intros Hpage Hrows Hin. split; [|eapply sorted_rows_keys; eassumption].
  unfold child_entries, entries_of.
  rewrite Hpage, <- (Count.row_ids_ids _ _ _ Hrows).
  apply in_map.
  eapply Permutation_in;
    [apply Permutation_sym, (Order.sorted_desc_perm ltb fst)|exact Hin].
Qed.

(** A loop whose iterations leave [stop] unset leaves it unset. *)
Lemma for_in_unstopped {E A} (base : Py.dict string)
    (body : A -> Crawl E control) l :
  (forall x st c st', In x l -> same_base base (params st) ->
     body x st = Ok (c, st') ->
     same_base base (params st') /\ (stop st = false -> stop st' = false)) ->
  forall st st', for_in l body st = Ok (tt, st') ->
  same_base base (params st) ->
  same_base base (params st') /\ (stop st = false -> stop st' = false).
Proof.
  intros Hbody.
  apply (for_in_rel (fun st st' =>
           same_base base (params st) ->
           same_base base (params st') /\ (stop st = false -> stop st' = false))).
  - auto.
  - intros a b c Hab Hbc Ha. destruct (Hab Ha) as [Hb Hs].
    destruct (Hbc Hb) as [Hc Hs']. auto.
  - intros x st c st' Hin Hx Hb. eapply Hbody; eassumption.
Qed.

(** A file the page offers is among the URLs the loop over it recorded. *)
Lemma offered_In response urls tag u :
  comprehension (fun link => attr link "value")
    (cbSelect_inputs (text response)) = Ok urls ->
  In tag (cbSelect_inputs (text response)) ->
  Py.dict_get tag "value" = Some u ->
  In u urls.
Proof.
  intros Hurls Htag Hv. apply comprehension_Forall2 in Hurls.
  destruct (Forall2_In_l _ _ _ _ Hurls Htag) as (u' & Hu' & Hattr).
  unfold attr in Hattr. rewrite Hv in Hattr. inversion Hattr. subst. exact Hu'.
Qed.

(** ** [get_urls_prog_dia] *)

Section Prog.
Variables (session : Session) (T : Dt.date).
Local Abbreviation base := prog_params.

Local Abbreviation visited st c st' Q :=
  (same_base base (params st') /\
   prefix (dowload_urls_map st) (dowload_urls_map st') /\
   (stop st' = false ->
    stop st = false /\ c = Continue /\ Q (dowload_urls_map st'))).

Lemma prog_day_all y m row st c st' :
  same_base base (params st) ->
  prog_day_body session T y m row st = Ok (c, st') ->
  visited st c st'
    (fun es => forall u, files_on session base (snd row) u ->
       In (Dt.mkdate y m (fst row), Py.last_item (Py.split "/" u), u) es).
Proof.
  destruct row as [d id]. intros Hbase H.
  unfold prog_day_body in H. inv_crawl H.
  - split; [exact Hbase|]. split; [apply prefix_refl|]. congruence.
  - split; [apply Count.same_base_set; exact Hbase|].
    split; [apply prefix_refl|]. simpl. discriminate.
  - simpl in Hpost. rewrite (Hbase id) in Hpost.
    match goal with Hloop : for_in _ _ _ = Ok _ |- _ =>
      destruct (prog_links_run _ _ _ _ Hloop) as (urls & Hurls & ->) end.
    cbn [params stop dowload_urls_map requests logged].
    split; [apply Count.same_base_set; exact Hbase|].
    split; [eexists; reflexivity|].
    intros Hs. split; [first [assumption | reflexivity]|].
    split; [reflexivity|].
    cbn [snd fst]. intros u (r & tag & Hpage & Htag & Hv).
    unfold page in Hpage. rewrite Hpost in Hpage. inversion Hpage. subst r.
    apply in_or_app. right. unfold prog_files. apply in_map_iff.
    exists u. split; [|eapply offered_In; eassumption].
    match goal with Hd : date y m d = Ok _ |- _ =>
      rewrite (Threshold.date_inv _ _ _ _ Hd) end.
    reflexivity.
Qed.

Lemma prog_month_all y row st c st' :
  same_base base (params st) ->
  prog_month_body session T y row st = Ok (c, st') ->
  visited st c st'
    (fun es => forall did u,
       In did (child_entries session base (snd row)) ->
       files_on session base did u ->
       exists d,
         day_of_id did = Ok d /\
         In (Dt.mkdate y (fst row) d, Py.last_item (Py.split "/" u), u) es).
Proof.
  destruct row as [m id]. intros Hbase H.
  unfold prog_month_body in H. inv_crawl H.
  - split; [exact Hbase|]. split; [apply prefix_refl|]. congruence.
  - simpl in Hpost. rewrite (Hbase id) in Hpost.
    lazymatch goal with Hloop : for_in _ _ _ = Ok _ |- _ =>
      pose proof (fun HI => for_in_all (fun s => same_base base (params s))
                  (fun row es => forall u, files_on session base (snd row) u ->
                     In (Dt.mkdate y m (fst row),
                         Py.last_item (Py.split "/" u), u) es)
                  _ _
                  (fun x es es' HQ Hp u Hu => In_prefix _ _ _ (HQ u Hu) Hp)
                  (fun x s c s' _ Hs Hx => prog_day_all y m x s c s' Hs Hx)
                  _ _ HI Hloop) as Hrun
    end.
    destruct (Hrun (Count.same_base_set _ _ id Hbase)) as (HI & Hp & Hall).
    split; [exact HI|]. split; [exact Hp|].
    intros Hs. destruct (Hall Hs) as [Hs0 HQ].
    split; [first [assumption | reflexivity]|]. split; [reflexivity|].
    cbn [snd fst]. intros did u Hdid Hfile.
    destruct (child_rows Z.ltb day_of_id session base id _ _ did Hpost Hr0 Hdid)
      as (row & Hin & <- & Hkey).
    exists (fst row). split; [exact Hkey|]. apply (HQ row Hin u Hfile).
Qed.

Lemma prog_year_all row st c st' :
  same_base base (params st) ->
  prog_year_body session T row st = Ok (c, st') ->
  visited st c st'
    (fun es => forall mid did u,
       In mid (child_entries session base (snd row)) ->
       In did (child_entries session base mid) ->
       files_on session base did u ->
       exists m d,
         month_of_id mid = Ok m /\ day_of_id did = Ok d /\
         In (Dt.mkdate (fst row) m d, Py.last_item (Py.split "/" u), u) es).
Proof.
  destruct row as [y id]. intros Hbase H.
  unfold prog_year_body in H. inv_crawl H.
  - split; [exact Hbase|]. split; [apply prefix_refl|]. congruence.
  - simpl in Hpost. rewrite (Hbase id) in Hpost.
    lazymatch goal with Hloop : for_in _ _ _ = Ok _ |- _ =>
      pose proof (fun HI => for_in_all (fun s => same_base base (params s))
                  (fun row es => forall did u,
                     In did (child_entries session base (snd row)) ->
                     files_on session base did u ->
                     exists d,
                       day_of_id did = Ok d /\
                       In (Dt.mkdate y (fst row) d,
                           Py.last_item (Py.split "/" u), u) es)
                  _ _
                  (fun x es es' HQ Hp did u Hd Hu =>
                     match HQ did u Hd Hu with
                     | ex_intro _ d (conj Hk Hi) =>
                         ex_intro _ d (conj Hk (In_prefix _ _ _ Hi Hp))
                     end)
                  (fun x s c s' _ Hs Hx => prog_month_all y x s c s' Hs Hx)
                  _ _ HI Hloop) as Hrun
    end.
    destruct (Hrun (Count.same_base_set _ _ id Hbase)) as (HI & Hp & Hall).
    split; [exact HI|]. split; [exact Hp|].
    intros Hs. destruct (Hall Hs) as [Hs0 HQ].
    split; [first [assumption | reflexivity]|]. split; [reflexivity|].
    cbn [snd fst]. intros mid did u Hmid Hdid Hfile.
    destruct (child_rows Z.ltb month_of_id session base id _ _ mid
                Hpost Hr0 Hmid) as (row & Hin & <- & Hkey).
    destruct (HQ row Hin did u Hdid Hfile) as (d & Hd & Hi).
    exists (fst row), d. auto.
Qed.

(** Every file under every day the portal lists is in the list, when the
    crawl ended with [stop] unset. *)
Lemma prog_run_all st :
  prog_run session T = Ok st ->
  stop st = false ->
  forall yid mid did u,
    In yid (root_entries session base) ->
    In mid (child_entries session base yid) ->
    In did (child_entries session base mid) ->
    files_on session base did u ->
    exists y m d,
      year_of_id yid = Ok y /\ month_of_id mid = Ok m /\
      day_of_id did = Ok d /\
      In (Dt.mkdate y m d, Py.last_item (Py.split "/" u), u)
         (dowload_urls_map st).
Proof.
  unfold prog_run.
  destruct (prog_crawl session T (initial_state prog_params))
    as [[[] st']|e] eqn:H; [|discriminate].
  intros Heq Hstop. inversion Heq. subst st'. clear Heq.
  unfold prog_crawl in H. inv_crawl H. simpl in Hpost.
  lazymatch goal with Hloop : for_in _ _ _ = Ok _ |- _ =>
    pose proof (fun HI => for_in_all (fun s => same_base base (params s))
                (fun row es => forall mid did u,
                   In mid (child_entries session base (snd row)) ->
                   In did (child_entries session base mid) ->
                   files_on session base did u ->
                   exists m d,
                     month_of_id mid = Ok m /\ day_of_id did = Ok d /\
                     In (Dt.mkdate (fst row) m d,
                         Py.last_item (Py.split "/" u), u) es)
                _ _
                (fun x es es' HQ Hp mid did u Hm Hd Hu =>
                   match HQ mid did u Hm Hd Hu with
                   | ex_intro _ m (ex_intro _ d (conj Hk (conj Hk' Hi))) =>
                       ex_intro _ m
                         (ex_intro _ d
                            (conj Hk (conj Hk' (In_prefix _ _ _ Hi Hp))))
                   end)
                (fun x s c s' _ Hs Hx => prog_year_all x s c s' Hs Hx)
                _ _ HI Hloop) as Hrun
  end.
  destruct (Hrun (Count.same_base_refl base)) as (_ & _ & Hall).
  destruct (Hall Hstop) as [_ HQ].
  intros yid mid did u Hyid Hmid Hdid Hfile.
  unfold root_entries, entries_of in Hyid.
  rewrite Hpost, <- (Count.row_ids_ids _ _ _ Hr0) in Hyid.
  apply in_map_iff in Hyid. destruct Hyid as (row & <- & Hrow).
  assert (Hin : In row (sorted_desc Z.ltb fst a0)).
  { eapply Permutation_in; [apply (Order.sorted_desc_perm Z.ltb fst)|].
    exact Hrow. }
  destruct (HQ row Hin mid did u Hmid Hdid Hfile) as (m & d & Hm & Hd & Hi).
  exists (fst row), m, d. split; [|auto].
  apply row_ids_keys in Hr0. rewrite Forall_forall in Hr0. apply Hr0, Hrow.
Qed.

(** *** With no day before the threshold, [stop] stays unset *)

Lemma prog_day_unstopped y m row st c st' :
  Dt.ltb (Dt.mkdate y m (fst row)) T = false ->
  same_base base (params st) ->
  prog_day_body session T y m row st = Ok (c, st') ->
  same_base base (params st') /\ (stop st = false -> stop st' = false).
Proof.
  destruct row as [d id]. cbn [fst]. intros Hge Hbase H.
  unfold prog_day_body in H. inv_crawl H.
  - split; [assumption | intros; congruence].
  - match goal with Hd : date y m d = Ok _ |- _ =>
      rewrite (Threshold.date_inv _ _ _ _ Hd) in * end.
    congruence.
  - match goal with Hloop : for_in _ _ _ = Ok _ |- _ =>
      destruct (prog_links_run _ _ _ _ Hloop) as (urls & Hurls & ->) end.
    cbn [params stop]. split; [apply Count.same_base_set; exact Hbase|auto].
Qed.

Lemma prog_month_unstopped y row st c st' :
  (forall did d, In did (child_entries session base (snd row)) ->
     day_of_id did = Ok d -> Dt.ltb (Dt.mkdate y (fst row) d) T = false) ->
  same_base base (params st) ->
  prog_month_body session T y row st = Ok (c, st') ->
  same_base base (params st') /\ (stop st = false -> stop st' = false).
Proof.
  destruct row as [m id]. cbn [fst snd]. intros Hge Hbase H.
  unfold prog_month_body in H. inv_crawl H; [split; [assumption | intros; congruence]|].
  simpl in Hpost. rewrite (Hbase id) in Hpost.
  match goal with Hloop : for_in _ _ _ = Ok _ |- _ =>
    pose proof (fun Hbody => for_in_unstopped base _ _ Hbody _ _ Hloop
                  (Count.same_base_set _ _ id Hbase)) as Hrun end.
  assert (Hkeep : forall P : Prop, P /\ (stop st = false -> stop st0 = false) ->
                  P /\ (false = false -> stop st0 = false))
    by (intros P [HP Hs]; split; [exact HP | intros _; exact (Hs Hb)]).
  apply Hkeep, Hrun. clear Hrun Hkeep.
  intros row s c' s' Hin. apply prog_day_unstopped.
  destruct (rows_child _ _ _ _ _ _ _ _ Hpost Hr0 Hin) as [Hchild Hkey'].
  eapply Hge; eassumption.
Qed.

Lemma prog_year_unstopped row st c st' :
  (forall mid did m d, In mid (child_entries session base (snd row)) ->
     In did (child_entries session base mid) ->
     month_of_id mid = Ok m -> day_of_id did = Ok d ->
     Dt.ltb (Dt.mkdate (fst row) m d) T = false) ->
  same_base base (params st) ->
  prog_year_body session T row st = Ok (c, st') ->
  same_base base (params st') /\ (stop st = false -> stop st' = false).
Proof.
  destruct row as [y id]. cbn [fst snd]. intros Hge Hbase H.
  unfold prog_year_body in H. inv_crawl H; [split; [assumption | intros; congruence]|].
  simpl in Hpost. rewrite (Hbase id) in Hpost.
  match goal with Hloop : for_in _ _ _ = Ok _ |- _ =>
    pose proof (fun Hbody => for_in_unstopped base _ _ Hbody _ _ Hloop
                  (Count.same_base_set _ _ id Hbase)) as Hrun end.
  assert (Hkeep : forall P : Prop, P /\ (stop st = false -> stop st0 = false) ->
                  P /\ (false = false -> stop st0 = false))
    by (intros P [HP Hs]; split; [exact HP | intros _; exact (Hs Hb)]).
  apply Hkeep, Hrun. clear Hrun Hkeep.
  intros row s c' s' Hin. apply prog_month_unstopped.
  destruct (rows_child _ _ _ _ _ _ _ _ Hpost Hr0 Hin) as [Hchild Hkey'].
  intros did d Hdid Hd. eapply Hge; eassumption.
Qed.

Lemma prog_run_unstopped st :
  within session base T ->
  prog_run session T = Ok st -> stop st = false.
Proof.
  intros Hge. unfold prog_run.
  destruct (prog_crawl session T (initial_state prog_params))
    as [[[] st']|e] eqn:H; [|discriminate].
  intros Heq. inversion Heq. subst st'. clear Heq.
  unfold prog_crawl in H. inv_crawl H. simpl in Hpost.
  match goal with Hloop : for_in _ _ _ = Ok _ |- _ =>
    refine (proj2 (for_in_unstopped base _ _ _ _ _ Hloop
                     (Count.same_base_refl base)) eq_refl) end.
  intros row s c' s' Hin. apply prog_year_unstopped.
  assert (Hroot : In (snd row) (root_entries session base) /\
                  year_of_id (snd row) = Ok (fst row)).
  { split; [|eapply sorted_rows_keys; eassumption].
    unfold root_entries, entries_of.
    rewrite Hpost, <- (Count.row_ids_ids _ _ _ Hr0). apply in_map.
    eapply Permutation_in;
      [apply Permutation_sym, (Order.sorted_desc_perm Z.ltb fst)|exact Hin]. }
  destruct Hroot as [Hchild Hkey'].
  intros mid did m d Hmid Hdid Hm Hd. eapply Hge; eassumption.
Qed.

End Prog.

(** ** [get_urls_reprog_dia] *)

Section Reprog.
Variables (session : Session) (T : Dt.date).
Local Abbreviation base := reprog_params.

Local Abbreviation visited st c st' Q :=
  (same_base base (params st') /\
   prefix (dowload_urls_map st) (dowload_urls_map st') /\
   (stop st' = false ->
    stop st = false /\ c = Continue /\ Q (dowload_urls_map st'))).

Lemma reprog_version_all date_obj row st c st' :
  same_base base (params st) ->
  reprog_version_body session date_obj row st = Ok (c, st') ->
  visited st c st'
    (fun es => forall u, files_on session base (snd row) u ->
       In (date_obj, fst row, Py.last_item (Py.split "/" u), u) es).
Proof.
  destruct row as [v id]. intros Hbase H.
  unfold reprog_version_body in H. inv_crawl H.
  - split; [exact Hbase|]. split; [apply prefix_refl|]. congruence.
  - simpl in Hpost. rewrite (Hbase id) in Hpost.
    match goal with Hloop : for_in _ _ _ = Ok _ |- _ =>
      destruct (reprog_links_run _ _ _ _ _ Hloop) as (urls & Hurls & ->) end.
    cbn [params stop dowload_urls_map requests logged].
    split; [apply Count.same_base_set; exact Hbase|].
    split; [eexists; reflexivity|].
    intros Hs. split; [first [assumption | reflexivity]|].
    split; [reflexivity|].
    cbn [snd fst]. intros u (r & tag & Hpage & Htag & Hv).
    unfold page in Hpage. rewrite Hpost in Hpage. inversion Hpage. subst r.
    apply in_or_app. right. unfold reprog_files. apply in_map_iff.
    exists u. split; [reflexivity|eapply offered_In; eassumption].
Qed.

Lemma reprog_day_all y m row st c st' :
  same_base base (params st) ->
  reprog_day_body session T y m row st = Ok (c, st') ->
  visited st c st'
    (fun es => forall vid u,
       In vid (child_entries session base (snd row)) ->
       files_on session base vid u ->
       exists v,
         reprog_of_id vid = Ok v /\
         In (Dt.mkdate y m (fst row), v, Py.last_item (Py.split "/" u), u) es).
Proof.
  destruct row as [d id]. intros Hbase H.
  unfold reprog_day_body in H. inv_crawl H.
  - split; [exact Hbase|]. split; [apply prefix_refl|]. congruence.
  - split; [apply Count.same_base_set; exact Hbase|].
    split; [apply prefix_refl|]. simpl. discriminate.
  - simpl in Hpost. rewrite (Hbase id) in Hpost.
    match goal with Hd : date y m d = Ok ?dd |- _ =>
      pose proof (Threshold.date_inv _ _ _ _ Hd) as Hdd end.
    subst a0.
    lazymatch goal with Hloop : for_in _ _ _ = Ok _ |- _ =>
      pose proof (fun HI => for_in_all (fun s => same_base base (params s))
                  (fun row es => forall u, files_on session base (snd row) u ->
                     In (Dt.mkdate y m d, fst row,
                         Py.last_item (Py.split "/" u), u) es)
                  _ _
                  (fun x es es' HQ Hp u Hu => In_prefix _ _ _ (HQ u Hu) Hp)
                  (fun x s c s' _ Hs Hx =>
                     reprog_version_all (Dt.mkdate y m d) x s c s' Hs Hx)
                  _ _ HI Hloop) as Hrun
    end.
    destruct (Hrun (Count.same_base_set _ _ id Hbase)) as (HI & Hp & Hall).
    split; [exact HI|]. split; [exact Hp|].
    intros Hs. destruct (Hall Hs) as [Hs0 HQ].
    split; [first [assumption | reflexivity]|]. split; [reflexivity|].
    cbn [snd fst]. intros vid u Hvid Hfile.
    destruct (child_rows String.ltb reprog_of_id session base id _ _ vid
                Hpost Hr1 Hvid) as (row & Hin & <- & Hkey).
    exists (fst row). split; [exact Hkey|]. apply (HQ row Hin u Hfile).
Qed.

Lemma reprog_month_all y row st c st' :
  same_base base (params st) ->
  reprog_month_body session T y row st = Ok (c, st') ->
  visited st c st'
    (fun es => forall did vid u,
       In did (child_entries session base (snd row)) ->
       In vid (child_entries session base did) ->
       files_on session base vid u ->
       exists d v,
         day_of_id did = Ok d /\ reprog_of_id vid = Ok v /\
         In (Dt.mkdate y (fst row) d, v, Py.last_item (Py.split "/" u), u) es).
Proof.
  destruct row as [m id]. intros Hbase H.
  unfold reprog_month_body in H. inv_crawl H.
  - split; [exact Hbase|]. split; [apply prefix_refl|]. congruence.
  - simpl in Hpost. rewrite (Hbase id) in Hpost.
    lazymatch goal with Hloop : for_in _ _ _ = Ok _ |- _ =>
      pose proof (fun HI => for_in_all (fun s => same_base base (params s))
                  (fun row es => forall vid u,
                     In vid (child_entries session base (snd row)) ->
                     files_on session base vid u ->
                     exists v,
                       reprog_of_id vid = Ok v /\
                       In (Dt.mkdate y m (fst row), v,
                           Py.last_item (Py.split "/" u), u) es)
                  _ _
                  (fun x es es' HQ Hp vid u Hv Hu =>
                     match HQ vid u Hv Hu with
                     | ex_intro _ v (conj Hk Hi) =>
                         ex_intro _ v (conj Hk (In_prefix _ _ _ Hi Hp))
                     end)
                  (fun x s c s' _ Hs Hx => reprog_day_all y m x s c s' Hs Hx)
                  _ _ HI Hloop) as Hrun
    end.
    destruct (Hrun (Count.same_base_set _ _ id Hbase)) as (HI & Hp & Hall).
    split; [exact HI|]. split; [exact Hp|].
    intros Hs. destruct (Hall Hs) as [Hs0 HQ].
    split; [first [assumption | reflexivity]|]. split; [reflexivity|].
    cbn [snd fst]. intros did vid u Hdid Hvid Hfile.
    destruct (child_rows Z.ltb day_of_id session base id _ _ did Hpost Hr0 Hdid)
      as (row & Hin & <- & Hkey).
    destruct (HQ row Hin vid u Hvid Hfile) as (v & Hv & Hi).
    exists (fst row), v. auto.
Qed.

Lemma reprog_year_all row st c st' :
  same_base base (params st) ->
  reprog_year_body session T row st = Ok (c, st') ->
  visited st c st'
    (fun es => forall mid did vid u,
       In mid (child_entries session base (snd row)) ->
       In did (child_entries session base mid) ->
       In vid (child_entries session base did) ->
       files_on session base vid u ->
       exists m d v,
         month_of_id mid = Ok m /\ day_of_id did = Ok d /\
         reprog_of_id vid = Ok v /\
         In (Dt.mkdate (fst row) m d, v, Py.last_item (Py.split "/" u), u) es).
Proof.
  destruct row as [y id]. intros Hbase H.
  unfold reprog_year_body in H. inv_crawl H.
  - split; [exact Hbase|]. split; [apply prefix_refl|]. congruence.
  - simpl in Hpost. rewrite (Hbase id) in Hpost.
    lazymatch goal with Hloop : for_in _ _ _ = Ok _ |- _ =>
      pose proof (fun HI => for_in_all (fun s => same_base base (params s))
                  (fun row es => forall did vid u,
                     In did (child_entries session base (snd row)) ->
                     In vid (child_entries session base did) ->
                     files_on session base vid u ->
                     exists d v,
                       day_of_id did = Ok d /\ reprog_of_id vid = Ok v /\
                       In (Dt.mkdate y (fst row) d, v,
                           Py.last_item (Py.split "/" u), u) es)
                  _ _
                  (fun x es es' HQ Hp did vid u Hd Hv Hu =>
                     match HQ did vid u Hd Hv Hu with
                     | ex_intro _ d (ex_intro _ v (conj Hk (conj Hk' Hi))) =>
                         ex_intro _ d
                           (ex_intro _ v
                              (conj Hk (conj Hk' (In_prefix _ _ _ Hi Hp))))
                     end)
                  (fun x s c s' _ Hs Hx => reprog_month_all y x s c s' Hs Hx)
                  _ _ HI Hloop) as Hrun
    end.
    destruct (Hrun (Count.same_base_set _ _ id Hbase)) as (HI & Hp & Hall).
    split; [exact HI|]. split; [exact Hp|].
    intros Hs. destruct (Hall Hs) as [Hs0 HQ].
    split; [first [assumption | reflexivity]|]. split; [reflexivity|].
    cbn [snd fst]. intros mid did vid u Hmid Hdid Hvid Hfile.
    destruct (child_rows Z.ltb month_of_id session base id _ _ mid
                Hpost Hr0 Hmid) as (row & Hin & <- & Hkey).
    destruct (HQ row Hin did vid u Hdid Hvid Hfile)
      as (d & v & Hd & Hv & Hi).
    exists (fst row), d, v. auto.
Qed.

Lemma reprog_run_all st :
  reprog_run session T = Ok st ->
  stop st = false ->
  forall yid mid did vid u,
    In yid (root_entries session base) ->
    In mid (child_entries session base yid) ->
    In did (child_entries session base mid) ->
    In vid (child_entries session base did) ->
    files_on session base vid u ->
    exists y m d v,
      year_of_id yid = Ok y /\ month_of_id mid = Ok m /\
      day_of_id did = Ok d /\ reprog_of_id vid = Ok v /\
      In (Dt.mkdate y m d, v, Py.last_item (Py.split "/" u), u)
         (dowload_urls_map st).
Proof.
  unfold reprog_run.
  destruct (reprog_crawl session T (initial_state reprog_params))
    as [[[] st']|e] eqn:H; [|discriminate].
  intros Heq Hstop. inversion Heq. subst st'. clear Heq.
  unfold reprog_crawl in H. inv_crawl H. simpl in Hpost.
  lazymatch goal with Hloop : for_in _ _ _ = Ok _ |- _ =>
    pose proof (fun HI => for_in_all (fun s => same_base base (params s))
                (fun row es => forall mid did vid u,
                   In mid (child_entries session base (snd row)) ->
                   In did (child_entries session base mid) ->
                   In vid (child_entries session base did) ->
                   files_on session base vid u ->
                   exists m d v,
                     month_of_id mid = Ok m /\ day_of_id did = Ok d /\
                     reprog_of_id vid = Ok v /\
                     In (Dt.mkdate (fst row) m d, v,
                         Py.last_item (Py.split "/" u), u) es)
                _ _
                (fun x es es' HQ Hp mid did vid u Hm Hd Hv Hu =>
                   match HQ mid did vid u Hm Hd Hv Hu with
                   | ex_intro _ m (ex_intro _ d (ex_intro _ v
                       (conj Hk (conj Hk' (conj Hk'' Hi))))) =>
                       ex_intro _ m (ex_intro _ d (ex_intro _ v
                         (conj Hk (conj Hk' (conj Hk''
                            (In_prefix _ _ _ Hi Hp))))))
                   end)
                (fun x s c s' _ Hs Hx => reprog_year_all x s c s' Hs Hx)
                _ _ HI Hloop) as Hrun
  end.
  destruct (Hrun (Count.same_base_refl base)) as (_ & _ & Hall).
  destruct (Hall Hstop) as [_ HQ].
  intros yid mid did vid u Hyid Hmid Hdid Hvid Hfile.
  unfold root_entries, entries_of in Hyid.
  rewrite Hpost, <- (Count.row_ids_ids _ _ _ Hr0) in Hyid.
  apply in_map_iff in Hyid. destruct Hyid as (row & <- & Hrow).
  assert (Hin : In row (sorted_desc Z.ltb fst a0)).
  { eapply Permutation_in; [apply (Order.sorted_desc_perm Z.ltb fst)|].
    exact Hrow. }
  destruct (HQ row Hin mid did vid u Hmid Hdid Hvid Hfile)
    as (m & d & v & Hm & Hd & Hv & Hi).
  exists (fst row), m, d, v. split; [|auto].
  apply row_ids_keys in Hr0. rewrite Forall_forall in Hr0. apply Hr0, Hrow.
Qed.

(** *** With no day before the threshold, [stop] stays unset *)

Lemma reprog_version_unstopped date_obj row st c st' :
  same_base base (params st) ->
  reprog_version_body session date_obj row st = Ok (c, st') ->
  same_base base (params st') /\ (stop st = false -> stop st' = false).
Proof.
  destruct row as [v id]. intros Hbase H.
  unfold reprog_version_body in H. inv_crawl H; [split; [assumption | intros; congruence]|].
  match goal with Hloop : for_in _ _ _ = Ok _ |- _ =>
    destruct (reprog_links_run _ _ _ _ _ Hloop) as (urls & Hurls & ->) end.
  cbn [params stop]. split; [apply Count.same_base_set; exact Hbase|auto].
Qed.

Lemma reprog_day_unstopped y m row st c st' :
  Dt.ltb (Dt.mkdate y m (fst row)) T = false ->
  same_base base (params st) ->
  reprog_day_body session T y m row st = Ok (c, st') ->
  same_base base (params st') /\ (stop st = false -> stop st' = false).
Proof.
  destruct row as [d id]. cbn [fst]. intros Hge Hbase H.
  unfold reprog_day_body in H. inv_crawl H.
  - split; [assumption | intros; congruence].
  - match goal with Hd : date y m d = Ok _ |- _ =>
      rewrite (Threshold.date_inv _ _ _ _ Hd) in * end.
    congruence.
  - match goal with Hloop : for_in _ _ _ = Ok _ |- _ =>
      pose proof (fun Hbody => for_in_unstopped base _ _ Hbody _ _ Hloop
                    (Count.same_base_set _ _ id Hbase)) as Hrun end.
    assert (Hkeep : forall P : Prop,
              P /\ (stop st = false -> stop st0 = false) ->
              P /\ (false = false -> stop st0 = false))
      by (intros P [HP Hs]; split; [exact HP | intros _; exact (Hs Hb)]).
    apply Hkeep, Hrun. clear Hrun Hkeep.
    intros row s c' s' _. apply reprog_version_unstopped.
Qed.

Lemma reprog_month_unstopped y row st c st' :
  (forall did d, In did (child_entries session base (snd row)) ->
     day_of_id did = Ok d -> Dt.ltb (Dt.mkdate y (fst row) d) T = false) ->
  same_base base (params st) ->
  reprog_month_body session T y row st = Ok (c, st') ->
  same_base base (params st') /\ (stop st = false -> stop st' = false).
Proof.
  destruct row as [m id]. cbn [fst snd]. intros Hge Hbase H.
  unfold reprog_month_body in H. inv_crawl H; [split; [assumption | intros; congruence]|].
  simpl in Hpost. rewrite (Hbase id) in Hpost.
  match goal with Hloop : for_in _ _ _ = Ok _ |- _ =>
    pose proof (fun Hbody => for_in_unstopped base _ _ Hbody _ _ Hloop
                  (Count.same_base_set _ _ id Hbase)) as Hrun end.
  assert (Hkeep : forall P : Prop, P /\ (stop st = false -> stop st0 = false) ->
                  P /\ (false = false -> stop st0 = false))
    by (intros P [HP Hs]; split; [exact HP | intros _; exact (Hs Hb)]).
  apply Hkeep, Hrun. clear Hrun Hkeep.
  intros row s c' s' Hin. apply reprog_day_unstopped.
  destruct (rows_child _ _ _ _ _ _ _ _ Hpost Hr0 Hin) as [Hchild Hkey'].
  eapply Hge; eassumption.
Qed.

Lemma reprog_year_unstopped row st c st' :
  (forall mid did m d, In mid (child_entries session base (snd row)) ->
     In did (child_entries session base mid) ->
     month_of_id mid = Ok m -> day_of_id did = Ok d ->
     Dt.ltb (Dt.mkdate (fst row) m d) T = false) ->
  same_base base (params st) ->
  reprog_year_body session T row st = Ok (c, st') ->
  same_base base (params st') /\ (stop st = false -> stop st' = false).
Proof.
  destruct row as [y id]. cbn [fst snd]. intros Hge Hbase H.
  unfold reprog_year_body in H. inv_crawl H; [split; [assumption | intros; congruence]|].
  simpl in Hpost. rewrite (Hbase id) in Hpost.
  match goal with Hloop : for_in _ _ _ = Ok _ |- _ =>
    pose proof (fun Hbody => for_in_unstopped base _ _ Hbody _ _ Hloop
                  (Count.same_base_set _ _ id Hbase)) as Hrun end.
  assert (Hkeep : forall P : Prop, P /\ (stop st = false -> stop st0 = false) ->
                  P /\ (false = false -> stop st0 = false))
    by (intros P [HP Hs]; split; [exact HP | intros _; exact (Hs Hb)]).
  apply Hkeep, Hrun. clear Hrun Hkeep.
  intros row s c' s' Hin. apply reprog_month_unstopped.
  destruct (rows_child _ _ _ _ _ _ _ _ Hpost Hr0 Hin) as [Hchild Hkey'].
  intros did d Hdid Hd. eapply Hge; eassumption.
Qed.

Lemma reprog_run_unstopped st :
  within session base T ->
  reprog_run session T = Ok st -> stop st = false.
Proof.
  intros Hge. unfold reprog_run.
  destruct (reprog_crawl session T (initial_state reprog_params))
    as [[[] st']|e] eqn:H; [|discriminate].
  intros Heq. inversion Heq. subst st'. clear Heq.
  unfold reprog_crawl in H. inv_crawl H. simpl in Hpost.
  match goal with Hloop : for_in _ _ _ = Ok _ |- _ =>
    refine (proj2 (for_in_unstopped base _ _ _ _ _ Hloop
                     (Count.same_base_refl base)) eq_refl) end.
  intros row s c' s' Hin. apply reprog_year_unstopped.
  assert (Hroot : In (snd row) (root_entries session base) /\
                  year_of_id (snd row) = Ok (fst row)).
  { split; [|eapply sorted_rows_keys; eassumption].
    unfold root_entries, entries_of.
    rewrite Hpost, <- (Count.row_ids_ids _ _ _ Hr0). apply in_map.
    eapply Permutation_in;
      [apply Permutation_sym, (Order.sorted_desc_perm Z.ltb fst)|exact Hin]. }
  destruct Hroot as [Hchild Hkey'].
  intros mid did m d Hmid Hdid Hm Hd. eapply Hge; eassumption.
Qed.

End Reprog.

(** ** With [stop] unset at the end, no day was before the threshold *)

Section Unbroken.
Context {E A : Type}.

Lemma for_in_unbroken (I : crawl_state E -> Prop) (Q : A -> Prop)
    (body : A -> Crawl E control) l :
  (forall x st c st', In x l -> I st -> body x st = Ok (c, st') ->
     I st' /\ (stop st' = false -> stop st = false /\ c = Continue /\ Q x)) ->
  forall st st', I st -> for_in l body st = Ok (tt, st') ->
  I st' /\ (stop st' = false -> stop st = false /\ forall x, In x l -> Q x).
Proof.
  induction l as [|x rest IH]; intros Hbody st st' HI H.
  - apply ret_inv in H. destruct H as [_ ->]. split; [exact HI|].
    intros Hs. split; [exact Hs|]. intros x [].
  - simpl in H. apply bind_inv in H. destruct H as (c & st1 & H1 & H2).
    destruct (Hbody x st c st1 (or_introl eq_refl) HI H1) as (HI1 & Hx).
    destruct c.
    + destruct (IH (fun y s c s' Hy => Hbody y s c s' (or_intror Hy)) _ _ HI1 H2)
        as (HI' & Hrest).
      split; [exact HI'|]. intros Hs. destruct (Hrest Hs) as [Hs1 Hall].
      destruct (Hx Hs1) as (Hs0 & _ & HQ). split; [exact Hs0|].
      intros y [<-|Hy]; [exact HQ | apply Hall; exact Hy].
    + apply ret_inv in H2. destruct H2 as [_ ->]. split; [exact HI1|].
      intros Hs. destruct (Hx Hs) as (_ & Hc & _). discriminate.
Qed.

End Unbroken.

(** The rows of a listing carry the keys of its entries. *)
Lemma child_key {K} (ltb : K -> K -> bool) (key : string -> result K)
    session base id response rows cid k :
  page session base id = Ok response ->
  row_ids key (text response) = Ok rows ->
  In cid (child_entries session base id) -> key cid = Ok k ->
  In (k, cid) (sorted_desc ltb fst rows).
Proof.
  intros Hpage Hrows Hin Hk.
  destruct (child_rows ltb key _ _ _ _ _ _ Hpage Hrows Hin)
    as ([k' cid'] & Hrow & Hcid & Hkey).
  simpl in Hcid, Hkey. subst cid'. rewrite Hk in Hkey. inversion Hkey.
  subst k'. exact Hrow.
Qed.

Section ProgWithin.
Variables (session : Session) (T : Dt.date).
Local Abbreviation base := prog_params.

Local Abbreviation unbroken st c st' Q :=
  (same_base base (params st') /\
   (stop st' = false -> stop st = false /\ c = Continue /\ Q)).

Lemma prog_day_within y m row st c st' :
  same_base base (params st) ->
  prog_day_body session T y m row st = Ok (c, st') ->
  unbroken st c st' (Dt.ltb (Dt.mkdate y m (fst row)) T = false).
Proof.
  destruct row as [d id]. cbn [fst]. intros Hbase H.
  unfold prog_day_body in H. inv_crawl H.
  - split; [exact Hbase|]. congruence.
  - split; [apply Count.same_base_set; exact Hbase|]. simpl. discriminate.
  - match goal with Hloop : for_in _ _ _ = Ok _ |- _ =>
      destruct (prog_links_run _ _ _ _ Hloop) as (urls & Hurls & ->) end.
    cbn [params stop]. split; [apply Count.same_base_set; exact Hbase|].
    intros Hs. split; [first [assumption | reflexivity]|].
    split; [reflexivity|].
    match goal with Hd : date y m d = Ok _ |- _ =>
      rewrite <- (Threshold.date_inv _ _ _ _ Hd) end.
    assumption.
Qed.

Lemma prog_month_within y row st c st' :
  same_base base (params st) ->
  prog_month_body session T y row st = Ok (c, st') ->
  unbroken st c st'
    (forall did d, In did (child_entries session base (snd row)) ->
       day_of_id did = Ok d -> Dt.ltb (Dt.mkdate y (fst row) d) T = false).
Proof.
  destruct row as [m id]. cbn [fst snd]. intros Hbase H.
  unfold prog_month_body in H. inv_crawl H.
  - split; [exact Hbase|]. congruence.
  - simpl in Hpost. rewrite (Hbase id) in Hpost.
    lazymatch goal with Hloop : for_in _ _ _ = Ok _ |- _ =>
      pose proof (fun HI => for_in_unbroken
                    (fun s => same_base base (params s))
                    (fun row => Dt.ltb (Dt.mkdate y m (fst row)) T = false)
                    _ _
                    (fun x s c s' _ Hs Hx => prog_day_within y m x s c s' Hs Hx)
                    _ _ HI Hloop) as Hrun
    end.
    destruct (Hrun (Count.same_base_set _ _ id Hbase)) as (HI & Hall).
    split; [exact HI|]. intros Hs. destruct (Hall Hs) as [Hs0 HQ].
    split; [first [assumption | reflexivity]|]. split; [reflexivity|].
    intros did d Hdid Hd.
    exact (HQ (d, did)
             (child_key Z.ltb day_of_id _ _ _ _ _ _ _ Hpost Hr0 Hdid Hd)).
Qed.

Lemma prog_year_within row st c st' :
  same_base base (params st) ->
  prog_year_body session T row st = Ok (c, st') ->
  unbroken st c st'
    (forall mid did m d, In mid (child_entries session base (snd row)) ->
       In did (child_entries session base mid) ->
       month_of_id mid = Ok m -> day_of_id did = Ok d ->
       Dt.ltb (Dt.mkdate (fst row) m d) T = false).
Proof.
  destruct row as [y id]. cbn [fst snd]. intros Hbase H.
  unfold prog_year_body in H. inv_crawl H.
  - split; [exact Hbase|]. congruence.
  - simpl in Hpost. rewrite (Hbase id) in Hpost.
    lazymatch goal with Hloop : for_in _ _ _ = Ok _ |- _ =>
      pose proof (fun HI => for_in_unbroken
                    (fun s => same_base base (params s))
                    (fun row => forall did d,
                       In did (child_entries session base (snd row)) ->
                       day_of_id did = Ok d ->
                       Dt.ltb (Dt.mkdate y (fst row) d) T = false)
                    _ _
                    (fun x s c s' _ Hs Hx => prog_month_within y x s c s' Hs Hx)
                    _ _ HI Hloop) as Hrun
    end.
    destruct (Hrun (Count.same_base_set _ _ id Hbase)) as (HI & Hall).
    split; [exact HI|]. intros Hs. destruct (Hall Hs) as [Hs0 HQ].
    split; [first [assumption | reflexivity]|]. split; [reflexivity|].
    intros mid did m d Hmid Hdid Hm Hd.
    exact (HQ (m, mid)
             (child_key Z.ltb month_of_id _ _ _ _ _ _ _ Hpost Hr0 Hmid Hm)
             did d Hdid Hd).
Qed.

Lemma prog_run_within st :
  prog_run session T = Ok st -> stop st = false -> within session base T.
Proof.
  unfold prog_run.
  destruct (prog_crawl session T (initial_state prog_params))
    as [[[] st']|e] eqn:H; [|discriminate].
  intros Heq Hstop. inversion Heq. subst st'. clear Heq.
  unfold prog_crawl in H. inv_crawl H. simpl in Hpost.
  lazymatch goal with Hloop : for_in _ _ _ = Ok _ |- _ =>
    pose proof (fun HI => for_in_unbroken
                  (fun s => same_base base (params s))
                  (fun row => forall mid did m d,
                     In mid (child_entries session base (snd row)) ->
                     In did (child_entries session base mid) ->
                     month_of_id mid = Ok m -> day_of_id did = Ok d ->
                     Dt.ltb (Dt.mkdate (fst row) m d) T = false)
                  _ _
                  (fun x s c s' _ Hs Hx => prog_year_within x s c s' Hs Hx)
                  _ _ HI Hloop) as Hrun
  end.
  destruct (Hrun (Count.same_base_refl base)) as (_ & Hall).
  destruct (Hall Hstop) as [_ HQ].
  intros yid mid did y m d Hyid Hmid Hdid Hy Hm Hd.
  assert (Hrow : In (y, yid) (sorted_desc Z.ltb fst a0)).
  { unfold root_entries, entries_of in Hyid.
    rewrite Hpost, <- (Count.row_ids_ids _ _ _ Hr0) in Hyid.
    apply in_map_iff in Hyid. destruct Hyid as ([y' yid'] & Hid & Hrow).
    simpl in Hid. subst yid'.
    pose proof (row_ids_keys _ _ _ Hr0) as Hkeys.
    rewrite Forall_forall in Hkeys. specialize (Hkeys _ Hrow).
    simpl in Hkeys. rewrite Hy in Hkeys. inversion Hkeys. subst y'.
    eapply Permutation_in; [apply (Order.sorted_desc_perm Z.ltb fst)|].
    exact Hrow. }
  exact (HQ (y, yid) Hrow mid did m d Hmid Hdid Hm Hd).
Qed.

End ProgWithin.

Section ReprogWithin.
Variables (session : Session) (T : Dt.date).
Local Abbreviation base := reprog_params.

Local Abbreviation unbroken st c st' Q :=
  (same_base base (params st') /\
   (stop st' = false -> stop st = false /\ c = Continue /\ Q)).

Lemma reprog_version_within date_obj row st c st' :
  same_base base (params st) ->
  reprog_version_body session date_obj row st = Ok (c, st') ->
  unbroken st c st' True.
Proof.
  destruct row as [v id]. intros Hbase H.
  unfold reprog_version_body in H. inv_crawl H.
  - split; [exact Hbase|]. congruence.
  - match goal with Hloop : for_in _ _ _ = Ok _ |- _ =>
      destruct (reprog_links_run _ _ _ _ _ Hloop) as (urls & Hurls & ->) end.
    cbn [params stop]. split; [apply Count.same_base_set; exact Hbase|].
    intros Hs. split; [first [assumption | reflexivity]|]. auto.
Qed.

Lemma reprog_day_within y m row st c st' :
  same_base base (params st) ->
  reprog_day_body session T y m row st = Ok (c, st') ->
  unbroken st c st' (Dt.ltb (Dt.mkdate y m (fst row)) T = false).
Proof.
  destruct row as [d id]. cbn [fst]. intros Hbase H.
  unfold reprog_day_body in H. inv_crawl H.
  - split; [exact Hbase|]. congruence.
  - split; [apply Count.same_base_set; exact Hbase|]. simpl. discriminate.
  - lazymatch goal with Hloop : for_in _ _ _ = Ok _ |- _ =>
      pose proof (fun HI => for_in_unbroken
                    (fun s => same_base base (params s)) (fun _ => True)
                    _ _
                    (fun x s c s' _ Hs Hx =>
                       reprog_version_within _ x s c s' Hs Hx)
                    _ _ HI Hloop) as Hrun
    end.
    destruct (Hrun (Count.same_base_set _ _ id Hbase)) as (HI & Hall).
    split; [exact HI|]. intros Hs. destruct (Hall Hs) as [Hs0 _].
    split; [first [assumption | reflexivity]|]. split; [reflexivity|].
    match goal with Hd : date y m d = Ok _ |- _ =>
      rewrite <- (Threshold.date_inv _ _ _ _ Hd) end.
    assumption.
Qed.

Lemma reprog_month_within y row st c st' :
  same_base base (params st) ->
  reprog_month_body session T y row st = Ok (c, st') ->
  unbroken st c st'
    (forall did d, In did (child_entries session base (snd row)) ->
       day_of_id did = Ok d -> Dt.ltb (Dt.mkdate y (fst row) d) T = false).
Proof.
  destruct row as [m id]. cbn [fst snd]. intros Hbase H.
  unfold reprog_month_body in H. inv_crawl H.
  - split; [exact Hbase|]. congruence.
  - simpl in Hpost. rewrite (Hbase id) in Hpost.
    lazymatch goal with Hloop : for_in _ _ _ = Ok _ |- _ =>
      pose proof (fun HI => for_in_unbroken
                    (fun s => same_base base (params s))
                    (fun row => Dt.ltb (Dt.mkdate y m (fst row)) T = false)
                    _ _
                    (fun x s c s' _ Hs Hx =>
                       reprog_day_within y m x s c s' Hs Hx)
                    _ _ HI Hloop) as Hrun
    end.
    destruct (Hrun (Count.same_base_set _ _ id Hbase)) as (HI & Hall).
    split; [exact HI|]. intros Hs. destruct (Hall Hs) as [Hs0 HQ].
    split; [first [assumption | reflexivity]|]. split; [reflexivity|].
    intros did d Hdid Hd.
    exact (HQ (d, did)
             (child_key Z.ltb day_of_id _ _ _ _ _ _ _ Hpost Hr0 Hdid Hd)).
Qed.

Lemma reprog_year_within row st c st' :
  same_base base (params st) ->
  reprog_year_body session T row st = Ok (c, st') ->
  unbroken st c st'
    (forall mid did m d, In mid (child_entries session base (snd row)) ->
       In did (child_entries session base mid) ->
       month_of_id mid = Ok m -> day_of_id did = Ok d ->
       Dt.ltb (Dt.mkdate (fst row) m d) T = false).
Proof.
  destruct row as [y id]. cbn [fst snd]. intros Hbase H.
  unfold reprog_year_body in H. inv_crawl H.
  - split; [exact Hbase|]. congruence.
  - simpl in Hpost. rewrite (Hbase id) in Hpost.
    lazymatch goal with Hloop : for_in _ _ _ = Ok _ |- _ =>
      pose proof (fun HI => for_in_unbroken
                    (fun s => same_base base (params s))
                    (fun row => forall did d,
                       In did (child_entries session base (snd row)) ->
                       day_of_id did = Ok d ->
                       Dt.ltb (Dt.mkdate y (fst row) d) T = false)
                    _ _
                    (fun x s c s' _ Hs Hx =>
                       reprog_month_within y x s c s' Hs Hx)
                    _ _ HI Hloop) as Hrun
    end.
    destruct (Hrun (Count.same_base_set _ _ id Hbase)) as (HI & Hall).
    split; [exact HI|]. intros Hs. destruct (Hall Hs) as [Hs0 HQ].
    split; [first [assumption | reflexivity]|]. split; [reflexivity|].
    intros mid did m d Hmid Hdid Hm Hd.
    exact (HQ (m, mid)
             (child_key Z.ltb month_of_id _ _ _ _ _ _ _ Hpost Hr0 Hmid Hm)
             did d Hdid Hd).
Qed.

Lemma reprog_run_within st :
  reprog_run session T = Ok st -> stop st = false -> within session base T.
Proof.
  unfold reprog_run.
  destruct (reprog_crawl session T (initial_state reprog_params))
    as [[[] st']|e] eqn:H; [|discriminate].
  intros Heq Hstop. inversion Heq. subst st'. clear Heq.
  unfold reprog_crawl in H. inv_crawl H. simpl in Hpost.
  lazymatch goal with Hloop : for_in _ _ _ = Ok _ |- _ =>
    pose proof (fun HI => for_in_unbroken
                  (fun s => same_base base (params s))
                  (fun row => forall mid did m d,
                     In mid (child_entries session base (snd row)) ->
                     In did (child_entries session base mid) ->
                     month_of_id mid = Ok m -> day_of_id did = Ok d ->
                     Dt.ltb (Dt.mkdate (fst row) m d) T = false)
                  _ _
                  (fun x s c s' _ Hs Hx => reprog_year_within x s c s' Hs Hx)
                  _ _ HI Hloop) as Hrun
  end.
  destruct (Hrun (Count.same_base_refl base)) as (_ & Hall).
  destruct (Hall Hstop) as [_ HQ].
  intros yid mid did y m d Hyid Hmid Hdid Hy Hm Hd.
  assert (Hrow : In (y, yid) (sorted_desc Z.ltb fst a0)).
  { unfold root_entries, entries_of in Hyid.
    rewrite Hpost, <- (Count.row_ids_ids _ _ _ Hr0) in Hyid.
    apply in_map_iff in Hyid. destruct Hyid as ([y' yid'] & Hid & Hrow).
    simpl in Hid. subst yid'.
    pose proof (row_ids_keys _ _ _ Hr0) as Hkeys.
    rewrite Forall_forall in Hkeys. specialize (Hkeys _ Hrow).
    simpl in Hkeys. rewrite Hy in Hkeys. inversion Hkeys. subst y'.
    eapply Permutation_in; [apply (Order.sorted_desc_perm Z.ltb fst)|].
    exact Hrow. }
  exact (HQ (y, yid) Hrow mid did m d Hmid Hdid Hm Hd).
Qed.

End ReprogWithin.

End Complete.

(** * From the list a crawl returns to its run *)

Module Runs.
Import Coes Props CrawlFacts Trace TraceFacts Outrun.
Local Open Scope crawl_scope.

Lemma prog_list_run session T l :
  get_urls_prog_dia session T = Ok l ->
  exists st, prog_run session T = Ok st /\ l = dowload_urls_map st.
Proof.
  unfold get_urls_prog_dia. destruct (prog_run session T) as [st|];
    [|discriminate].
  intros H. inversion H. eauto.
Qed.

Lemma reprog_list_run session T l :
  get_urls_reprog_dia session T = Ok l ->
  exists st, reprog_run session T = Ok st /\ l = dowload_urls_map st.
Proof.
  unfold get_urls_reprog_dia. destruct (reprog_run session T) as [st|];
    [|discriminate].
  intros H. inversion H. eauto.
Qed.

(** The first request of a crawl asks for the base directory. *)
Lemma prog_run_first session T st :
  prog_run session T = Ok st ->
  exists rest, requests st = listing_request prog_params :: rest.
Proof.
  unfold prog_run.
  destruct (prog_crawl session T (initial_state prog_params))
    as [[[] st']|e] eqn:H; [|discriminate].
  intros Heq. inversion Heq. subst st'. clear Heq.
  unfold prog_crawl in H. inv_crawl H.
  match goal with Hloop : for_in _ _ _ = Ok _ |- _ =>
    pose proof (for_in_steps session prog_params prog_date prog_name prog_url
                  prog_msg (prog_announces T) _ _
                  (fun x s c s' _ Hx => prog_year_steps session T x s c s' Hx)
                  _ _ Hloop) as Hs
  end.
  apply steps_extends in Hs. destruct Hs as [_ (more & Hmore)].
  simpl in Hmore. exists more. exact Hmore.
Qed.

Lemma reprog_run_first session T st :
  reprog_run session T = Ok st ->
  exists rest, requests st = listing_request reprog_params :: rest.
Proof.
  unfold reprog_run.
  destruct (reprog_crawl session T (initial_state reprog_params))
    as [[[] st']|e] eqn:H; [|discriminate].
  intros Heq. inversion Heq. subst st'. clear Heq.
  unfold reprog_crawl in H. inv_crawl H.
  match goal with Hloop : for_in _ _ _ = Ok _ |- _ =>
    pose proof (for_in_steps session reprog_params reprog_date reprog_name
                  reprog_url reprog_msg (reprog_announces T) _ _
                  (fun x s c s' _ Hx => reprog_year_steps session T x s c s' Hx)
                  _ _ Hloop) as Hs
  end.
  apply steps_extends in Hs. destruct Hs as [_ (more & Hmore)].
  simpl in Hmore. exists more. exact Hmore.
Qed.

End Runs.

(** * Listings that do not parse *)

Module Eager.
Import Coes Props CrawlFacts Trace TraceFacts.

(** A comprehension raises as soon as one element does. *)
Lemma comprehension_raises {A B} (f : A -> result B) l x :
  In x l -> (exists e, f x = Raise e) ->
  exists y e, In y l /\ f y = Raise e /\ comprehension f l = Raise e.
Proof.
  induction l as [|a l IH]; simpl; [tauto|]. intros Hin Hx.
  destruct (f a) as [b|e] eqn:Ha.
  - destruct Hin as [->|Hin]; [destruct Hx as [e Hx]; congruence|].
    destruct (IH Hin Hx) as (y & e & Hy & Hfy & Hc).
    exists y, e. rewrite Hc. auto.
  - exists a, e. auto.
Qed.

(** What a row of the root listing raises: [KeyError] or [ValueError]. *)
Lemma year_row_raises tag e :
  (id <- attr tag "id" ;; k <- year_of_id id ;; Ok (k, id))%result = Raise e ->
  class_of e = "KeyError"%string \/ class_of e = "ValueError"%string.
Proof.
  unfold attr, year_of_id, Coes.int.
  destruct (Py.dict_get tag "id") as [id|]; simpl.
  - destruct (Py.int (last_segment id)); simpl; intros H; inversion H.
    right. reflexivity.
  - intros H. inversion H. left. reflexivity.
Qed.

Lemma keyless_raises tag :
  keyless tag ->
  exists e,
    (id <- attr tag "id" ;; k <- year_of_id id ;; Ok (k, id))%result = Raise e.
Proof.
  unfold attr, year_of_id, Coes.int. intros [H|(id & H & Hint)]; rewrite H; simpl.
  - eexists. reflexivity.
  - rewrite Hint. simpl. eexists. reflexivity.
Qed.

Lemma root_rows_raise bs tag :
  In tag (infolist_links bs) -> keyless tag ->
  exists e,
    row_ids year_of_id bs = Raise e /\
    (class_of e = "KeyError"%string \/ class_of e = "ValueError"%string).
Proof.
  intros Hin Hk. unfold row_ids.
  destruct (comprehension_raises
              (fun row => (id <- attr row "id" ;; k <- year_of_id id ;;
                           Ok (k, id))%result)
              _ _ Hin (keyless_raises _ Hk))
    as (y & e & _ & Hy & Hc).
  exists e. split; [exact Hc|]. eapply year_row_raises. exact Hy.
Qed.

Lemma prog_root_raises session response e T :
  session (listing_request prog_params) = Ok response ->
  accepted response ->
  row_ids year_of_id (text response) = Raise e ->
  get_urls_prog_dia session T = Raise e.
Proof.
  intros Hs Ha He.
  unfold get_urls_prog_dia, prog_run, prog_crawl, bind, post, lift,
    initial_state.
  cbn [params stop dowload_urls_map requests logged].
  rewrite Hs, (Errors.raise_nothing _ Ha), He. reflexivity.
Qed.

Lemma reprog_root_raises session response e T :
  session (listing_request reprog_params) = Ok response ->
  accepted response ->
  row_ids year_of_id (text response) = Raise e ->
  get_urls_reprog_dia session T = Raise e.
Proof.
  intros Hs Ha He.
  unfold get_urls_reprog_dia, reprog_run, reprog_crawl, bind, post, lift,
    initial_state.
  cbn [params stop dowload_urls_map requests logged].
  rewrite Hs, (Errors.raise_nothing _ Ha), He. reflexivity.
Qed.

End Eager.

(** * The tables: what is asked of the portal, and what is refused *)

Module TablesMore.
Import Coes Props Trace TraceFacts.
Local Open Scope result_scope.

Section WithLibrary.
Context {L : Pd.Library}.

(** What a table of the generation meters was made from. *)
Lemma medidores_inv session start end_ df :
  get_medidores_generacion session start end_ = Ok df ->
  exists r1 options id_empresas r2 r3 raw,
    session empresas_query = Ok r1 /\ accepted r1 /\
    cbEmpresas (text r1) = Some options /\
    comprehension (fun i => attr i "value") options = Ok id_empresas /\
    session (exportar_query start end_ id_empresas) = Ok r2 /\ accepted r2 /\
    session descargar_query = Ok r3 /\ accepted r3 /\
    read_csv (text r3) = Some raw /\
    medidores_spec raw = Ok df.
Proof.
  unfold get_medidores_generacion, medidores_download.
  fold empresas_query. fold descargar_query.
  destruct (session empresas_query) as [r1|] eqn:H1; [|discriminate].
  cbn [rbind].
  destruct (_raise_for_status r1) as [[]|] eqn:Hr1; [|discriminate].
  cbn [rbind].
  destruct (cbEmpresas (text r1)) as [options|] eqn:Ho; [|discriminate].
  destruct (comprehension _ options) as [ids|] eqn:Hids; [|discriminate].
  cbn [rbind]. fold (exportar_query start end_ ids).
  destruct (session (exportar_query start end_ ids)) as [r2|] eqn:H2;
    [|discriminate].
  cbn [rbind].
  destruct (_raise_for_status r2) as [[]|] eqn:Hr2; [|discriminate].
  cbn [rbind].
  destruct (session descargar_query) as [r3|] eqn:H3; [|discriminate].
  cbn [rbind].
  destruct (_raise_for_status r3) as [[]|] eqn:Hr3; [|discriminate].
  cbn [rbind]. rewrite Tables.medidores_table_spec.
  destruct (read_csv (text r3)) as [raw|] eqn:Hraw; [|discriminate].
  intros Hdf. exists r1, options, ids, r2, r3, raw.
  repeat (split; [first [reflexivity | assumption
                        | apply raise_ok_status; assumption]|]).
  exact Hdf.
Qed.

(** The keys of the records: those seen before, and those of a record. *)
Lemma fold_keys_In k keys : forall seen,
  In k (fold_left (fun acc k => if existsb (String.eqb k) acc then acc
                                else acc ++ [k]) keys seen) ->
  In k seen \/ In k keys.
Proof.
  induction keys as [|k0 keys IH]; simpl; intros seen H; [auto|].
  apply IH in H. destruct H as [H|H]; [|auto].
  destruct (existsb (String.eqb k0) seen); [auto|].
  apply in_app_or in H. destruct H as [H|[->|[]]]; auto.
Qed.

Lemma union_keys_In k records : forall seen,
  In k (Pd.union_keys seen records) ->
  In k seen \/
  exists r, In r records /\ In k (map fst (Pd.record_members r)).
Proof.
  induction records as [|r records IH]; simpl; intros seen H; [auto|].
  apply IH in H. destruct H as [H|(r' & Hr' & Hk)].
  - apply fold_keys_In in H. destruct H as [H|H]; [auto|].
    right. exists r. auto.
  - right. exists r'. auto.
Qed.

Lemma dict_get_absent {V} (d : Py.dict V) k :
  Py.dict_get d k = None -> ~ In k (map fst d).
Proof.
  induction d as [|[k' v] d IH]; simpl; [tauto|].
  destruct (String.eqb k' k) eqn:Hk; [discriminate|].
  apply String.eqb_neq in Hk. intros H [Heq|Hin]; [congruence|].
  exact (IH H Hin).
Qed.

(** Records none of which has the key: no column of the table has it. *)
Lemma from_records_lacks name records :
  forallb Pd.is_record records = true ->
  (forall r, In r records ->
     Py.dict_get (Pd.record_members r) name = None) ->
  exists df,
    Pd.from_records (JArray records) = Ok df /\
    Pd.getitem df name = Raise (KeyError name).
Proof.
  intros Hrec Hlack. unfold Pd.from_records. rewrite Hrec.
  eexists. split; [reflexivity|]. unfold Pd.getitem. cbn [Pd.columns].
  rewrite Tables.positions_absent; [reflexivity|].
  destruct (existsb (String.eqb name) (Pd.union_keys [] records)) eqn:Hex;
    [|reflexivity].
  apply existsb_exists in Hex. destruct Hex as (k & Hk & Heq).
  apply String.eqb_eq in Heq. subst k.
  apply union_keys_In in Hk. destruct Hk as [[]|(r & Hr & Hin)].
  exfalso. exact (dict_get_absent _ _ (Hlack r Hr) Hin).
Qed.


End WithLibrary.

End TablesMore.

(** * Every entry of the list is a file of the listing *)

Module Sound.
Import Coes Props CrawlFacts Trace TraceFacts Outrun Complete.
Local Open Scope crawl_scope.

Lemma grows_by_impl {E} (P Q : E -> Prop) (st st' : crawl_state E) :
  (forall e, P e -> Q e) -> grows_by P st st' -> grows_by Q st st'.
Proof.
  intros HPQ (seg & Hseg & Hall). exists seg. split; [exact Hseg|].
  eapply Forall_impl; [exact HPQ | exact Hall].
Qed.

(** A loop whose iterations record entries that satisfy [P] only. *)
Lemma for_in_sound {E A} (base : Py.dict string) (P : E -> Prop)
    (body : A -> Crawl E control) l :
  (forall x st c st', In x l -> same_base base (params st) ->
     body x st = Ok (c, st') ->
     same_base base (params st') /\ grows_by P st st') ->
  forall st st', for_in l body st = Ok (tt, st') ->
  same_base base (params st) ->
  same_base base (params st') /\ grows_by P st st'.
Proof.
  intros Hbody.
  apply (for_in_rel (fun st st' =>
           same_base base (params st) ->
           same_base base (params st') /\ grows_by P st st')).
  - intros st Hb. split; [exact Hb | apply grows_by_refl].
  - intros a b c Hab Hbc Ha. destruct (Hab Ha) as [Hb Hg].
    destruct (Hbc Hb) as [Hc Hg']. split; [exact Hc|].
    eapply grows_by_trans; eassumption.
  - intros x st c st' Hin Hx Hb. eapply Hbody; eassumption.
Qed.

(** ** [get_urls_prog_dia] *)

Section Prog.
Variables (session : Session) (T : Dt.date).
Local Abbreviation base := prog_params.

Lemma prog_day_sound y m row st c st' :
  same_base base (params st) ->
  prog_day_body session T y m row st = Ok (c, st') ->
  same_base base (params st') /\
  grows_by (fun e => exists u,
              e = (Dt.mkdate y m (fst row), Py.last_item (Py.split "/" u), u) /\
              files_on session base (snd row) u) st st'.
Proof.
  destruct row as [d id]. cbn [fst snd]. intros Hbase H.
  unfold prog_day_body in H. inv_crawl H.
  - split; [exact Hbase | apply grows_by_refl].
  - split; [apply Count.same_base_set; exact Hbase|].
    apply grows_by_same. reflexivity.
  - simpl in Hpost. rewrite (Hbase id) in Hpost.
    match goal with Hloop : for_in _ _ _ = Ok _ |- _ =>
      destruct (prog_links_run _ _ _ _ Hloop) as (urls & Hurls & ->) end.
    cbn [params]. split; [apply Count.same_base_set; exact Hbase|].
    exists (prog_files a0 urls). split; [reflexivity|].
    unfold prog_files. apply Forall_forall. intros e He.
    apply in_map_iff in He. destruct He as (u & <- & Hu).
    exists u. split.
    + match goal with Hd : date y m d = Ok _ |- _ =>
        rewrite (Threshold.date_inv _ _ _ _ Hd) end.
      reflexivity.
    + destruct (values_In _ _ _ Hurls Hu) as (tag & Htag & Hv).
      exists a, tag. auto.
Qed.

Lemma prog_month_sound y row st c st' :
  same_base base (params st) ->
  prog_month_body session T y row st = Ok (c, st') ->
  same_base base (params st') /\
  grows_by (fun e => exists did d u,
              In did (child_entries session base (snd row)) /\
              day_of_id did = Ok d /\
              e = (Dt.mkdate y (fst row) d, Py.last_item (Py.split "/" u), u) /\
              files_on session base did u) st st'.
Proof.
  destruct row as [m id]. cbn [fst snd]. intros Hbase H.
  unfold prog_month_body in H. inv_crawl H.
  - split; [exact Hbase | apply grows_by_refl].
  - simpl in Hpost. rewrite (Hbase id) in Hpost.
    match goal with Hloop : for_in _ _ _ = Ok _ |- _ =>
      pose proof (fun P Hbody => for_in_sound base P _ _ Hbody _ _ Hloop
                    (Count.same_base_set _ _ id Hbase)) as Hrun end.
    match goal with |- _ /\ grows_by ?P _ _ =>
      enough (Hbody : _) by
        (destruct (Hrun P Hbody) as [Hb' (seg & Hseg & Hall)];
         split; [exact Hb' | exists seg; split; [exact Hseg | exact Hall]])
    end.
    intros row s c' s' Hin Hs Hx.
    destruct (prog_day_sound y m row s c' s' Hs Hx) as [Hs' Hg].
    split; [exact Hs'|]. eapply grows_by_impl; [|exact Hg].
    intros e (u & -> & Hu).
    destruct (rows_child _ _ _ _ _ _ _ _ Hpost Hr0 Hin) as [Hchild Hkey].
    exists (snd row), (fst row), u. auto.
Qed.

Lemma prog_year_sound row st c st' :
  same_base base (params st) ->
  prog_year_body session T row st = Ok (c, st') ->
  same_base base (params st') /\
  grows_by (fun e => exists mid did m d u,
              In mid (child_entries session base (snd row)) /\
              In did (child_entries session base mid) /\
              month_of_id mid = Ok m /\ day_of_id did = Ok d /\
              e = (Dt.mkdate (fst row) m d, Py.last_item (Py.split "/" u), u) /\
              files_on session base did u) st st'.
Proof.
  destruct row as [y id]. cbn [fst snd]. intros Hbase H.
  unfold prog_year_body in H. inv_crawl H.
  - split; [exact Hbase | apply grows_by_refl].
  - simpl in Hpost. rewrite (Hbase id) in Hpost.
    match goal with Hloop : for_in _ _ _ = Ok _ |- _ =>
      pose proof (fun P Hbody => for_in_sound base P _ _ Hbody _ _ Hloop
                    (Count.same_base_set _ _ id Hbase)) as Hrun end.
    match goal with |- _ /\ grows_by ?P _ _ =>
      enough (Hbody : _) by
        (destruct (Hrun P Hbody) as [Hb' (seg & Hseg & Hall)];
         split; [exact Hb' | exists seg; split; [exact Hseg | exact Hall]])
    end.
    intros row s c' s' Hin Hs Hx.
    destruct (prog_month_sound y row s c' s' Hs Hx) as [Hs' Hg].
    split; [exact Hs'|]. eapply grows_by_impl; [|exact Hg].
    intros e (did & d & u & Hdid & Hd & -> & Hu).
    destruct (rows_child _ _ _ _ _ _ _ _ Hpost Hr0 Hin) as [Hchild Hkey].
    exists (snd row), did, (fst row), d, u. auto 6.
Qed.

Lemma prog_run_sound st :
  prog_run session T = Ok st ->
  Forall (fun e => exists yid mid did y m d u,
            In yid (root_entries session base) /\
            In mid (child_entries session base yid) /\
            In did (child_entries session base mid) /\
            year_of_id yid = Ok y /\ month_of_id mid = Ok m /\
            day_of_id did = Ok d /\
            e = (Dt.mkdate y m d, Py.last_item (Py.split "/" u), u) /\
            files_on session base did u) (dowload_urls_map st).
Proof.
  unfold prog_run.
  destruct (prog_crawl session T (initial_state prog_params))
    as [[[] st']|e] eqn:H; [|discriminate].
  intros Heq. inversion Heq. subst st'. clear Heq.
  unfold prog_crawl in H. inv_crawl H. simpl in Hpost.
  match goal with Hloop : for_in _ _ _ = Ok _ |- _ =>
    pose proof (fun P Hbody => for_in_sound base P _ _ Hbody _ _ Hloop
                  (Count.same_base_refl base)) as Hrun end.
  match goal with |- Forall ?P _ =>
    enough (Hbody : _) by
      (destruct (Hrun P Hbody) as [_ (seg & Hseg & Hall)];
       simpl in Hseg; rewrite Hseg; exact Hall)
  end.
  intros row s c' s' Hin Hs Hx.
  destruct (prog_year_sound row s c' s' Hs Hx) as [Hs' Hg].
  split; [exact Hs'|]. eapply grows_by_impl; [|exact Hg].
  intros e (mid & did & m & d & u & Hmid & Hdid & Hm & Hd & -> & Hu).
  assert (Hroot : In (snd row) (root_entries session base) /\
                  year_of_id (snd row) = Ok (fst row)).
  { split; [|eapply sorted_rows_keys; eassumption].
    unfold root_entries, entries_of.
    rewrite Hpost, <- (Count.row_ids_ids _ _ _ Hr0). apply in_map.
    eapply Permutation_in;
      [apply Permutation_sym, (Order.sorted_desc_perm Z.ltb fst)|exact Hin]. }
  destruct Hroot as [Hroot Hkey].
  exists (snd row), mid, did, (fst row), m, d, u. auto 8.
Qed.

End Prog.

(** ** [get_urls_reprog_dia] *)

Section Reprog.
Variables (session : Session) (T : Dt.date).
Local Abbreviation base := reprog_params.

Ltac by_loop Hrun :=
  match goal with |- _ /\ grows_by ?P _ _ =>
    let Hbody := fresh "Hbody" in
    enough (Hbody : _) by
      (destruct (Hrun P Hbody) as [? (? & ? & ?)];
       split; [assumption | eexists; split; eassumption])
  end.

Lemma reprog_version_sound date_obj row st c st' :
  same_base base (params st) ->
  reprog_version_body session date_obj row st = Ok (c, st') ->
  same_base base (params st') /\
  grows_by (fun e => exists u,
              e = (date_obj, fst row, Py.last_item (Py.split "/" u), u) /\
              files_on session base (snd row) u) st st'.
Proof.
  destruct row as [v id]. cbn [fst snd]. intros Hbase H.
  unfold reprog_version_body in H. inv_crawl H.
  - split; [exact Hbase | apply grows_by_refl].
  - simpl in Hpost. rewrite (Hbase id) in Hpost.
    match goal with Hloop : for_in _ _ _ = Ok _ |- _ =>
      destruct (reprog_links_run _ _ _ _ _ Hloop) as (urls & Hurls & ->) end.
    cbn [params]. split; [apply Count.same_base_set; exact Hbase|].
    exists (reprog_files date_obj v urls). split; [reflexivity|].
    unfold reprog_files. apply Forall_forall. intros e He.
    apply in_map_iff in He. destruct He as (u & <- & Hu).
    exists u. split; [reflexivity|].
    destruct (values_In _ _ _ Hurls Hu) as (tag & Htag & Hv).
    exists a, tag. auto.
Qed.

Lemma reprog_day_sound y m row st c st' :
  same_base base (params st) ->
  reprog_day_body session T y m row st = Ok (c, st') ->
  same_base base (params st') /\
  grows_by (fun e => exists vid v u,
              In vid (child_entries session base (snd row)) /\
              reprog_of_id vid = Ok v /\
              e = (Dt.mkdate y m (fst row), v,
                   Py.last_item (Py.split "/" u), u) /\
              files_on session base vid u) st st'.
Proof.
  destruct row as [d id]. cbn [fst snd]. intros Hbase H.
  unfold reprog_day_body in H. inv_crawl H.
  - split; [exact Hbase | apply grows_by_refl].
  - split; [apply Count.same_base_set; exact Hbase|].
    apply grows_by_same. reflexivity.
  - simpl in Hpost. rewrite (Hbase id) in Hpost.
    match goal with Hd : date y m d = Ok ?dd |- _ =>
      pose proof (Threshold.date_inv _ _ _ _ Hd) as Hdd end.
    subst a0.
    match goal with Hloop : for_in _ _ _ = Ok _ |- _ =>
      pose proof (fun P Hbody => for_in_sound base P _ _ Hbody _ _ Hloop
                    (Count.same_base_set _ _ id Hbase)) as Hrun end.
    by_loop Hrun.
    intros row s c' s' Hin Hs Hx.
    destruct (reprog_version_sound _ row s c' s' Hs Hx) as [Hs' Hg].
    split; [exact Hs'|]. eapply grows_by_impl; [|exact Hg].
    intros e (u & -> & Hu).
    destruct (rows_child _ _ _ _ _ _ _ _ Hpost Hr1 Hin) as [Hchild Hkey].
    exists (snd row), (fst row), u. auto.
Qed.

Lemma reprog_month_sound y row st c st' :
  same_base base (params st) ->
  reprog_month_body session T y row st = Ok (c, st') ->
  same_base base (params st') /\
  grows_by (fun e => exists did vid d v u,
              In did (child_entries session base (snd row)) /\
              In vid (child_entries session base did) /\
              day_of_id did = Ok d /\ reprog_of_id vid = Ok v /\
              e = (Dt.mkdate y (fst row) d, v,
                   Py.last_item (Py.split "/" u), u) /\
              files_on session base vid u) st st'.
Proof.
  destruct row as [m id]. cbn [fst snd]. intros Hbase H.
  unfold reprog_month_body in H. inv_crawl H.
  - split; [exact Hbase | apply grows_by_refl].
  - simpl in Hpost. rewrite (Hbase id) in Hpost.
    match goal with Hloop : for_in _ _ _ = Ok _ |- _ =>
      pose proof (fun P Hbody => for_in_sound base P _ _ Hbody _ _ Hloop
                    (Count.same_base_set _ _ id Hbase)) as Hrun end.
    by_loop Hrun.
    intros row s c' s' Hin Hs Hx.
    destruct (reprog_day_sound y m row s c' s' Hs Hx) as [Hs' Hg].
    split; [exact Hs'|]. eapply grows_by_impl; [|exact Hg].
    intros e (vid & v & u & Hvid & Hv & -> & Hu).
    destruct (rows_child _ _ _ _ _ _ _ _ Hpost Hr0 Hin) as [Hchild Hkey].
    exists (snd row), vid, (fst row), v, u. auto 6.
Qed.

Lemma reprog_year_sound row st c st' :
  same_base base (params st) ->
  reprog_year_body session T row st = Ok (c, st') ->
  same_base base (params st') /\
  grows_by (fun e => exists mid did vid m d v u,
              In mid (child_entries session base (snd row)) /\
              In did (child_entries session base mid) /\
              In vid (child_entries session base did) /\
              month_of_id mid = Ok m /\ day_of_id did = Ok d /\
              reprog_of_id vid = Ok v /\
              e = (Dt.mkdate (fst row) m d, v,
                   Py.last_item (Py.split "/" u), u) /\
              files_on session base vid u) st st'.
Proof.
  destruct row as [y id]. cbn [fst snd]. intros Hbase H.
  unfold reprog_year_body in H. inv_crawl H.
  - split; [exact Hbase | apply grows_by_refl].
  - simpl in Hpost. rewrite (Hbase id) in Hpost.
    match goal with Hloop : for_in _ _ _ = Ok _ |- _ =>
      pose proof (fun P Hbody => for_in_sound base P _ _ Hbody _ _ Hloop
                    (Count.same_base_set _ _ id Hbase)) as Hrun end.
    by_loop Hrun.
    intros row s c' s' Hin Hs Hx.
    destruct (reprog_month_sound y row s c' s' Hs Hx) as [Hs' Hg].
    split; [exact Hs'|]. eapply grows_by_impl; [|exact Hg].
    intros e (did & vid & d & v & u & Hdid & Hvid & Hd & Hv & -> & Hu).
    destruct (rows_child _ _ _ _ _ _ _ _ Hpost Hr0 Hin) as [Hchild Hkey].
    exists (snd row), did, vid, (fst row), d, v, u. auto 8.
Qed.

Lemma reprog_run_sound st :
  reprog_run session T = Ok st ->
  Forall (fun e => exists yid mid did vid y m d v u,
            In yid (root_entries session base) /\
            In mid (child_entries session base yid) /\
            In did (child_entries session base mid) /\
            In vid (child_entries session base did) /\
            year_of_id yid = Ok y /\ month_of_id mid = Ok m /\
            day_of_id did = Ok d /\ reprog_of_id vid = Ok v /\
            e = (Dt.mkdate y m d, v, Py.last_item (Py.split "/" u), u) /\
            files_on session base vid u) (dowload_urls_map st).
Proof.
  unfold reprog_run.
  destruct (reprog_crawl session T (initial_state reprog_params))
    as [[[] st']|e] eqn:H; [|discriminate].
  intros Heq. inversion Heq. subst st'. clear Heq.
  unfold reprog_crawl in H. inv_crawl H. simpl in Hpost.
  match goal with Hloop : for_in _ _ _ = Ok _ |- _ =>
    pose proof (fun P Hbody => for_in_sound base P _ _ Hbody _ _ Hloop
                  (Count.same_base_refl base)) as Hrun end.
  match goal with |- Forall ?P _ =>
    enough (Hbody : _) by
      (destruct (Hrun P Hbody) as [_ (seg & Hseg & Hall)];
       simpl in Hseg; rewrite Hseg; exact Hall)
  end.
  intros row s c' s' Hin Hs Hx.
  destruct (reprog_year_sound row s c' s' Hs Hx) as [Hs' Hg].
  split; [exact Hs'|]. eapply grows_by_impl; [|exact Hg].
  intros e (mid & did & vid & m & d & v & u
            & Hmid & Hdid & Hvid & Hm & Hd & Hv & -> & Hu).
  assert (Hroot : In (snd row) (root_entries session base) /\
                  year_of_id (snd row) = Ok (fst row)).
  { split; [|eapply sorted_rows_keys; eassumption].
    unfold root_entries, entries_of.
    rewrite Hpost, <- (Count.row_ids_ids _ _ _ Hr0). apply in_map.
    eapply Permutation_in;
      [apply Permutation_sym, (Order.sorted_desc_perm Z.ltb fst)|exact Hin]. }
  destruct Hroot as [Hroot Hkey].
  exists (snd row), mid, did, vid, (fst row), m, d, v, u. auto 10.
Qed.

End Reprog.

End Sound.

(** * A crawl goes through its plan, up to the first day earlier than the
    threshold *)

Module PlanFacts.
Import Coes Props CrawlFacts Threshold Count Trace TraceFacts Plan.
Local Open Scope crawl_scope.

(** ** The list up to a first element *)

Lemma upto_app {A} (p : A -> bool) (a b : list A) :
  upto p (a ++ b) = if existsb p a then upto p a else a ++ upto p b.
Proof.
  induction a as [|x a IH]; simpl; [reflexivity|].
  destruct (p x); simpl; [reflexivity|].
  rewrite IH. destruct (existsb p a); reflexivity.
Qed.

Lemma upto_none {A} (p : A -> bool) (l : list A) :
  existsb p l = false -> upto p l = l.
Proof.
  induction l as [|x l IH]; simpl; [reflexivity|].
  destruct (p x); simpl; [discriminate|]. intros H. rewrite (IH H). reflexivity.
Qed.

Lemma existsb_upto {A} (p : A -> bool) (l : list A) :
  existsb p (upto p l) = existsb p l.
Proof.
  induction l as [|x l IH]; simpl; [reflexivity|].
  destruct (p x) eqn:Hx; simpl; rewrite Hx; [reflexivity | exact IH].
Qed.

Lemma upto_first {A} (p : A -> bool) (before after : list A) v :
  existsb p before = false -> p v = true ->
  upto p (before ++ v :: after) = before ++ [v].
Proof.
  intros Hb Hv. rewrite upto_app, Hb. simpl. rewrite Hv. reflexivity.
Qed.

Lemma kept_none T l : existsb (breach T) l = false -> kept T l = l.
Proof.
  unfold kept. induction l as [|x l IH]; simpl; [reflexivity|].
  destruct (breach T x); simpl; [discriminate|].
  intros H. rewrite (IH H). reflexivity.
Qed.

Lemma kept_first T before v :
  existsb (breach T) before = false -> breach T v = true ->
  kept T (before ++ [v]) = before.
Proof.
  intros Hb Hv. unfold kept. rewrite filter_app. simpl. rewrite Hv. simpl.
  rewrite app_nil_r. apply kept_none. exact Hb.
Qed.

Lemma kept_app T a b : kept T (a ++ b) = kept T a ++ kept T b.
Proof. apply filter_app. Qed.

(** ** Visits made one after the other *)

Section Walked.
Context {E : Type} (base : Py.dict string) (T : Dt.date)
        (entries : visit -> list E) (logs : visit -> list log_record).
Local Abbreviation walked := (Plan.walked base T entries logs).

Lemma walked_nil st : same_base base (params st) -> walked [] st st.
Proof.
  intros H. unfold Plan.walked. simpl. rewrite !app_nil_r, orb_false_r. auto.
Qed.

Lemma walked_app a b st st1 st' :
  walked a st st1 -> walked b st1 st' -> walked (a ++ b) st st'.
Proof.
  intros (Hr & He & Hl & Hs & _) (Hr' & He' & Hl' & Hs' & Hb').
  unfold Plan.walked.
  rewrite Hr', Hr, He', He, Hl', Hl, Hs', Hs.
  rewrite map_app, kept_app, !flat_map_app, existsb_app.
  rewrite <- !app_assoc, orb_assoc. auto.
Qed.

(** A loop whose every iteration makes the visits of its row makes the
    visits of its rows, up to the first day earlier than the threshold. *)
Lemma for_in_walked {A} (f : A -> list visit) (body : A -> Crawl E control) l :
  (forall x st, stop st = true -> body x st = Ok (Break, st)) ->
  (forall x st c st',
     stop st = false -> same_base base (params st) ->
     body x st = Ok (c, st') ->
     walked (visited T (f x)) st st' /\ (c = Break -> stop st' = true)) ->
  forall st st',
    stop st = false -> same_base base (params st) ->
    for_in l body st = Ok (tt, st') ->
    walked (visited T (flat_map f l)) st st'.
Proof.
  intros Hstopped Hbody. induction l as [|x rest IH]; intros st st' Hs Hb H.
  - apply ret_inv in H. destruct H as [_ ->]. apply walked_nil. exact Hb.
  - simpl in H. apply bind_inv in H. destruct H as (c & st1 & H1 & H2).
    destruct (Hbody x st c st1 Hs Hb H1) as [Hw Hc].
    assert (Hs1 : stop st1 = existsb (breach T) (f x)).
    { destruct Hw as (_ & _ & _ & -> & _). rewrite Hs. simpl.
      apply existsb_upto. }
    simpl. unfold visited. rewrite upto_app.
    destruct (existsb (breach T) (f x)) eqn:Hx.
    + assert (st' = st1) as ->; [|exact Hw].
      destruct c.
      * rewrite (for_in_stopped body rest st1) in H2
          by (intros y; apply Hstopped; exact Hs1).
        inversion H2. reflexivity.
      * apply ret_inv in H2. tauto.
    + destruct c; [|rewrite (Hc eq_refl) in Hs1; discriminate].
      unfold visited in Hw. rewrite (upto_none _ _ Hx) in Hw.
      apply (walked_app _ _ _ st1); [exact Hw|].
      apply IH; [exact Hs1 | | exact H2].
      destruct Hw as (_ & _ & _ & _ & Hb1). exact Hb1.
Qed.

(** One visit: a day earlier than the threshold, and any other. *)
Lemma walked_breach v rest (st : crawl_state E) :
  breach T v = true -> same_base base (params st) ->
  walked (visited T (v :: rest)) st (breach_state (visit_id v) st).
Proof.
  intros Hv Hb. unfold visited, Plan.walked, kept, breach_state. simpl.
  rewrite !Hv. simpl. rewrite Hv. simpl. rewrite !app_nil_r, orb_true_r.
  split; [unfold request; rewrite (Hb (visit_id v)); reflexivity|].
  repeat (split; [reflexivity|]). apply same_base_set. exact Hb.
Qed.

Lemma walked_one v (st : crawl_state E) :
  breach T v = false -> same_base base (params st) ->
  walked (visited T [v]) st
    (mkState (Py.dict_set (params st) "url" (visit_id v)) (stop st)
       (dowload_urls_map st ++ entries v)
       (requests st
        ++ [listing_request (Py.dict_set (params st) "url" (visit_id v))])
       (logged st ++ logs v)).
Proof.
  intros Hv Hb. unfold visited, Plan.walked, kept. simpl.
  rewrite !Hv. simpl. rewrite Hv. simpl. rewrite !app_nil_r, orb_false_r.
  split; [unfold request; rewrite (Hb (visit_id v)); reflexivity|].
  repeat (split; [reflexivity|]). apply same_base_set. exact Hb.
Qed.

(** One request, then more visits. *)
Lemma walked_cons v vs (st st' : crawl_state E) :
  breach T v = false -> entries v = [] -> logs v = [] ->
  same_base base (params st) ->
  walked (visited T vs)
    (mkState (Py.dict_set (params st) "url" (visit_id v)) (stop st)
       (dowload_urls_map st)
       (requests st
        ++ [listing_request (Py.dict_set (params st) "url" (visit_id v))])
       (logged st)) st' ->
  walked (visited T (v :: vs)) st st'.
Proof.
  intros Hv He Hl Hb Hw. unfold visited in *. simpl. rewrite Hv.
  change (v :: upto (breach T) vs) with ([v] ++ upto (breach T) vs).
  eapply walked_app; [|exact Hw].
  pose proof (walked_one v st Hv Hb) as H1. unfold visited in H1. simpl in H1.
  rewrite Hv, He, Hl, !app_nil_r in H1. exact H1.
Qed.

End Walked.

Lemma page_rows {K} session base (key : string -> result K) id response rows :
  page session base id = Ok response ->
  row_ids key (text response) = Ok rows ->
  rows_of key (page session base id) = rows.
Proof. intros Hp Hr. unfold rows_of. rewrite Hp, Hr. reflexivity. Qed.

Lemma page_files session base id response urls :
  page session base id = Ok response ->
  comprehension (fun link => attr link "value") (cbSelect_inputs (text response))
  = Ok urls ->
  file_urls session base id = urls.
Proof. intros Hp Hu. unfold file_urls. rewrite Hp, Hu. reflexivity. Qed.

(** ** [get_urls_prog_dia] *)

Section Prog.
Variables (session : Session) (T : Dt.date).
Local Abbreviation base := prog_params.
Local Abbreviation walked :=
  (Plan.walked base T (prog_entries session) prog_logs).

Lemma prog_day_walked y m row st c st' :
  stop st = false -> same_base base (params st) ->
  prog_day_body session T y m row st = Ok (c, st') ->
  walked (visited T (prog_day_plan y m row)) st st' /\
  (c = Break -> stop st' = true).
Proof.
  destruct row as [d id]. intros Hs Hb H. unfold prog_day_body in H.
  inv_crawl H; try congruence.
  - split; [|reflexivity].
    apply (walked_breach base T _ _ (Day y m d id) []);
      [simpl; rewrite Hr0; assumption | exact Hb].
  - split; [|discriminate].
    simpl in Hpost. rewrite (Hb id) in Hpost.
    apply prog_links_run in Hc. destruct Hc as (urls & Hurls & ->).
    pose proof (walked_one base T (prog_entries session) prog_logs
                  (Day y m d id) st) as Hw.
    cbn [prog_entries prog_logs visit_id] in Hw.
    rewrite Hr0, (page_files _ _ _ _ _ Hpost Hurls) in Hw.
    apply Hw; [simpl; rewrite Hr0; assumption | exact Hb].
Qed.

Lemma prog_month_walked y row st c st' :
  stop st = false -> same_base base (params st) ->
  prog_month_body session T y row st = Ok (c, st') ->
  walked (visited T (prog_month_plan session y row)) st st' /\
  (c = Break -> stop st' = true).
Proof.
  destruct row as [m id]. intros Hs Hb H. unfold prog_month_body in H.
  inv_crawl H; try congruence.
  split; [|discriminate].
  simpl in Hpost. rewrite (Hb id) in Hpost.
  unfold prog_month_plan, days, day_rows. cbn [fst snd].
  rewrite (page_rows _ _ _ _ _ _ Hpost Hr0).
  apply (walked_cons base T _ _ (Month y m id)); try reflexivity; [exact Hb|].
  match goal with Hloop : for_in _ _ _ = Ok _ |- _ =>
    refine (for_in_walked base T _ _ (prog_day_plan y m) _ _
              (prog_day_stopped session T y m)
              (prog_day_walked y m) _ _ _ _ Hloop)
  end; [cbn; assumption | apply same_base_set; exact Hb].
Qed.

Lemma prog_year_walked row st c st' :
  stop st = false -> same_base base (params st) ->
  prog_year_body session T row st = Ok (c, st') ->
  walked (visited T (prog_year_plan session row)) st st' /\
  (c = Break -> stop st' = true).
Proof.
  destruct row as [y id]. intros Hs Hb H. unfold prog_year_body in H.
  inv_crawl H; try congruence.
  split; [|discriminate].
  simpl in Hpost. rewrite (Hb id) in Hpost.
  unfold prog_year_plan, months, month_rows. cbn [fst snd].
  rewrite (page_rows _ _ _ _ _ _ Hpost Hr0).
  apply (walked_cons base T _ _ (Year y id)); try reflexivity; [exact Hb|].
  match goal with Hloop : for_in _ _ _ = Ok _ |- _ =>
    refine (for_in_walked base T _ _ (prog_month_plan session y) _ _
              (prog_month_stopped session T y)
              (prog_month_walked y) _ _ _ _ Hloop)
  end; [cbn; assumption | apply same_base_set; exact Hb].
Qed.

(** The crawl of the programs: the request for the root, then the plan up
    to the first day earlier than the threshold. *)
Lemma prog_run_walked st :
  prog_run session T = Ok st ->
  requests st
  = listing_request base :: map (request base) (visited T (prog_plan session)) /\
  dowload_urls_map st
  = flat_map (prog_entries session) (kept T (visited T (prog_plan session))) /\
  logged st = flat_map prog_logs (kept T (visited T (prog_plan session))) /\
  stop st = existsb (breach T) (prog_plan session).
Proof.
  unfold prog_run.
  destruct (prog_crawl session T (initial_state prog_params))
    as [[[] st']|e] eqn:H; [|discriminate].
  intros Heq. inversion Heq. subst st'. clear Heq.
  unfold prog_crawl in H. inv_crawl H. simpl in Hpost.
  lazymatch goal with Hloop : for_in _ _ _ = Ok _ |- _ =>
    pose proof (fun Hs Hb =>
                  for_in_walked base T (prog_entries session) prog_logs
                    (prog_year_plan session) _ _
                    (prog_year_stopped session T) prog_year_walked
                    _ _ Hs Hb Hloop) as Hw
  end.
  specialize (Hw eq_refl (same_base_refl base)).
  unfold prog_plan, years, year_rows, rows_of. rewrite Hpost, Hr0.
  destruct Hw as (Hreq & Hent & Hlog & Hstop & _).
  simpl in Hreq, Hent, Hlog, Hstop.
  rewrite Hreq, Hent, Hlog, Hstop. unfold visited. rewrite existsb_upto. auto.
Qed.

End Prog.

(** ** [get_urls_reprog_dia] *)

Section Reprog.
Variables (session : Session) (T : Dt.date).
Local Abbreviation base := reprog_params.
Local Abbreviation walked :=
  (Plan.walked base T (reprog_entries session) reprog_logs).

Lemma reprog_version_walked date_obj row st c st' :
  stop st = false -> same_base base (params st) ->
  reprog_version_body session date_obj row st = Ok (c, st') ->
  walked (visited T (reprog_version_plan date_obj row)) st st' /\
  (c = Break -> stop st' = true).
Proof.
  destruct row as [v id]. intros Hs Hb H. unfold reprog_version_body in H.
  inv_crawl H; try congruence.
  split; [|discriminate].
  simpl in Hpost. rewrite (Hb id) in Hpost.
  apply reprog_links_run in Hc. destruct Hc as (urls & Hurls & ->).
  pose proof (walked_one base T (reprog_entries session) reprog_logs
                (Version date_obj v id) st) as Hw.
  cbn [reprog_entries reprog_logs visit_id] in Hw.
  rewrite (page_files _ _ _ _ _ Hpost Hurls) in Hw.
  apply Hw; [reflexivity | exact Hb].
Qed.

Lemma reprog_day_walked y m row st c st' :
  stop st = false -> same_base base (params st) ->
  reprog_day_body session T y m row st = Ok (c, st') ->
  walked (visited T (reprog_day_plan session y m row)) st st' /\
  (c = Break -> stop st' = true).
Proof.
  destruct row as [d id]. intros Hs Hb H. unfold reprog_day_body in H.
  inv_crawl H; try congruence.
  - split; [|reflexivity].
    apply (walked_breach base T _ _ (Day y m d id));
      [simpl; rewrite Hr0; assumption | exact Hb].
  - split; [|discriminate].
    simpl in Hpost. rewrite (Hb id) in Hpost.
    unfold reprog_day_plan, versions, reprog_rows. cbn [fst snd].
    rewrite Hr0, (page_rows _ _ _ _ _ _ Hpost Hr1).
    apply (walked_cons base T _ _ (Day y m d id)); try reflexivity;
      [simpl; rewrite Hr0; assumption | exact Hb|].
    match goal with Hloop : for_in _ _ _ = Ok _ |- _ =>
      refine (for_in_walked base T _ _ (reprog_version_plan _) _ _
                (reprog_version_stopped session _)
                (reprog_version_walked _) _ _ _ _ Hloop)
    end; [cbn; assumption | apply same_base_set; exact Hb].
Qed.

Lemma reprog_month_walked y row st c st' :
  stop st = false -> same_base base (params st) ->
  reprog_month_body session T y row st = Ok (c, st') ->
  walked (visited T (reprog_month_plan session y row)) st st' /\
  (c = Break -> stop st' = true).
Proof.
  destruct row as [m id]. intros Hs Hb H. unfold reprog_month_body in H.
  inv_crawl H; try congruence.
  split; [|discriminate].
  simpl in Hpost. rewrite (Hb id) in Hpost.
  unfold reprog_month_plan, days, day_rows. cbn [fst snd].
  rewrite (page_rows _ _ _ _ _ _ Hpost Hr0).
  apply (walked_cons base T _ _ (Month y m id)); try reflexivity; [exact Hb|].
  match goal with Hloop : for_in _ _ _ = Ok _ |- _ =>
    refine (for_in_walked base T _ _ (reprog_day_plan session y m) _ _
              (reprog_day_stopped session T y m)
              (reprog_day_walked y m) _ _ _ _ Hloop)
  end; [cbn; assumption | apply same_base_set; exact Hb].
Qed.

Lemma reprog_year_walked row st c st' :
  stop st = false -> same_base base (params st) ->
  reprog_year_body session T row st = Ok (c, st') ->
  walked (visited T (reprog_year_plan session row)) st st' /\
  (c = Break -> stop st' = true).
Proof.
  destruct row as [y id]. intros Hs Hb H. unfold reprog_year_body in H.
  inv_crawl H; try congruence.
  split; [|discriminate].
  simpl in Hpost. rewrite (Hb id) in Hpost.
  unfold reprog_year_plan, months, month_rows. cbn [fst snd].
  rewrite (page_rows _ _ _ _ _ _ Hpost Hr0).
  apply (walked_cons base T _ _ (Year y id)); try reflexivity; [exact Hb|].
  match goal with Hloop : for_in _ _ _ = Ok _ |- _ =>
    refine (for_in_walked base T _ _ (reprog_month_plan session y) _ _
              (reprog_month_stopped session T y)
              (reprog_month_walked y) _ _ _ _ Hloop)
  end; [cbn; assumption | apply same_base_set; exact Hb].
Qed.

(** The crawl of the reprograms: the request for the root, then the plan
    up to the first day earlier than the threshold. *)
Lemma reprog_run_walked st :
  reprog_run session T = Ok st ->
  requests st
  = listing_request base
    :: map (request base) (visited T (reprog_plan session)) /\
  dowload_urls_map st
  = flat_map (reprog_entries session)
      (kept T (visited T (reprog_plan session))) /\
  logged st = flat_map reprog_logs (kept T (visited T (reprog_plan session))) /\
  stop st = existsb (breach T) (reprog_plan session).
Proof.
  unfold reprog_run.
  destruct (reprog_crawl session T (initial_state reprog_params))
    as [[[] st']|e] eqn:H; [|discriminate].
  intros Heq. inversion Heq. subst st'. clear Heq.
  unfold reprog_crawl in H. inv_crawl H. simpl in Hpost.
  lazymatch goal with Hloop : for_in _ _ _ = Ok _ |- _ =>
    pose proof (fun Hs Hb =>
                  for_in_walked base T (reprog_entries session) reprog_logs
                    (reprog_year_plan session) _ _
                    (reprog_year_stopped session T) reprog_year_walked
                    _ _ Hs Hb Hloop) as Hw
  end.
  specialize (Hw eq_refl (same_base_refl base)).
  unfold reprog_plan, years, year_rows, rows_of. rewrite Hpost, Hr0.
  destruct Hw as (Hreq & Hent & Hlog & Hstop & _).
  simpl in Hreq, Hent, Hlog, Hstop.
  rewrite Hreq, Hent, Hlog, Hstop. unfold visited. rewrite existsb_upto. auto.
Qed.

End Reprog.

End PlanFacts.

(** * The entries of a plan come newest first *)

Module PlanOrder.
Import Coes Props Trace Plan.

Lemma flat_map_flat_map {A B C} (f : A -> list B) (g : B -> list C) (l : list A) :
  flat_map g (flat_map f l) = flat_map (fun x => flat_map g (f x)) l.
Proof.
  induction l as [|x l IH]; simpl; [reflexivity|].
  rewrite flat_map_app, IH. reflexivity.
Qed.

Lemma flat_map_singleton {A B} (f : A -> B) (l : list A) :
  flat_map (fun x => [f x]) l = map f l.
Proof.
  induction l as [|x l IH]; simpl; [reflexivity|]. rewrite IH. reflexivity.
Qed.

Lemma flat_map_all {A E} (Q : E -> Prop) (f : A -> list E) (l : list A) :
  (forall x, In x l -> Forall Q (f x)) -> Forall Q (flat_map f l).
Proof.
  intros H. apply Forall_forall. intros e He. apply in_flat_map in He.
  destruct He as (x & Hx & He). specialize (H x Hx).
  rewrite Forall_forall in H. apply H. exact He.
Qed.

(** Sorted segments of sorted rows, laid end to end, are sorted. *)
Lemma flat_map_sorted {A E} (ord : A -> A -> Prop) (P : A -> E -> Prop)
    (R : E -> E -> Prop) (f : A -> list E) (l : list A) :
  (forall x y e1 e2, ord x y -> P x e1 -> P y e2 -> R e1 e2) ->
  StronglySorted ord l ->
  (forall x, In x l -> StronglySorted R (f x) /\ Forall (P x) (f x)) ->
  StronglySorted R (flat_map f l).
Proof.
  intros Hord Hl Hf. induction Hl as [|x l Hl IH Hx]; simpl; [constructor|].
  apply Order.StronglySorted_app.
  - apply Hf. left. reflexivity.
  - apply IH. intros y Hy. apply Hf. right. exact Hy.
  - intros e1 e2 H1 H2. apply in_flat_map in H2.
    destruct H2 as (y & Hy & He2). rewrite Forall_forall in Hx.
    destruct (Hf x (or_introl eq_refl)) as [_ HPx].
    destruct (Hf y (or_intror Hy)) as [_ HPy].
    rewrite Forall_forall in HPx, HPy.
    eapply Hord; [apply Hx; exact Hy | apply HPx; exact H1 | apply HPy; exact He2].
Qed.

Lemma sorted_In {K} (ltb : K -> K -> bool) (rows : list (K * string)) row :
  In row (sorted_desc ltb fst rows) -> In row rows.
Proof.
  apply Permutation_in, Permutation_sym, Order.sorted_desc_perm.
Qed.

(** What is kept of the visits made is the start of the plan. *)
Lemma kept_visited_prefix T plan :
  exists rest, plan = kept T (visited T plan) ++ rest.
Proof.
  unfold kept, visited. induction plan as [|v plan IH]; simpl.
  - exists []. reflexivity.
  - destruct (breach T v) eqn:Hv; simpl; rewrite Hv; simpl.
    + exists (v :: plan). reflexivity.
    + destruct IH as (rest & Hrest). exists rest. congruence.
Qed.

Lemma entries_prefix {E} (entries : visit -> list E) T plan :
  exists more,
    flat_map entries plan
    = flat_map entries (kept T (visited T plan)) ++ more.
Proof.
  destruct (kept_visited_prefix T plan) as (rest & Hrest).
  exists (flat_map entries rest). rewrite <- flat_map_app, <- Hrest.
  reflexivity.
Qed.

(** Version labels in strictly descending order, when they are distinct. *)
Lemma string_ltb_total a b :
  String.ltb a b = false -> a <> b -> String.ltb b a = true.
Proof.
  unfold String.ltb. intros Hab Hne.
  pose proof (String.compare_antisym a b) as Hanti.
  destruct (String.compare b a) eqn:Hba; simpl in Hanti.
  - apply String.compare_eq_iff in Hba. congruence.
  - reflexivity.
  - rewrite Hanti in Hab. discriminate.
Qed.

Lemma sorted_labels_gt (rows : list (string * string)) :
  distinct rows ->
  StronglySorted label_gt (sorted_desc String.ltb fst rows).
Proof.
  unfold distinct. intros Hnd.
  assert (Hnd' : NoDup (map fst (sorted_desc String.ltb fst rows))).
  { eapply Permutation_NoDup; [|exact Hnd].
    apply Permutation_map, Order.sorted_desc_perm. }
  generalize (Order.sorted_labels_ge rows). revert Hnd'.
  generalize (sorted_desc String.ltb fst rows) as l.
  induction l as [|a l IH]; intros Hnd' Hs; [constructor|].
  apply StronglySorted_inv in Hs. destruct Hs as [Hs Ha].
  simpl in Hnd'. apply NoDup_cons_iff in Hnd'. destruct Hnd' as [Hin Hnd'].
  constructor; [apply IH; assumption|].
  rewrite Forall_forall in Ha |- *. intros b Hb.
  specialize (Ha b Hb). unfold label_ge in Ha. unfold label_gt.
  apply string_ltb_total; [exact Ha|].
  intros Heq. apply Hin. rewrite Heq. apply in_map. exact Hb.
Qed.

(** ** The programs *)

Section Prog.
Variable session : Session.
Local Abbreviation base := prog_params.

Lemma prog_day_dated y m row :
  Forall (fun e => prog_date e = Dt.mkdate y m (fst row))
    (flat_map (prog_entries session) (prog_day_plan y m row)).
Proof.
  unfold prog_day_plan. simpl. rewrite app_nil_r.
  destruct (date y m (fst row)) as [date_obj|e] eqn:Hd; [|constructor].
  apply Threshold.date_inv in Hd. subst date_obj.
  unfold prog_files. apply Forall_forall. intros e He.
  apply in_map_iff in He. destruct He as (u & <- & _). reflexivity.
Qed.

Lemma prog_day_sorted y m row :
  StronglySorted prog_ge
    (flat_map (prog_entries session) (prog_day_plan y m row)).
Proof.
  eapply Order.StronglySorted_same; [|apply prog_day_dated].
  intros e1 e2 H1 H2. unfold prog_ge. cbv beta in H1, H2. rewrite H1, H2.
  apply Order.date_ltb_irrefl.
Qed.

Lemma prog_month_dated y row :
  Forall (fun e => Dt.year (prog_date e) = y /\
                   Dt.month (prog_date e) = fst row)
    (flat_map (prog_entries session) (prog_month_plan session y row)).
Proof.
  unfold prog_month_plan. cbn [flat_map prog_entries app].
  rewrite flat_map_flat_map. apply flat_map_all. intros day _.
  eapply Forall_impl; [|apply prog_day_dated].
  intros e ->. auto.
Qed.

Lemma prog_month_sorted y row :
  StronglySorted prog_ge
    (flat_map (prog_entries session) (prog_month_plan session y row)).
Proof.
  unfold prog_month_plan. cbn [flat_map prog_entries app].
  rewrite flat_map_flat_map.
  apply (flat_map_sorted row_ge
           (fun day e => prog_date e = Dt.mkdate y (fst row) (fst day))).
  - intros a b e1 e2 Hab H1 H2. unfold prog_ge. rewrite H1, H2.
    apply Order.date_same_month. exact Hab.
  - apply Order.sorted_rows_ge.
  - intros day _. split; [apply prog_day_sorted | apply prog_day_dated].
Qed.

Lemma prog_year_dated row :
  Forall (fun e => Dt.year (prog_date e) = fst row)
    (flat_map (prog_entries session) (prog_year_plan session row)).
Proof.
  unfold prog_year_plan. cbn [flat_map prog_entries app].
  rewrite flat_map_flat_map. apply flat_map_all. intros month _.
  eapply Forall_impl; [|apply prog_month_dated].
  intros e [Hy _]. exact Hy.
Qed.

Lemma prog_year_sorted row :
  distinct (month_rows session base (snd row)) ->
  StronglySorted prog_ge
    (flat_map (prog_entries session) (prog_year_plan session row)).
Proof.
  intros Hm. unfold prog_year_plan. cbn [flat_map prog_entries app].
  rewrite flat_map_flat_map.
  apply (flat_map_sorted row_gt
           (fun month e => Dt.year (prog_date e) = fst row /\
                           Dt.month (prog_date e) = fst month)).
  - intros a b e1 e2 Hab [Hy1 Hm1] [Hy2 Hm2]. unfold prog_ge.
    apply Order.date_same_year; [congruence|].
    unfold row_gt in Hab. rewrite Hm1, Hm2. exact Hab.
  - apply Order.sorted_rows_gt. exact Hm.
  - intros month _. split; [apply prog_month_sorted | apply prog_month_dated].
Qed.

(** With distinct years and distinct months in each year, the entries of
    the plan come newest first. *)
Lemma prog_plan_sorted :
  distinct_years session base -> distinct_months session base ->
  StronglySorted prog_ge (flat_map (prog_entries session) (prog_plan session)).
Proof.
  intros Hy Hm. unfold prog_plan. rewrite flat_map_flat_map.
  apply (flat_map_sorted row_gt (fun year e => Dt.year (prog_date e) = fst year)).
  - intros a b e1 e2 Hab H1 H2. unfold prog_ge.
    apply Order.date_later_year. unfold row_gt in Hab. rewrite H1, H2. exact Hab.
  - apply Order.sorted_rows_gt. exact Hy.
  - intros year Hin. split; [|apply prog_year_dated].
    apply prog_year_sorted, Hm. eapply sorted_In. exact Hin.
Qed.

Lemma prog_run_sorted T st :
  distinct_years session base -> distinct_months session base ->
  prog_run session T = Ok st ->
  StronglySorted prog_ge (dowload_urls_map st).
Proof.
  intros Hy Hm Hrun.
  destruct (PlanFacts.prog_run_walked _ _ _ Hrun) as (_ & -> & _).
  destruct (entries_prefix (prog_entries session) T (prog_plan session))
    as (more & Hmore).
  apply (Order.StronglySorted_prefix _ _ more). rewrite <- Hmore.
  apply prog_plan_sorted; assumption.
Qed.

End Prog.

(** ** The reprograms *)

Section Reprog.
Variable session : Session.
Local Abbreviation base := reprog_params.
Local Abbreviation entries := (reprog_entries session).

Lemma reprog_ge_dates e1 e2 : reprog_ge e1 e2 -> reprog_date_ge e1 e2.
Proof.
  unfold reprog_ge, reprog_date_ge. intros [H|[-> _]].
  - unfold Dt.ltb in *. lia.
  - apply Order.date_ltb_irrefl.
Qed.

Lemma reprog_version_labelled date_obj row :
  Forall (fun e => reprog_date e = date_obj /\ reprog_version e = fst row)
    (flat_map entries (reprog_version_plan date_obj row)).
Proof.
  unfold reprog_version_plan. simpl. rewrite app_nil_r.
  unfold reprog_files. apply Forall_forall. intros e He.
  apply in_map_iff in He. destruct He as (u & <- & _). auto.
Qed.

Lemma reprog_version_sorted date_obj row :
  StronglySorted reprog_ge
    (flat_map entries (reprog_version_plan date_obj row)).
Proof.
  eapply Order.StronglySorted_same; [|apply reprog_version_labelled].
  intros e1 e2 [Hd1 Hv1] [Hd2 Hv2]. right. rewrite Hd1, Hd2, Hv1, Hv2.
  split; [reflexivity | apply Order.string_ltb_irrefl].
Qed.

Lemma reprog_day_dated y m row :
  Forall (fun e => reprog_date e = Dt.mkdate y m (fst row))
    (flat_map entries (reprog_day_plan session y m row)).
Proof.
  unfold reprog_day_plan. cbn [flat_map reprog_entries app].
  destruct (date y m (fst row)) as [date_obj|e] eqn:Hd; [|constructor].
  apply Threshold.date_inv in Hd. subst date_obj.
  rewrite flat_map_flat_map. apply flat_map_all. intros version _.
  eapply Forall_impl; [|apply reprog_version_labelled].
  intros e [Hd _]. exact Hd.
Qed.

Lemma reprog_day_sorted y m row :
  StronglySorted reprog_ge
    (flat_map entries (reprog_day_plan session y m row)).
Proof.
  unfold reprog_day_plan. cbn [flat_map reprog_entries app].
  destruct (date y m (fst row)) as [date_obj|e]; [|constructor].
  rewrite flat_map_flat_map.
  apply (flat_map_sorted label_ge
           (fun version e => reprog_date e = date_obj /\
                             reprog_version e = fst version)).
  - intros a b e1 e2 Hab [Hd1 Hv1] [Hd2 Hv2]. right.
    rewrite Hd1, Hd2, Hv1, Hv2. split; [reflexivity | exact Hab].
  - apply Order.sorted_labels_ge.
  - intros version _.
    split; [apply reprog_version_sorted | apply reprog_version_labelled].
Qed.

Lemma reprog_month_dated y row :
  Forall (fun e => Dt.year (reprog_date e) = y /\
                   Dt.month (reprog_date e) = fst row)
    (flat_map entries (reprog_month_plan session y row)).
Proof.
  unfold reprog_month_plan. cbn [flat_map reprog_entries app].
  rewrite flat_map_flat_map. apply flat_map_all. intros day _.
  eapply Forall_impl; [|apply reprog_day_dated].
  intros e ->. auto.
Qed.

(** The dates of a month never increase ... *)
Lemma reprog_month_dates y row :
  StronglySorted reprog_date_ge
    (flat_map entries (reprog_month_plan session y row)).
Proof.
  unfold reprog_month_plan. cbn [flat_map reprog_entries app].
  rewrite flat_map_flat_map.
  apply (flat_map_sorted row_ge
           (fun day e => reprog_date e = Dt.mkdate y (fst row) (fst day))).
  - intros a b e1 e2 Hab H1 H2. unfold reprog_date_ge. rewrite H1, H2.
    apply Order.date_same_month. exact Hab.
  - apply Order.sorted_rows_ge.
  - intros day _. split; [|apply reprog_day_dated].
    eapply Order.StronglySorted_impl; [|apply reprog_day_sorted].
    apply reprog_ge_dates.
Qed.

(** ... and with distinct days the labels never increase within a date. *)
Lemma reprog_month_sorted y row :
  distinct (day_rows session base (snd row)) ->
  StronglySorted reprog_ge
    (flat_map entries (reprog_month_plan session y row)).
Proof.
  intros Hd. unfold reprog_month_plan. cbn [flat_map reprog_entries app].
  rewrite flat_map_flat_map.
  apply (flat_map_sorted row_gt
           (fun day e => reprog_date e = Dt.mkdate y (fst row) (fst day))).
  - intros a b e1 e2 Hab H1 H2. left. rewrite H1, H2.
    apply Order.date_earlier_day. exact Hab.
  - apply Order.sorted_rows_gt. exact Hd.
  - intros day _. split; [apply reprog_day_sorted | apply reprog_day_dated].
Qed.

Lemma reprog_year_dated row :
  Forall (fun e => Dt.year (reprog_date e) = fst row)
    (flat_map entries (reprog_year_plan session row)).
Proof.
  unfold reprog_year_plan. cbn [flat_map reprog_entries app].
  rewrite flat_map_flat_map. apply flat_map_all. intros month _.
  eapply Forall_impl; [|apply reprog_month_dated].
  intros e [Hy _]. exact Hy.
Qed.

Lemma reprog_year_dates row :
  distinct (month_rows session base (snd row)) ->
  StronglySorted reprog_date_ge
    (flat_map entries (reprog_year_plan session row)).
Proof.
  intros Hm. unfold reprog_year_plan. cbn [flat_map reprog_entries app].
  rewrite flat_map_flat_map.
  apply (flat_map_sorted row_gt
           (fun month e => Dt.year (reprog_date e) = fst row /\
                           Dt.month (reprog_date e) = fst month)).
  - intros a b e1 e2 Hab [Hy1 Hm1] [Hy2 Hm2]. unfold reprog_date_ge.
    apply Order.date_same_year; [congruence|].
    unfold row_gt in Hab. rewrite Hm1, Hm2. exact Hab.
  - apply Order.sorted_rows_gt. exact Hm.
  - intros month _. split; [apply reprog_month_dates | apply reprog_month_dated].
Qed.

Lemma reprog_year_sorted row :
  distinct (month_rows session base (snd row)) ->
  (forall month, In month (month_rows session base (snd row)) ->
     distinct (day_rows session base (snd month))) ->
  StronglySorted reprog_ge
    (flat_map entries (reprog_year_plan session row)).
Proof.
  intros Hm Hd. unfold reprog_year_plan. cbn [flat_map reprog_entries app].
  rewrite flat_map_flat_map.
  apply (flat_map_sorted row_gt
           (fun month e => Dt.year (reprog_date e) = fst row /\
                           Dt.month (reprog_date e) = fst month)).
  - intros a b e1 e2 Hab [Hy1 Hm1] [Hy2 Hm2]. left.
    apply Order.date_earlier_month; [congruence|].
    unfold row_gt in Hab. rewrite Hm1, Hm2. exact Hab.
  - apply Order.sorted_rows_gt. exact Hm.
  - intros month Hin. split; [|apply reprog_month_dated].
    apply reprog_month_sorted, Hd. eapply sorted_In. exact Hin.
Qed.

Lemma reprog_plan_dates :
  distinct_years session base -> distinct_months session base ->
  StronglySorted reprog_date_ge (flat_map entries (reprog_plan session)).
Proof.
  intros Hy Hm. unfold reprog_plan. rewrite flat_map_flat_map.
  apply (flat_map_sorted row_gt
           (fun year e => Dt.year (reprog_date e) = fst year)).
  - intros a b e1 e2 Hab H1 H2. unfold reprog_date_ge.
    apply Order.date_later_year. unfold row_gt in Hab. rewrite H1, H2.
    exact Hab.
  - apply Order.sorted_rows_gt. exact Hy.
  - intros year Hin. split; [|apply reprog_year_dated].
    apply reprog_year_dates, Hm. eapply sorted_In. exact Hin.
Qed.

Lemma reprog_plan_sorted :
  distinct_years session base -> distinct_months session base ->
  distinct_days session base ->
  StronglySorted reprog_ge (flat_map entries (reprog_plan session)).
Proof.
  intros Hy Hm Hd. unfold reprog_plan. rewrite flat_map_flat_map.
  apply (flat_map_sorted row_gt
           (fun year e => Dt.year (reprog_date e) = fst year)).
  - intros a b e1 e2 Hab H1 H2. left.
    apply Order.date_earlier_year. unfold row_gt in Hab. rewrite H1, H2.
    exact Hab.
  - apply Order.sorted_rows_gt. exact Hy.
  - intros year Hin. apply sorted_In in Hin.
    split; [|apply reprog_year_dated].
    apply reprog_year_sorted; [apply Hm; exact Hin|].
    intros month Hmonth. apply (Hd year month); assumption.
Qed.

Lemma reprog_run_dates T st :
  distinct_years session base -> distinct_months session base ->
  reprog_run session T = Ok st ->
  StronglySorted reprog_date_ge (dowload_urls_map st).
Proof.
  intros Hy Hm Hrun.
  destruct (PlanFacts.reprog_run_walked _ _ _ Hrun) as (_ & -> & _).
  destruct (entries_prefix entries T (reprog_plan session)) as (more & Hmore).
  apply (Order.StronglySorted_prefix _ _ more). rewrite <- Hmore.
  apply reprog_plan_dates; assumption.
Qed.

Lemma reprog_run_sorted T st :
  distinct_years session base -> distinct_months session base ->
  distinct_days session base ->
  reprog_run session T = Ok st ->
  StronglySorted reprog_ge (dowload_urls_map st).
Proof.
  intros Hy Hm Hd Hrun.
  destruct (PlanFacts.reprog_run_walked _ _ _ Hrun) as (_ & -> & _).
  destruct (entries_prefix entries T (reprog_plan session)) as (more & Hmore).
  apply (Order.StronglySorted_prefix _ _ more). rewrite <- Hmore.
  apply reprog_plan_sorted; assumption.
Qed.

End Reprog.

End PlanOrder.

(** * The threshold and the order of a crawl *)

(** C1. For every threshold date [T], no entry of the list returned by
    [get_urls_prog_dia] or [get_urls_reprog_dia] has a date earlier than
    [T]. A crawl that ends without an exception has gone through its plan,
    the directories of the portal in descending order, and the first day
    earlier than [T] halted it: the request for the listing of that day
    is the last request of the crawl, [stop] is set, the entries returned
    and the records logged are those of the visits before that day, and
    nothing is asked, recorded or logged of what comes after it in the
    plan, days of the same date included. With no such day in the plan,
    the whole plan is visited and [stop] stays unset. *)
Theorem C1_threshold_halts_the_crawl (session : Session) (T : Dt.date) :
  (forall l, Coes.get_urls_prog_dia session T = Ok l ->
     Forall (fun e => Dt.ltb (Coes.prog_date e) T = false) l) /\
  (forall l, Coes.get_urls_reprog_dia session T = Ok l ->
     Forall (fun e => Dt.ltb (Coes.reprog_date e) T = false) l) /\
  (forall v,
     Plan.breach T v = true <->
     exists y m d id date_obj,
       v = Plan.Day y m d id /\ Coes.date y m d = Ok date_obj /\
       Dt.ltb date_obj T = true) /\
  (forall st, Coes.prog_run session T = Ok st ->
     Coes.get_urls_prog_dia session T = Ok (Coes.dowload_urls_map st) /\
     (forall before v after,
        Plan.prog_plan session = before ++ v :: after ->
        existsb (Plan.breach T) before = false ->
        Plan.breach T v = true ->
        Coes.stop st = true /\
        Coes.requests st
        = Coes.listing_request Coes.prog_params
          :: map (Plan.request Coes.prog_params) (before ++ [v]) /\
        Coes.dowload_urls_map st
        = flat_map (Plan.prog_entries session) before /\
        Coes.logged st = flat_map Plan.prog_logs before) /\
     (existsb (Plan.breach T) (Plan.prog_plan session) = false ->
      Coes.stop st = false /\
      Coes.requests st
      = Coes.listing_request Coes.prog_params
        :: map (Plan.request Coes.prog_params) (Plan.prog_plan session) /\
      Coes.dowload_urls_map st
      = flat_map (Plan.prog_entries session) (Plan.prog_plan session) /\
      Coes.logged st = flat_map Plan.prog_logs (Plan.prog_plan session))) /\
  (forall st, Coes.reprog_run session T = Ok st ->
     Coes.get_urls_reprog_dia session T = Ok (Coes.dowload_urls_map st) /\
     (forall before v after,
        Plan.reprog_plan session = before ++ v :: after ->
        existsb (Plan.breach T) before = false ->
        Plan.breach T v = true ->
        Coes.stop st = true /\
        Coes.requests st
        = Coes.listing_request Coes.reprog_params
          :: map (Plan.request Coes.reprog_params) (before ++ [v]) /\
        Coes.dowload_urls_map st
        = flat_map (Plan.reprog_entries session) before /\
        Coes.logged st = flat_map Plan.reprog_logs before) /\
     (existsb (Plan.breach T) (Plan.reprog_plan session) = false ->
      Coes.stop st = false /\
      Coes.requests st
      = Coes.listing_request Coes.reprog_params
        :: map (Plan.request Coes.reprog_params) (Plan.reprog_plan session) /\
      Coes.dowload_urls_map st
      = flat_map (Plan.reprog_entries session) (Plan.reprog_plan session) /\
      Coes.logged st = flat_map Plan.reprog_logs (Plan.reprog_plan session))).
Proof.
  split; [|split; [|split; [|split]]].
  - intros l. unfold Coes.get_urls_prog_dia, Coes.prog_run.
    destruct (Coes.prog_crawl session T _) as [[u st]|e] eqn:H; [|discriminate].
    intros Hl. inversion Hl. subst l.
    destruct (Threshold.prog_crawl_grows _ _ _ _ _ H) as (seg & Hseg & Hall).
    rewrite Hseg. exact Hall.
  - intros l. unfold Coes.get_urls_reprog_dia, Coes.reprog_run.
    destruct (Coes.reprog_crawl session T _) as [[u st]|e] eqn:H; [|discriminate].
    intros Hl. inversion Hl. subst l.
    destruct (Threshold.reprog_crawl_grows _ _ _ _ _ H) as (seg & Hseg & Hall).
    rewrite Hseg. exact Hall.
  - intros v. split.
    + destruct v as [y id|y m id|y m d id|date_obj version id]; simpl;
        try discriminate.
      destruct (Coes.date y m d) as [date_obj|e] eqn:Hd; [|discriminate].
      intros Hlt. exists y, m, d, id, date_obj. auto.
    + intros (y & m & d & id & date_obj & -> & Hd & Hlt). simpl.
      rewrite Hd. exact Hlt.
  - intros st Hrun.
    split; [unfold Coes.get_urls_prog_dia; rewrite Hrun; reflexivity|].
    destruct (PlanFacts.prog_run_walked _ _ _ Hrun) as (Hr & He & Hl & Hs).
    split.
    + intros before v after Hplan Hb Hv. unfold Plan.visited in *.
      rewrite Hplan, (PlanFacts.upto_first _ _ _ _ Hb Hv) in Hr, He, Hl.
      rewrite (PlanFacts.kept_first _ _ _ Hb Hv) in He, Hl.
      rewrite Hplan, existsb_app in Hs. simpl in Hs.
      rewrite Hv, orb_true_r in Hs. auto.
    + intros Hnone. unfold Plan.visited in *.
      rewrite (PlanFacts.upto_none _ _ Hnone) in Hr, He, Hl.
      rewrite (PlanFacts.kept_none _ _ Hnone) in He, Hl.
      rewrite Hnone in Hs. auto.
  - intros st Hrun.
    split; [unfold Coes.get_urls_reprog_dia; rewrite Hrun; reflexivity|].
    destruct (PlanFacts.reprog_run_walked _ _ _ Hrun) as (Hr & He & Hl & Hs).
    split.
    + intros before v after Hplan Hb Hv. unfold Plan.visited in *.
      rewrite Hplan, (PlanFacts.upto_first _ _ _ _ Hb Hv) in Hr, He, Hl.
      rewrite (PlanFacts.kept_first _ _ _ Hb Hv) in He, Hl.
      rewrite Hplan, existsb_app in Hs. simpl in Hs.
      rewrite Hv, orb_true_r in Hs. auto.
    + intros Hnone. unfold Plan.visited in *.
      rewrite (PlanFacts.upto_none _ _ Hnone) in Hr, He, Hl.
      rewrite (PlanFacts.kept_none _ _ Hnone) in He, Hl.
      rewrite Hnone in Hs. auto.
Qed.

(** C9, as the code has it. At every level the rows are visited in
    descending order of their key (year, month, day, version label), rows
    of one key in their listing order; the order is strictly descending
    when the keys of the listing are pairwise distinct. A crawl asks for
    the root and then goes through its plan, the years in that order,
    after each year its months in that order, after each month its days,
    and for the reprograms after each day its versions, up to the first
    day earlier than the threshold; the returned list is in the order of
    these visits. When the years of the root listing and the months of
    every year listing are pairwise distinct, the dates of the returned
    entries never increase; when the days of every month listing are
    distinct as well, the version labels never increase within a date. *)
Theorem C9_descending_order (session : Session) (T : Dt.date) :
  (forall rows : list (Z * string),
     let visited := Coes.sorted_desc Z.ltb fst rows in
     Permutation rows visited /\
     StronglySorted Props.row_ge visited /\
     (forall k, filter (fun r => fst r =? k) visited
                = filter (fun r => fst r =? k) rows) /\
     (NoDup (map fst rows) -> StronglySorted Props.row_gt visited)) /\
  (forall rows : list (string * string),
     let visited := Coes.sorted_desc String.ltb fst rows in
     Permutation rows visited /\
     StronglySorted Props.label_ge visited /\
     (forall v, filter (fun r => String.eqb (fst r) v) visited
                = filter (fun r => String.eqb (fst r) v) rows) /\
     (NoDup (map fst rows) -> StronglySorted Plan.label_gt visited)) /\
  Plan.prog_plan session
  = flat_map (fun year =>
      Plan.Year (fst year) (snd year)
      :: flat_map (fun month =>
           Plan.Month (fst year) (fst month) (snd month)
           :: map (fun day =>
                     Plan.Day (fst year) (fst month) (fst day) (snd day))
                (Coes.sorted_desc Z.ltb fst
                   (Plan.day_rows session Coes.prog_params (snd month))))
           (Coes.sorted_desc Z.ltb fst
              (Plan.month_rows session Coes.prog_params (snd year))))
      (Coes.sorted_desc Z.ltb fst (Plan.year_rows session Coes.prog_params)) /\
  Plan.reprog_plan session
  = flat_map (fun year =>
      Plan.Year (fst year) (snd year)
      :: flat_map (fun month =>
           Plan.Month (fst year) (fst month) (snd month)
           :: flat_map (fun day =>
                Plan.Day (fst year) (fst month) (fst day) (snd day)
                :: match Coes.date (fst year) (fst month) (fst day) with
                   | Ok date_obj =>
                       map (fun version =>
                              Plan.Version date_obj (fst version) (snd version))
                         (Coes.sorted_desc String.ltb fst
                            (Plan.reprog_rows session Coes.reprog_params
                               (snd day)))
                   | Raise _ => []
                   end)
                (Coes.sorted_desc Z.ltb fst
                   (Plan.day_rows session Coes.reprog_params (snd month))))
           (Coes.sorted_desc Z.ltb fst
              (Plan.month_rows session Coes.reprog_params (snd year))))
      (Coes.sorted_desc Z.ltb fst (Plan.year_rows session Coes.reprog_params)) /\
  (forall st, Coes.prog_run session T = Ok st ->
     Coes.get_urls_prog_dia session T = Ok (Coes.dowload_urls_map st) /\
     Coes.requests st
     = Coes.listing_request Coes.prog_params
       :: map (Plan.request Coes.prog_params)
            (Plan.visited T (Plan.prog_plan session)) /\
     Coes.dowload_urls_map st
     = flat_map (Plan.prog_entries session)
         (Plan.kept T (Plan.visited T (Plan.prog_plan session)))) /\
  (forall st, Coes.reprog_run session T = Ok st ->
     Coes.get_urls_reprog_dia session T = Ok (Coes.dowload_urls_map st) /\
     Coes.requests st
     = Coes.listing_request Coes.reprog_params
       :: map (Plan.request Coes.reprog_params)
            (Plan.visited T (Plan.reprog_plan session)) /\
     Coes.dowload_urls_map st
     = flat_map (Plan.reprog_entries session)
         (Plan.kept T (Plan.visited T (Plan.reprog_plan session)))) /\
  (Plan.distinct_years session Coes.prog_params ->
   Plan.distinct_months session Coes.prog_params ->
   forall l, Coes.get_urls_prog_dia session T = Ok l ->
     StronglySorted Props.prog_ge l) /\
  (Plan.distinct_years session Coes.reprog_params ->
   Plan.distinct_months session Coes.reprog_params ->
   forall l, Coes.get_urls_reprog_dia session T = Ok l ->
     StronglySorted Props.reprog_date_ge l /\
     (Plan.distinct_days session Coes.reprog_params ->
      StronglySorted Props.reprog_ge l)).
Proof.
  split; [|split; [|split; [|split; [|split; [|split; [|split]]]]]].
  - intros rows visited. split; [apply Order.sorted_desc_perm|].
    split; [apply Order.sorted_rows_ge|].
    split; [intros k; apply Order.sorted_rows_stable|].
    apply Order.sorted_rows_gt.
  - intros rows visited. split; [apply Order.sorted_desc_perm|].
    split; [apply Order.sorted_labels_ge|].
    split; [intros v; apply Order.sorted_labels_stable|].
    apply PlanOrder.sorted_labels_gt.
  - unfold Plan.prog_plan, Plan.prog_year_plan, Plan.prog_month_plan,
      Plan.prog_day_plan, Plan.years, Plan.months, Plan.days.
    apply flat_map_ext. intros year. apply (f_equal (cons _)).
    apply flat_map_ext. intros month. apply (f_equal (cons _)).
    apply PlanOrder.flat_map_singleton.
  - unfold Plan.reprog_plan, Plan.reprog_year_plan, Plan.reprog_month_plan,
      Plan.reprog_day_plan, Plan.reprog_version_plan, Plan.years, Plan.months,
      Plan.days, Plan.versions.
    apply flat_map_ext. intros year. apply (f_equal (cons _)).
    apply flat_map_ext. intros month. apply (f_equal (cons _)).
    apply flat_map_ext. intros day. apply (f_equal (cons _)).
    destruct (Coes.date (fst year) (fst month) (fst day)); [|reflexivity].
    apply PlanOrder.flat_map_singleton.
  - intros st Hrun.
    split; [unfold Coes.get_urls_prog_dia; rewrite Hrun; reflexivity|].
    destruct (PlanFacts.prog_run_walked _ _ _ Hrun) as (Hr & He & _). auto.
  - intros st Hrun.
    split; [unfold Coes.get_urls_reprog_dia; rewrite Hrun; reflexivity|].
    destruct (PlanFacts.reprog_run_walked _ _ _ Hrun) as (Hr & He & _). auto.
  - intros Hy Hm l. unfold Coes.get_urls_prog_dia.
    destruct (Coes.prog_run session T) as [st|e] eqn:Hrun; [|discriminate].
    intros Hl. inversion Hl. subst l.
    eapply PlanOrder.prog_run_sorted; eassumption.
  - intros Hy Hm l. unfold Coes.get_urls_reprog_dia.
    destruct (Coes.reprog_run session T) as [st|e] eqn:Hrun; [|discriminate].
    intros Hl. inversion Hl. subst l. split.
    + eapply PlanOrder.reprog_run_dates; eassumption.
    + intros Hd. eapply PlanOrder.reprog_run_sorted; eassumption.
Qed.

(** C9, as the specification states it, fails on listings with ties. A month that
    lists the day 15 twice has its days visited in the order 15, 15, which
    is not strictly descending, and the labels of the returned entries of
    that date run B, A, B, A; a root that lists the year 2024 twice has the
    months of that year visited twice and the dates of the returned
    entries go up again. *)
Lemma C9_counterexample :
  (exists rows,
     Coes.row_ids Coes.day_of_id Examples.twice_day_month = Ok rows /\
     ~ StronglySorted Props.row_gt (Coes.sorted_desc Z.ltb fst rows)) /\
  (exists l,
     Coes.get_urls_reprog_dia Examples.twice_day (Dt.mkdate 2024 1 1) = Ok l /\
     Forall (fun e => Coes.reprog_date e = Dt.mkdate 2024 1 15) l /\
     map Coes.reprog_version l = ["B"; "A"; "B"; "A"]%string /\
     ~ StronglySorted Props.reprog_ge l) /\
  (exists l,
     Coes.get_urls_prog_dia Examples.twice_year (Dt.mkdate 2024 1 1) = Ok l /\
     map Coes.prog_date l
       = [Dt.mkdate 2024 2 1; Dt.mkdate 2024 1 31;
          Dt.mkdate 2024 2 1; Dt.mkdate 2024 1 31] /\
     ~ StronglySorted Props.prog_ge l).
Proof.
  split; [|split].
  - exists [(15, "R/2024/01_Enero/Dia 15/"); (15, "R/2024/01_Enero/Dia 015/")]%string.
    split; [reflexivity|].
    change (Coes.sorted_desc Z.ltb fst
              [(15, "R/2024/01_Enero/Dia 15/"); (15, "R/2024/01_Enero/Dia 015/")]%string)
      with [(15, "R/2024/01_Enero/Dia 15/"); (15, "R/2024/01_Enero/Dia 015/")]%string.
    intros H. inversion H as [|? ? _ Hall]. subst.
    inversion Hall as [|? ? Hlt _]. subst. unfold Props.row_gt in Hlt.
    simpl in Hlt. lia.
  - eexists. split; [vm_compute; reflexivity|].
    split; [repeat constructor|]. split; [reflexivity|].
    intros H. inversion H as [|? ? Hrest _]. subst.
    inversion Hrest as [|? ? _ Hall]. subst.
    inversion Hall as [|? ? Hge _]. subst.
    destruct Hge as [Hge|[_ Hge]]; vm_compute in Hge; discriminate.
  - eexists. split; [vm_compute; reflexivity|].
    split; [reflexivity|].
    intros H. inversion H as [|? ? Hrest _]. subst.
    inversion Hrest as [|? ? _ Hall]. subst.
    inversion Hall as [|? ? Hge _]. subst.
    vm_compute in Hge. discriminate.
Qed.

(** The scenario of the specification: with the threshold 2024-01-15 the
    days 16 and 15 are recorded, the request for the day 14 is the last
    one, and the year 2023 is not visited. *)
Lemma C1_witness :
  exists st,
    Coes.prog_run Examples.scenario Examples.scenario_threshold = Ok st /\
    Plan.prog_plan Examples.scenario
    = [Plan.Year 2024 "P/2024/"; Plan.Month 2024 1 "P/2024/01_Enero/";
       Plan.Day 2024 1 16 "P/2024/01_Enero/Dia 16/";
       Plan.Day 2024 1 15 "P/2024/01_Enero/Dia 15/";
       Plan.Day 2024 1 14 "P/2024/01_Enero/Dia 14/";
       Plan.Year 2023 "P/2023/"; Plan.Month 2023 12 "P/2023/12_Diciembre/";
       Plan.Day 2023 12 31 "P/2023/12_Diciembre/Dia 31/"]%string /\
    Coes.stop st = true /\
    Coes.requests st
    = Coes.listing_request Coes.prog_params
      :: map (Plan.request Coes.prog_params)
           [Plan.Year 2024 "P/2024/"; Plan.Month 2024 1 "P/2024/01_Enero/";
            Plan.Day 2024 1 16 "P/2024/01_Enero/Dia 16/";
            Plan.Day 2024 1 15 "P/2024/01_Enero/Dia 15/";
            Plan.Day 2024 1 14 "P/2024/01_Enero/Dia 14/"]%string /\
    Coes.dowload_urls_map st
    = [ (Dt.mkdate 2024 1 16, "PDO_16.xlsx", "f/PDO_16.xlsx");
        (Dt.mkdate 2024 1 16, "PDO_16.zip", "f/PDO_16.zip");
        (Dt.mkdate 2024 1 15, "PDO_15.xlsx", "f/PDO_15.xlsx") ]%string.
Proof.
  eexists. split; [vm_compute; reflexivity|].
  split; [vm_compute; reflexivity|].
  destruct (C1_threshold_halts_the_crawl Examples.scenario
              Examples.scenario_threshold) as (_ & _ & _ & Hprog & _).
  destruct (Hprog _ ltac:(vm_compute; reflexivity)) as (_ & Hbreach & _).
  destruct (Hbreach
              [Plan.Year 2024 "P/2024/"; Plan.Month 2024 1 "P/2024/01_Enero/";
               Plan.Day 2024 1 16 "P/2024/01_Enero/Dia 16/";
               Plan.Day 2024 1 15 "P/2024/01_Enero/Dia 15/"]%string
              (Plan.Day 2024 1 14 "P/2024/01_Enero/Dia 14/")
              [Plan.Year 2023 "P/2023/";
               Plan.Month 2023 12 "P/2023/12_Diciembre/";
               Plan.Day 2023 12 31 "P/2023/12_Diciembre/Dia 31/"]%string
              ltac:(vm_compute; reflexivity) eq_refl eq_refl)
    as (Hstop & Hreq & Hent & _).
  split; [exact Hstop|]. split; [exact Hreq|]. exact Hent.
Defined.

(** A portal with distinct keys at every level: the entries come out
    newest first, the version B before the version A. *)
Lemma C9_witness :
  Plan.distinct_years Examples.reprog_scenario Coes.reprog_params /\
  Plan.distinct_months Examples.reprog_scenario Coes.reprog_params /\
  Plan.distinct_days Examples.reprog_scenario Coes.reprog_params /\
  StronglySorted Props.reprog_ge
    [ (Dt.mkdate 2024 1 15, "B", "RDO_B.xlsx", "f/RDO_B.xlsx");
      (Dt.mkdate 2024 1 15, "A", "RDO_A.xlsx", "f/RDO_A.xlsx") ]%string.
Proof.
  assert (Hy : Plan.distinct_years Examples.reprog_scenario Coes.reprog_params)
    by (vm_compute; repeat constructor; simpl; tauto).
  assert (Hm : Plan.distinct_months Examples.reprog_scenario Coes.reprog_params).
  { intros row Hin. vm_compute in Hin. destruct Hin as [<-|[]].
    vm_compute. repeat constructor. simpl. tauto. }
  assert (Hd : Plan.distinct_days Examples.reprog_scenario Coes.reprog_params).
  { intros yrow mrow Hy' Hm'. vm_compute in Hy'. destruct Hy' as [<-|[]].
    vm_compute in Hm'. destruct Hm' as [<-|[]].
    vm_compute. repeat constructor. simpl. tauto. }
  split; [exact Hy|]. split; [exact Hm|]. split; [exact Hd|].
  destruct (C9_descending_order Examples.reprog_scenario (Dt.mkdate 2024 1 1))
    as (_ & _ & _ & _ & _ & _ & _ & Hsorted).
  destruct (Hsorted Hy Hm _ ltac:(vm_compute; reflexivity)) as [_ Hreprog].
  apply Hreprog. exact Hd.
Defined.

(** * Further properties of the crawls *)

(** X1. When [get_urls_prog_dia] or [get_urls_reprog_dia] ends without an
    exception, every request it sent was answered, and with a status
    outside [400, 600): no response with an error status is passed over,
    at any level of the listing. *)
Theorem X1_every_response_checked (session : Session) (T : Dt.date) :
  (forall st, Coes.prog_run session T = Ok st ->
     Forall (fun q => exists response,
                session q = Ok response /\
                ~ 400 <= status_code response < 600)
            (Coes.requests st)) /\
  (forall st, Coes.reprog_run session T = Ok st ->
     Forall (fun q => exists response,
                session q = Ok response /\
                ~ 400 <= status_code response < 600)
            (Coes.requests st)).
Proof.
  split; intros st H.
  - destruct (TraceFacts.prog_run_steps _ _ _ H) as (Hs & _).
    eapply Forall_impl; [|exact Hs]. intros q (_ & _ & _ & Hr). exact Hr.
  - destruct (TraceFacts.reprog_run_steps _ _ _ H) as (Hs & _).
    eapply Forall_impl; [|exact Hs]. intros q (_ & _ & _ & Hr). exact Hr.
Qed.

(** X2. Every request of a crawl is a [POST] to the listing endpoint with
    no timeout; its parameters are those the crawl started with, but for
    ["url"], which names the directory asked for: ["baseDirectory"],
    ["indicador"], ["initialLink"] and ["orderFolder"] never change. The
    first request asks for the base directory. *)
Theorem X2_requests_of_a_crawl (session : Session) (T : Dt.date) :
  (forall st, Coes.prog_run session T = Ok st ->
     (exists rest,
        Coes.requests st = Coes.listing_request Coes.prog_params :: rest) /\
     Forall (fun q =>
               req_method q = POST /\ req_url q = Coes.vistadatos /\
               req_timeout q = None /\
               (exists id, req_params q = Py.dict_set Coes.prog_params "url" id) /\
               (forall k, k <> "url"%string ->
                  Py.dict_get (req_params q) k = Py.dict_get Coes.prog_params k))
            (Coes.requests st)) /\
  (forall st, Coes.reprog_run session T = Ok st ->
     (exists rest,
        Coes.requests st = Coes.listing_request Coes.reprog_params :: rest) /\
     Forall (fun q =>
               req_method q = POST /\ req_url q = Coes.vistadatos /\
               req_timeout q = None /\
               (exists id, req_params q = Py.dict_set Coes.reprog_params "url" id) /\
               (forall k, k <> "url"%string ->
                  Py.dict_get (req_params q) k = Py.dict_get Coes.reprog_params k))
            (Coes.requests st)).
Proof.
  split; intros st H.
  - split; [eapply Runs.prog_run_first; exact H|].
    destruct (TraceFacts.prog_run_steps _ _ _ H) as (Hs & Hb & _).
    rewrite Forall_forall in *. intros q Hq.
    destruct (Hs q Hq) as (Hm & Hu & Ht & _). destruct (Hb q Hq) as (id & Hp).
    repeat (split; [assumption|]). split; [exists id; exact Hp|].
    intros k Hk. rewrite Hp. apply TraceFacts.dict_get_set_other. exact Hk.
  - split; [eapply Runs.reprog_run_first; exact H|].
    destruct (TraceFacts.reprog_run_steps _ _ _ H) as (Hs & Hb & _).
    rewrite Forall_forall in *. intros q Hq.
    destruct (Hs q Hq) as (Hm & Hu & Ht & _). destruct (Hb q Hq) as (id & Hp).
    repeat (split; [assumption|]). split; [exists id; exact Hp|].
    intros k Hk. rewrite Hp. apply TraceFacts.dict_get_set_other. exact Hk.
Qed.

(** X3. The file name of every entry is what follows the last slash of its
    download URL, the whole URL when it has no slash: the name holds no
    slash, and the URL is the name or ends with a slash and the name. *)
Theorem X3_file_name_of_the_url (session : Session) (T : Dt.date) :
  (forall l, Coes.get_urls_prog_dia session T = Ok l ->
     Forall (fun e =>
               Props.has_char "/" (Trace.prog_name e) = false /\
               (Trace.prog_url e = Trace.prog_name e \/
                exists dir,
                  Trace.prog_url e = (dir ++ "/" ++ Trace.prog_name e)%string))
            l) /\
  (forall l, Coes.get_urls_reprog_dia session T = Ok l ->
     Forall (fun e =>
               Props.has_char "/" (Trace.reprog_name e) = false /\
               (Trace.reprog_url e = Trace.reprog_name e \/
                exists dir,
                  Trace.reprog_url e
                  = (dir ++ "/" ++ Trace.reprog_name e)%string))
            l).
Proof.
  split; intros l H.
  - destruct (Runs.prog_list_run _ _ _ H) as (st & Hrun & ->).
    destruct (TraceFacts.prog_run_steps _ _ _ Hrun) as (_ & _ & Hrec & _).
    eapply Forall_impl; [|exact Hrec]. intros e (_ & Hn & _).
    rewrite Hn. apply Paths.file_name.
  - destruct (Runs.reprog_list_run _ _ _ H) as (st & Hrun & ->).
    destruct (TraceFacts.reprog_run_steps _ _ _ Hrun) as (_ & _ & Hrec & _).
    eapply Forall_impl; [|exact Hrec]. intros e (_ & Hn & _).
    rewrite Hn. apply Paths.file_name.
Qed.

(** X4. Nothing is made up. Every entry returned is a file of the
    listing: its URL is the [value] of a file selector on the page the
    portal serves for a directory at the bottom of the listing, under a
    year the root lists, a month that year lists and a day that month
    lists (and, for the reprograms, a version that day lists), and the
    date and the version label of the entry are those the identifiers of
    these directories give. *)
Theorem X4_entries_come_from_the_portal (session : Session) (T : Dt.date) :
  (forall l, Coes.get_urls_prog_dia session T = Ok l ->
     Forall (fun e => exists yid mid did y m d,
                In yid (Props.root_entries session Coes.prog_params) /\
                In mid (Props.child_entries session Coes.prog_params yid) /\
                In did (Props.child_entries session Coes.prog_params mid) /\
                Coes.year_of_id yid = Ok y /\ Coes.month_of_id mid = Ok m /\
                Coes.day_of_id did = Ok d /\
                Coes.prog_date e = Dt.mkdate y m d /\
                Trace.files_on session Coes.prog_params did (Trace.prog_url e))
            l) /\
  (forall l, Coes.get_urls_reprog_dia session T = Ok l ->
     Forall (fun e => exists yid mid did vid y m d,
                In yid (Props.root_entries session Coes.reprog_params) /\
                In mid (Props.child_entries session Coes.reprog_params yid) /\
                In did (Props.child_entries session Coes.reprog_params mid) /\
                In vid (Props.child_entries session Coes.reprog_params did) /\
                Coes.year_of_id yid = Ok y /\ Coes.month_of_id mid = Ok m /\
                Coes.day_of_id did = Ok d /\
                Coes.reprog_of_id vid = Ok (Coes.reprog_version e) /\
                Coes.reprog_date e = Dt.mkdate y m d /\
                Trace.files_on session Coes.reprog_params vid
                  (Trace.reprog_url e))
            l).
Proof.
  split; intros l H.
  - destruct (Runs.prog_list_run _ _ _ H) as (st & Hrun & ->).
    eapply Forall_impl; [|exact (Sound.prog_run_sound _ _ _ Hrun)].
    intros e (yid & mid & did & y & m & d & u & H1 & H2 & H3 & H4 & H5 & H6
              & -> & Hu).
    exists yid, mid, did, y, m, d. auto 10.
  - destruct (Runs.reprog_list_run _ _ _ H) as (st & Hrun & ->).
    eapply Forall_impl; [|exact (Sound.reprog_run_sound _ _ _ Hrun)].
    intros e (yid & mid & did & vid & y & m & d & v & u
              & H1 & H2 & H3 & H4 & H5 & H6 & H7 & H8 & -> & Hu).
    exists yid, mid, did, vid, y, m, d. auto 12.
Qed.

(** X5. The date of every entry returned is a date of the calendar: its
    year is between 1 and 9999, its month between 1 and 12, its day
    between 1 and the number of days of that month in that year. A
    listing that names another day makes the crawl raise. *)
Theorem X5_dates_of_the_calendar (session : Session) (T : Dt.date) :
  (forall l, Coes.get_urls_prog_dia session T = Ok l ->
     Forall (fun e =>
               let d := Coes.prog_date e in
               1 <= Dt.year d <= 9999 /\ 1 <= Dt.month d <= 12 /\
               1 <= Dt.day d <= Dt.days_in_month (Dt.year d) (Dt.month d)) l) /\
  (forall l, Coes.get_urls_reprog_dia session T = Ok l ->
     Forall (fun e =>
               let d := Coes.reprog_date e in
               1 <= Dt.year d <= 9999 /\ 1 <= Dt.month d <= 12 /\
               1 <= Dt.day d <= Dt.days_in_month (Dt.year d) (Dt.month d)) l) /\
  (forall y m d,
     (exists date_obj, Coes.date y m d = Ok date_obj) <->
     Dt.valid (Dt.mkdate y m d) = true).
Proof.
  assert (Hvalid : forall d, Dt.valid d = true ->
            1 <= Dt.year d <= 9999 /\ 1 <= Dt.month d <= 12 /\
            1 <= Dt.day d <= Dt.days_in_month (Dt.year d) (Dt.month d)).
  { intros d Hd. unfold Dt.valid in Hd.
    repeat (apply andb_true_iff in Hd; destruct Hd as [Hd ?]). lia. }
  split; [|split].
  - intros l H. destruct (Runs.prog_list_run _ _ _ H) as (st & Hrun & ->).
    destruct (TraceFacts.prog_run_steps _ _ _ Hrun) as (_ & _ & Hrec & _).
    eapply Forall_impl; [|exact Hrec]. intros e (Hv & _). apply Hvalid, Hv.
  - intros l H. destruct (Runs.reprog_list_run _ _ _ H) as (st & Hrun & ->).
    destruct (TraceFacts.reprog_run_steps _ _ _ Hrun) as (_ & _ & Hrec & _).
    eapply Forall_impl; [|exact Hrec]. intros e (Hv & _). apply Hvalid, Hv.
  - intros y m d. split.
    + intros (dd & Hd). pose proof (TraceFacts.date_valid _ _ _ _ Hd) as Hv.
      rewrite (Threshold.date_inv _ _ _ _ Hd) in Hv. exact Hv.
    + intros Hv. destruct (Hvalid _ Hv) as (Hy & Hm & Hd). simpl in *.
      pose proof (Hd) as Hd'. unfold Dt.days_in_month in Hd'.
      assert (Hdm : Dt.days_in_month y m <= 31).
      { unfold Dt.days_in_month.
        destruct (m =? 2); [destruct (Dt.is_leap y); lia|].
        destruct ((m =? 4) || (m =? 6) || (m =? 9) || (m =? 11)); lia. }
      exists (Dt.mkdate y m d). unfold Coes.date, Coes.fits_c_int.
      replace ((-2147483648 <=? y) && (y <=? 2147483647)) with true by lia.
      replace ((-2147483648 <=? m) && (m <=? 2147483647)) with true by lia.
      replace ((-2147483648 <=? d) && (d <=? 2147483647)) with true by lia.
      replace ((1 <=? y) && (y <=? 9999)) with true by lia.
      replace ((1 <=? m) && (m <=? 12)) with true by lia.
      replace ((1 <=? d) && (d <=? Dt.days_in_month y m)) with true by lia.
      reflexivity.
Qed.

(** X6. What a crawl logs: info records only, each one the announcement
    ["Listing files of <date>"] (followed by [" - <version>"] for the
    reprograms) of a date of the calendar that is not earlier than the
    threshold; and the announcement of every entry returned is in the
    log. *)
Theorem X6_log_of_a_crawl (session : Session) (T : Dt.date) :
  (forall st, Coes.prog_run session T = Ok st ->
     Forall (fun l => exists d,
                Dt.valid d = true /\ Dt.ltb d T = false /\
                l = Coes.LogInfo ("Listing files of " ++ Dt.isoformat d))
            (Coes.logged st) /\
     Forall (fun e =>
               In (Coes.LogInfo
                     ("Listing files of " ++ Dt.isoformat (Coes.prog_date e)))
                  (Coes.logged st))
            (Coes.dowload_urls_map st)) /\
  (forall st, Coes.reprog_run session T = Ok st ->
     Forall (fun l => exists d v,
                Dt.valid d = true /\ Dt.ltb d T = false /\
                Props.all_chars Py.is_alpha v = true /\
                l = Coes.LogInfo
                      ("Listing files of " ++ Dt.isoformat d ++ " - " ++ v))
            (Coes.logged st) /\
     Forall (fun e =>
               In (Coes.LogInfo
                     ("Listing files of " ++ Dt.isoformat (Coes.reprog_date e)
                      ++ " - " ++ Coes.reprog_version e))
                  (Coes.logged st))
            (Coes.dowload_urls_map st)).
Proof.
  split; intros st H.
  - destruct (TraceFacts.prog_run_steps _ _ _ H) as (_ & _ & Hrec & Ha).
    split; [exact Ha|].
    eapply Forall_impl; [|exact Hrec]. intros e (_ & _ & Hl). exact Hl.
  - destruct (TraceFacts.reprog_run_steps _ _ _ H) as (_ & _ & Hrec & Ha).
    split; [exact Ha|].
    eapply Forall_impl; [|exact Hrec]. intros e (_ & _ & Hl). exact Hl.
Qed.

(** X7. The version label of every entry [get_urls_reprog_dia] returns is
    made of the letters A to Z and a to z alone; it may be empty. *)
Theorem X7_version_labels_are_letters (session : Session) (T : Dt.date)
    (l : list Coes.reprog_entry)
    (H : Coes.get_urls_reprog_dia session T = Ok l) :
  Forall (fun e => Props.all_chars Py.is_alpha (Coes.reprog_version e) = true) l.
Proof.
  destruct (Runs.reprog_list_run _ _ _ H) as (st & Hrun & ->).
  eapply Forall_impl; [|exact (Sound.reprog_run_sound _ _ _ Hrun)].
  intros e (yid & mid & did & vid & y & m & d & v & u
            & _ & _ & _ & _ & _ & _ & _ & Hv & -> & _).
  unfold Coes.reprog_of_id in Hv. inversion Hv. apply Labels.keep_all.
Qed.

(** X8. A later threshold gives the first part of what an earlier one
    gives. When the crawl with the threshold [T'] ends without an
    exception, so does the crawl with a threshold [T] that is not earlier
    than [T']; the list it returns is the beginning of the list of the
    other, and the requests it sent are the first requests of the other. *)
Theorem X8_later_threshold_earlier_stop (session : Session) (T T' : Dt.date)
    (Hle : Dt.ltb T T' = false) :
  (forall st', Coes.prog_run session T' = Ok st' ->
     exists st,
       Coes.prog_run session T = Ok st /\
       Trace.prefix (Coes.dowload_urls_map st) (Coes.dowload_urls_map st') /\
       Trace.prefix (Coes.requests st) (Coes.requests st')) /\
  (forall l', Coes.get_urls_prog_dia session T' = Ok l' ->
     exists l, Coes.get_urls_prog_dia session T = Ok l /\ Trace.prefix l l') /\
  (forall st', Coes.reprog_run session T' = Ok st' ->
     exists st,
       Coes.reprog_run session T = Ok st /\
       Trace.prefix (Coes.dowload_urls_map st) (Coes.dowload_urls_map st') /\
       Trace.prefix (Coes.requests st) (Coes.requests st')) /\
  (forall l', Coes.get_urls_reprog_dia session T' = Ok l' ->
     exists l, Coes.get_urls_reprog_dia session T = Ok l /\ Trace.prefix l l').
Proof.
  split; [|split; [|split]].
  - intros st'. apply Outrun.prog_run_outrun. exact Hle.
  - intros l' H. destruct (Runs.prog_list_run _ _ _ H) as (st' & Hrun & ->).
    destruct (Outrun.prog_run_outrun _ _ _ Hle _ Hrun) as (st & Hst & Hp & _).
    exists (Coes.dowload_urls_map st). split; [|exact Hp].
    unfold Coes.get_urls_prog_dia. rewrite Hst. reflexivity.
  - intros st'. apply Outrun.reprog_run_outrun. exact Hle.
  - intros l' H. destruct (Runs.reprog_list_run _ _ _ H) as (st' & Hrun & ->).
    destruct (Outrun.reprog_run_outrun _ _ _ Hle _ Hrun) as (st & Hst & Hp & _).
    exists (Coes.dowload_urls_map st). split; [|exact Hp].
    unfold Coes.get_urls_reprog_dia. rewrite Hst. reflexivity.
Qed.

(** X9. Nothing is left out. A crawl that ends without an exception ends
    with [stop] unset exactly when no day the portal lists is earlier
    than the threshold; and then the list it returns holds every file of
    every directory at the bottom of the listing, under the date (and,
    for the reprograms, the version label) its directories give, under
    the name its URL gives. *)
Theorem X9_every_listed_file_is_returned (session : Session) (T : Dt.date) :
  (forall st, Coes.prog_run session T = Ok st ->
     Coes.get_urls_prog_dia session T = Ok (Coes.dowload_urls_map st) /\
     (Coes.stop st = false <-> Trace.within session Coes.prog_params T) /\
     (Trace.within session Coes.prog_params T ->
      forall yid mid did u,
        In yid (Props.root_entries session Coes.prog_params) ->
        In mid (Props.child_entries session Coes.prog_params yid) ->
        In did (Props.child_entries session Coes.prog_params mid) ->
        Trace.files_on session Coes.prog_params did u ->
        exists y m d,
          Coes.year_of_id yid = Ok y /\ Coes.month_of_id mid = Ok m /\
          Coes.day_of_id did = Ok d /\
          In (Dt.mkdate y m d, Py.last_item (Py.split "/" u), u)
             (Coes.dowload_urls_map st))) /\
  (forall st, Coes.reprog_run session T = Ok st ->
     Coes.get_urls_reprog_dia session T = Ok (Coes.dowload_urls_map st) /\
     (Coes.stop st = false <-> Trace.within session Coes.reprog_params T) /\
     (Trace.within session Coes.reprog_params T ->
      forall yid mid did vid u,
        In yid (Props.root_entries session Coes.reprog_params) ->
        In mid (Props.child_entries session Coes.reprog_params yid) ->
        In did (Props.child_entries session Coes.reprog_params mid) ->
        In vid (Props.child_entries session Coes.reprog_params did) ->
        Trace.files_on session Coes.reprog_params vid u ->
        exists y m d v,
          Coes.year_of_id yid = Ok y /\ Coes.month_of_id mid = Ok m /\
          Coes.day_of_id did = Ok d /\ Coes.reprog_of_id vid = Ok v /\
          In (Dt.mkdate y m d, v, Py.last_item (Py.split "/" u), u)
             (Coes.dowload_urls_map st))).
Proof.
  split; intros st Hrun.
  - split; [unfold Coes.get_urls_prog_dia; rewrite Hrun; reflexivity|].
    split.
    + split; [apply Complete.prog_run_within; exact Hrun|].
      intros Hin. exact (Complete.prog_run_unstopped _ _ _ Hin Hrun).
    + intros Hin.
      apply (Complete.prog_run_all _ _ _ Hrun
               (Complete.prog_run_unstopped _ _ _ Hin Hrun)).
  - split; [unfold Coes.get_urls_reprog_dia; rewrite Hrun; reflexivity|].
    split.
    + split; [apply Complete.reprog_run_within; exact Hrun|].
      intros Hin. exact (Complete.reprog_run_unstopped _ _ _ Hin Hrun).
    + intros Hin.
      apply (Complete.reprog_run_all _ _ _ Hrun
               (Complete.reprog_run_unstopped _ _ _ Hin Hrun)).
Qed.

(** X10. The keys of the identifiers are read back from the text of a
    number. For every number [n] that is not negative, written in base
    ten with any leading zeros in at most 4300 digits: an identifier whose
    final segment is that text gives the year [n]; one whose final segment
    is that text, an underscore and a name gives the month [n]; one whose
    final segment ends with a space and that text gives the day [n].
    Written in more than 4300 digits, the number is refused with a
    [ValueError] at each of the three levels. And [int] reads back what
    [str] writes of an integer of at most 4300 digits. *)
Theorem X10_keys_read_back (dir rest : string) (k : nat) (n : Z)
    (Hn : 0 <= n) (Hrest : Props.has_char "/" rest = false) :
  let t := Dt.pad k (Py.str_of_int n) in
  ((String.length t <= 4300)%nat ->
   Coes.year_of_id (dir ++ "/" ++ t ++ "/") = Ok n /\
   Coes.month_of_id (dir ++ "/" ++ (t ++ "_" ++ rest) ++ "/") = Ok n /\
   Coes.day_of_id (dir ++ "/" ++ (rest ++ " " ++ t) ++ "/") = Ok n) /\
  ((4300 < String.length t)%nat ->
   exists msg,
     Coes.year_of_id (dir ++ "/" ++ t ++ "/") = Raise (ValueError msg) /\
     Coes.month_of_id (dir ++ "/" ++ (t ++ "_" ++ rest) ++ "/")
       = Raise (ValueError msg) /\
     Coes.day_of_id (dir ++ "/" ++ (rest ++ " " ++ t) ++ "/")
       = Raise (ValueError msg)) /\
  (forall z,
     (String.length (Py.str_of_int (Z.abs z)) <= 4300)%nat ->
     Coes.int (Py.str_of_int z) = Ok z).
Proof.
  cbv zeta. destruct (Paths.pad_digits k n Hn) as [Hne Hall].
  rewrite (Paths.year_of_id_text dir _ Hne Hall),
    (Paths.month_of_id_text dir _ rest Hne Hall Hrest),
    (Paths.day_of_id_text dir rest _ Hall Hrest).
  split; [|split].
  - intros Hlen. rewrite (Paths.int_ok _ _ (Paths.int_pad k n Hn Hlen)). auto.
  - intros Hlen.
    destruct (Paths.int_none _ (Paths.int_too_long _ Hall Hlen)) as (msg & ->).
    exists msg. auto.
  - intros z Hlen. apply Paths.int_ok, Paths.int_str. exact Hlen.
Qed.

(** X11. The rows of a listing are all read before any is visited: a link
    of the root listing with no [id], or whose final segment is no
    integer, wherever it stands in the listing, makes both crawls raise a
    [KeyError] or a [ValueError], whatever the threshold; no list is
    returned, not even of the years that come first. *)
Theorem X11_one_bad_row_fails_the_crawl (session : Session)
    (response : Response) (tag : Tag)
    (Hstatus : ~ 400 <= status_code response < 600)
    (Htag : In tag (infolist_links (text response)))
    (Hbad : Trace.keyless tag) :
  (session (Coes.listing_request Coes.prog_params) = Ok response ->
   exists e,
     (class_of e = "KeyError"%string \/ class_of e = "ValueError"%string) /\
     forall T, Coes.get_urls_prog_dia session T = Raise e) /\
  (session (Coes.listing_request Coes.reprog_params) = Ok response ->
   exists e,
     (class_of e = "KeyError"%string \/ class_of e = "ValueError"%string) /\
     forall T, Coes.get_urls_reprog_dia session T = Raise e).
Proof.
  destruct (Eager.root_rows_raise _ _ Htag Hbad) as (e & He & Hclass).
  split; intros Hs; exists e; (split; [exact Hclass|]); intros T.
  - eapply Eager.prog_root_raises; eassumption.
  - eapply Eager.reprog_root_raises; eassumption.
Qed.

(** X12. The slashes around an identifier do not count: with one more
    slash in front or at the end, an identifier gives the same year,
    month, day and version label. *)
Theorem X12_slashes_around_an_identifier (id : string) :
  let same (A : Type) (key : string -> result A) :=
    key ("/" ++ id)%string = key id /\ key (id ++ "/")%string = key id in
  same Z Coes.year_of_id /\ same Z Coes.month_of_id /\
  same Z Coes.day_of_id /\ same string Coes.reprog_of_id.
Proof.
  destruct (Paths.last_segment_slashes id) as [H1 H2]. cbv zeta.
  unfold Coes.year_of_id, Coes.month_of_id, Coes.day_of_id, Coes.reprog_of_id.
  rewrite H1, H2. repeat split.
Qed.

(** * Further properties of the tables *)

(** X13. [get_medidores_generacion] returns a table only when all went
    well, in this order: the request for the companies was answered with
    a status outside [400, 600) by a page that has the [cbEmpresas]
    selector, each of whose options has a [value]; the export request,
    which carries the two dates and those values joined by commas, was
    answered with such a status; so was the download request; its text
    was read as a CSV, and the table is the normalisation of that CSV. No
    exception is caught on the way: a transport error of the first
    request is raised as it is. *)
Theorem X13_medidores_all_or_nothing {L : Pd.Library}
    (session : Session) (start end_ : Dt.date) :
  (forall df,
     Coes.get_medidores_generacion session start end_ = Ok df ->
     exists r1 options id_empresas r2 r3 raw,
       session Trace.empresas_query = Ok r1 /\ Trace.accepted r1 /\
       cbEmpresas (text r1) = Some options /\
       Coes.comprehension (fun i => Coes.attr i "value") options
         = Ok id_empresas /\
       session (Trace.exportar_query start end_ id_empresas) = Ok r2 /\
       Trace.accepted r2 /\
       session Trace.descargar_query = Ok r3 /\ Trace.accepted r3 /\
       read_csv (text r3) = Some raw /\
       Props.medidores_spec raw = Ok df) /\
  (forall e, session Trace.empresas_query = Raise e ->
     Coes.get_medidores_generacion session start end_ = Raise e) /\
  (forall r1, session Trace.empresas_query = Ok r1 ->
     Trace.accepted r1 -> cbEmpresas (text r1) = None ->
     exists msg,
       Coes.get_medidores_generacion session start end_
       = Raise (AttributeError msg)).
Proof.
  split; [|split].
  - intros df. apply TablesMore.medidores_inv.
  - intros e H. unfold Coes.get_medidores_generacion, Coes.medidores_download.
    fold Trace.empresas_query. rewrite H. reflexivity.
  - intros r1 H Ha Hnone.
    unfold Coes.get_medidores_generacion, Coes.medidores_download.
    fold Trace.empresas_query. rewrite H. cbn [rbind].
    rewrite (Errors.raise_nothing _ Ha). cbn [rbind]. rewrite Hnone.
    eexists. reflexivity.
Qed.

(** X14. The text of a date in a request, day/month/year, tells the date:
    two dates of the calendar with the same text are the same date, so
    two ranges of dates that differ give requests that differ, for the
    executed demand and for the export of the generation meters. *)
Theorem X14_dates_in_requests (start end_ start' end_' : Dt.date)
    (Hs : Dt.valid start = true) (He : Dt.valid end_ = true)
    (Hs' : Dt.valid start' = true) (He' : Dt.valid end_' = true) :
  (Dt.strftime_dmY start = Dt.strftime_dmY start' -> start = start') /\
  (Props.demanda_query start end_ = Props.demanda_query start' end_' ->
   start = start' /\ end_ = end_') /\
  (forall ids ids',
     Trace.exportar_query start end_ ids = Trace.exportar_query start' end_' ids' ->
     start = start' /\ end_ = end_').
Proof.
  destruct (Paths.valid_nonneg _ Hs) as (? & ? & ?).
  destruct (Paths.valid_nonneg _ He) as (? & ? & ?).
  destruct (Paths.valid_nonneg _ Hs') as (? & ? & ?).
  destruct (Paths.valid_nonneg _ He') as (? & ? & ?).
  split; [|split].
  - apply Paths.strftime_dmY_inj; assumption.
  - unfold Props.demanda_query. intros Heq. inversion Heq as [[Heq1 Heq2]].
    split; apply Paths.strftime_dmY_inj; assumption.
  - unfold Trace.exportar_query. intros ids ids' Heq.
    inversion Heq as [[Heq1 Heq2 Heq3]].
    split; apply Paths.strftime_dmY_inj; assumption.
Qed.

(** X15. [process_demanda_ejecutado] returns [None] for a body whose
    ["Data"] is a list of records none of which has the key ["Fecha"],
    the empty list among them: the table of such records has no column
    of that name, and the [KeyError] is logged. A period with no data
    gives no empty table. *)
Theorem X15_demanda_without_fecha {L : Pd.Library}
    (response : Response) (et : string)
    (members : list (string * json)) (records : list json)
    (Hbody : json_body (text response) = Some (JObject members))
    (Hdata : Py.dict_get members "Data" = Some (JArray records))
    (Hrecords : forallb Pd.is_record records = true)
    (Hlack : forall r, In r records ->
               Py.dict_get (Pd.record_members r) "Fecha" = None) :
  Coes.demanda_table response = Raise (KeyError "Fecha") /\
  snd (Coes.process_demanda_ejecutado response et) = None /\
  In (Props.logged_exception "processing" (KeyError "Fecha"))
     (fst (Coes.process_demanda_ejecutado response et)).
Proof.
  assert (Ht : Coes.demanda_table response = Raise (KeyError "Fecha")).
  { unfold Coes.demanda_table. rewrite Hbody. cbn [rbind].
    unfold Coes.json_getitem. rewrite Hdata. cbn [rbind].
    destruct (TablesMore.from_records_lacks "Fecha" records Hrecords Hlack)
      as (df & Hdf & Hget).
    rewrite Hdf. cbn [rbind]. rewrite Hget. reflexivity. }
  split; [exact Ht|].
  unfold Coes.process_demanda_ejecutado. rewrite Ht. simpl.
  split; [reflexivity|]. right. left. reflexivity.
Qed.

(** X16. [get_demanda_ejecutado] returns a response exactly when the
    portal answered the request, with a status outside [400, 600), and
    the response is the one of the portal; it returns [None] exactly when
    the transport raised or the status is in [400, 600). In both cases it
    logs two records, the first one the announcement of the request with
    the two dates in ISO form. *)
Theorem X16_demanda_fetch (session : Session) (start end_ : Dt.date) :
  (forall r,
     snd (Coes.get_demanda_ejecutado session start end_) = Some r <->
     session (Props.demanda_query start end_) = Ok r /\
     ~ 400 <= status_code r < 600) /\
  (snd (Coes.get_demanda_ejecutado session start end_) = None <->
   (exists e, session (Props.demanda_query start end_) = Raise e) \/
   (exists r, session (Props.demanda_query start end_) = Ok r /\
              400 <= status_code r < 600)) /\
  List.length (fst (Coes.get_demanda_ejecutado session start end_)) = 2%nat /\
  hd_error (fst (Coes.get_demanda_ejecutado session start end_))
  = Some (Coes.LogInfo
            ("Requesting 'demanda ejecutado' from " ++ Dt.isoformat start
             ++ " to " ++ Dt.isoformat end_)).
Proof.
  unfold Coes.get_demanda_ejecutado, Coes.try_except, Coes.demanda_request.
  fold (Props.demanda_query start end_).
  destruct (session (Props.demanda_query start end_)) as [r0|e0] eqn:Hs;
    cbn [rbind].
  - destruct (Errors.status_cases (status_code r0)) as [Hc|[Hc|Hc]].
    + rewrite (Errors.raise_client _ Hc). cbn [rbind snd fst].
      split; [|split; [|split; reflexivity]].
      * intros r. split; [discriminate|].
        intros [Heq Hn]. inversion Heq. subst. lia.
      * split; [|reflexivity]. intros _. right. exists r0. split; [reflexivity|lia].
    + rewrite (Errors.raise_server _ Hc). cbn [rbind snd fst].
      split; [|split; [|split; reflexivity]].
      * intros r. split; [discriminate|].
        intros [Heq Hn]. inversion Heq. subst. lia.
      * split; [|reflexivity]. intros _. right. exists r0. split; [reflexivity|lia].
    + rewrite (Errors.raise_nothing _ Hc). cbn [rbind snd fst].
      split; [|split; [|split; reflexivity]].
      * intros r. split.
        -- intros Heq. inversion Heq. subst. auto.
        -- intros [Heq _]. inversion Heq. reflexivity.
      * split; [discriminate|].
        intros [(e & He)|(r & Heq & Hr)]; [discriminate|].
        inversion Heq. subst. lia.
  - cbn [snd fst]. split; [|split; [|split; reflexivity]].
    + intros r. split; [discriminate|]. intros [Heq _]. discriminate.
    + split; [|reflexivity]. intros _. left. exists e0. reflexivity.
Qed.


(** X18. In the session [get_session] returns, a URL that starts with
    [https://], the case of the letters apart, is served by the adapter
    with three retries and pools of 12 and 15 connections; one that starts
    with [http://] keeps the default adapter, which does not retry; any
    other URL has no adapter. All the URLs the program requests are of the
    first kind: the listing endpoint of the two crawls, the endpoints of
    the meters and the endpoint of the demand. *)
Theorem X18_retries_for_https :
  (forall url,
     String.prefix "https://" (Sessions.lower url) = true ->
     Sessions.get_adapter Sessions.get_session url
     = Ok (Sessions.mkAdapter 12 15 3)) /\
  (forall url,
     String.prefix "https://" (Sessions.lower url) = false ->
     String.prefix "http://" (Sessions.lower url) = true ->
     Sessions.get_adapter Sessions.get_session url
     = Ok (Sessions.mkAdapter 10 10 0)) /\
  (forall url,
     String.prefix "https://" (Sessions.lower url) = false ->
     String.prefix "http://" (Sessions.lower url) = false ->
     exists msg,
       Sessions.get_adapter Sessions.get_session url
       = Raise (RequestException "InvalidSchema" msg)) /\
  (forall session T st,
     Coes.prog_run session T = Ok st ->
     Forall (fun q => Sessions.get_adapter Sessions.get_session (req_url q)
                      = Ok (Sessions.mkAdapter 12 15 3))
            (Coes.requests st)) /\
  (forall session T st,
     Coes.reprog_run session T = Ok st ->
     Forall (fun q => Sessions.get_adapter Sessions.get_session (req_url q)
                      = Ok (Sessions.mkAdapter 12 15 3))
            (Coes.requests st)) /\
  (forall endpoint,
     Sessions.get_adapter Sessions.get_session (Coes.medidores_url endpoint)
     = Ok (Sessions.mkAdapter 12 15 3)) /\
  (forall start end_,
     Sessions.get_adapter Sessions.get_session
       (req_url (Props.demanda_query start end_))
     = Ok (Sessions.mkAdapter 12 15 3)).
Proof.
  assert (Hget : forall url,
             Sessions.get_adapter Sessions.get_session url
             = if String.prefix "https://" (Sessions.lower url)
               then Ok (Sessions.mkAdapter 12 15 3)
               else if String.prefix "http://" (Sessions.lower url)
                    then Ok (Sessions.mkAdapter 10 10 0)
                    else Raise (RequestException "InvalidSchema"
                                  ("No connection adapters were found for '"
                                   ++ url ++ "'"))) by reflexivity.
  split; [|split; [|split; [|split; [|split; [|split]]]]].
  - intros url H. rewrite Hget, H. reflexivity.
  - intros url H1 H2. rewrite Hget, H1, H2. reflexivity.
  - intros url H1 H2. rewrite (Hget url), H1, H2. eexists. reflexivity.
  - intros session T st H.
    destruct (TraceFacts.prog_run_steps _ _ _ H) as (Hs & _).
    eapply Forall_impl; [|exact Hs]. intros q (_ & Hu & _). rewrite Hu.
    reflexivity.
  - intros session T st H.
    destruct (TraceFacts.reprog_run_steps _ _ _ H) as (Hs & _).
    eapply Forall_impl; [|exact Hs]. intros q (_ & Hu & _). rewrite Hu.
    reflexivity.
  - intros endpoint. reflexivity.
  - intros start end_. reflexivity.
Qed.

(** * The further properties at work on the example inputs *)

(** The scenario of the specification: its seven requests were all
    answered with the status 200. *)
Lemma X1_witness :
  exists st,
    Coes.prog_run Examples.scenario Examples.scenario_threshold = Ok st /\
    Forall (fun q => exists response,
               Examples.scenario q = Ok response /\
               ~ 400 <= status_code response < 600)
           (Coes.requests st).
Proof.
  eexists. split; [vm_compute; reflexivity|].
  apply (proj1 (X1_every_response_checked Examples.scenario
                  Examples.scenario_threshold)).
  vm_compute. reflexivity.
Defined.

(** The requests of the scenario: the first for the base directory, all
    of them with the parameters of the programs. *)
Lemma X2_witness :
  exists st,
    Coes.prog_run Examples.scenario Examples.scenario_threshold = Ok st /\
    (exists rest,
       Coes.requests st = Coes.listing_request Coes.prog_params :: rest) /\
    Forall (fun q =>
              req_method q = POST /\ req_url q = Coes.vistadatos /\
              req_timeout q = None /\
              (exists id, req_params q = Py.dict_set Coes.prog_params "url" id) /\
              (forall k, k <> "url"%string ->
                 Py.dict_get (req_params q) k = Py.dict_get Coes.prog_params k))
           (Coes.requests st).
Proof.
  eexists. split; [vm_compute; reflexivity|].
  apply (proj1 (X2_requests_of_a_crawl Examples.scenario
                  Examples.scenario_threshold)).
  vm_compute. reflexivity.
Defined.

(** The files of the scenario: [PDO_16.xlsx] for [f/PDO_16.xlsx], and so
    on. *)
Lemma X3_witness :
  exists l,
    Coes.get_urls_prog_dia Examples.scenario Examples.scenario_threshold = Ok l /\
    map Trace.prog_name l = ["PDO_16.xlsx"; "PDO_16.zip"; "PDO_15.xlsx"]%string /\
    Forall (fun e =>
              Props.has_char "/" (Trace.prog_name e) = false /\
              (Trace.prog_url e = Trace.prog_name e \/
               exists dir,
                 Trace.prog_url e = (dir ++ "/" ++ Trace.prog_name e)%string))
           l.
Proof.
  eexists. split; [vm_compute; reflexivity|]. split; [reflexivity|].
  apply (proj1 (X3_file_name_of_the_url Examples.scenario
                  Examples.scenario_threshold)).
  vm_compute. reflexivity.
Defined.

(** The two files of the reprograms of the 15 January 2024 come from the
    pages of the versions B and A of that day. *)
Lemma X4_witness :
  exists l,
    Coes.get_urls_reprog_dia Examples.reprog_scenario (Dt.mkdate 2024 1 1)
    = Ok l /\
    Forall (fun e => exists yid mid did vid y m d,
               In yid (Props.root_entries Examples.reprog_scenario
                         Coes.reprog_params) /\
               In mid (Props.child_entries Examples.reprog_scenario
                         Coes.reprog_params yid) /\
               In did (Props.child_entries Examples.reprog_scenario
                         Coes.reprog_params mid) /\
               In vid (Props.child_entries Examples.reprog_scenario
                         Coes.reprog_params did) /\
               Coes.year_of_id yid = Ok y /\ Coes.month_of_id mid = Ok m /\
               Coes.day_of_id did = Ok d /\
               Coes.reprog_of_id vid = Ok (Coes.reprog_version e) /\
               Coes.reprog_date e = Dt.mkdate y m d /\
               Trace.files_on Examples.reprog_scenario Coes.reprog_params vid
                 (Trace.reprog_url e))
           l.
Proof.
  eexists. split; [vm_compute; reflexivity|].
  apply (proj2 (X4_entries_come_from_the_portal Examples.reprog_scenario
                  (Dt.mkdate 2024 1 1))).
  vm_compute. reflexivity.
Defined.

(** The dates of the scenario are dates of the calendar; the 30 February
    is none. *)
Lemma X5_witness :
  (exists l,
     Coes.get_urls_prog_dia Examples.scenario Examples.scenario_threshold
     = Ok l /\
     Forall (fun e =>
               let d := Coes.prog_date e in
               1 <= Dt.year d <= 9999 /\ 1 <= Dt.month d <= 12 /\
               1 <= Dt.day d <= Dt.days_in_month (Dt.year d) (Dt.month d)) l) /\
  (exists date_obj, Coes.date 2024 2 29 = Ok date_obj) /\
  Dt.valid (Dt.mkdate 2024 2 30) = false.
Proof.
  pose proof (X5_dates_of_the_calendar Examples.scenario
                Examples.scenario_threshold) as (Hprog & _ & Hdate).
  split; [|split].
  - eexists. split; [vm_compute; reflexivity|]. apply Hprog.
    vm_compute. reflexivity.
  - apply Hdate. reflexivity.
  - reflexivity.
Defined.

(** The log of the scenario: the announcements of the days 16 and 15. *)
Lemma X6_witness :
  exists st,
    Coes.prog_run Examples.scenario Examples.scenario_threshold = Ok st /\
    Coes.logged st
    = [Coes.LogInfo "Listing files of 2024-01-16";
       Coes.LogInfo "Listing files of 2024-01-15"] /\
    Forall (fun l => exists d,
               Dt.valid d = true /\
               Dt.ltb d Examples.scenario_threshold = false /\
               l = Coes.LogInfo ("Listing files of " ++ Dt.isoformat d))
           (Coes.logged st) /\
    Forall (fun e =>
              In (Coes.LogInfo
                    ("Listing files of " ++ Dt.isoformat (Coes.prog_date e)))
                 (Coes.logged st))
           (Coes.dowload_urls_map st).
Proof.
  eexists. split; [vm_compute; reflexivity|]. split; [reflexivity|].
  apply (proj1 (X6_log_of_a_crawl Examples.scenario
                  Examples.scenario_threshold)).
  vm_compute. reflexivity.
Defined.

(** The labels of the reprograms of the examples: B, then A. *)
Lemma X7_witness :
  exists l,
    Coes.get_urls_reprog_dia Examples.reprog_scenario (Dt.mkdate 2024 1 1)
    = Ok l /\
    map Coes.reprog_version l = ["B"; "A"]%string /\
    Forall (fun e => Props.all_chars Py.is_alpha (Coes.reprog_version e) = true)
           l.
Proof.
  eexists. split; [vm_compute; reflexivity|]. split; [reflexivity|].
  apply (X7_version_labels_are_letters Examples.reprog_scenario
           (Dt.mkdate 2024 1 1)).
  vm_compute. reflexivity.
Defined.

(** The scenario with the threshold of the 16 January against the
    threshold of the 15: two entries, the first two of the three. *)
Lemma X8_witness :
  Dt.ltb (Dt.mkdate 2024 1 16) (Dt.mkdate 2024 1 15) = false /\
  exists l',
    Coes.get_urls_prog_dia Examples.scenario (Dt.mkdate 2024 1 15) = Ok l' /\
    List.length l' = 3%nat /\
    exists l,
      Coes.get_urls_prog_dia Examples.scenario (Dt.mkdate 2024 1 16) = Ok l /\
      Trace.prefix l l'.
Proof.
  split; [reflexivity|].
  eexists. split; [vm_compute; reflexivity|]. split; [reflexivity|].
  apply (proj1 (proj2 (X8_later_threshold_earlier_stop Examples.scenario
                         (Dt.mkdate 2024 1 16) (Dt.mkdate 2024 1 15) eq_refl))).
  vm_compute. reflexivity.
Defined.

(** The portal with one day, the 15 January 2024, and the threshold of the
    first of the month: the file of that day is returned. With the
    threshold of the scenario, which the day 14 is earlier than, [stop]
    is set at the end. *)
Lemma X9_witness :
  Trace.within Examples.single Coes.prog_params (Dt.mkdate 2024 1 1) /\
  (exists st,
     Coes.prog_run Examples.single (Dt.mkdate 2024 1 1) = Ok st /\
     Coes.stop st = false /\
     In (Dt.mkdate 2024 1 15, "PDO_15.xlsx", "f/PDO_15.xlsx")%string
        (Coes.dowload_urls_map st)) /\
  (exists st,
     Coes.prog_run Examples.scenario Examples.scenario_threshold = Ok st /\
     Coes.stop st = true /\
     ~ Trace.within Examples.scenario Coes.prog_params
         Examples.scenario_threshold).
Proof.
  assert (Hw : Trace.within Examples.single Coes.prog_params
                 (Dt.mkdate 2024 1 1)).
  { intros yid mid did y m d Hy Hm Hd Ky Km Kd.
    vm_compute in Hy. destruct Hy as [<-|[]].
    vm_compute in Hm. destruct Hm as [<-|[]].
    vm_compute in Hd. destruct Hd as [<-|[]].
    vm_compute in Ky, Km, Kd. inversion Ky. inversion Km. inversion Kd.
    reflexivity. }
  split; [exact Hw|]. split.
  - eexists. split; [vm_compute; reflexivity|].
    match goal with |- Coes.stop ?s = false /\ _ =>
      destruct (proj1 (X9_every_listed_file_is_returned Examples.single
                         (Dt.mkdate 2024 1 1)) s)
        as (_ & Hstop & Hall); [vm_compute; reflexivity|]
    end.
    split; [apply Hstop; exact Hw|].
    destruct (Hall Hw "P/2024/" "P/2024/01_Enero/" "P/2024/01_Enero/Dia 15/"
                "f/PDO_15.xlsx")%string
      as (y & m & d & Ky & Km & Kd & Hin).
    + left. reflexivity.
    + left. reflexivity.
    + left. reflexivity.
    + eexists _, _. split; [vm_compute; reflexivity|].
      split; [left; reflexivity | reflexivity].
    + vm_compute in Ky, Km, Kd. inversion Ky. inversion Km. inversion Kd.
      subst. exact Hin.
  - eexists. split; [vm_compute; reflexivity|]. split; [reflexivity|].
    match goal with |- ~ ?W =>
      intros Hin;
      destruct (proj1 (X9_every_listed_file_is_returned Examples.scenario
                         Examples.scenario_threshold) _ ltac:(vm_compute; reflexivity))
        as (_ & Hstop & _)
    end.
    apply Hstop in Hin. vm_compute in Hin. discriminate Hin.
Defined.

(** The year of [P/2024/], the month of [P/01_Enero/], the day of
    [P/Dia 05/]; the year is read as well when it is written in
    full-width digits. *)
Lemma X10_witness :
  0 <= 2024 /\ 0 <= 1 /\ 0 <= 5 /\
  Props.has_char "/" "Enero" = false /\ Props.has_char "/" "Dia" = false /\
  (String.length "2024" <= 4300)%nat /\
  Coes.year_of_id "P/2024/" = Ok 2024 /\
  Coes.month_of_id "P/01_Enero/" = Ok 1 /\
  Coes.day_of_id "P/Dia 05/" = Ok 5 /\
  Coes.year_of_id "P/２０２４/" = Ok 2024.
Proof.
  split; [lia|]. split; [lia|]. split; [lia|].
  split; [reflexivity|]. split; [reflexivity|].
  split; [simpl; lia|].
  split; [|split; [|split; [|reflexivity]]].
  - exact (proj1 (proj1 (X10_keys_read_back "P" "Enero" 0 2024
                           ltac:(lia) eq_refl) ltac:(simpl; lia))).
  - exact (proj1 (proj2 (proj1 (X10_keys_read_back "P" "Enero" 2 1
                                  ltac:(lia) eq_refl) ltac:(simpl; lia)))).
  - exact (proj2 (proj2 (proj1 (X10_keys_read_back "P" "Dia" 2 5
                                  ltac:(lia) eq_refl) ltac:(simpl; lia)))).
Defined.

(** A root that lists [P/notes/] after [P/2024/]: the crawl raises a
    [ValueError] whatever the threshold. *)
Lemma X11_witness :
  ~ 400 <= status_code MoreExamples.notes_root < 600 /\
  In MoreExamples.notes_link (infolist_links (text MoreExamples.notes_root)) /\
  Trace.keyless MoreExamples.notes_link /\
  MoreExamples.notes (Coes.listing_request Coes.prog_params)
  = Ok MoreExamples.notes_root /\
  exists e,
    (class_of e = "KeyError"%string \/ class_of e = "ValueError"%string) /\
    forall T, Coes.get_urls_prog_dia MoreExamples.notes T = Raise e.
Proof.
  assert (Hs : ~ 400 <= status_code MoreExamples.notes_root < 600)
    by (simpl; lia).
  assert (Ht : In MoreExamples.notes_link
                 (infolist_links (text MoreExamples.notes_root)))
    by (right; left; reflexivity).
  assert (Hk : Trace.keyless MoreExamples.notes_link)
    by (right; exists "P/notes/"%string; split; reflexivity).
  split; [exact Hs|]. split; [exact Ht|]. split; [exact Hk|].
  split; [reflexivity|].
  apply (proj1 (X11_one_bad_row_fails_the_crawl MoreExamples.notes
                  MoreExamples.notes_root MoreExamples.notes_link Hs Ht Hk)).
  reflexivity.
Defined.

(** The table of the examples was made from three accepted responses. *)
Lemma X13_witness :
  exists df,
    @Coes.get_medidores_generacion Examples.example_library
      Examples.meters_session (Dt.mkdate 2024 1 15) (Dt.mkdate 2024 1 15)
    = Ok df /\
    exists r1 options id_empresas r2 r3 raw,
      Examples.meters_session Trace.empresas_query = Ok r1 /\
      Trace.accepted r1 /\
      cbEmpresas (text r1) = Some options /\
      Coes.comprehension (fun i => Coes.attr i "value") options
        = Ok id_empresas /\
      Examples.meters_session
        (Trace.exportar_query (Dt.mkdate 2024 1 15) (Dt.mkdate 2024 1 15)
           id_empresas) = Ok r2 /\
      Trace.accepted r2 /\
      Examples.meters_session Trace.descargar_query = Ok r3 /\
      Trace.accepted r3 /\
      read_csv (text r3) = Some raw /\
      @Props.medidores_spec Examples.example_library raw = Ok df.
Proof.
  eexists. split; [vm_compute; reflexivity|].
  apply (proj1 (@X13_medidores_all_or_nothing Examples.example_library
                  Examples.meters_session (Dt.mkdate 2024 1 15)
                  (Dt.mkdate 2024 1 15))).
  vm_compute. reflexivity.
Defined.

(** The 15 and the 16 January 2024 are written differently. *)
Lemma X14_witness :
  Dt.valid (Dt.mkdate 2024 1 15) = true /\
  Dt.valid (Dt.mkdate 2024 1 16) = true /\
  Dt.strftime_dmY (Dt.mkdate 2024 1 15) = "15/01/2024"%string /\
  (Dt.strftime_dmY (Dt.mkdate 2024 1 15)
   = Dt.strftime_dmY (Dt.mkdate 2024 1 15) ->
   Dt.mkdate 2024 1 15 = Dt.mkdate 2024 1 15) /\
  Dt.strftime_dmY (Dt.mkdate 2024 1 15) <> Dt.strftime_dmY (Dt.mkdate 2024 1 16).
Proof.
  split; [reflexivity|]. split; [reflexivity|]. split; [reflexivity|].
  pose proof (X14_dates_in_requests
                (Dt.mkdate 2024 1 15) (Dt.mkdate 2024 1 15)
                (Dt.mkdate 2024 1 16) (Dt.mkdate 2024 1 16)
                eq_refl eq_refl eq_refl eq_refl) as (Hdiff & _).
  split.
  - apply (proj1 (X14_dates_in_requests
                    (Dt.mkdate 2024 1 15) (Dt.mkdate 2024 1 15)
                    (Dt.mkdate 2024 1 15) (Dt.mkdate 2024 1 15)
                    eq_refl eq_refl eq_refl eq_refl)).
  - intros Heq. apply Hdiff in Heq. discriminate Heq.
Defined.

(** A body whose ["Data"] is the empty list: [None], and the [KeyError]
    in the log. *)
Lemma X15_witness :
  json_body (text MoreExamples.empty_data_response)
  = Some (JObject [("Data", JArray [])]) /\
  snd (@Coes.process_demanda_ejecutado Examples.example_library
         MoreExamples.empty_data_response "0.0") = None /\
  In (Props.logged_exception "processing" (KeyError "Fecha"))
     (fst (@Coes.process_demanda_ejecutado Examples.example_library
             MoreExamples.empty_data_response "0.0")).
Proof.
  split; [reflexivity|].
  apply (@X15_demanda_without_fecha Examples.example_library
           MoreExamples.empty_data_response "0.0"
           [("Data", JArray [])] [] eq_refl eq_refl eq_refl).
  intros r [].
Defined.

(** A request that times out gives [None]; an answer with the status 200
    is returned as it is. *)
Lemma X16_witness :
  snd (Coes.get_demanda_ejecutado Examples.timing_out
         (Dt.mkdate 2024 1 15) (Dt.mkdate 2024 1 16)) = None /\
  (exists r,
     Examples.meters_session
       (Props.demanda_query (Dt.mkdate 2024 1 15) (Dt.mkdate 2024 1 16))
     = Ok r /\
     snd (Coes.get_demanda_ejecutado Examples.meters_session
            (Dt.mkdate 2024 1 15) (Dt.mkdate 2024 1 16)) = Some r) /\
  hd_error (fst (Coes.get_demanda_ejecutado Examples.timing_out
                   (Dt.mkdate 2024 1 15) (Dt.mkdate 2024 1 16)))
  = Some (Coes.LogInfo
            "Requesting 'demanda ejecutado' from 2024-01-15 to 2024-01-16").
Proof.
  pose proof (X16_demanda_fetch Examples.timing_out
                (Dt.mkdate 2024 1 15) (Dt.mkdate 2024 1 16))
    as (_ & Hnone & _ & Hlog).
  pose proof (X16_demanda_fetch Examples.meters_session
                (Dt.mkdate 2024 1 15) (Dt.mkdate 2024 1 16))
    as (Hsome & _).
  split; [|split].
  - apply Hnone. left. eexists. reflexivity.
  - eexists. split; [reflexivity|]. apply Hsome.
    split; [reflexivity | simpl; lia].
  - exact Hlog.
Defined.


(** Three URLs: one with the scheme in capitals, one without TLS, one of
    another scheme. *)
Lemma X18_witness :
  Sessions.get_adapter Sessions.get_session "HTTPS://www.coes.org.pe/"
  = Ok (Sessions.mkAdapter 12 15 3) /\
  Sessions.get_adapter Sessions.get_session "http://www.coes.org.pe/"
  = Ok (Sessions.mkAdapter 10 10 0) /\
  exists msg,
    Sessions.get_adapter Sessions.get_session "ftp://www.coes.org.pe/"
    = Raise (RequestException "InvalidSchema" msg).
Proof.
  destruct X18_retries_for_https as (Hs & Hp & Hn & _).
  split; [apply Hs; reflexivity|].
  split; [apply Hp; reflexivity|].
  apply Hn; reflexivity.
Defined.
